(** * Statements (cursors) of the ODPI-C layer: [c_src/dpiStmt.c]

    A shallow embedding of the statement implementation.  The C functions
    of [dpiStmt.c] become state-passing functions over the statement
    structure and the part of the process state they can reach (value
    resources, reference counts, the error buffer).  Every function the
    file calls but does not define (the [dpiOci__*] call layer, the
    [dpiGen__*] handle scaffold, the [dpiVar__*] value subsystem, the
    allocator) is an external call: it is recorded in a trace and answered
    by an oracle, which is a parameter of the whole development. *)

From Stdlib Require Import ZArith List String Ascii Bool Lia.
Import ListNotations.
Open Scope Z_scope.

(** ** Machine integers *)

Definition u32 (x : Z) : Z := x mod 2 ^ 32.
Definition u64 (x : Z) : Z := x mod 2 ^ 64.
(** [(int32_t) x] *)
Definition i32 (x : Z) : Z := (x + 2 ^ 31) mod 2 ^ 32 - 2 ^ 31.

(** ** Constants of [dpi.h] and [dpiImpl.h] *)

Definition DPI_SUCCESS : Z := 0.
Definition DPI_FAILURE : Z := -1.
Definition DPI_DEFAULT_FETCH_ARRAY_SIZE : Z := 100.
Definition DPI_MAX_INT64_PRECISION : Z := 18.

Definition DPI_STMT_TYPE_SELECT : Z := 1.
Definition DPI_STMT_TYPE_BEGIN : Z := 8.
Definition DPI_STMT_TYPE_DECLARE : Z := 9.
Definition DPI_STMT_TYPE_CALL : Z := 10.

Definition DPI_MODE_EXEC_BATCH_ERRORS : Z := 128.
Definition DPI_OCI_STMT_SCROLLABLE_READONLY : Z := 8.

Definition DPI_SQLCS_IMPLICIT : Z := 1.
Definition DPI_SQLCS_NCHAR : Z := 2.
Definition DPI_SQLT_NTY : Z := 108.
Definition DPI_OCI_ERROR : Z := -1.

Definition DPI_ORACLE_TYPE_NUMBER : Z := 2010.
Definition DPI_ORACLE_TYPE_ROWID : Z := 2005.
Definition DPI_ORACLE_TYPE_STMT : Z := 2021.
Definition DPI_NATIVE_TYPE_INT64 : Z := 3000.

(** [dpiFetchMode]; the last constructor stands for any value outside the
    enumeration, which a C caller can pass. *)
Inductive dpiFetchMode : Type :=
| DPI_MODE_FETCH_NEXT
| DPI_MODE_FETCH_FIRST
| DPI_MODE_FETCH_LAST
| DPI_MODE_FETCH_PRIOR
| DPI_MODE_FETCH_ABSOLUTE
| DPI_MODE_FETCH_RELATIVE
| DPI_MODE_FETCH_other (n : Z).

(** [dpiErrorNum]: the error numbers this file raises, the one raised by the
    [DPI_CHECK_PTR_*] macros and the mark of an error reported by the
    call layer. *)
Inductive dpiErrorNum : Type :=
| DPI_ERR_NO_ERR
| DPI_ERR_NO_MEMORY
| DPI_ERR_NOT_SUPPORTED
| DPI_ERR_STMT_CLOSED
| DPI_ERR_NOT_CONNECTED
| DPI_ERR_ARRAY_SIZE_TOO_SMALL
| DPI_ERR_ARRAY_SIZE_TOO_BIG
| DPI_ERR_INVALID_INDEX
| DPI_ERR_CANNOT_GET_ROW_OFFSET
| DPI_ERR_QUERY_POSITION_INVALID
| DPI_ERR_QUERY_NOT_EXECUTED
| DPI_ERR_NO_ROW_FETCHED
| DPI_ERR_SCROLL_OUT_OF_RS
| DPI_ERR_NULL_POINTER_PARAMETER
| DPI_ERR_PTR_LENGTH_MISMATCH
| DPI_ERR_other (n : Z).

(** The error taxonomy the specification speaks in. *)
Inductive ErrorKind : Type :=
| InvalidArgument | NotSupported | ArraySizeTooSmall | ArraySizeTooBig
| InvalidIndex | QueryPositionInvalid | NoRowFetched | QueryNotExecuted
| ScrollOutOfResultSet | NoMemory | StatementClosed | NotConnected
| ProtocolFailure.

Definition errorKind (e : dpiErrorNum) : option ErrorKind :=
  match e with
  | DPI_ERR_NO_ERR => None
  | DPI_ERR_NO_MEMORY => Some NoMemory
  | DPI_ERR_NOT_SUPPORTED => Some NotSupported
  | DPI_ERR_STMT_CLOSED => Some StatementClosed
  | DPI_ERR_NOT_CONNECTED => Some NotConnected
  | DPI_ERR_ARRAY_SIZE_TOO_SMALL => Some ArraySizeTooSmall
  | DPI_ERR_ARRAY_SIZE_TOO_BIG => Some ArraySizeTooBig
  | DPI_ERR_INVALID_INDEX => Some InvalidIndex
  | DPI_ERR_CANNOT_GET_ROW_OFFSET => Some ProtocolFailure
  | DPI_ERR_QUERY_POSITION_INVALID => Some QueryPositionInvalid
  | DPI_ERR_QUERY_NOT_EXECUTED => Some QueryNotExecuted
  | DPI_ERR_NO_ROW_FETCHED => Some NoRowFetched
  | DPI_ERR_SCROLL_OUT_OF_RS => Some ScrollOutOfResultSet
  | DPI_ERR_NULL_POINTER_PARAMETER => Some InvalidArgument
  | DPI_ERR_PTR_LENGTH_MISMATCH => Some InvalidArgument
  | DPI_ERR_other _ => Some ProtocolFailure
  end.

(** ** Structures *)

(** [dpiErrorBuffer]: the fields this file reads or writes. *)
Record dpiErrorBuffer : Type := mkErrorBuffer {
  eb_code : Z;                (* server error code *)
  eb_offset : Z;
  eb_errorNum : dpiErrorNum;
  eb_fnName : string;
  eb_action : string
}.

Definition noError : dpiErrorBuffer :=
  mkErrorBuffer 0 0 DPI_ERR_NO_ERR "" "".

Record dpiEnv : Type := mkEnv {
  versionNum : Z;             (* env->versionInfo->versionNum *)
  env_charsetId : Z;
  maxBytesPerCharacter : Z;
  nmaxBytesPerCharacter : Z
}.

Record dpiConn : Type := mkConn {
  conn_handle : Z;
  conn_closing : Z;
  conn_charsetId : Z
}.

Record dpiOracleType : Type := mkOracleType {
  t_oracleTypeNum : Z;
  t_defaultNativeTypeNum : Z;
  t_charsetForm : Z;
  t_sizeInBytes : Z;
  t_isCharacterData : Z;
  t_requiresPreFetch : Z
}.

(** [dpiVar]: a value resource.  Of [externalData] only the statement
    pointer of each element is kept, which is all this file looks at. *)
Record dpiVar : Type := mkVar {
  v_type : dpiOracleType;
  v_nativeTypeNum : Z;
  v_maxArraySize : Z;
  v_actualArraySize : Z;
  v_sizeInBytes : Z;
  v_isDynamic : Z;
  v_requiresPreFetch : Z;
  v_objectIndicator : Z;
  v_error : Z;                (* dpiError *error: 0 when NULL *)
  v_externalData : list Z     (* externalData[j].value.asStmt *)
}.

Definition set_v_actualArraySize x v : dpiVar :=
  mkVar (v_type v) (v_nativeTypeNum v) (v_maxArraySize v) x (v_sizeInBytes v)
    (v_isDynamic v) (v_requiresPreFetch v) (v_objectIndicator v) (v_error v)
    (v_externalData v).
Definition set_v_requiresPreFetch x v : dpiVar :=
  mkVar (v_type v) (v_nativeTypeNum v) (v_maxArraySize v)
    (v_actualArraySize v) (v_sizeInBytes v) (v_isDynamic v) x
    (v_objectIndicator v) (v_error v) (v_externalData v).
Definition set_v_error x v : dpiVar :=
  mkVar (v_type v) (v_nativeTypeNum v) (v_maxArraySize v)
    (v_actualArraySize v) (v_sizeInBytes v) (v_isDynamic v)
    (v_requiresPreFetch v) (v_objectIndicator v) x (v_externalData v).

(** [dpiBindVar]: one slot of the bind registry. *)
Record dpiBindVar : Type := mkBindVar {
  bv_var : Z;                 (* dpiVar *var, 0 when NULL *)
  bv_pos : Z;
  bv_name : option string;    (* const char *name, None when NULL *)
  bv_nameLength : Z
}.

(** A slot as [calloc] leaves it. *)
Definition zeroBindVar : dpiBindVar := mkBindVar 0 0 None 0.

Record dpiQueryInfo : Type := mkQueryInfo {
  qi_name : Z;
  qi_nameLength : Z;
  qi_oracleTypeNum : Z;
  qi_defaultNativeTypeNum : Z;
  qi_dbSizeInBytes : Z;
  qi_clientSizeInBytes : Z;
  qi_sizeInChars : Z;
  qi_precision : Z;
  qi_scale : Z;
  qi_nullOk : Z;
  qi_objectType : Z
}.

Definition zeroQueryInfo : dpiQueryInfo := mkQueryInfo 0 0 0 0 0 0 0 0 0 0 0.

(** [dpiStmt].  [bindVars], [queryVars], [queryInfo] and [batchErrors] are
    heap arrays: [None] is the NULL pointer, [Some l] an array with one
    element of [l] per allocated slot. *)
Record dpiStmt : Type := mkStmt {
  addr : Z;                   (* the address of this statement *)
  env : dpiEnv;
  conn : Z;                   (* dpiConn *conn, 0 when NULL *)
  handle : Z;                 (* void *handle, 0 when NULL *)
  fetchArraySize : Z;         (* uint32_t *)
  bufferRowCount : Z;         (* uint32_t *)
  bufferRowIndex : Z;         (* uint32_t *)
  numQueryVars : Z;           (* uint32_t *)
  queryVars : option (list Z);
  queryInfo : option (list dpiQueryInfo);
  allocatedBindVars : Z;      (* uint32_t *)
  numBindVars : Z;            (* uint32_t *)
  bindVars : option (list dpiBindVar);
  numBatchErrors : Z;         (* uint32_t *)
  batchErrors : option (list dpiErrorBuffer);
  rowCount : Z;               (* uint64_t *)
  bufferMinRow : Z;           (* uint64_t *)
  statementType : Z;          (* uint16_t *)
  isOwned : Z;
  hasRowsToFetch : Z;
  scrollable : Z;
  isReturning : Z;
  deleteFromCache : Z
}.

Definition set_conn v s : dpiStmt :=
  mkStmt (addr s) (env s) v (handle s) (fetchArraySize s) (bufferRowCount s)
    (bufferRowIndex s) (numQueryVars s) (queryVars s) (queryInfo s)
    (allocatedBindVars s) (numBindVars s) (bindVars s) (numBatchErrors s)
    (batchErrors s) (rowCount s) (bufferMinRow s) (statementType s) (isOwned
    s) (hasRowsToFetch s) (scrollable s) (isReturning s) (deleteFromCache
    s).
Definition set_handle v s : dpiStmt :=
  mkStmt (addr s) (env s) (conn s) v (fetchArraySize s) (bufferRowCount s)
    (bufferRowIndex s) (numQueryVars s) (queryVars s) (queryInfo s)
    (allocatedBindVars s) (numBindVars s) (bindVars s) (numBatchErrors s)
    (batchErrors s) (rowCount s) (bufferMinRow s) (statementType s) (isOwned
    s) (hasRowsToFetch s) (scrollable s) (isReturning s) (deleteFromCache
    s).
Definition set_fetchArraySize v s : dpiStmt :=
  mkStmt (addr s) (env s) (conn s) (handle s) v (bufferRowCount s)
    (bufferRowIndex s) (numQueryVars s) (queryVars s) (queryInfo s)
    (allocatedBindVars s) (numBindVars s) (bindVars s) (numBatchErrors s)
    (batchErrors s) (rowCount s) (bufferMinRow s) (statementType s) (isOwned
    s) (hasRowsToFetch s) (scrollable s) (isReturning s) (deleteFromCache
    s).
Definition set_bufferRowCount v s : dpiStmt :=
  mkStmt (addr s) (env s) (conn s) (handle s) (fetchArraySize s) v
    (bufferRowIndex s) (numQueryVars s) (queryVars s) (queryInfo s)
    (allocatedBindVars s) (numBindVars s) (bindVars s) (numBatchErrors s)
    (batchErrors s) (rowCount s) (bufferMinRow s) (statementType s) (isOwned
    s) (hasRowsToFetch s) (scrollable s) (isReturning s) (deleteFromCache
    s).
Definition set_bufferRowIndex v s : dpiStmt :=
  mkStmt (addr s) (env s) (conn s) (handle s) (fetchArraySize s)
    (bufferRowCount s) v (numQueryVars s) (queryVars s) (queryInfo s)
    (allocatedBindVars s) (numBindVars s) (bindVars s) (numBatchErrors s)
    (batchErrors s) (rowCount s) (bufferMinRow s) (statementType s) (isOwned
    s) (hasRowsToFetch s) (scrollable s) (isReturning s) (deleteFromCache
    s).
Definition set_numQueryVars v s : dpiStmt :=
  mkStmt (addr s) (env s) (conn s) (handle s) (fetchArraySize s)
    (bufferRowCount s) (bufferRowIndex s) v (queryVars s) (queryInfo s)
    (allocatedBindVars s) (numBindVars s) (bindVars s) (numBatchErrors s)
    (batchErrors s) (rowCount s) (bufferMinRow s) (statementType s) (isOwned
    s) (hasRowsToFetch s) (scrollable s) (isReturning s) (deleteFromCache
    s).
Definition set_queryVars v s : dpiStmt :=
  mkStmt (addr s) (env s) (conn s) (handle s) (fetchArraySize s)
    (bufferRowCount s) (bufferRowIndex s) (numQueryVars s) v (queryInfo s)
    (allocatedBindVars s) (numBindVars s) (bindVars s) (numBatchErrors s)
    (batchErrors s) (rowCount s) (bufferMinRow s) (statementType s) (isOwned
    s) (hasRowsToFetch s) (scrollable s) (isReturning s) (deleteFromCache
    s).
Definition set_queryInfo v s : dpiStmt :=
  mkStmt (addr s) (env s) (conn s) (handle s) (fetchArraySize s)
    (bufferRowCount s) (bufferRowIndex s) (numQueryVars s) (queryVars s) v
    (allocatedBindVars s) (numBindVars s) (bindVars s) (numBatchErrors s)
    (batchErrors s) (rowCount s) (bufferMinRow s) (statementType s) (isOwned
    s) (hasRowsToFetch s) (scrollable s) (isReturning s) (deleteFromCache
    s).
Definition set_allocatedBindVars v s : dpiStmt :=
  mkStmt (addr s) (env s) (conn s) (handle s) (fetchArraySize s)
    (bufferRowCount s) (bufferRowIndex s) (numQueryVars s) (queryVars s)
    (queryInfo s) v (numBindVars s) (bindVars s) (numBatchErrors s)
    (batchErrors s) (rowCount s) (bufferMinRow s) (statementType s) (isOwned
    s) (hasRowsToFetch s) (scrollable s) (isReturning s) (deleteFromCache
    s).
Definition set_numBindVars v s : dpiStmt :=
  mkStmt (addr s) (env s) (conn s) (handle s) (fetchArraySize s)
    (bufferRowCount s) (bufferRowIndex s) (numQueryVars s) (queryVars s)
    (queryInfo s) (allocatedBindVars s) v (bindVars s) (numBatchErrors s)
    (batchErrors s) (rowCount s) (bufferMinRow s) (statementType s) (isOwned
    s) (hasRowsToFetch s) (scrollable s) (isReturning s) (deleteFromCache
    s).
Definition set_bindVars v s : dpiStmt :=
  mkStmt (addr s) (env s) (conn s) (handle s) (fetchArraySize s)
    (bufferRowCount s) (bufferRowIndex s) (numQueryVars s) (queryVars s)
    (queryInfo s) (allocatedBindVars s) (numBindVars s) v (numBatchErrors s)
    (batchErrors s) (rowCount s) (bufferMinRow s) (statementType s) (isOwned
    s) (hasRowsToFetch s) (scrollable s) (isReturning s) (deleteFromCache
    s).
Definition set_numBatchErrors v s : dpiStmt :=
  mkStmt (addr s) (env s) (conn s) (handle s) (fetchArraySize s)
    (bufferRowCount s) (bufferRowIndex s) (numQueryVars s) (queryVars s)
    (queryInfo s) (allocatedBindVars s) (numBindVars s) (bindVars s) v
    (batchErrors s) (rowCount s) (bufferMinRow s) (statementType s) (isOwned
    s) (hasRowsToFetch s) (scrollable s) (isReturning s) (deleteFromCache
    s).
Definition set_batchErrors v s : dpiStmt :=
  mkStmt (addr s) (env s) (conn s) (handle s) (fetchArraySize s)
    (bufferRowCount s) (bufferRowIndex s) (numQueryVars s) (queryVars s)
    (queryInfo s) (allocatedBindVars s) (numBindVars s) (bindVars s)
    (numBatchErrors s) v (rowCount s) (bufferMinRow s) (statementType s)
    (isOwned s) (hasRowsToFetch s) (scrollable s) (isReturning s)
    (deleteFromCache s).
Definition set_rowCount v s : dpiStmt :=
  mkStmt (addr s) (env s) (conn s) (handle s) (fetchArraySize s)
    (bufferRowCount s) (bufferRowIndex s) (numQueryVars s) (queryVars s)
    (queryInfo s) (allocatedBindVars s) (numBindVars s) (bindVars s)
    (numBatchErrors s) (batchErrors s) v (bufferMinRow s) (statementType s)
    (isOwned s) (hasRowsToFetch s) (scrollable s) (isReturning s)
    (deleteFromCache s).
Definition set_bufferMinRow v s : dpiStmt :=
  mkStmt (addr s) (env s) (conn s) (handle s) (fetchArraySize s)
    (bufferRowCount s) (bufferRowIndex s) (numQueryVars s) (queryVars s)
    (queryInfo s) (allocatedBindVars s) (numBindVars s) (bindVars s)
    (numBatchErrors s) (batchErrors s) (rowCount s) v (statementType s)
    (isOwned s) (hasRowsToFetch s) (scrollable s) (isReturning s)
    (deleteFromCache s).
Definition set_statementType v s : dpiStmt :=
  mkStmt (addr s) (env s) (conn s) (handle s) (fetchArraySize s)
    (bufferRowCount s) (bufferRowIndex s) (numQueryVars s) (queryVars s)
    (queryInfo s) (allocatedBindVars s) (numBindVars s) (bindVars s)
    (numBatchErrors s) (batchErrors s) (rowCount s) (bufferMinRow s) v
    (isOwned s) (hasRowsToFetch s) (scrollable s) (isReturning s)
    (deleteFromCache s).
Definition set_hasRowsToFetch v s : dpiStmt :=
  mkStmt (addr s) (env s) (conn s) (handle s) (fetchArraySize s)
    (bufferRowCount s) (bufferRowIndex s) (numQueryVars s) (queryVars s)
    (queryInfo s) (allocatedBindVars s) (numBindVars s) (bindVars s)
    (numBatchErrors s) (batchErrors s) (rowCount s) (bufferMinRow s)
    (statementType s) (isOwned s) v (scrollable s) (isReturning s)
    (deleteFromCache s).
Definition set_isReturning v s : dpiStmt :=
  mkStmt (addr s) (env s) (conn s) (handle s) (fetchArraySize s)
    (bufferRowCount s) (bufferRowIndex s) (numQueryVars s) (queryVars s)
    (queryInfo s) (allocatedBindVars s) (numBindVars s) (bindVars s)
    (numBatchErrors s) (batchErrors s) (rowCount s) (bufferMinRow s)
    (statementType s) (isOwned s) (hasRowsToFetch s) (scrollable s) v
    (deleteFromCache s).
Definition set_deleteFromCache v s : dpiStmt :=
  mkStmt (addr s) (env s) (conn s) (handle s) (fetchArraySize s)
    (bufferRowCount s) (bufferRowIndex s) (numQueryVars s) (queryVars s)
    (queryInfo s) (allocatedBindVars s) (numBindVars s) (bindVars s)
    (numBatchErrors s) (batchErrors s) (rowCount s) (bufferMinRow s)
    (statementType s) (isOwned s) (hasRowsToFetch s) (scrollable s)
    (isReturning s) v.
Definition set_qi_name v s : dpiQueryInfo :=
  mkQueryInfo v (qi_nameLength s) (qi_oracleTypeNum s)
    (qi_defaultNativeTypeNum s) (qi_dbSizeInBytes s) (qi_clientSizeInBytes
    s) (qi_sizeInChars s) (qi_precision s) (qi_scale s) (qi_nullOk s)
    (qi_objectType s).
Definition set_qi_nameLength v s : dpiQueryInfo :=
  mkQueryInfo (qi_name s) v (qi_oracleTypeNum s) (qi_defaultNativeTypeNum s)
    (qi_dbSizeInBytes s) (qi_clientSizeInBytes s) (qi_sizeInChars s)
    (qi_precision s) (qi_scale s) (qi_nullOk s) (qi_objectType s).
Definition set_qi_oracleTypeNum v s : dpiQueryInfo :=
  mkQueryInfo (qi_name s) (qi_nameLength s) v (qi_defaultNativeTypeNum s)
    (qi_dbSizeInBytes s) (qi_clientSizeInBytes s) (qi_sizeInChars s)
    (qi_precision s) (qi_scale s) (qi_nullOk s) (qi_objectType s).
Definition set_qi_defaultNativeTypeNum v s : dpiQueryInfo :=
  mkQueryInfo (qi_name s) (qi_nameLength s) (qi_oracleTypeNum s) v
    (qi_dbSizeInBytes s) (qi_clientSizeInBytes s) (qi_sizeInChars s)
    (qi_precision s) (qi_scale s) (qi_nullOk s) (qi_objectType s).
Definition set_qi_dbSizeInBytes v s : dpiQueryInfo :=
  mkQueryInfo (qi_name s) (qi_nameLength s) (qi_oracleTypeNum s)
    (qi_defaultNativeTypeNum s) v (qi_clientSizeInBytes s) (qi_sizeInChars
    s) (qi_precision s) (qi_scale s) (qi_nullOk s) (qi_objectType s).
Definition set_qi_clientSizeInBytes v s : dpiQueryInfo :=
  mkQueryInfo (qi_name s) (qi_nameLength s) (qi_oracleTypeNum s)
    (qi_defaultNativeTypeNum s) (qi_dbSizeInBytes s) v (qi_sizeInChars s)
    (qi_precision s) (qi_scale s) (qi_nullOk s) (qi_objectType s).
Definition set_qi_sizeInChars v s : dpiQueryInfo :=
  mkQueryInfo (qi_name s) (qi_nameLength s) (qi_oracleTypeNum s)
    (qi_defaultNativeTypeNum s) (qi_dbSizeInBytes s) (qi_clientSizeInBytes
    s) v (qi_precision s) (qi_scale s) (qi_nullOk s) (qi_objectType s).
Definition set_qi_precision v s : dpiQueryInfo :=
  mkQueryInfo (qi_name s) (qi_nameLength s) (qi_oracleTypeNum s)
    (qi_defaultNativeTypeNum s) (qi_dbSizeInBytes s) (qi_clientSizeInBytes
    s) (qi_sizeInChars s) v (qi_scale s) (qi_nullOk s) (qi_objectType s).
Definition set_qi_scale v s : dpiQueryInfo :=
  mkQueryInfo (qi_name s) (qi_nameLength s) (qi_oracleTypeNum s)
    (qi_defaultNativeTypeNum s) (qi_dbSizeInBytes s) (qi_clientSizeInBytes
    s) (qi_sizeInChars s) (qi_precision s) v (qi_nullOk s) (qi_objectType
    s).
Definition set_qi_nullOk v s : dpiQueryInfo :=
  mkQueryInfo (qi_name s) (qi_nameLength s) (qi_oracleTypeNum s)
    (qi_defaultNativeTypeNum s) (qi_dbSizeInBytes s) (qi_clientSizeInBytes
    s) (qi_sizeInChars s) (qi_precision s) (qi_scale s) v (qi_objectType s).
Definition set_qi_objectType v s : dpiQueryInfo :=
  mkQueryInfo (qi_name s) (qi_nameLength s) (qi_oracleTypeNum s)
    (qi_defaultNativeTypeNum s) (qi_dbSizeInBytes s) (qi_clientSizeInBytes
    s) (qi_sizeInChars s) (qi_precision s) (qi_scale s) (qi_nullOk s) v.

(** ** External calls *)

Inductive OciAttr : Type :=
| DPI_OCI_ATTR_PREFETCH_ROWS | DPI_OCI_ATTR_PARSE_ERROR_OFFSET
| DPI_OCI_ATTR_PARAM_COUNT | DPI_OCI_ATTR_ROWS_FETCHED
| DPI_OCI_ATTR_NUM_DML_ERRORS | DPI_OCI_ATTR_DML_ROW_OFFSET
| DPI_OCI_ATTR_STATEMENT | DPI_OCI_ATTR_STMT_TYPE
| DPI_OCI_ATTR_STMT_IS_RETURNING | DPI_OCI_ATTR_CURRENT_POSITION
| DPI_OCI_ATTR_BIND_COUNT | DPI_OCI_ATTR_CHARSET_FORM
| DPI_OCI_ATTR_MAXDATA_SIZE | DPI_OCI_ATTR_DATA_TYPE | DPI_OCI_ATTR_SCALE
| DPI_OCI_ATTR_PRECISION | DPI_OCI_ATTR_NAME | DPI_OCI_ATTR_DATA_SIZE
| DPI_OCI_ATTR_CHAR_SIZE | DPI_OCI_ATTR_IS_NULL | DPI_OCI_ATTR_TYPE_NAME.

(** One constructor per function that [dpiStmt.c] calls and does not
    define, with the arguments the callee can see. *)
Inductive Event : Type :=
| E_startPublicFn (fnName : string)
| E_checkHandle (ptr : Z) (action : string)
| E_setRefCount (ptr increment : Z)
| E_decrementOpenChildCount (conn : Z)
| E_calloc (nmemb : Z)
| E_malloc (size : Z)
| E_attrGet (handle : Z) (attr : OciAttr)
| E_attrSet (handle : Z) (attr : OciAttr) (value : Z)
| E_handleAlloc (action : string)
| E_handleFree (handle : Z)
| E_descriptorFree (param : Z)
| E_paramGet (handle pos : Z)
| E_stmtPrepare2 (sql sqlLength : Z)
| E_stmtRelease (handle deleteFromCache propagateErrors : Z)
| E_stmtExecute (handle numIters mode : Z)
| E_stmtFetch2 (handle numRows : Z) (mode : dpiFetchMode) (offset : Z)
| E_bindByPos (handle pos dynamicBind var : Z)
| E_bindByPos2 (handle pos dynamicBind var : Z)
| E_bindByName (handle : Z) (name : option string)
    (nameLength dynamicBind var : Z)
| E_bindByName2 (handle : Z) (name : option string)
    (nameLength dynamicBind var : Z)
| E_bindObject (var bindHandle : Z)
| E_bindDynamic (var bindHandle : Z)
| E_defineByPos (handle pos var : Z)
| E_defineByPos2 (handle pos var : Z)
| E_defineObject (var defineHandle : Z)
| E_defineDynamic (var defineHandle : Z)
| E_varAllocate (oracleTypeNum nativeTypeNum maxArraySize size sizeIsBytes
    objType : Z)
| E_varConvertToLob (var : Z)
| E_varSetValue (var pos : Z)
| E_varGetValue (var pos : Z)
| E_varExtendedPreFetch (var : Z)
| E_getFromQueryInfo (ociDataType charsetForm : Z)
| E_objectTypeAllocate (conn param : Z)
| E_errorCheck (handle : Z).

(** What an external call hands back. *)
Record Reply : Type := mkReply {
  r_status : Z;               (* the int result, negative on failure; for an
                                 allocator, negative stands for NULL *)
  r_value : Z;                (* the out-parameter: attribute value, handle *)
  r_value2 : Z;               (* a second out-parameter (a length) *)
  r_error : dpiErrorBuffer;   (* what a failing call leaves in the error
                                 buffer it was given *)
  r_var : option dpiVar;      (* the new content of the dpiVar it was given,
                                 when the call changes it *)
  r_type : option dpiOracleType;
  r_hasRowsToFetch : option Z (* stmt->hasRowsToFetch as the fetch call
                                 leaves it, when it changes it *)
}.

(** The environment: the reply to a call is a function of the calls made so
    far, the call being answered first. *)
Definition Oracle : Type := list Event -> Reply.

(** The calls of the protocol call layer ([dpiOci__*]). *)
Definition is_protocol_call (e : Event) : bool :=
  match e with
  | E_startPublicFn _ | E_checkHandle _ _ | E_setRefCount _ _
  | E_decrementOpenChildCount _ | E_calloc _ | E_malloc _
  | E_varAllocate _ _ _ _ _ _ | E_varConvertToLob _ | E_varSetValue _ _
  | E_varGetValue _ _ | E_varExtendedPreFetch _ | E_getFromQueryInfo _ _
  | E_objectTypeAllocate _ _ | E_errorCheck _ => false
  | _ => true
  end.

Definition is_fetch_call (e : Event) : bool :=
  match e with E_stmtFetch2 _ _ _ _ => true | _ => false end.

(** [dpiStmt__reExecute] starts by reading the SQL text back from the
    handle, and nothing else in the file reads that attribute: the call
    marks an entry into the recovery path. *)
Definition is_recovery_entry (e : Event) : bool :=
  match e with E_attrGet _ DPI_OCI_ATTR_STATEMENT => true | _ => false end.

Definition is_execute_call (e : Event) : bool :=
  match e with E_stmtExecute _ _ _ => true | _ => false end.

Definition is_release_of (p : Z) (e : Event) : bool :=
  match e with
  | E_setRefCount q d => (d =? -1) && (q =? p)
  | _ => false
  end.

Definition count (p : Event -> bool) (t : list Event) : nat :=
  List.length (filter p t).

(** ** Program state *)

Record St : Type := mkSt {
  st_stmt : dpiStmt;
  st_trace : list Event;          (* external calls, the latest first *)
  st_refCount : Z -> Z;           (* reference count of each handle *)
  st_vars : Z -> dpiVar;          (* the value resources, by address *)
  st_conns : Z -> dpiConn;        (* the connections, by address *)
  st_error : dpiErrorBuffer       (* error->buffer of the public call *)
}.

Definition with_st_stmt v s : St :=
  mkSt v (st_trace s) (st_refCount s) (st_vars s) (st_conns s) (st_error s).
Definition with_st_trace v s : St :=
  mkSt (st_stmt s) v (st_refCount s) (st_vars s) (st_conns s) (st_error s).
Definition with_st_refCount v s : St :=
  mkSt (st_stmt s) (st_trace s) v (st_vars s) (st_conns s) (st_error s).
Definition with_st_vars v s : St :=
  mkSt (st_stmt s) (st_trace s) (st_refCount s) v (st_conns s) (st_error s).
Definition with_st_conns v s : St :=
  mkSt (st_stmt s) (st_trace s) (st_refCount s) (st_vars s) v (st_error s).
Definition with_st_error v s : St :=
  mkSt (st_stmt s) (st_trace s) (st_refCount s) (st_vars s) (st_conns s) v.

(** ** The state monad of the embedding *)

Definition M (A : Type) : Type := St -> A * St.

Definition ret {A : Type} (a : A) : M A := fun s => (a, s).

Definition bind {A B : Type} (m : M A) (f : A -> M B) : M B :=
  fun s => let (a, s') := m s in f a s'.

Declare Scope stmt_scope.
Delimit Scope stmt_scope with stmt.
Open Scope stmt_scope.

Notation "x <- m ;; k" := (bind m (fun x => k))
  (at level 61, m at next level, right associativity) : stmt_scope.
Notation "m ;; k" := (bind m (fun _ => k))
  (at level 61, right associativity) : stmt_scope.
(** [if (m < 0) return DPI_FAILURE; k] *)
Notation "'attempt' m ;; k" :=
  (bind m (fun r => if r <? 0 then ret DPI_FAILURE else k))
  (at level 61, m at next level, right associativity) : stmt_scope.

Definition get_stmt : M dpiStmt := fun s => (st_stmt s, s).

Definition modify_stmt (f : dpiStmt -> dpiStmt) : M unit :=
  fun s => (tt, with_st_stmt (f (st_stmt s)) s).

Definition get_var (p : Z) : M dpiVar := fun s => (st_vars s p, s).

Definition upd {A : Type} (f : Z -> A) (p : Z) (a : A) : Z -> A :=
  fun q => if q =? p then a else f q.

Definition modify_var (p : Z) (f : dpiVar -> dpiVar) : M unit :=
  fun s => (tt, with_st_vars (upd (st_vars s) p (f (st_vars s p))) s).

Definition get_conn (p : Z) : M dpiConn := fun s => (st_conns s p, s).

Definition get_error : M dpiErrorBuffer := fun s => (st_error s, s).

Definition add_refCount (p d : Z) : M unit :=
  fun s => (tt, with_st_refCount (upd (st_refCount s) p (st_refCount s p + d)) s).

(** Arrays: [a[i]] and [a[i] = x].  Reading through a NULL pointer or past
    the end is undefined in C; here it yields the default element, and such
    a write is dropped. *)
Definition elems {A : Type} (a : option (list A)) : list A :=
  match a with Some l => l | None => [] end.

Definition at_ {A : Type} (d : A) (a : option (list A)) (i : Z) : A :=
  nth (Z.to_nat i) (elems a) d.

Fixpoint upd_nth {A : Type} (n : nat) (x : A) (l : list A) : list A :=
  match l, n with
  | [], _ => []
  | _ :: l', O => x :: l'
  | y :: l', S n' => y :: upd_nth n' x l'
  end.

Definition store {A : Type} (a : option (list A)) (i : Z) (x : A)
  : option (list A) :=
  option_map (upd_nth (Z.to_nat i) x) a.

(** [for (i = i0; i < i0 + n; i++) body]: the body answers [Some r] to
    leave the enclosing function with [r] and [None] to go on. *)
Fixpoint for_ {A : Type} (n : nat) (i : Z) (body : Z -> M (option A))
  : M (option A) :=
  match n with
  | O => ret None
  | S n' =>
      r <- body i ;;
      match r with
      | Some a => ret (Some a)
      | None => for_ n' (i + 1) body
      end
  end.

(** A [dpiError *] as this file uses it: the caller's structure, or a local
    one whose buffer points into [stmt->batchErrors]. *)
Inductive dpiError : Type :=
| error
| localError_batch (i : Z).

Definition write_buffer (e : dpiError) (b : dpiErrorBuffer) : M unit :=
  match e with
  | error => fun s => (tt, with_st_error b s)
  | localError_batch i =>
      modify_stmt (fun st => set_batchErrors (store (batchErrors st) i b) st)
  end.

(** Modelled from the spec: [dpiError__set] is defined in [dpiError.c], which
    is not part of the sources at hand.  Every failure is reported as "a
    structured error record (code, message, offset where applicable)": the
    error number and the action are recorded in the caller's buffer and the
    call yields [DPI_FAILURE]. *)
Definition dpiError__set (action : string) (errorNum : dpiErrorNum) : M Z :=
  b <- get_error ;;
  write_buffer error (mkErrorBuffer 0 0 errorNum (eb_fnName b) action) ;;
  ret DPI_FAILURE.

Section WithOracle.

Variable oracle : Oracle.

Definition external (e : Event) : M Reply :=
  fun s => let t := e :: st_trace s in (oracle t, with_st_trace t s).

(** An external call that is given a [dpiError *]: when it fails it leaves
    its error in the buffer of that structure. *)
Definition external_err (e : Event) (err : dpiError) : M Reply :=
  r <- external e ;;
  (if r_status r <? 0 then write_buffer err (r_error r) else ret tt) ;;
  ret r.

(** *** The handle scaffold *)

(** [dpiGen__startPublicFn] sets up the (so far uninitialised) error
    structure of a public function and validates the handle. *)
Definition dpiGen__startPublicFn (fnName : string) : M Z :=
  r <- external (E_startPublicFn fnName) ;;
  write_buffer error (r_error r) ;;
  ret (r_status r).

Definition dpiGen__checkHandle (ptr : Z) (action : string) (err : dpiError)
  : M Z :=
  r <- external_err (E_checkHandle ptr action) err ;; ret (r_status r).

(** Modelled from the spec: [dpiGen__setRefCount] belongs to the "generic
    handle/reference-counting scaffold" ([dpiGen.c], not part of the sources
    at hand), which provides "shared ownership counting": the count of the
    handle moves by the increment. *)
Definition dpiGen__setRefCount (ptr : Z) (err : dpiError) (increment : Z)
  : M Z :=
  r <- external_err (E_setRefCount ptr increment) err ;;
  add_refCount ptr increment ;;
  ret (r_status r).

Definition dpiConn__decrementOpenChildCount (c : Z) : M unit :=
  external (E_decrementOpenChildCount c) ;; ret tt.

(** [DPI_CHECK_PTR_NOT_NULL(parameter)] of [dpiImpl.h]. *)
Definition DPI_CHECK_PTR_NOT_NULL (parameter : Z) (k : M Z) : M Z :=
  if parameter =? 0
  then dpiError__set "check parameter" DPI_ERR_NULL_POINTER_PARAMETER
  else k.

(** [DPI_CHECK_PTR_AND_LENGTH(parameter)] of [dpiImpl.h]. *)
Definition DPI_CHECK_PTR_AND_LENGTH (parameter parameterLength : Z)
  (k : M Z) : M Z :=
  if (parameter =? 0) && (parameterLength >? 0)
  then dpiError__set "check parameter" DPI_ERR_PTR_LENGTH_MISMATCH
  else k.

(** *** The protocol call layer

    A call that succeeds hands its out-parameter back in [r_value]; the
    caller below stores it.  A call that fails stores nothing. *)

Definition dpiOci__attrGet (h : Z) (attr : OciAttr) (err : dpiError)
  : M Reply := external_err (E_attrGet h attr) err.

Definition dpiOci__attrSet (h : Z) (attr : OciAttr) (value : Z)
  (err : dpiError) : M Z :=
  r <- external_err (E_attrSet h attr value) err ;; ret (r_status r).

Definition dpiOci__handleAlloc (action : string) (err : dpiError)
  : M Reply := external_err (E_handleAlloc action) err.

Definition dpiOci__handleFree (h : Z) : M unit :=
  external (E_handleFree h) ;; ret tt.

Definition dpiOci__descriptorFree (param : Z) : M unit :=
  external (E_descriptorFree param) ;; ret tt.

Definition dpiOci__paramGet (h pos : Z) (err : dpiError) : M Reply :=
  external_err (E_paramGet h pos) err.

(** [dpiOci__stmtPrepare2] leaves the handle it prepared in
    [stmt->handle]. *)
Definition dpiOci__stmtPrepare2 (sql sqlLength : Z) (err : dpiError) : M Z :=
  r <- external_err (E_stmtPrepare2 sql sqlLength) err ;;
  modify_stmt (set_handle (r_value r)) ;;
  ret (r_status r).

Definition dpiOci__stmtRelease (propagateErrors : Z) (err : dpiError) : M Z :=
  stmt <- get_stmt ;;
  r <- external_err
         (E_stmtRelease (handle stmt) (deleteFromCache stmt) propagateErrors)
         err ;;
  ret (r_status r).

Definition dpiOci__stmtExecute (numIters mode : Z) (err : dpiError) : M Z :=
  stmt <- get_stmt ;;
  r <- external_err (E_stmtExecute (handle stmt) numIters mode) err ;;
  ret (r_status r).

(** [dpiOci__stmtFetch2] is the one call that maintains
    [stmt->hasRowsToFetch] during a fetch. *)
Definition dpiOci__stmtFetch2 (numRows : Z) (mode : dpiFetchMode)
  (offset : Z) (err : dpiError) : M Z :=
  stmt <- get_stmt ;;
  r <- external_err (E_stmtFetch2 (handle stmt) numRows mode offset) err ;;
  match r_hasRowsToFetch r with
  | Some b => modify_stmt (set_hasRowsToFetch b)
  | None => ret tt
  end ;;
  ret (r_status r).

(** *** The value subsystem: a call may change the variable it is given *)

Definition external_var (e : Event) (var : Z) (err : dpiError) : M Reply :=
  r <- external_err e err ;;
  match r_var r with
  | Some v => modify_var var (fun _ => v)
  | None => ret tt
  end ;;
  ret r.

Definition dpiVar__convertToLob (var : Z) (err : dpiError) : M Z :=
  r <- external_var (E_varConvertToLob var) var err ;; ret (r_status r).

Definition set_v_externalData x v : dpiVar :=
  mkVar (v_type v) (v_nativeTypeNum v) (v_maxArraySize v)
    (v_actualArraySize v) (v_sizeInBytes v) (v_isDynamic v)
    (v_requiresPreFetch v) (v_objectIndicator v) (v_error v) x.

(** [dpiVar__setValue] and [dpiVar__getValue] move one element between the
    external array and the wire buffers: of the fields kept here they can
    change the data only. *)
Definition external_data (e : Event) (var : Z) (err : dpiError) : M Reply :=
  r <- external_err e err ;;
  match r_var r with
  | Some v => modify_var var (set_v_externalData (v_externalData v))
  | None => ret tt
  end ;;
  ret r.

Definition dpiVar__setValue (var pos : Z) (err : dpiError) : M Z :=
  r <- external_data (E_varSetValue var pos) var err ;; ret (r_status r).

Definition dpiVar__getValue (var pos : Z) (err : dpiError) : M Z :=
  r <- external_data (E_varGetValue var pos) var err ;; ret (r_status r).

Definition dpiVar__extendedPreFetch (var : Z) (err : dpiError) : M Z :=
  r <- external_var (E_varExtendedPreFetch var) var err ;; ret (r_status r).

(** [dpiVar__allocate] yields the address of the new variable in [r_value]
    and its content in [r_var]. *)
Definition dpiVar__allocate (oracleTypeNum nativeTypeNum maxArraySize size
  sizeIsBytes objType : Z) (err : dpiError) : M Reply :=
  r <- external_err (E_varAllocate oracleTypeNum nativeTypeNum maxArraySize
                       size sizeIsBytes objType) err ;;
  match r_var r with
  | Some v => modify_var (r_value r) (fun _ => v)
  | None => ret tt
  end ;;
  ret r.

(** ** The functions of [dpiStmt.c]

    The internal functions receive the caller's [dpiError *error]; the one
    other structure passed on to them, [localError] of
    [dpiStmt__reExecute], shares the caller's buffer.  The parameter is
    therefore left out below and stands for [error] throughout. *)

(** [dpiStmt__init] *)
Definition dpiStmt__init : M Z :=
  stmt <- get_stmt ;;
  r <- dpiOci__attrGet (handle stmt) DPI_OCI_ATTR_STMT_TYPE error ;;
  if r_status r <? 0 then ret DPI_FAILURE else
  modify_stmt (set_statementType (r_value r)) ;;
  if r_value r =? DPI_STMT_TYPE_SELECT then
    modify_stmt (set_hasRowsToFetch 1) ;;
    ret DPI_SUCCESS
  else
    r' <- dpiOci__attrGet (handle stmt) DPI_OCI_ATTR_STMT_IS_RETURNING error ;;
    if r_status r' <? 0 then ret DPI_FAILURE else
    modify_stmt (set_isReturning (r_value r')) ;;
    ret DPI_SUCCESS.

(** [dpiStmt__checkOpen] *)
Definition dpiStmt__checkOpen (fnName : string) : M Z :=
  attempt dpiGen__startPublicFn fnName ;;
  stmt <- get_stmt ;;
  if handle stmt =? 0 then
    dpiError__set "check closed" DPI_ERR_STMT_CLOSED
  else
  c <- get_conn (conn stmt) ;;
  if (conn_handle c =? 0) || negb (conn_closing c =? 0) then
    dpiError__set "check connection" DPI_ERR_NOT_CONNECTED
  else
  if statementType stmt =? 0 then
    attempt dpiStmt__init ;;
    ret DPI_SUCCESS
  else ret DPI_SUCCESS.

(** [dpiStmt__clearBatchErrors] *)
Definition dpiStmt__clearBatchErrors : M unit :=
  modify_stmt (set_batchErrors None) ;;
  modify_stmt (set_numBatchErrors 0).

(** [dpiStmt__clearBindVars] *)
Definition dpiStmt__clearBindVars : M unit :=
  stmt <- get_stmt ;;
  match bindVars stmt with
  | Some _ =>
      for_ (Z.to_nat (numBindVars stmt)) 0 (fun i =>
        dpiGen__setRefCount (bv_var (at_ zeroBindVar (bindVars stmt) i))
          error (-1) ;;
        ret (@None unit)) ;;
      modify_stmt (set_bindVars None)
  | None => ret tt
  end ;;
  modify_stmt (set_numBindVars 0) ;;
  modify_stmt (set_allocatedBindVars 0).

(** [dpiStmt__clearQueryVars] *)
Definition dpiStmt__clearQueryVars : M unit :=
  stmt <- get_stmt ;;
  match queryVars stmt with
  | Some _ =>
      for_ (Z.to_nat (numQueryVars stmt)) 0 (fun i =>
        s <- get_stmt ;;
        (if negb (at_ 0 (queryVars s) i =? 0) then
           dpiGen__setRefCount (at_ 0 (queryVars s) i) error (-1) ;;
           modify_stmt (fun s => set_queryVars (store (queryVars s) i 0) s)
         else ret tt) ;;
        s <- get_stmt ;;
        let info := at_ zeroQueryInfo (queryInfo s) i in
        (if negb (qi_objectType info =? 0) then
           dpiGen__setRefCount (qi_objectType info) error (-1) ;;
           modify_stmt (fun s =>
             set_queryInfo (store (queryInfo s) i (set_qi_objectType 0 info)) s)
         else ret tt) ;;
        ret (@None unit)) ;;
      modify_stmt (set_queryVars None)
  | None => ret tt
  end ;;
  modify_stmt (set_queryInfo None) ;;
  modify_stmt (set_numQueryVars 0).

(** [dpiStmt__close] *)
Definition dpiStmt__close (tag tagLength propagateErrors : Z) : M Z :=
  dpiStmt__clearBatchErrors ;;
  dpiStmt__clearBindVars ;;
  dpiStmt__clearQueryVars ;;
  stmt <- get_stmt ;;
  attempt
    (if negb (handle stmt =? 0) then
       attempt
         (if negb (isOwned stmt =? 0) then
            dpiOci__handleFree (handle stmt) ;; ret DPI_SUCCESS
          else dpiOci__stmtRelease propagateErrors error) ;;
       modify_stmt (set_handle 0) ;;
       dpiConn__decrementOpenChildCount (conn stmt) ;;
       ret DPI_SUCCESS
     else ret DPI_SUCCESS) ;;
  (if negb (conn stmt =? 0) then
     dpiGen__setRefCount (conn stmt) error (-1) ;;
     modify_stmt (set_conn 0)
   else ret tt) ;;
  ret DPI_SUCCESS.

(** [dpiStmt_close] *)
Definition dpiStmt_close (tag tagLength : Z) : M Z :=
  attempt dpiStmt__checkOpen "dpiStmt_close" ;;
  DPI_CHECK_PTR_AND_LENGTH tag tagLength
    (dpiStmt__close tag tagLength 1).

(** *** The bind registry *)

Definition byte_at (a : string) : ascii :=
  match a with String c _ => c | EmptyString => zero end.

Definition rest (a : string) : string :=
  match a with String _ a' => a' | EmptyString => EmptyString end.

(** [strncmp(a, b, n)]: at most [n] characters are compared and a NUL ends
    the comparison.  The end of a Rocq string reads as a NUL. *)
Fixpoint strncmp (a b : string) (n : nat) : Z :=
  match n with
  | O => 0
  | S n' =>
      let x := byte_at a in
      let y := byte_at b in
      if negb (Ascii.eqb x y)
      then Z.of_N (N_of_ascii x) - Z.of_N (N_of_ascii y)
      else if Ascii.eqb x zero then 0
      else strncmp (rest a) (rest b) n'
  end.

Definition chars (name : option string) : string :=
  match name with Some a => a | None => EmptyString end.

(** The search loop of [dpiStmt__bind]: the index of the first of the [n]
    slots from [i] on whose locator matches, if there is one. *)
Fixpoint dpiStmt__bind_find (n : nat) (i : Z)
  (bv : option (list dpiBindVar)) (pos : Z) (name : option string)
  (nameLength : Z) : option Z :=
  match n with
  | O => None
  | S n' =>
      let entry := at_ zeroBindVar bv i in
      if (bv_pos entry =? pos) && (bv_nameLength entry =? nameLength) then
        if (nameLength >? 0)
           && negb (strncmp (chars (bv_name entry)) (chars name)
                      (Z.to_nat nameLength) =? 0)
        then dpiStmt__bind_find n' (i + 1) bv pos name nameLength
        else Some i
      else dpiStmt__bind_find n' (i + 1) bv pos name nameLength
  end.

Definition modify_entry (i : Z) (f : dpiBindVar -> dpiBindVar) : M unit :=
  modify_stmt (fun s =>
    set_bindVars
      (store (bindVars s) i (f (at_ zeroBindVar (bindVars s) i))) s).

Definition set_bv_var (x : Z) (e : dpiBindVar) : dpiBindVar :=
  mkBindVar x (bv_pos e) (bv_name e) (bv_nameLength e).
Definition set_bv_pos (x : Z) (e : dpiBindVar) : dpiBindVar :=
  mkBindVar (bv_var e) x (bv_name e) (bv_nameLength e).
Definition set_bv_name (x : option string) (e : dpiBindVar) : dpiBindVar :=
  mkBindVar (bv_var e) (bv_pos e) x (bv_nameLength e).
Definition set_bv_nameLength (x : Z) (e : dpiBindVar) : dpiBindVar :=
  mkBindVar (bv_var e) (bv_pos e) (bv_name e) x.

(** [for (i = 0; i < stmt->numBindVars; i++) bindVars[i] = stmt->bindVars[i]] *)
Fixpoint copy_entries (n : nat) (i : Z) (src : option (list dpiBindVar))
  (dst : list dpiBindVar) : list dpiBindVar :=
  match n with
  | O => dst
  | S n' =>
      copy_entries n' (i + 1) src
        (upd_nth (Z.to_nat i) (at_ zeroBindVar src i) dst)
  end.

Definition is_plsql (statementType : Z) : bool :=
  (statementType =? DPI_STMT_TYPE_BEGIN)
  || (statementType =? DPI_STMT_TYPE_DECLARE)
  || (statementType =? DPI_STMT_TYPE_CALL).

Definition truth (b : bool) : Z := if b then 1 else 0.

(** [dpiStmt__bind], from "for PL/SQL where the maxSize is greater than
    32K" to the end: the bind proper, on the slot [entry] chosen before. *)
Definition dpiStmt__bind_perform (entry var addReference pos : Z)
  (name : option string) (nameLength : Z) : M Z :=
  stmt <- get_stmt ;;
  v <- get_var var ;;
  attempt
    (if negb (v_isDynamic v =? 0) && is_plsql (statementType stmt)
     then dpiVar__convertToLob var error
     else ret DPI_SUCCESS) ;;
  (if negb (addReference =? 0)
   then dpiGen__setRefCount var error 1 ;; ret tt
   else ret tt) ;;
  modify_entry entry (set_bv_var var) ;;
  v <- get_var var ;;
  let dynamicBind :=
    truth (negb (isReturning stmt =? 0) || negb (v_isDynamic v =? 0)) in
  r <- (if pos >? 0 then
          if versionNum (env stmt) <? 12
          then external_err (E_bindByPos (handle stmt) pos dynamicBind var)
                 error
          else external_err (E_bindByPos2 (handle stmt) pos dynamicBind var)
                 error
        else
          if versionNum (env stmt) <? 12
          then external_err
                 (E_bindByName (handle stmt) name nameLength dynamicBind var)
                 error
          else external_err
                 (E_bindByName2 (handle stmt) name nameLength dynamicBind var)
                 error) ;;
  if r_status r <? 0 then ret DPI_FAILURE else
  let bindHandle := r_value r in
  attempt
    (if negb (t_charsetForm (v_type v) =? DPI_SQLCS_IMPLICIT)
     then dpiOci__attrSet bindHandle DPI_OCI_ATTR_CHARSET_FORM
            (t_charsetForm (v_type v)) error
     else ret DPI_SUCCESS) ;;
  attempt
    (if (t_sizeInBytes (v_type v) =? 0) && (v_isDynamic v =? 0)
     then dpiOci__attrSet bindHandle DPI_OCI_ATTR_MAXDATA_SIZE
            (v_sizeInBytes v) error
     else ret DPI_SUCCESS) ;;
  attempt
    (if negb (v_objectIndicator v =? 0)
     then r <- external_err (E_bindObject var bindHandle) error ;;
          ret (r_status r)
     else ret DPI_SUCCESS) ;;
  if negb (dynamicBind =? 0) then
    (if negb (isReturning stmt =? 0)
     then modify_var var (set_v_actualArraySize 0)
     else ret tt) ;;
    r <- external_err (E_bindDynamic var bindHandle) error ;;
    if r_status r <? 0 then ret DPI_FAILURE else ret DPI_SUCCESS
  else ret DPI_SUCCESS.

(** [dpiStmt__bind] *)
Definition dpiStmt__bind (var addReference pos : Z) (name : option string)
  (nameLength : Z) : M Z :=
  if (pos =? 0) && (nameLength =? 0) then
    dpiError__set "bind zero length name" DPI_ERR_NOT_SUPPORTED
  else
  stmt <- get_stmt ;;
  match dpiStmt__bind_find (Z.to_nat (numBindVars stmt)) 0 (bindVars stmt)
          pos name nameLength with
  | Some i =>
      let entry := at_ zeroBindVar (bindVars stmt) i in
      if bv_var entry =? var then ret DPI_SUCCESS else
      (if negb (bv_var entry =? 0) then
         dpiGen__setRefCount (bv_var entry) error (-1) ;;
         modify_entry i (set_bv_var 0)
       else ret tt) ;;
      dpiStmt__bind_perform i var addReference pos name nameLength
  | None =>
      attempt
        (if numBindVars stmt =? allocatedBindVars stmt then
           r <- external (E_calloc (u32 (allocatedBindVars stmt + 8))) ;;
           if r_status r <? 0 then
             dpiError__set "allocate bind vars" DPI_ERR_NO_MEMORY
           else
             let bindVars' :=
               repeat zeroBindVar
                 (Z.to_nat (u32 (allocatedBindVars stmt + 8))) in
             modify_stmt (set_bindVars (Some
               (match bindVars stmt with
                | Some _ =>
                    copy_entries (Z.to_nat (numBindVars stmt)) 0
                      (bindVars stmt) bindVars'
                | None => bindVars'
                end))) ;;
             modify_stmt
               (set_allocatedBindVars (u32 (allocatedBindVars stmt + 8))) ;;
             ret DPI_SUCCESS
         else ret DPI_SUCCESS) ;;
      let i := numBindVars stmt in
      modify_entry i (set_bv_var 0) ;;
      modify_entry i (set_bv_pos pos) ;;
      attempt
        (match name with
         | Some a =>
             r <- external (E_malloc nameLength) ;;
             if r_status r <? 0 then
               modify_entry i (set_bv_name None) ;;
               dpiError__set "allocate memory for name" DPI_ERR_NO_MEMORY
             else
               modify_entry i
                 (set_bv_name (Some (substring 0 (Z.to_nat nameLength) a))) ;;
               modify_entry i (set_bv_nameLength nameLength) ;;
               ret DPI_SUCCESS
         | None => ret DPI_SUCCESS
         end) ;;
      modify_stmt (set_numBindVars (u32 (numBindVars stmt + 1))) ;;
      dpiStmt__bind_perform i var addReference pos name nameLength
  end.

(** *** Query metadata *)

Definition modify_info (i : Z) (f : dpiQueryInfo -> dpiQueryInfo) : M unit :=
  modify_stmt (fun s =>
    set_queryInfo
      (store (queryInfo s) i (f (at_ zeroQueryInfo (queryInfo s) i))) s).

Definition get_info (i : Z) : M dpiQueryInfo :=
  s <- get_stmt ;; ret (at_ zeroQueryInfo (queryInfo s) i).

(** [dpiStmt__getQueryInfoFromParam]; [info] is [&stmt->queryInfo[info]]. *)
Definition dpiStmt__getQueryInfoFromParam (param info : Z) : M Z :=
  stmt <- get_stmt ;;
  r <- dpiOci__attrGet param DPI_OCI_ATTR_DATA_TYPE error ;;
  if r_status r <? 0 then ret DPI_FAILURE else
  let ociDataType := r_value r in
  r <- dpiOci__attrGet param DPI_OCI_ATTR_CHARSET_FORM error ;;
  if r_status r <? 0 then ret DPI_FAILURE else
  let charsetForm := r_value r in
  r <- dpiOci__attrGet param DPI_OCI_ATTR_SCALE error ;;
  if r_status r <? 0 then ret DPI_FAILURE else
  modify_info info (set_qi_scale (r_value r)) ;;
  r <- dpiOci__attrGet param DPI_OCI_ATTR_PRECISION error ;;
  if r_status r <? 0 then ret DPI_FAILURE else
  modify_info info (set_qi_precision (r_value r)) ;;
  r <- external_err (E_getFromQueryInfo ociDataType charsetForm) error ;;
  match r_type r with
  | None => ret DPI_FAILURE
  | Some oracleType =>
      modify_info info (set_qi_oracleTypeNum (t_oracleTypeNum oracleType)) ;;
      modify_info info
        (set_qi_defaultNativeTypeNum (t_defaultNativeTypeNum oracleType)) ;;
      i <- get_info info ;;
      (if (qi_oracleTypeNum i =? DPI_ORACLE_TYPE_NUMBER)
          && (qi_scale i =? 0) && (qi_precision i >? 0)
          && (qi_precision i <=? DPI_MAX_INT64_PRECISION)
       then modify_info info (set_qi_defaultNativeTypeNum DPI_NATIVE_TYPE_INT64)
       else ret tt) ;;
      r <- dpiOci__attrGet param DPI_OCI_ATTR_NAME error ;;
      if r_status r <? 0 then ret DPI_FAILURE else
      modify_info info (set_qi_name (r_value r)) ;;
      modify_info info (set_qi_nameLength (r_value2 r)) ;;
      modify_info info (set_qi_sizeInChars 0) ;;
      attempt
        (if t_oracleTypeNum oracleType =? DPI_ORACLE_TYPE_ROWID then
           modify_info info (set_qi_sizeInChars (t_sizeInBytes oracleType)) ;;
           modify_info info (set_qi_dbSizeInBytes (t_sizeInBytes oracleType)) ;;
           modify_info info
             (set_qi_clientSizeInBytes (t_sizeInBytes oracleType)) ;;
           ret DPI_SUCCESS
         else if t_sizeInBytes oracleType =? 0 then
           r <- dpiOci__attrGet param DPI_OCI_ATTR_DATA_SIZE error ;;
           if r_status r <? 0 then ret DPI_FAILURE else
           modify_info info (set_qi_dbSizeInBytes (r_value r)) ;;
           modify_info info (set_qi_clientSizeInBytes (r_value r)) ;;
           ret DPI_SUCCESS
         else
           modify_info info (set_qi_dbSizeInBytes 0) ;;
           modify_info info (set_qi_clientSizeInBytes 0) ;;
           ret DPI_SUCCESS) ;;
      attempt
        (if negb (t_isCharacterData oracleType =? 0)
            && (t_sizeInBytes oracleType =? 0) then
           r <- dpiOci__attrGet param DPI_OCI_ATTR_CHAR_SIZE error ;;
           if r_status r <? 0 then ret DPI_FAILURE else
           modify_info info (set_qi_sizeInChars (r_value r)) ;;
           c <- get_conn (conn stmt) ;;
           (if charsetForm =? DPI_SQLCS_NCHAR then
              modify_info info (set_qi_clientSizeInBytes
                (u32 (r_value r * nmaxBytesPerCharacter (env stmt))))
            else if negb (conn_charsetId c =? env_charsetId (env stmt)) then
              modify_info info (set_qi_clientSizeInBytes
                (u32 (r_value r * maxBytesPerCharacter (env stmt))))
            else ret tt) ;;
           ret DPI_SUCCESS
         else ret DPI_SUCCESS) ;;
      r <- dpiOci__attrGet param DPI_OCI_ATTR_IS_NULL error ;;
      if r_status r <? 0 then ret DPI_FAILURE else
      modify_info info (set_qi_nullOk (r_value r)) ;;
      if ociDataType =? DPI_SQLT_NTY then
        r <- external_err (E_objectTypeAllocate (conn stmt) param) error ;;
        if r_status r <? 0 then ret DPI_FAILURE else
        modify_info info (set_qi_objectType (r_value r)) ;;
        ret DPI_SUCCESS
      else ret DPI_SUCCESS
  end.

(** [dpiStmt__getQueryInfo] *)
Definition dpiStmt__getQueryInfo (pos info : Z) : M Z :=
  stmt <- get_stmt ;;
  r <- dpiOci__paramGet (handle stmt) pos error ;;
  if r_status r <? 0 then ret DPI_FAILURE else
  status <- dpiStmt__getQueryInfoFromParam (r_value r) info ;;
  dpiOci__descriptorFree (r_value r) ;;
  ret status.

Definition leave (r : option Z) : M Z :=
  match r with Some status => ret status | None => ret DPI_SUCCESS end.

(** [dpiStmt__createQueryVars] *)
Definition dpiStmt__createQueryVars : M Z :=
  stmt <- get_stmt ;;
  r <- dpiOci__attrGet (handle stmt) DPI_OCI_ATTR_PARAM_COUNT error ;;
  if r_status r <? 0 then ret DPI_FAILURE else
  let numQueryVars' := r_value r in
  (if (numQueryVars stmt >? 0) && negb (numQueryVars stmt =? numQueryVars')
   then dpiStmt__clearQueryVars
   else ret tt) ;;
  stmt <- get_stmt ;;
  attempt
    (if negb (numQueryVars' =? numQueryVars stmt) then
       r <- external (E_calloc numQueryVars') ;;
       modify_stmt (set_queryVars
         (if r_status r <? 0 then None
          else Some (repeat 0 (Z.to_nat numQueryVars')))) ;;
       if r_status r <? 0 then
         dpiError__set "allocate query vars" DPI_ERR_NO_MEMORY
       else
       r <- external (E_calloc numQueryVars') ;;
       modify_stmt (set_queryInfo
         (if r_status r <? 0 then None
          else Some (repeat zeroQueryInfo (Z.to_nat numQueryVars')))) ;;
       if r_status r <? 0 then
         dpiStmt__clearQueryVars ;;
         dpiError__set "allocate query info" DPI_ERR_NO_MEMORY
       else
       modify_stmt (set_numQueryVars numQueryVars') ;;
       r <- for_ (Z.to_nat numQueryVars') 0 (fun i =>
              status <- dpiStmt__getQueryInfo (i + 1) i ;;
              if status <? 0 then
                dpiStmt__clearQueryVars ;;
                ret (Some DPI_FAILURE)
              else ret None) ;;
       leave r
     else ret DPI_SUCCESS) ;;
  stmt <- get_stmt ;;
  modify_stmt (set_bufferRowIndex (fetchArraySize stmt)) ;;
  modify_stmt (set_hasRowsToFetch 1) ;;
  ret DPI_SUCCESS.

(** [dpiStmt__define] *)
Definition dpiStmt__define (pos var : Z) : M Z :=
  stmt <- get_stmt ;;
  if at_ 0 (queryVars stmt) (pos - 1) =? var then ret DPI_SUCCESS else
  r <- (if versionNum (env stmt) <? 12
        then external_err (E_defineByPos (handle stmt) pos var) error
        else external_err (E_defineByPos2 (handle stmt) pos var) error) ;;
  if r_status r <? 0 then ret DPI_FAILURE else
  let defineHandle := r_value r in
  v <- get_var var ;;
  attempt
    (if negb (t_charsetForm (v_type v) =? DPI_SQLCS_IMPLICIT)
     then dpiOci__attrSet defineHandle DPI_OCI_ATTR_CHARSET_FORM
            (t_charsetForm (v_type v)) error
     else ret DPI_SUCCESS) ;;
  attempt
    (if negb (v_objectIndicator v =? 0)
     then r <- external_err (E_defineObject var defineHandle) error ;;
          ret (r_status r)
     else ret DPI_SUCCESS) ;;
  attempt
    (if negb (v_isDynamic v =? 0)
     then r <- external_err (E_defineDynamic var defineHandle) error ;;
          ret (r_status r)
     else ret DPI_SUCCESS) ;;
  attempt
    (if negb (at_ 0 (queryVars stmt) (pos - 1) =? 0) then
       attempt dpiGen__setRefCount (at_ 0 (queryVars stmt) (pos - 1))
                 error (-1) ;;
       modify_stmt (fun s => set_queryVars (store (queryVars s) (pos - 1) 0) s) ;;
       ret DPI_SUCCESS
     else ret DPI_SUCCESS) ;;
  attempt dpiGen__setRefCount var error 1 ;;
  modify_stmt (fun s => set_queryVars (store (queryVars s) (pos - 1) var) s) ;;
  ret DPI_SUCCESS.

(** *** The fetch buffer *)

(** [dpiStmt__preFetch] *)
Definition dpiStmt__preFetch : M Z :=
  stmt <- get_stmt ;;
  attempt
    (match queryInfo stmt with
     | None => dpiStmt__createQueryVars
     | Some _ => ret DPI_SUCCESS
     end) ;;
  stmt <- get_stmt ;;
  r <- for_ (Z.to_nat (numQueryVars stmt)) 0 (fun i =>
         s <- get_stmt ;;
         let var := at_ 0 (queryVars s) i in
         defined <-
           (if var =? 0 then
              let queryInfo := at_ zeroQueryInfo (queryInfo s) i in
              r <- dpiVar__allocate (qi_oracleTypeNum queryInfo)
                     (qi_defaultNativeTypeNum queryInfo) (fetchArraySize s)
                     (qi_clientSizeInBytes queryInfo) 1
                     (qi_objectType queryInfo) error ;;
              if r_status r <? 0 then ret (DPI_FAILURE, var) else
              status <- dpiStmt__define (i + 1) (r_value r) ;;
              if status <? 0 then ret (DPI_FAILURE, r_value r) else
              dpiGen__setRefCount (r_value r) error (-1) ;;
              ret (DPI_SUCCESS, r_value r)
            else ret (DPI_SUCCESS, var)) ;;
         if fst defined <? 0 then ret (Some DPI_FAILURE) else
         let var := snd defined in
         modify_var var (set_v_error 1) ;;
         v <- get_var var ;;
         s <- get_stmt ;;
         if fetchArraySize s >? v_maxArraySize v then
           status <- dpiError__set "check array size"
                       DPI_ERR_ARRAY_SIZE_TOO_SMALL ;;
           ret (Some status)
         else if negb (v_requiresPreFetch v =? 0) then
           status <- dpiVar__extendedPreFetch var error ;;
           if status <? 0 then ret (Some DPI_FAILURE) else ret None
         else ret None) ;;
  leave r.

(** [dpiStmt__postFetch] *)
Definition dpiStmt__postFetch : M Z :=
  stmt <- get_stmt ;;
  r <- for_ (Z.to_nat (numQueryVars stmt)) 0 (fun i =>
         let var := at_ 0 (queryVars stmt) i in
         r <- for_ (Z.to_nat (bufferRowCount stmt)) 0 (fun j =>
                status <- dpiVar__getValue var j error ;;
                if status <? 0 then ret (Some DPI_FAILURE) else
                v <- get_var var ;;
                (if negb (t_requiresPreFetch (v_type v) =? 0)
                 then modify_var var (set_v_requiresPreFetch 1)
                 else ret tt) ;;
                ret None) ;;
         match r with
         | Some status => ret (Some status)
         | None => modify_var var (set_v_error 0) ;; ret None
         end) ;;
  leave r.

(** [dpiStmt__fetch] *)
Definition dpiStmt__fetch : M Z :=
  attempt dpiStmt__preFetch ;;
  stmt <- get_stmt ;;
  attempt dpiOci__stmtFetch2 (fetchArraySize stmt) DPI_MODE_FETCH_NEXT 0
            error ;;
  r <- dpiOci__attrGet (handle stmt) DPI_OCI_ATTR_ROWS_FETCHED error ;;
  if r_status r <? 0 then ret DPI_FAILURE else
  modify_stmt (set_bufferRowCount (r_value r)) ;;
  modify_stmt (fun s => set_bufferMinRow (u64 (rowCount s + 1)) s) ;;
  modify_stmt (set_bufferRowIndex 0) ;;
  attempt dpiStmt__postFetch ;;
  ret DPI_SUCCESS.

(** *** Execution *)

(** [dpiStmt__prepare] *)
Definition dpiStmt__prepare (sql sqlLength : Z) : M Z :=
  attempt dpiOci__stmtPrepare2 sql sqlLength error ;;
  dpiStmt__init.

(** [dpiStmt__execute], up to the protocol call: the bound values are
    moved to the wire buffers, the prefetch size is set for a query and the
    batch errors of an earlier execution are cleared.  [Some status] is a
    return from the function, [None] goes on to the call. *)
Definition dpiStmt__execute_prepare : M (option Z) :=
  stmt <- get_stmt ;;
  r <- for_ (Z.to_nat (numBindVars stmt)) 0 (fun i =>
         let var := bv_var (at_ zeroBindVar (bindVars stmt) i) in
         v <- get_var var ;;
         r <- for_ (Z.to_nat (v_maxArraySize v)) 0 (fun j =>
                v <- get_var var ;;
                if (t_oracleTypeNum (v_type v) =? DPI_ORACLE_TYPE_STMT)
                   && (nth (Z.to_nat j) (v_externalData v) 0 =? addr stmt)
                then
                  status <- dpiError__set "bind to self"
                              DPI_ERR_NOT_SUPPORTED ;;
                  ret (Some status)
                else
                  status <- dpiVar__setValue var j error ;;
                  if status <? 0 then ret (Some DPI_FAILURE) else ret None) ;;
         match r with
         | Some status => ret (Some status)
         | None =>
             v <- get_var var ;;
             (if negb (isReturning stmt =? 0) || negb (v_isDynamic v =? 0)
              then modify_var var (set_v_error 1)
              else ret tt) ;;
             ret None
         end) ;;
  match r with
  | Some status => ret (Some status)
  | None =>
      prefetch <-
        (if statementType stmt =? DPI_STMT_TYPE_SELECT
         then dpiOci__attrSet (handle stmt) DPI_OCI_ATTR_PREFETCH_ROWS
                (fetchArraySize stmt) error
         else ret DPI_SUCCESS) ;;
      if prefetch <? 0 then ret (Some DPI_FAILURE) else
      dpiStmt__clearBatchErrors ;;
      ret None
  end.

(** [dpiStmt__execute], after the protocol call has succeeded: the bound
    values are moved back where an output is possible, and a query is
    described. *)
Definition dpiStmt__execute_succeeded : M Z :=
  stmt <- get_stmt ;;
  attempt
    (if negb (isReturning stmt =? 0) || is_plsql (statementType stmt) then
       r <- for_ (Z.to_nat (numBindVars stmt)) 0 (fun i =>
              let var := bv_var (at_ zeroBindVar (bindVars stmt) i) in
              v <- get_var var ;;
              r <- for_ (Z.to_nat (v_maxArraySize v)) 0 (fun j =>
                     status <- dpiVar__getValue var j error ;;
                     if status <? 0 then ret (Some DPI_FAILURE)
                     else ret None) ;;
              match r with
              | Some status => ret (Some status)
              | None => modify_var var (set_v_error 0) ;; ret None
              end) ;;
       leave r
     else ret DPI_SUCCESS) ;;
  if statementType stmt =? DPI_STMT_TYPE_SELECT then
    attempt dpiStmt__createQueryVars ;;
    attempt dpiOci__attrSet (handle stmt) DPI_OCI_ATTR_PREFETCH_ROWS 0 error ;;
    ret DPI_SUCCESS
  else ret DPI_SUCCESS.

(** "adjust mode for scrollable cursors" *)
Definition execute_mode (stmt : dpiStmt) (mode : Z) : Z :=
  if negb (scrollable stmt =? 0)
  then Z.lor mode DPI_OCI_STMT_SCROLLABLE_READONLY
  else mode.

Section Execute.

(** [dpiStmt__execute] and [dpiStmt__reExecute] call each other; [self]
    stands for [dpiStmt__execute] in the bodies below. *)
Variable self : Z -> Z -> Z -> M Z.

(** [dpiStmt__reExecute].  [localError] shares the buffer of [error].  The
    loop bound [stmt->numBindVars] is read once: the locator passed to
    [dpiStmt__bind] is that of a slot of the registry, so that no slot is
    added while the loop runs. *)
Definition dpiStmt__reExecute (numIters mode : Z) : M Z :=
  let localError := error in
  stmt <- get_stmt ;;
  r <- dpiOci__attrGet (handle stmt) DPI_OCI_ATTR_STATEMENT localError ;;
  if r_status r <? 0 then ret DPI_FAILURE else
  let sql := r_value r in
  let sqlLength := r_value2 r in
  let origHandle := handle stmt in
  status <- dpiStmt__prepare sql sqlLength ;;
  stmt <- get_stmt ;;
  let newHandle := handle stmt in
  modify_stmt (set_handle origHandle) ;;
  modify_stmt (set_deleteFromCache 1) ;;
  released <- dpiOci__stmtRelease 1 localError ;;
  if (released <? 0) || (status <? 0) then ret DPI_FAILURE else
  modify_stmt (set_handle newHandle) ;;
  dpiStmt__clearBatchErrors ;;
  dpiStmt__clearQueryVars ;;
  stmt <- get_stmt ;;
  r <- for_ (Z.to_nat (numBindVars stmt)) 0 (fun i =>
         s <- get_stmt ;;
         let bindVar := at_ zeroBindVar (bindVars s) i in
         if bv_var bindVar =? 0 then ret None else
         let var := bv_var bindVar in
         modify_entry i (set_bv_var 0) ;;
         status <- dpiStmt__bind var 0 (bv_pos bindVar) (bv_name bindVar)
                     (bv_nameLength bindVar) ;;
         if status <? 0 then
           dpiGen__setRefCount var error (-1) ;;
           ret (Some DPI_FAILURE)
         else ret None) ;;
  match r with
  | Some status => ret status
  | None => self numIters mode 0
  end.

(** [dpiStmt__execute], the read of the parse error offset into
    [error->buffer->offset]; its result is not looked at. *)
Definition dpiStmt__execute_parseOffset : M unit :=
  stmt <- get_stmt ;;
  r <- dpiOci__attrGet (handle stmt) DPI_OCI_ATTR_PARSE_ERROR_OFFSET error ;;
  if r_status r <? 0 then ret tt else
  b <- get_error ;;
  write_buffer error
    (mkErrorBuffer (eb_code b) (r_value r) (eb_errorNum b) (eb_fnName b)
       (eb_action b)).

(** [dpiStmt__execute], the branch taken when [dpiOci__stmtExecute] has
    failed; [mode] is the adjusted mode. *)
Definition dpiStmt__execute_failed (numIters mode reExecute : Z) : M Z :=
  dpiStmt__execute_parseOffset ;;
  b <- get_error ;;
  if negb (reExecute =? 0) && (eb_code b =? 1007) then
    dpiStmt__reExecute numIters mode
  else
    (if negb (eb_code b =? 1)
     then modify_stmt (set_deleteFromCache 1)
     else ret tt) ;;
    ret DPI_FAILURE.

(** [dpiStmt__execute] *)
Definition dpiStmt__execute_body (numIters mode reExecute : Z) : M Z :=
  ready <- dpiStmt__execute_prepare ;;
  match ready with
  | Some status => ret status
  | None =>
      stmt <- get_stmt ;;
      let mode := execute_mode stmt mode in
      executed <- dpiOci__stmtExecute numIters mode error ;;
      if executed <? 0 then dpiStmt__execute_failed numIters mode reExecute
      else dpiStmt__execute_succeeded
  end.

End Execute.

(** The recursion is closed by unfolding the body [fuel] times; below the
    last level stands a function that is never reached, because the retry
    is made with [reExecute = 0] (see [dpiStmt__execute_fuel_enough]). *)
Fixpoint dpiStmt__execute_fuel (fuel : nat) : Z -> Z -> Z -> M Z :=
  match fuel with
  | O => fun _ _ _ => ret DPI_FAILURE
  | S fuel' => dpiStmt__execute_body (dpiStmt__execute_fuel fuel')
  end.

Definition dpiStmt__execute : Z -> Z -> Z -> M Z := dpiStmt__execute_fuel 2.

(** *** Batch errors *)

(** [dpiError__check(&localError, DPI_OCI_ERROR, ...)]: the message of the
    error held by the handle is rendered into the buffer of the structure
    it is given. *)
Definition dpiError__check (err : dpiError) (h : Z) : M Z :=
  r <- external (E_errorCheck h) ;;
  write_buffer err (r_error r) ;;
  ret (r_status r).

(** [error->handle], the error handle of the public call. *)
Definition error_handle : Z := -1.

Definition set_eb_fnName_offset (fnName : string) (offset : Z)
  (b : dpiErrorBuffer) : dpiErrorBuffer :=
  mkErrorBuffer (eb_code b) offset (eb_errorNum b) fnName (eb_action b).

(** The loop of [dpiStmt__getBatchErrors], [n] iterations from [i] on.  It
    yields [overallStatus] and the last [batchErrorHandle]. *)
Fixpoint dpiStmt__getBatchErrors_loop (n : nat) (i : Z)
  (localError : dpiError) (batchErrorHandle localErrorHandle : Z)
  : M (Z * Z) :=
  match n with
  | O => ret (DPI_SUCCESS, batchErrorHandle)
  | S n' =>
      r <- dpiOci__paramGet error_handle i error ;;
      if r_status r <? 0 then
        status <- dpiError__set "get batch error" DPI_ERR_INVALID_INDEX ;;
        ret (status, batchErrorHandle)
      else
      let batchErrorHandle := r_value r in
      r <- dpiOci__attrGet batchErrorHandle DPI_OCI_ATTR_DML_ROW_OFFSET
             localError ;;
      if r_status r <? 0 then
        status <- dpiError__set "get row offset"
                    DPI_ERR_CANNOT_GET_ROW_OFFSET ;;
        ret (status, batchErrorHandle)
      else
      let rowOffset := r_value r in
      let localError := localError_batch i in
      dpiError__check localError batchErrorHandle ;;
      b <- get_error ;;
      match eb_errorNum b with
      | DPI_ERR_NO_ERR =>
          modify_stmt (fun s =>
            set_batchErrors
              (store (batchErrors s) i
                 (set_eb_fnName_offset (eb_fnName b) rowOffset
                    (at_ noError (batchErrors s) i))) s) ;;
          dpiStmt__getBatchErrors_loop n' (i + 1) localError batchErrorHandle
            localErrorHandle
      | _ => ret (DPI_FAILURE, batchErrorHandle)
      end
  end.

(** [dpiStmt__getBatchErrors], from "cleanup" on. *)
Definition dpiStmt__getBatchErrors_cleanup (overallStatus localErrorHandle
  batchErrorHandle : Z) : M Z :=
  dpiOci__handleFree localErrorHandle ;;
  dpiOci__handleFree batchErrorHandle ;;
  (if overallStatus <? 0 then dpiStmt__clearBatchErrors else ret tt) ;;
  ret overallStatus.

(** [dpiStmt__getBatchErrors] *)
Definition dpiStmt__getBatchErrors : M Z :=
  stmt <- get_stmt ;;
  r <- dpiOci__attrGet (handle stmt) DPI_OCI_ATTR_NUM_DML_ERRORS error ;;
  if r_status r <? 0 then ret DPI_FAILURE else
  modify_stmt (set_numBatchErrors (r_value r)) ;;
  a <- external (E_calloc (r_value r)) ;;
  modify_stmt (set_batchErrors
    (if r_status a <? 0 then None
     else Some (repeat noError (Z.to_nat (r_value r))))) ;;
  if r_status a <? 0 then
    modify_stmt (set_numBatchErrors 0) ;;
    dpiError__set "allocate errors" DPI_ERR_NO_MEMORY
  else
  l <- dpiOci__handleAlloc "allocate parameter error handle" error ;;
  if r_status l <? 0 then
    dpiStmt__clearBatchErrors ;;
    ret DPI_FAILURE
  else
  let localErrorHandle := r_value l in
  b <- dpiOci__handleAlloc "allocate batch error handle" error ;;
  if r_status b <? 0 then
    dpiStmt__clearBatchErrors ;;
    dpiOci__handleFree localErrorHandle ;;
    ret DPI_FAILURE
  else
  out <- dpiStmt__getBatchErrors_loop (Z.to_nat (r_value r)) 0 error
           (r_value b) localErrorHandle ;;
  dpiStmt__getBatchErrors_cleanup (fst out) localErrorHandle (snd out).

(** *** Public functions

    A pointer parameter is the address it holds, 0 for NULL.  What a
    function stores through its out-parameters is returned next to the
    status, [None] when nothing is stored. *)

(** [dpiStmt_bindByName] *)
Definition dpiStmt_bindByName (name : option string) (nameLength var : Z)
  : M Z :=
  attempt dpiStmt__checkOpen "dpiStmt_bindByName" ;;
  match name with
  | None => dpiError__set "check parameter" DPI_ERR_NULL_POINTER_PARAMETER
  | Some _ =>
      attempt dpiGen__checkHandle var "bind by name" error ;;
      dpiStmt__bind var 1 0 name nameLength
  end.

(** [dpiStmt_bindByPos] *)
Definition dpiStmt_bindByPos (pos var : Z) : M Z :=
  attempt dpiStmt__checkOpen "dpiStmt_bindByPos" ;;
  attempt dpiGen__checkHandle var "bind by pos" error ;;
  dpiStmt__bind var 1 pos None 0.

(** [dpiStmt_execute] *)
Definition dpiStmt_execute (mode numQueryColumns : Z) : M (Z * option Z) :=
  opened <- dpiStmt__checkOpen "dpiStmt_execute" ;;
  if opened <? 0 then ret (DPI_FAILURE, None) else
  stmt <- get_stmt ;;
  let numIters :=
    if statementType stmt =? DPI_STMT_TYPE_SELECT then 0 else 1 in
  status <- dpiStmt__execute numIters mode 1 ;;
  if status <? 0 then ret (DPI_FAILURE, None) else
  stmt <- get_stmt ;;
  ret (DPI_SUCCESS,
       if negb (numQueryColumns =? 0) then Some (numQueryVars stmt) else None).

(** [dpiStmt_executeMany] *)
Definition dpiStmt_executeMany (mode numIters : Z) : M Z :=
  attempt dpiStmt__checkOpen "dpiStmt_executeMany" ;;
  stmt <- get_stmt ;;
  if statementType stmt =? DPI_STMT_TYPE_SELECT then
    dpiError__set "check statement type" DPI_ERR_NOT_SUPPORTED
  else
  r <- for_ (Z.to_nat (numBindVars stmt)) 0 (fun i =>
         v <- get_var (bv_var (at_ zeroBindVar (bindVars stmt) i)) ;;
         if v_maxArraySize v <? numIters then
           status <- dpiError__set "check array size"
                       DPI_ERR_ARRAY_SIZE_TOO_SMALL ;;
           ret (Some status)
         else ret None) ;;
  match r with
  | Some status => ret status
  | None =>
      dpiStmt__clearBatchErrors ;;
      attempt dpiStmt__execute numIters mode 0 ;;
      if negb (Z.land mode DPI_MODE_EXEC_BATCH_ERRORS =? 0) then
        attempt dpiStmt__getBatchErrors ;;
        ret DPI_SUCCESS
      else ret DPI_SUCCESS
  end.

(** [dpiStmt_fetch], from [*found = 1] on: the row handed out. *)
Definition dpiStmt_fetch_take : M (Z * option Z * option Z) :=
  stmt <- get_stmt ;;
  modify_stmt (set_bufferRowIndex (u32 (bufferRowIndex stmt + 1))) ;;
  modify_stmt (set_rowCount (u64 (rowCount stmt + 1))) ;;
  ret (DPI_SUCCESS, Some 1, Some (bufferRowIndex stmt)).

(** [dpiStmt_fetch]; yields the status, [*found] and [*bufferRowIndex]. *)
Definition dpiStmt_fetch (found bufferRowIndex_ : Z)
  : M (Z * option Z * option Z) :=
  let failed {A : Type} (m : M A) := m ;; ret (DPI_FAILURE, None, None) in
  opened <- dpiStmt__checkOpen "dpiStmt_fetch" ;;
  if opened <? 0 then ret (DPI_FAILURE, None, None) else
  if found =? 0 then
    failed (dpiError__set "check parameter" DPI_ERR_NULL_POINTER_PARAMETER)
  else if bufferRowIndex_ =? 0 then
    failed (dpiError__set "check parameter" DPI_ERR_NULL_POINTER_PARAMETER)
  else
  stmt <- get_stmt ;;
  if bufferRowIndex stmt >=? bufferRowCount stmt then
    fetched <- (if negb (hasRowsToFetch stmt =? 0)
                then dpiStmt__fetch
                else ret DPI_SUCCESS) ;;
    if fetched <? 0 then ret (DPI_FAILURE, None, None) else
    stmt <- get_stmt ;;
    if bufferRowIndex stmt >=? bufferRowCount stmt then
      ret (DPI_SUCCESS, Some 0, None)
    else dpiStmt_fetch_take
  else dpiStmt_fetch_take.

(** What [dpiStmt_fetchRows] stores through its out-parameters. *)
Record FetchedRows : Type := mkFetchedRows {
  out_bufferRowIndex : Z;
  out_numRowsFetched : Z;
  out_moreRows : Z
}.

(** [dpiStmt_fetchRows], after the fetch, if any: the rows handed out. *)
Definition dpiStmt_fetchRows_take (maxRows : Z) : M (Z * option FetchedRows) :=
  stmt <- get_stmt ;;
  let available := u32 (bufferRowCount stmt - bufferRowIndex stmt) in
  let numRowsFetched := if available >? maxRows then maxRows else available in
  let moreRows := if available >? maxRows then 1 else hasRowsToFetch stmt in
  modify_stmt (set_bufferRowIndex (u32 (bufferRowIndex stmt + numRowsFetched))) ;;
  modify_stmt (set_rowCount (u64 (rowCount stmt + numRowsFetched))) ;;
  ret (DPI_SUCCESS,
       Some (mkFetchedRows (bufferRowIndex stmt) numRowsFetched moreRows)).

(** [dpiStmt_fetchRows] *)
Definition dpiStmt_fetchRows (maxRows bufferRowIndex_ numRowsFetched
  moreRows : Z) : M (Z * option FetchedRows) :=
  let failed {A : Type} (m : M A) := m ;; ret (DPI_FAILURE, None) in
  opened <- dpiStmt__checkOpen "dpiStmt_fetchRows" ;;
  if opened <? 0 then ret (DPI_FAILURE, None) else
  if bufferRowIndex_ =? 0 then
    failed (dpiError__set "check parameter" DPI_ERR_NULL_POINTER_PARAMETER)
  else if numRowsFetched =? 0 then
    failed (dpiError__set "check parameter" DPI_ERR_NULL_POINTER_PARAMETER)
  else if moreRows =? 0 then
    failed (dpiError__set "check parameter" DPI_ERR_NULL_POINTER_PARAMETER)
  else
  stmt <- get_stmt ;;
  if bufferRowIndex stmt >=? bufferRowCount stmt then
    fetched <- (if negb (hasRowsToFetch stmt =? 0)
                then dpiStmt__fetch
                else ret DPI_SUCCESS) ;;
    if fetched <? 0 then ret (DPI_FAILURE, None) else
    stmt <- get_stmt ;;
    if bufferRowIndex stmt >=? bufferRowCount stmt then
      ret (DPI_SUCCESS, Some (mkFetchedRows 0 0 0))
    else dpiStmt_fetchRows_take maxRows
  else dpiStmt_fetchRows_take maxRows.

(** [dpiStmt_getBatchErrorCount] *)
Definition dpiStmt_getBatchErrorCount (count_ : Z) : M (Z * option Z) :=
  opened <- dpiStmt__checkOpen "dpiStmt_getBatchErrorCount" ;;
  if opened <? 0 then ret (DPI_FAILURE, None) else
  if count_ =? 0 then
    dpiError__set "check parameter" DPI_ERR_NULL_POINTER_PARAMETER ;;
    ret (DPI_FAILURE, None)
  else
  stmt <- get_stmt ;;
  ret (DPI_SUCCESS, Some (numBatchErrors stmt)).

(** [dpiStmt_getBindCount] *)
Definition dpiStmt_getBindCount (count_ : Z) : M (Z * option Z) :=
  opened <- dpiStmt__checkOpen "dpiStmt_getBindCount" ;;
  if opened <? 0 then ret (DPI_FAILURE, None) else
  if count_ =? 0 then
    dpiError__set "check parameter" DPI_ERR_NULL_POINTER_PARAMETER ;;
    ret (DPI_FAILURE, None)
  else
  stmt <- get_stmt ;;
  r <- dpiOci__attrGet (handle stmt) DPI_OCI_ATTR_BIND_COUNT error ;;
  ret (if r_status r <? 0 then (DPI_FAILURE, None)
       else (DPI_SUCCESS, Some (r_value r))).

(** [dpiStmt_setFetchArraySize] *)
Definition dpiStmt_setFetchArraySize (arraySize : Z) : M Z :=
  attempt dpiStmt__checkOpen "dpiStmt_setFetchArraySize" ;;
  let arraySize :=
    if arraySize =? 0 then DPI_DEFAULT_FETCH_ARRAY_SIZE else arraySize in
  stmt <- get_stmt ;;
  r <- for_ (Z.to_nat (numQueryVars stmt)) 0 (fun i =>
         let var := at_ 0 (queryVars stmt) i in
         v <- get_var var ;;
         if negb (var =? 0) && (v_maxArraySize v <? arraySize) then
           status <- dpiError__set "check array size"
                       DPI_ERR_ARRAY_SIZE_TOO_BIG ;;
           ret (Some status)
         else ret None) ;;
  match r with
  | Some status => ret status
  | None => modify_stmt (set_fetchArraySize arraySize) ;; ret DPI_SUCCESS
  end.

(** The first switch of [dpiStmt_scroll]: the desired row and the offset to
    pass on, or [None] for a mode outside the enumeration.  For
    [DPI_MODE_FETCH_LAST] the C variable is left uninitialised and never
    read; 0 stands for it. *)
Definition dpiStmt_scroll_target (stmt : dpiStmt) (mode : dpiFetchMode)
  (offset rowCountOffset : Z) : option (Z * Z) :=
  match mode with
  | DPI_MODE_FETCH_NEXT =>
      Some (u64 (rowCount stmt + rowCountOffset + 1), offset)
  | DPI_MODE_FETCH_PRIOR =>
      Some (u64 (rowCount stmt + rowCountOffset - 1), offset)
  | DPI_MODE_FETCH_FIRST => Some (1, offset)
  | DPI_MODE_FETCH_LAST => Some (0, offset)
  | DPI_MODE_FETCH_ABSOLUTE => Some (u64 offset, offset)
  | DPI_MODE_FETCH_RELATIVE =>
      let desiredRow := u64 (rowCount stmt + rowCountOffset + offset) in
      Some (desiredRow,
            i32 (desiredRow
                 - u64 (bufferMinRow stmt + bufferRowCount stmt - 1)))
  | DPI_MODE_FETCH_other _ => None
  end.

Definition is_last (mode : dpiFetchMode) : bool :=
  match mode with DPI_MODE_FETCH_LAST => true | _ => false end.

Definition is_first (mode : dpiFetchMode) : bool :=
  match mode with DPI_MODE_FETCH_FIRST => true | _ => false end.

(** "determine if a fetch is actually required": the test of
    [dpiStmt_scroll] that the desired row is buffered. *)
Definition in_window (stmt : dpiStmt) (mode : dpiFetchMode) (desiredRow : Z)
  : bool :=
  negb (is_last mode) && (desiredRow >=? bufferMinRow stmt)
  && (desiredRow <? u64 (bufferMinRow stmt + bufferRowCount stmt)).

(** [dpiStmt_scroll] *)
Definition dpiStmt_scroll (mode : dpiFetchMode) (offset rowCountOffset : Z)
  : M Z :=
  attempt dpiStmt__checkOpen "dpiStmt_scroll" ;;
  stmt <- get_stmt ;;
  match dpiStmt_scroll_target stmt mode offset rowCountOffset with
  | None => dpiError__set "scroll mode" DPI_ERR_NOT_SUPPORTED
  | Some (desiredRow, offset) =>
      if in_window stmt mode desiredRow then
        modify_stmt
          (set_bufferRowIndex (u32 (desiredRow - bufferMinRow stmt))) ;;
        modify_stmt (set_rowCount (u64 (desiredRow - 1))) ;;
        ret DPI_SUCCESS
      else
      attempt dpiStmt__preFetch ;;
      stmt <- get_stmt ;;
      let numRows := if is_last mode then 1 else fetchArraySize stmt in
      attempt dpiOci__stmtFetch2 numRows mode offset error ;;
      r <- dpiOci__attrGet (handle stmt) DPI_OCI_ATTR_ROWS_FETCHED error ;;
      if r_status r <? 0 then ret DPI_FAILURE else
      modify_stmt (set_bufferRowCount (r_value r)) ;;
      if r_value r =? 0 then
        if negb (is_first mode) && negb (is_last mode) then
          dpiError__set "check result set bounds" DPI_ERR_SCROLL_OUT_OF_RS
        else
          modify_stmt (set_hasRowsToFetch 0) ;;
          modify_stmt (set_rowCount 0) ;;
          modify_stmt (set_bufferRowIndex 0) ;;
          modify_stmt (set_bufferMinRow 0) ;;
          ret DPI_SUCCESS
      else
      c <- dpiOci__attrGet (handle stmt) DPI_OCI_ATTR_CURRENT_POSITION error ;;
      if r_status c <? 0 then ret DPI_FAILURE else
      let currentPosition := r_value c in
      modify_stmt (set_rowCount (u32 (currentPosition - r_value r))) ;;
      modify_stmt (fun s => set_bufferMinRow (u64 (rowCount s + 1)) s) ;;
      modify_stmt (set_bufferRowIndex 0) ;;
      attempt dpiStmt__postFetch ;;
      ret DPI_SUCCESS
  end.

End WithOracle.

(** ** Sample environments and states

    Concrete inputs on which the statements below are exercised. *)

Definition ok_reply (value : Z) : Reply :=
  mkReply 0 value 0 noError None None None.

Definition failure_reply (code : Z) : Reply :=
  mkReply (-1) 0 0 (mkErrorBuffer code 0 (DPI_ERR_other code) "" "oci")
    None None None.

(** An environment whose reply depends on the call alone. *)
Definition oracle_of (f : Event -> Reply) : Oracle :=
  fun t => match t with e :: _ => f e | [] => ok_reply 0 end.

(** Every call succeeds and hands back 0. *)
Definition oracle_ok : Oracle := oracle_of (fun _ => ok_reply 0).

Definition sample_type : dpiOracleType :=
  mkOracleType DPI_ORACLE_TYPE_NUMBER DPI_NATIVE_TYPE_INT64
    DPI_SQLCS_IMPLICIT 22 0 0.

Definition sample_var (maxArraySize : Z) : dpiVar :=
  mkVar sample_type DPI_NATIVE_TYPE_INT64 maxArraySize maxArraySize 22 0 0 0
    0 [].

(** An open query statement (a SELECT), prepared on a version 12 client
    over the live connection at address 2000, with nothing bound, defined
    or buffered. *)
Definition sample_stmt : dpiStmt :=
  mkStmt 1000 (mkEnv 12 873 4 4) 2000 3000 DPI_DEFAULT_FETCH_ARRAY_SIZE 0 0 0
    None None 0 0 None 0 None 0 0 DPI_STMT_TYPE_SELECT 0 1 1 0 0.

Definition sample_state (stmt : dpiStmt) : St :=
  mkSt stmt [] (fun _ => 1) (fun _ => sample_var 100)
    (fun _ => mkConn 2001 0 873) noError.

(** ** Vocabulary of the statements *)

(** [frame R m]: running [m] takes any state to one related to it by [R]. *)
Definition frame (R : St -> St -> Prop) {A : Type} (m : M A) : Prop :=
  forall s, R s (snd (m s)).

(** The calls selected by [p] are the same before and after. *)
Definition same_calls (p : Event -> bool) (s s' : St) : Prop :=
  filter p (st_trace s') = filter p (st_trace s).

(** A field, or any view, of the statement is the same before and after. *)
Definition same_on {A : Type} (f : dpiStmt -> A) (s s' : St) : Prop :=
  f (st_stmt s') = f (st_stmt s).

(** The reference count of [p] is the same before and after. *)
Definition same_refCount (p : Z) (s s' : St) : Prop :=
  st_refCount s' p = st_refCount s p.

(** A statement after a successful close. *)
Definition closed (stmt : dpiStmt) : Prop :=
  handle stmt = 0 /\ conn stmt = 0
  /\ bindVars stmt = None /\ numBindVars stmt = 0
  /\ allocatedBindVars stmt = 0
  /\ queryVars stmt = None /\ queryInfo stmt = None
  /\ numQueryVars stmt = 0
  /\ batchErrors stmt = None /\ numBatchErrors stmt = 0.

(** The state the open guard leaves when it lets a call through without
    having to initialise the statement. *)
Definition guarded (oracle : Oracle) (fnName : string) (s : St) : St :=
  with_st_error (r_error (oracle (E_startPublicFn fnName :: st_trace s)))
    (with_st_trace (E_startPublicFn fnName :: st_trace s) s).

(** The handle scaffold accepts the statement handle whenever asked. *)
Definition valid_handle (oracle : Oracle) : Prop :=
  forall fnName t, 0 <= r_status (oracle (E_startPublicFn fnName :: t)).

(** An open statement that has been initialised, on a live connection. *)
Definition open_stmt (s : St) : Prop :=
  handle (st_stmt s) <> 0
  /\ conn_handle (st_conns s (conn (st_stmt s))) <> 0
  /\ conn_closing (st_conns s (conn (st_stmt s))) = 0
  /\ statementType (st_stmt s) <> 0.

(** The state [dpiStmt_fetch] leaves when it hands out a buffered row. *)
Definition row_taken (oracle : Oracle) (s : St) : St :=
  with_st_stmt
    (set_rowCount (u64 (rowCount (st_stmt s) + 1))
       (set_bufferRowIndex (u32 (bufferRowIndex (st_stmt s) + 1)) (st_stmt s)))
    (guarded oracle "dpiStmt_fetch" s).

(** The server reports [n] rows for each fetch; every call succeeds. *)
Definition oracle_rows (n : Z) : Oracle :=
  oracle_of (fun e =>
    match e with
    | E_attrGet _ DPI_OCI_ATTR_ROWS_FETCHED => ok_reply n
    | _ => ok_reply 0
    end).

(** A query of one column, described and defined (the value resource at
    address 5000), with a fetch array size of 3 and a window of
    [bufferRowCount] rows read up to [bufferRowIndex]. *)
Definition query_stmt (bufferRowIndex bufferRowCount : Z) : dpiStmt :=
  set_bufferRowIndex bufferRowIndex
    (set_bufferRowCount bufferRowCount
       (set_bufferMinRow 1
          (set_fetchArraySize 3
             (set_numQueryVars 1
                (set_queryVars (Some [5000])
                   (set_queryInfo (Some [zeroQueryInfo]) sample_stmt)))))).

(** [numRows] of [dpiStmt_scroll]: "when fetching the last row, only fetch
    a single row". *)
Definition scroll_numRows (stmt : dpiStmt) (mode : dpiFetchMode) : Z :=
  if is_last mode then 1 else fetchArraySize stmt.

(** The state after [dpiStmt_scroll] has repositioned inside the window. *)
Definition repositioned (desiredRow : Z) (s : St) : St :=
  with_st_stmt
    (set_rowCount (u64 (desiredRow - 1))
       (set_bufferRowIndex (u32 (desiredRow - bufferMinRow (st_stmt s)))
          (st_stmt s))) s.

(** The state after [dpiStmt_scroll] has found the result set empty. *)
Definition emptied (s : St) : St :=
  with_st_stmt
    (set_bufferMinRow 0
       (set_bufferRowIndex 0
          (set_rowCount 0
             (set_hasRowsToFetch 0 (set_bufferRowCount 0 (st_stmt s)))))) s.

(** As [sample_state], with value resources of one element. *)
Definition small_var_state (stmt : dpiStmt) : St :=
  mkSt stmt [] (fun _ => 1) (fun _ => sample_var 1)
    (fun _ => mkConn 2001 0 873) noError.

(** The protocol execute call fails with the server error [code]; every
    other call succeeds. *)
Definition oracle_execute_fails (code : Z) : Oracle :=
  oracle_of (fun e =>
    match e with
    | E_stmtExecute _ _ _ => failure_reply code
    | _ => ok_reply 0
    end).

(** *** The protocol execute call of an execution

    [dpiStmt__execute] reaches [dpiOci__stmtExecute] when the steps before
    it let it through.  The state right after the call, whether the call
    failed, and the state in which the failure is classified (after the
    parse error offset has been read). *)
Definition execute_call (oracle : Oracle) (numIters mode : Z) (s : St)
  : Z * St :=
  let sa := snd (dpiStmt__execute_prepare oracle s) in
  dpiOci__stmtExecute oracle numIters (execute_mode (st_stmt sa) mode) error
    sa.

Definition execute_call_failed (oracle : Oracle) (numIters mode : Z)
  (s : St) : bool :=
  match fst (dpiStmt__execute_prepare oracle s) with
  | Some _ => false
  | None => fst (execute_call oracle numIters mode s) <? 0
  end.

Definition execute_classified (oracle : Oracle) (numIters mode : Z)
  (s : St) : St :=
  snd (dpiStmt__execute_parseOffset oracle
         (snd (execute_call oracle numIters mode s))).

(** The server error code looked at by the classification. *)
Definition execute_error_code (oracle : Oracle) (numIters mode : Z)
  (s : St) : Z :=
  eb_code (st_error (execute_classified oracle numIters mode s)).

(** The test that sends [dpiStmt__execute] into [dpiStmt__reExecute]. *)
Definition recovery_taken (oracle : Oracle) (numIters mode reExecute : Z)
  (s : St) : bool :=
  execute_call_failed oracle numIters mode s
  && negb (reExecute =? 0)
  && (execute_error_code oracle numIters mode s =? 1007).

(** The bind registry as a caller can tell it apart: the slots in use. *)
Definition registry (stmt : dpiStmt) : Z * Z * option (list dpiBindVar) :=
  (numBindVars stmt, allocatedBindVars stmt, bindVars stmt).


(** The slot [i] of the registry bound to [var], the rest as it is. *)
Definition rebound (stmt : dpiStmt) (i var : Z) : option (list dpiBindVar) :=
  store (bindVars stmt) i
    (set_bv_var var (at_ zeroBindVar (bindVars stmt) i)).

(** The server reports [n] bind variables in the SQL text; every call
    succeeds. *)
Definition oracle_bind_count (n : Z) : Oracle :=
  oracle_of (fun e =>
    match e with
    | E_attrGet _ DPI_OCI_ATTR_BIND_COUNT => ok_reply n
    | _ => ok_reply 0
    end).

(** An open statement that is not a query (an INSERT). *)
Definition dml_stmt : dpiStmt := set_statementType 4 sample_stmt.

(** Position 1 of [dml_stmt] bound to the value resource at 5000. *)
Definition bound_state (oracle : Oracle) : St :=
  snd (dpiStmt_bindByPos oracle 1 5000 (sample_state dml_stmt)).

(** ... and then bound to the value resource at 6000. *)
Definition rebound_state (oracle : Oracle) : St :=
  snd (dpiStmt_bindByPos oracle 1 6000 (bound_state oracle)).

(** No batch error is accessible. *)
Definition batch_errors_cleared (stmt : dpiStmt) : Prop :=
  numBatchErrors stmt = 0 /\ batchErrors stmt = None.

Definition keeps_cleared (s s' : St) : Prop :=
  batch_errors_cleared (st_stmt s) -> batch_errors_cleared (st_stmt s').

(** [dpiStmt__getBatchErrors] starts by reading the number of errors, and
    nothing else in the file reads that attribute. *)
Definition is_collection_start (e : Event) : bool :=
  match e with E_attrGet _ DPI_OCI_ATTR_NUM_DML_ERRORS => true | _ => false end.

(** The server reports two failed iterations of a batch; reading the row
    offset of the second one fails, every other call succeeds. *)
Definition oracle_batch_offset_fails : Oracle :=
  fun t =>
    match t with
    | E_attrGet _ DPI_OCI_ATTR_NUM_DML_ERRORS :: _ => ok_reply 2
    | E_attrGet _ DPI_OCI_ATTR_DML_ROW_OFFSET :: t' =>
        if existsb
             (fun e =>
                match e with
                | E_attrGet _ DPI_OCI_ATTR_DML_ROW_OFFSET => true
                | _ => false
                end) t'
        then failure_reply 24333
        else ok_reply 0
    | _ => ok_reply 0
    end.

(** The three steps of one iteration of the loop of
    [dpiStmt__getBatchErrors]: acquiring the error handle of the iteration,
    reading its row offset and rendering its message. *)
Definition handle_step (oracle : Oracle) (i : Z) (s : St) : Reply * St :=
  dpiOci__paramGet oracle error_handle i error s.

Definition offset_step (oracle : Oracle) (i : Z) (localError : dpiError)
  (s : St) : Reply * St :=
  let p := handle_step oracle i s in
  dpiOci__attrGet oracle (r_value (fst p)) DPI_OCI_ATTR_DML_ROW_OFFSET
    localError (snd p).

Definition render_step (oracle : Oracle) (i : Z) (localError : dpiError)
  (s : St) : Z * St :=
  let p := handle_step oracle i s in
  let o := offset_step oracle i localError s in
  dpiError__check oracle (localError_batch i) (r_value (fst p)) (snd o).

(** Acquiring the error handle of the iteration fails, or reading its row
    offset does: the two steps whose status the loop looks at. *)
Definition collection_step_fails (oracle : Oracle) (i : Z)
  (localError : dpiError) (s : St) : bool :=
  (r_status (fst (handle_step oracle i s)) <? 0)
  || (r_status (fst (offset_step oracle i localError s)) <? 0).

(** The collection of the batch errors was started between two states. *)
Definition collection_started (s s' : St) : Prop :=
  filter is_collection_start (st_trace s')
  <> filter is_collection_start (st_trace s).

(** ** Further public functions of [dpiStmt.c] *)

Section Accessors.

Variable oracle : Oracle.

(** [!stmt->queryInfo && dpiStmt__createQueryVars(stmt, &error) < 0]: the
    describe made on demand by the functions that take a query position. *)
Definition describe_on_demand : M Z :=
  stmt <- get_stmt ;;
  match queryInfo stmt with
  | None => dpiStmt__createQueryVars oracle
  | Some _ => ret DPI_SUCCESS
  end.

(** [pos == 0 || pos > stmt->numQueryVars] *)
Definition bad_position (stmt : dpiStmt) (pos : Z) : bool :=
  (pos =? 0) || (pos >? numQueryVars stmt).

(** [dpiStmt_define] *)
Definition dpiStmt_define (pos var : Z) : M Z :=
  attempt dpiStmt__checkOpen oracle "dpiStmt_define" ;;
  attempt describe_on_demand ;;
  stmt <- get_stmt ;;
  if bad_position stmt pos then
    dpiError__set "check query position" DPI_ERR_QUERY_POSITION_INVALID
  else
  attempt dpiGen__checkHandle oracle var "check variable" error ;;
  dpiStmt__define oracle pos var.

(** [dpiStmt_defineValue] *)
Definition dpiStmt_defineValue (pos oracleTypeNum nativeTypeNum size
  sizeIsBytes objType : Z) : M Z :=
  attempt dpiStmt__checkOpen oracle "dpiStmt_defineValue" ;;
  attempt describe_on_demand ;;
  stmt <- get_stmt ;;
  if bad_position stmt pos then
    dpiError__set "check query position" DPI_ERR_QUERY_POSITION_INVALID
  else
  r <- dpiVar__allocate oracle oracleTypeNum nativeTypeNum
         (fetchArraySize stmt) size sizeIsBytes objType error ;;
  if r_status r <? 0 then ret DPI_FAILURE else
  let var := r_value r in
  attempt dpiStmt__define oracle pos var ;;
  dpiGen__setRefCount oracle var error (-1) ;;
  ret DPI_SUCCESS.

(** [dpiStmt_getBatchErrors].  [errors[i]] is filled in by
    [dpiError__getInfo] from [stmt->batchErrors[i]]; the buffers it is
    given are handed back, in the order of the array. *)
Definition dpiStmt_getBatchErrors (numErrors errors : Z)
  : M (Z * option (list dpiErrorBuffer)) :=
  opened <- dpiStmt__checkOpen oracle "dpiStmt_getBatchErrors" ;;
  if opened <? 0 then ret (DPI_FAILURE, None) else
  if errors =? 0 then
    dpiError__set "check parameter" DPI_ERR_NULL_POINTER_PARAMETER ;;
    ret (DPI_FAILURE, None)
  else
  stmt <- get_stmt ;;
  if numErrors <? numBatchErrors stmt then
    dpiError__set "check num errors" DPI_ERR_ARRAY_SIZE_TOO_SMALL ;;
    ret (DPI_FAILURE, None)
  else
  ret (DPI_SUCCESS,
       Some (map (fun i => at_ noError (batchErrors stmt) (Z.of_nat i))
               (seq 0 (Z.to_nat (numBatchErrors stmt))))).

(** [dpiStmt_getFetchArraySize] *)
Definition dpiStmt_getFetchArraySize (arraySize : Z) : M (Z * option Z) :=
  opened <- dpiStmt__checkOpen oracle "dpiStmt_getFetchArraySize" ;;
  if opened <? 0 then ret (DPI_FAILURE, None) else
  if arraySize =? 0 then
    dpiError__set "check parameter" DPI_ERR_NULL_POINTER_PARAMETER ;;
    ret (DPI_FAILURE, None)
  else
  stmt <- get_stmt ;;
  ret (DPI_SUCCESS, Some (fetchArraySize stmt)).

(** [dpiStmt_getNumQueryColumns] *)
Definition dpiStmt_getNumQueryColumns (numQueryColumns : Z)
  : M (Z * option Z) :=
  opened <- dpiStmt__checkOpen oracle "dpiStmt_getNumQueryColumns" ;;
  if opened <? 0 then ret (DPI_FAILURE, None) else
  if numQueryColumns =? 0 then
    dpiError__set "check parameter" DPI_ERR_NULL_POINTER_PARAMETER ;;
    ret (DPI_FAILURE, None)
  else
  stmt <- get_stmt ;;
  described <-
    (if (statementType stmt =? DPI_STMT_TYPE_SELECT)
        && (numQueryVars stmt =? 0)
     then dpiStmt__createQueryVars oracle
     else ret DPI_SUCCESS) ;;
  if described <? 0 then ret (DPI_FAILURE, None) else
  stmt <- get_stmt ;;
  ret (DPI_SUCCESS, Some (numQueryVars stmt)).

(** [dpiStmt_getQueryInfo]; yields the status and what is copied to
    [*info]. *)
Definition dpiStmt_getQueryInfo (pos info : Z)
  : M (Z * option dpiQueryInfo) :=
  opened <- dpiStmt__checkOpen oracle "dpiStmt_getQueryInfo" ;;
  if opened <? 0 then ret (DPI_FAILURE, None) else
  if info =? 0 then
    dpiError__set "check parameter" DPI_ERR_NULL_POINTER_PARAMETER ;;
    ret (DPI_FAILURE, None)
  else
  described <- describe_on_demand ;;
  if described <? 0 then ret (DPI_FAILURE, None) else
  stmt <- get_stmt ;;
  if bad_position stmt pos then
    dpiError__set "check query position" DPI_ERR_QUERY_POSITION_INVALID ;;
    ret (DPI_FAILURE, None)
  else
  ret (DPI_SUCCESS, Some (at_ zeroQueryInfo (queryInfo stmt) (pos - 1))).

(** What [dpiStmt_getQueryValue] stores through its out-parameters:
    [*nativeTypeNum], and [*data] as the variable and the index of the
    element of its [externalData] that is pointed at. *)
Record QueryValue : Type := mkQueryValue {
  out_nativeTypeNum : Z;
  out_var : Z;
  out_index : Z
}.

(** [dpiStmt_getQueryValue] *)
Definition dpiStmt_getQueryValue (pos nativeTypeNum data : Z)
  : M (Z * option QueryValue) :=
  let failed {A : Type} (m : M A) := m ;; ret (DPI_FAILURE, None) in
  opened <- dpiStmt__checkOpen oracle "dpiStmt_getQueryValue" ;;
  if opened <? 0 then ret (DPI_FAILURE, None) else
  if nativeTypeNum =? 0 then
    failed (dpiError__set "check parameter" DPI_ERR_NULL_POINTER_PARAMETER)
  else if data =? 0 then
    failed (dpiError__set "check parameter" DPI_ERR_NULL_POINTER_PARAMETER)
  else
  stmt <- get_stmt ;;
  match queryVars stmt with
  | None =>
      failed (dpiError__set "check query vars" DPI_ERR_QUERY_NOT_EXECUTED)
  | Some _ =>
      if bad_position stmt pos then
        failed (dpiError__set "check query position"
                  DPI_ERR_QUERY_POSITION_INVALID)
      else
      let var := at_ 0 (queryVars stmt) (pos - 1) in
      if (var =? 0) || (bufferRowIndex stmt =? 0)
         || (bufferRowIndex stmt >? bufferRowCount stmt)
      then failed (dpiError__set "check fetched row" DPI_ERR_NO_ROW_FETCHED)
      else
      v <- get_var var ;;
      ret (DPI_SUCCESS,
           Some (mkQueryValue (v_nativeTypeNum v) var
                   (bufferRowIndex stmt - 1)))
  end.

End Accessors.

(** ** Vocabulary of the further statements *)

(** A statement that no public function works on: closed, or on a
    connection that is closed or closing. *)
Definition unusable (s : St) : Prop :=
  handle (st_stmt s) = 0
  \/ conn_handle (st_conns s (conn (st_stmt s))) = 0
  \/ conn_closing (st_conns s (conn (st_stmt s))) <> 0.

(** The only trace of the public function [fnName] is its entry. *)
Definition untouched (fnName : string) (s s' : St) : Prop :=
  st_stmt s' = st_stmt s
  /\ st_refCount s' = st_refCount s
  /\ st_vars s' = st_vars s
  /\ st_trace s' = E_startPublicFn fnName :: st_trace s.

(** A statement on a connection that has been closed. *)
Definition dead_conn_state (stmt : dpiStmt) : St :=
  mkSt stmt [] (fun _ => 1) (fun _ => sample_var 100)
    (fun _ => mkConn 0 0 873) noError.

(** The server reports the statement type [n]; every call succeeds. *)
Definition oracle_stmt_type (n : Z) : Oracle :=
  oracle_of (fun e =>
    match e with
    | E_attrGet _ DPI_OCI_ATTR_STMT_TYPE => ok_reply n
    | _ => ok_reply 0
    end).

(** A statement on a live connection whose type has not been read yet. *)
Definition live_stmt (s : St) : Prop :=
  handle (st_stmt s) <> 0
  /\ conn_handle (st_conns s (conn (st_stmt s))) <> 0
  /\ conn_closing (st_conns s (conn (st_stmt s))) = 0.

(** The statement with its three registries given up: what
    [dpiStmt__clearBatchErrors], [dpiStmt__clearBindVars] and
    [dpiStmt__clearQueryVars] leave, one after the other. *)
Definition given_up (stmt : dpiStmt) : dpiStmt :=
  set_numQueryVars 0
    (set_queryInfo None
       (set_queryVars None
          (set_allocatedBindVars 0
             (set_numBindVars 0
                (set_bindVars None
                   (set_numBatchErrors 0 (set_batchErrors None stmt))))))).

(** Releasing the statement handle fails; every other call succeeds. *)
Definition oracle_release_fails : Oracle :=
  oracle_of (fun e =>
    match e with
    | E_stmtRelease _ _ _ => failure_reply 3113
    | _ => ok_reply 0
    end).

(** The value resources held by the slots in use of the bind registry, in
    the order of the slots. *)
Definition bound_vars (stmt : dpiStmt) : list Z :=
  map (fun i => bv_var (at_ zeroBindVar (bindVars stmt) (Z.of_nat i)))
    (seq 0 (Z.to_nat (numBindVars stmt))).

(** The calls that release, one after the other, the references in [l]. *)
Definition releases (l : list Z) : list Event :=
  rev (map (fun p => E_setRefCount p (-1)) l).

Definition occurrences (p : Z) (l : list Z) : Z :=
  Z.of_nat (count_occ Z.eq_dec l p).

(** The test the search loop of [dpiStmt__bind] makes on one slot. *)
Definition locator_matches (entry : dpiBindVar) (pos : Z)
  (name : option string) (nameLength : Z) : bool :=
  (bv_pos entry =? pos) && (bv_nameLength entry =? nameLength)
  && negb ((nameLength >? 0)
           && negb (strncmp (chars (bv_name entry)) (chars name)
                      (Z.to_nat nameLength) =? 0)).

(** A registry of three slots: position 1, the name "id" and position 2. *)
Definition three_slots : option (list dpiBindVar) :=
  Some [mkBindVar 5000 1 None 0; mkBindVar 5001 0 (Some "id"%string) 2;
        mkBindVar 5002 2 None 0].

(** The state [dpiError__set] leaves. *)
Definition rejected (action : string) (errorNum : dpiErrorNum) (s : St)
  : St :=
  with_st_error
    (mkErrorBuffer 0 0 errorNum (eb_fnName (st_error s)) action) s.

(** Whether every bound value resource holds at least [numIters]
    elements.  [dpiStmt_executeMany] follows the pointer of every slot in
    use; a slot in use whose [var] is NULL (a [dpiStmt__bind] that fails
    leaves one) makes that undefined, and the answer is [None]: nothing is
    said of such a registry. *)
Definition arrays_hold (s : St) (numIters : Z) : option bool :=
  if existsb (fun p => p =? 0) (bound_vars (st_stmt s)) then None
  else
    Some (forallb (fun p => negb (v_maxArraySize (st_vars s p) <? numIters))
            (bound_vars (st_stmt s))).

(** The value resources defined for the columns of the query, in the order
    of the columns; 0 for a column with none. *)
Definition defined_vars (stmt : dpiStmt) : list Z :=
  map (fun i => at_ 0 (queryVars stmt) (Z.of_nat i))
    (seq 0 (Z.to_nat (numQueryVars stmt))).

(** Every defined value resource holds at least [arraySize] elements. *)
Definition arrays_fit (s : St) (arraySize : Z) : bool :=
  forallb
    (fun p => negb (negb (p =? 0)
                    && (v_maxArraySize (st_vars s p) <? arraySize)))
    (defined_vars (st_stmt s)).

(** [arraySize], with "a value of zero will select the default value". *)
Definition effective_array_size (arraySize : Z) : Z :=
  if arraySize =? 0 then DPI_DEFAULT_FETCH_ARRAY_SIZE else arraySize.

(** What [dpiStmt__createQueryVars] never touches: the bounds of the fetch
    window and the row count, the fetch array size, the handles, the
    statement type and the bind registry. *)
Definition outside_description (stmt : dpiStmt)
  : Z * Z * Z * Z * Z * Z * Z * (Z * Z * option (list dpiBindVar)) :=
  (bufferRowCount stmt, bufferMinRow stmt, rowCount stmt,
   fetchArraySize stmt, handle stmt, conn stmt, statementType stmt,
   registry stmt).

(** The server reports [n] columns; every call succeeds. *)
Definition oracle_columns (n : Z) : Oracle :=
  oracle_of (fun e =>
    match e with
    | E_attrGet _ DPI_OCI_ATTR_PARAM_COUNT => ok_reply n
    | _ => ok_reply 0
    end).

(** The bounds of the fetch window and the row count. *)
Definition window_bounds (stmt : dpiStmt) : Z * Z * Z :=
  (bufferRowCount stmt, bufferMinRow stmt, rowCount stmt).

(** The calls made between two states all satisfy [P]. *)
Definition calls_made (P : Event -> Prop) (s s' : St) : Prop :=
  exists new, st_trace s' = new ++ st_trace s /\ Forall P new.

(** A protocol execute call is made for [numIters] iterations in the mode
    [mode], to which the scrollable flag may have been added. *)
Definition execute_call_as (numIters mode : Z) (e : Event) : Prop :=
  match e with
  | E_stmtExecute _ n m =>
      n = numIters
      /\ (m = mode \/ m = Z.lor mode DPI_OCI_STMT_SCROLLABLE_READONLY)
  | _ => True
  end.

(** The first protocol execute call fails with the stale-metadata error
    1007, the next one succeeds, and so does every other call. *)
Definition oracle_stale_then_ok : Oracle :=
  fun t =>
    match t with
    | E_stmtExecute _ _ _ :: t' =>
        if existsb is_execute_call t' then ok_reply 0
        else failure_reply 1007
    | _ => ok_reply 0
    end.

(** Only the trace and the error buffer differ. *)
Definition same_store (s s' : St) : Prop :=
  st_stmt s' = st_stmt s
  /\ st_refCount s' = st_refCount s
  /\ st_vars s' = st_vars s.

(** The reference counts after [dpiStmt__define] has put [var] in the
    place of [old]: one reference more to [var], and one less to [old]
    when there was a value resource. *)
Definition redefined_refCount (rc : Z -> Z) (old var : Z) : Z -> Z :=
  fun p =>
    rc p + (if p =? var then 1 else 0)
    - (if negb (old =? 0) && (p =? old) then 1 else 0).

(** A value resource is allocated at address [p]; every call succeeds. *)
Definition oracle_allocates (p : Z) : Oracle :=
  oracle_of (fun e =>
    match e with
    | E_varAllocate _ _ _ _ _ _ =>
        mkReply 0 p 0 noError (Some (sample_var 3)) None None
    | _ => ok_reply 0
    end).

(** A statement whose first bound value resource, at address 5000, is a
    statement variable that holds the statement itself. *)
Definition self_bound_state : St :=
  mkSt
    (set_numBindVars 1
       (set_allocatedBindVars 8
          (set_bindVars (Some (mkBindVar 5000 1 None 0
                               :: repeat zeroBindVar 7)) dml_stmt)))
    [] (fun _ => 1)
    (fun _ =>
       mkVar (mkOracleType DPI_ORACLE_TYPE_STMT DPI_NATIVE_TYPE_INT64
                DPI_SQLCS_IMPLICIT 0 0 0)
         DPI_NATIVE_TYPE_INT64 1 1 0 0 0 0 0 [1000])
    (fun _ => mkConn 2001 0 873) noError.

(** *** The slot appended by [dpiStmt__bind] *)

(** The bind registry is consistent: the slots in use lie inside the
    allocated array. *)
Definition registry_wf (stmt : dpiStmt) : Prop :=
  0 <= numBindVars stmt <= allocatedBindVars stmt
  /\ allocatedBindVars stmt = Z.of_nat (List.length (elems (bindVars stmt))).

Definition with_entry (i : Z) (f : dpiBindVar -> dpiBindVar)
  (stmt : dpiStmt) : dpiStmt :=
  set_bindVars
    (store (bindVars stmt) i (f (at_ zeroBindVar (bindVars stmt) i))) stmt.

(** "allocate memory for additional bind variables, if needed" *)
Definition grown (stmt : dpiStmt) : dpiStmt :=
  if numBindVars stmt =? allocatedBindVars stmt then
    set_allocatedBindVars (u32 (allocatedBindVars stmt + 8))
      (set_bindVars
         (Some
            (match bindVars stmt with
             | Some _ =>
                 copy_entries (Z.to_nat (numBindVars stmt)) 0
                   (bindVars stmt)
                   (repeat zeroBindVar
                      (Z.to_nat (u32 (allocatedBindVars stmt + 8))))
             | None =>
                 repeat zeroBindVar
                   (Z.to_nat (u32 (allocatedBindVars stmt + 8)))
             end)) stmt)
  else stmt.

(** "add to the list of bind variables": the statement as
    [dpiStmt__bind] leaves it before the bind proper, when the locator is
    a new one and the allocations succeed. *)
Definition appended (stmt : dpiStmt) (pos : Z) (name : option string)
  (nameLength : Z) : dpiStmt :=
  let i := numBindVars stmt in
  let located :=
    with_entry i (set_bv_pos pos) (with_entry i (set_bv_var 0) (grown stmt))
  in
  set_numBindVars (u32 (numBindVars stmt + 1))
    (match name with
     | Some a =>
         with_entry i (set_bv_nameLength nameLength)
           (with_entry i
              (set_bv_name (Some (substring 0 (Z.to_nat nameLength) a)))
              located)
     | None => located
     end).

(** The shape of the batch errors: their number, whether the array is
    there, and its length. *)
Definition batch_shape (stmt : dpiStmt) : Z * bool * nat :=
  (numBatchErrors stmt,
   match batchErrors stmt with Some _ => true | None => false end,
   List.length (elems (batchErrors stmt))).

(** The server reports [n] failed iterations; every call succeeds. *)
Definition oracle_batch_errors (n : Z) : Oracle :=
  oracle_of (fun e =>
    match e with
    | E_attrGet _ DPI_OCI_ATTR_NUM_DML_ERRORS => ok_reply n
    | _ => ok_reply 0
    end).

(** What a function that was handed a NULL pointer leaves behind: the
    state past its entry, with the null-pointer error recorded. *)
Definition turned_down (oracle : Oracle) (fnName : string) (s : St) : St :=
  rejected "check parameter" DPI_ERR_NULL_POINTER_PARAMETER
    (guarded oracle fnName s).

(** A NUMBER type whose default native type is not INT64. *)
Definition number_type : dpiOracleType :=
  mkOracleType DPI_ORACLE_TYPE_NUMBER 3003 DPI_SQLCS_IMPLICIT 22 0 0.

(** The server describes [n] columns, each a NUMBER of the given precision
    and scale; every call succeeds. *)
Definition oracle_number_columns (n precision scale : Z) : Oracle :=
  oracle_of (fun e =>
    match e with
    | E_attrGet _ DPI_OCI_ATTR_PARAM_COUNT => ok_reply n
    | E_attrGet _ DPI_OCI_ATTR_PRECISION => ok_reply precision
    | E_attrGet _ DPI_OCI_ATTR_SCALE => ok_reply scale
    | E_getFromQueryInfo _ _ =>
        mkReply 0 0 0 noError None (Some number_type) None
    | _ => ok_reply 0
    end).

(** [stmt->queryInfo[info]], and whether the array has that element. *)
Definition info_at (info : Z) (s : St) : dpiQueryInfo :=
  at_ zeroQueryInfo (queryInfo (st_stmt s)) info.

Definition has_slot (info : Z) (s : St) : Prop :=
  (Z.to_nat info < List.length (elems (queryInfo (st_stmt s))))%nat.

(** The type of a described column: its Oracle type, its default native
    type, its scale and its precision. *)
Definition column_type (i : dpiQueryInfo) : Z * Z * Z * Z :=
  (qi_oracleTypeNum i, qi_defaultNativeTypeNum i, qi_scale i, qi_precision i).

Definition column_type_at (info : Z) (stmt : dpiStmt) : Z * Z * Z * Z :=
  column_type (at_ zeroQueryInfo (queryInfo stmt) info).

(** The calls that read the description of the column behind the
    parameter descriptor [param]. *)
Definition reads_column (param : Z) (e : Event) : Prop :=
  match e with
  | E_attrGet h _ => h = param
  | E_getFromQueryInfo _ _ => True
  | E_objectTypeAllocate _ p => p = param
  | _ => False
  end.

(** The calls that allocate or free an OCI handle. *)
Definition is_handle_call (e : Event) : bool :=
  match e with
  | E_handleAlloc _ | E_handleFree _ => true
  | _ => false
  end.

(** What the stand-in for the retry answers in [recovery_until_retry]; no
    other path of [dpiStmt__reExecute] yields it. *)
Definition retry_reached : Z := 1.

(** [dpiStmt__reExecute] up to its retry: the call of [dpiStmt__execute]
    that ends it is replaced by a function that does nothing and answers
    [retry_reached]. *)
Definition recovery_until_retry (oracle : Oracle) (numIters mode : Z) : M Z :=
  dpiStmt__reExecute oracle (fun _ _ _ => ret retry_reached) numIters mode.

(** The mode, adjusted for scrollable cursors, that [dpiStmt__execute]
    hands to the protocol call and to the recovery path. *)
Definition recovery_mode (oracle : Oracle) (mode : Z) (s : St) : Z :=
  execute_mode (st_stmt (snd (dpiStmt__execute_prepare oracle s))) mode.

(** [localError.buffer->fnName = error->buffer->fnName;
     localError.buffer->offset = rowOffset]: the record of iteration [i] as
    the loop of [dpiStmt__getBatchErrors] leaves it when it goes on. *)
Definition record_kept (i rowOffset : Z) (s : St) : St :=
  with_st_stmt
    (set_batchErrors
       (store (batchErrors (st_stmt s)) i
          (set_eb_fnName_offset (eb_fnName (st_error s)) rowOffset
             (at_ noError (batchErrors (st_stmt s)) i)))
       (st_stmt s)) s.

(** The server reports one failed iteration of a batch; rendering its
    message fails and leaves an error in the record, every other call
    succeeds. *)
Definition oracle_render_fails : Oracle :=
  oracle_of (fun e =>
    match e with
    | E_attrGet _ DPI_OCI_ATTR_NUM_DML_ERRORS => ok_reply 1
    | E_errorCheck _ => failure_reply 24333
    | _ => ok_reply 0
    end).

(** A statement on which one batch error is about to be collected. *)
Definition collecting_stmt : dpiStmt :=
  set_batchErrors (Some [noError]) (set_numBatchErrors 1 dml_stmt).

(** * Frame reasoning *)

Section Frame.

Variable R : St -> St -> Prop.
Hypothesis R_refl : forall s, R s s.
Hypothesis R_trans : forall a b c, R a b -> R b c -> R a c.

Lemma frame_ret {A : Type} (a : A) : frame R (ret a).
Proof. intro s. apply R_refl. Qed.

Lemma frame_bind {A B : Type} (m : M A) (f : A -> M B) :
  frame R m -> (forall a, frame R (f a)) -> frame R (bind m f).
Proof.
  intros Hm Hf s. unfold bind.
  specialize (Hm s). destruct (m s) as [a s1]. simpl in Hm.
  apply R_trans with s1; [exact Hm | apply Hf].
Qed.

Lemma frame_for {A : Type} (n : nat) (body : Z -> M (option A)) :
  (forall j, frame R (body j)) -> forall i, frame R (for_ n i body).
Proof.
  intros Hb. induction n as [|n IH]; intro i; simpl.
  - apply frame_ret.
  - apply frame_bind; [apply Hb|].
    intros [a|]; [apply frame_ret | apply IH].
Qed.

Lemma frame_read {A : Type} (f : St -> A) : frame R (fun s => (f s, s)).
Proof. intro s. apply R_refl. Qed.

End Frame.

(** Evaluation of the monad and of the state record. *)
Ltac run :=
  cbv beta iota zeta delta
    [bind ret get_stmt get_var get_conn get_error modify_stmt modify_var
     add_refCount write_buffer external external_err
     with_st_stmt with_st_trace with_st_refCount with_st_vars with_st_conns
     with_st_error st_stmt st_trace st_refCount st_vars st_conns st_error
     fst snd].

Ltac head_of t := lazymatch t with ?f _ => head_of f | _ => t end.

Ltac frame_go refl trans prim :=
  cbv beta zeta;
  lazymatch goal with
  | |- frame _ (ret _) => apply (frame_ret _ refl)
  | |- frame _ (bind _ _) =>
      apply (frame_bind _ trans); [ | intro ]; frame_go refl trans prim
  | |- frame _ (for_ _ _ _) =>
      apply (frame_for _ refl trans); intro; frame_go refl trans prim
  | |- frame _ (match ?x with _ => _ end) =>
      destruct x; frame_go refl trans prim
  | |- frame _ get_stmt => apply (frame_read _ refl)
  | |- frame _ get_error => apply (frame_read _ refl)
  | |- frame _ (get_var _) => apply (frame_read _ refl)
  | |- frame _ (get_conn _) => apply (frame_read _ refl)
  | |- frame _ (modify_stmt _) => prim
  | |- frame _ (modify_var _ _) => prim
  | |- frame _ (add_refCount _ _) => prim
  | |- frame _ (write_buffer _ _) => prim
  | |- frame _ (external _ _) => prim
  | |- frame _ ?m =>
      first [ solve [eauto]
            | let h := head_of m in unfold h; frame_go refl trans prim ]
  end.

(** ** Calls that do not appear in the trace *)

Lemma same_calls_refl p s : same_calls p s s.
Proof. reflexivity. Qed.

Lemma same_calls_trans p a b c :
  same_calls p a b -> same_calls p b c -> same_calls p a c.
Proof. unfold same_calls. congruence. Qed.

Ltac quiet_prim :=
  unfold frame, same_calls; intros ?;
  try match goal with |- context [write_buffer ?e _] => destruct e end;
  reflexivity.

Ltac quiet := 
  lazymatch goal with
  | |- frame (same_calls ?p) _ =>
      frame_go (same_calls_refl p) (same_calls_trans p) quiet_prim
  end.


(** ** The open guard *)

Lemma checkOpen_closed oracle fnName s :
  handle (st_stmt s) = 0 ->
  let (status, s') := dpiStmt__checkOpen oracle fnName s in
  status = DPI_FAILURE
  /\ st_stmt s' = st_stmt s
  /\ st_refCount s' = st_refCount s
  /\ st_vars s' = st_vars s
  /\ st_trace s' = E_startPublicFn fnName :: st_trace s
  /\ (0 <= r_status (oracle (E_startPublicFn fnName :: st_trace s)) ->
      eb_errorNum (st_error s') = DPI_ERR_STMT_CLOSED).
Proof.
  intro Hclosed.
  unfold dpiStmt__checkOpen, dpiGen__startPublicFn, external, bind, ret,
    write_buffer, get_stmt; simpl.
  destruct (r_status (oracle (E_startPublicFn fnName :: st_trace s)) <? 0)
    eqn:Hst.
  - simpl. repeat split. intro H. apply Z.ltb_lt in Hst. lia.
  - simpl. rewrite Hclosed. simpl. repeat split.
Qed.

(** C8.  Closing a statement that is already closed changes nothing: the
    open guard finds the handle gone and reports [DPI_ERR_STMT_CLOSED]
    ([StatementClosed]); the statement, the reference counts and the value
    resources are as before, and the one external call made is the handle
    validation of the guard, so that the close sequence (clearing the batch
    errors, the bind registry and the query metadata, releasing the protocol
    handle and the connection reference) is not entered. *)
Theorem close_closed_is_noop :
  forall oracle tag tagLength s,
    handle (st_stmt s) = 0 ->
    let (status, s') := dpiStmt_close oracle tag tagLength s in
    status = DPI_FAILURE
    /\ st_stmt s' = st_stmt s
    /\ st_refCount s' = st_refCount s
    /\ st_vars s' = st_vars s
    /\ st_trace s' = E_startPublicFn "dpiStmt_close" :: st_trace s
    /\ (0 <= r_status (oracle (E_startPublicFn "dpiStmt_close" :: st_trace s)) ->
        eb_errorNum (st_error s') = DPI_ERR_STMT_CLOSED
        /\ errorKind (eb_errorNum (st_error s')) = Some StatementClosed).
Proof.
  intros oracle tag tagLength s Hclosed.
  pose proof (checkOpen_closed oracle "dpiStmt_close" s Hclosed) as H.
  unfold dpiStmt_close. unfold bind at 1.
  destruct (dpiStmt__checkOpen oracle "dpiStmt_close" s) as [status s1].
  destruct H as (-> & Hs & Hr & Hv & Ht & He).
  simpl. repeat split; try assumption.
  - apply He; assumption.
  - rewrite He by assumption. reflexivity.
Qed.

Lemma close_closed_is_noop_witness :
  handle (st_stmt (sample_state (set_handle 0 sample_stmt))) = 0
  /\ st_stmt (snd (dpiStmt_close oracle_ok 0 0
                     (sample_state (set_handle 0 sample_stmt))))
     = set_handle 0 sample_stmt.
Proof.
  split; [reflexivity|].
  generalize (close_closed_is_noop oracle_ok 0 0
                (sample_state (set_handle 0 sample_stmt)) eq_refl).
  destruct (dpiStmt_close oracle_ok 0 0
              (sample_state (set_handle 0 sample_stmt))) as [status s'].
  intros (_ & H & _). exact H.
Defined.

(** The close sequence itself, as the final release runs it without the
    guard, finds nothing left to do on a closed statement. *)
Lemma close_sequence_on_closed oracle tag tagLength propagateErrors s :
  closed (st_stmt s) ->
  dpiStmt__close oracle tag tagLength propagateErrors s = (DPI_SUCCESS, s).
Proof.
  destruct s as [stmt t rc vs cs e]. destruct stmt. unfold closed. simpl.
  intros (-> & -> & -> & -> & -> & -> & -> & -> & -> & ->).
  reflexivity.
Qed.

Lemma checkOpen_open oracle fnName s :
  valid_handle oracle -> open_stmt s ->
  dpiStmt__checkOpen oracle fnName s = (DPI_SUCCESS, guarded oracle fnName s).
Proof.
  intros Hv (Hh & Hc & Hcl & Hty).
  specialize (Hv fnName (st_trace s)).
  apply Z.eqb_neq in Hh, Hc, Hty. apply Z.eqb_eq in Hcl.
  assert (Hst : (r_status (oracle (E_startPublicFn fnName :: st_trace s)) <? 0)
                = false) by (apply Z.ltb_ge; exact Hv).
  destruct s as [stmt t rc vs cs e]. simpl in *.
  unfold dpiStmt__checkOpen, dpiGen__startPublicFn, guarded. run.
  rewrite Hst, Hh. run. rewrite Hc, Hcl. simpl. rewrite Hty. reflexivity.
Qed.

(** ** End of the result set *)

(** C10.  On an open statement whose buffered window is exhausted and
    which has no more rows to fetch, [dpiStmt_fetch] succeeds with
    [*found = 0] and [dpiStmt_fetchRows] succeeds with
    [*numRowsFetched = 0], [*bufferRowIndex = 0] and [*moreRows = 0]; no
    error is raised and nothing else happens after the open guard. *)
Theorem fetch_at_end_of_result_set :
  forall oracle s found bufferRowIndex_ numRowsFetched moreRows maxRows,
    found <> 0 -> bufferRowIndex_ <> 0 -> numRowsFetched <> 0 ->
    moreRows <> 0 ->
    (forall opened s1,
        dpiStmt__checkOpen oracle "dpiStmt_fetch" s = (opened, s1) ->
        0 <= opened ->
        bufferRowCount (st_stmt s1) <= bufferRowIndex (st_stmt s1) ->
        hasRowsToFetch (st_stmt s1) = 0 ->
        dpiStmt_fetch oracle found bufferRowIndex_ s
        = ((DPI_SUCCESS, Some 0, None), s1))
    /\ (forall opened s1,
        dpiStmt__checkOpen oracle "dpiStmt_fetchRows" s = (opened, s1) ->
        0 <= opened ->
        bufferRowCount (st_stmt s1) <= bufferRowIndex (st_stmt s1) ->
        hasRowsToFetch (st_stmt s1) = 0 ->
        dpiStmt_fetchRows oracle maxRows bufferRowIndex_ numRowsFetched
          moreRows s
        = ((DPI_SUCCESS, Some (mkFetchedRows 0 0 0)), s1)).
Proof.
  intros oracle s found idx nrows more maxRows Hf Hi Hn Hm.
  apply Z.eqb_neq in Hf, Hi, Hn, Hm.
  split; intros opened s1 Hopen Hok Hwin Hrows.
  - unfold dpiStmt_fetch. unfold bind at 1. rewrite Hopen.
    destruct (opened <? 0) eqn:Hlt; [apply Z.ltb_lt in Hlt; lia|].
    rewrite Hf, Hi. unfold bind, get_stmt, ret.
    assert (Hge : (bufferRowIndex (st_stmt s1) >=? bufferRowCount (st_stmt s1))
                  = true) by (apply Z.geb_le; lia).
    rewrite Hge, Hrows. simpl. rewrite Hge. reflexivity.
  - unfold dpiStmt_fetchRows. unfold bind at 1. rewrite Hopen.
    destruct (opened <? 0) eqn:Hlt; [apply Z.ltb_lt in Hlt; lia|].
    rewrite Hi, Hn, Hm. unfold bind, get_stmt, ret.
    assert (Hge : (bufferRowIndex (st_stmt s1) >=? bufferRowCount (st_stmt s1))
                  = true) by (apply Z.geb_le; lia).
    rewrite Hge, Hrows. simpl. rewrite Hge. reflexivity.
Qed.

Lemma fetch_at_end_of_result_set_witness :
  dpiStmt_fetch oracle_ok 1 1
    (sample_state (set_hasRowsToFetch 0 sample_stmt))
  = ((DPI_SUCCESS, Some 0, None),
     guarded oracle_ok "dpiStmt_fetch"
       (sample_state (set_hasRowsToFetch 0 sample_stmt)))
  /\ dpiStmt_fetchRows oracle_ok 10 1 1 1
       (sample_state (set_hasRowsToFetch 0 sample_stmt))
     = ((DPI_SUCCESS, Some (mkFetchedRows 0 0 0)),
        guarded oracle_ok "dpiStmt_fetchRows"
          (sample_state (set_hasRowsToFetch 0 sample_stmt))).
Proof.
  destruct (fetch_at_end_of_result_set oracle_ok
              (sample_state (set_hasRowsToFetch 0 sample_stmt)) 1 1 1 1 10)
    as [H1 H2]; try discriminate.
  split.
  - apply (H1 DPI_SUCCESS); [reflexivity | discriminate | discriminate
                             | reflexivity].
  - apply (H2 DPI_SUCCESS); [reflexivity | discriminate | discriminate
                             | reflexivity].
Defined.

(** ** Frames of the fetch path *)

Lemma same_on_refl {A : Type} (f : dpiStmt -> A) s : same_on f s s.
Proof. reflexivity. Qed.

Lemma same_on_trans {A : Type} (f : dpiStmt -> A) a b c :
  same_on f a b -> same_on f b c -> same_on f a c.
Proof. unfold same_on. congruence. Qed.

Ltac keep_prim := unfold frame, same_on; intros ?; reflexivity.

Ltac keep :=
  lazymatch goal with
  | |- frame (same_on ?f) _ =>
      frame_go (same_on_refl f) (same_on_trans f) keep_prim
  end.

Lemma quiet_snd p {A : Type} (m : M A) s :
  frame (same_calls p) m ->
  filter p (st_trace (snd (m s))) = filter p (st_trace s).
Proof. intro H. apply H. Qed.

Lemma keep_snd {B : Type} (f : dpiStmt -> B) {A : Type} (m : M A) s :
  frame (same_on f) m -> f (st_stmt (snd (m s))) = f (st_stmt s).
Proof. intro H. apply H. Qed.

Lemma checkOpen_no_fetch oracle fnName :
  frame (same_calls is_fetch_call) (dpiStmt__checkOpen oracle fnName).
Proof. quiet. Qed.

Lemma preFetch_no_fetch oracle :
  frame (same_calls is_fetch_call) (dpiStmt__preFetch oracle).
Proof. quiet. Qed.

Lemma postFetch_no_fetch oracle :
  frame (same_calls is_fetch_call) (dpiStmt__postFetch oracle).
Proof. quiet. Qed.

Lemma preFetch_keeps oracle :
  frame (same_on (fun st => (handle st, fetchArraySize st)))
    (dpiStmt__preFetch oracle).
Proof. keep. Qed.

Lemma postFetch_keeps_stmt oracle :
  frame (same_on (fun st => st)) (dpiStmt__postFetch oracle).
Proof. keep. Qed.

Lemma stmtFetch2_trace oracle n mode off err s :
  st_trace (snd (dpiOci__stmtFetch2 oracle n mode off err s))
  = E_stmtFetch2 (handle (st_stmt s)) n mode off :: st_trace s.
Proof.
  unfold dpiOci__stmtFetch2, external_err. run.
  destruct (r_status _ <? 0); destruct err; run;
    destruct (r_hasRowsToFetch _); reflexivity.
Qed.

(** The protocol fetches of [dpiStmt__fetch]: none when the pre-fetch step
    fails, otherwise the one fetch of [fetchArraySize] rows. *)
Lemma fetch_calls oracle s :
  filter is_fetch_call (st_trace (snd (dpiStmt__fetch oracle s)))
  = if fst (dpiStmt__preFetch oracle s) <? 0
    then filter is_fetch_call (st_trace s)
    else E_stmtFetch2 (handle (st_stmt s)) (fetchArraySize (st_stmt s))
           DPI_MODE_FETCH_NEXT 0
         :: filter is_fetch_call (st_trace s).
Proof.
  unfold dpiStmt__fetch. unfold bind at 1.
  pose proof (preFetch_no_fetch oracle s) as Hq.
  pose proof (preFetch_keeps oracle s) as Hk.
  destruct (dpiStmt__preFetch oracle s) as [pre s2].
  unfold same_calls, same_on in Hq, Hk. simpl in Hq, Hk.
  injection Hk as Hh Hf. simpl.
  destruct (pre <? 0); [exact Hq|].
  unfold bind at 1. unfold get_stmt at 1.
  unfold bind at 1.
  pose proof (stmtFetch2_trace oracle (fetchArraySize (st_stmt s2))
                DPI_MODE_FETCH_NEXT 0 error s2) as Ht.
  destruct (dpiOci__stmtFetch2 _ _ _ _ _ _) as [r s3]. simpl in Ht.
  rewrite quiet_snd by quiet.
  rewrite Ht, Hh, Hf. simpl. rewrite Hq. reflexivity.
Qed.

Lemma fetch_take_trace s :
  st_trace (snd (dpiStmt_fetch_take s)) = st_trace s.
Proof. reflexivity. Qed.

Lemma fetchRows_take_trace maxRows s :
  st_trace (snd (dpiStmt_fetchRows_take maxRows s)) = st_trace s.
Proof. reflexivity. Qed.

Lemma fetch_take_no_fetch : frame (same_calls is_fetch_call) dpiStmt_fetch_take.
Proof. quiet. Qed.

Lemma fetchRows_take_no_fetch maxRows :
  frame (same_calls is_fetch_call) (dpiStmt_fetchRows_take maxRows).
Proof. quiet. Qed.

(** What [dpiStmt_fetch] does after the open guard has let it through. *)
Lemma fetch_after_guard oracle found idx s opened s1 :
  dpiStmt__checkOpen oracle "dpiStmt_fetch" s = (opened, s1) ->
  0 <= opened -> found <> 0 -> idx <> 0 ->
  dpiStmt_fetch oracle found idx s
  = (if bufferRowIndex (st_stmt s1) >=? bufferRowCount (st_stmt s1) then
       fetched <- (if negb (hasRowsToFetch (st_stmt s1) =? 0)
                   then dpiStmt__fetch oracle
                   else ret DPI_SUCCESS) ;;
       if fetched <? 0 then ret (DPI_FAILURE, None, None) else
       stmt <- get_stmt ;;
       if bufferRowIndex stmt >=? bufferRowCount stmt then
         ret (DPI_SUCCESS, Some 0, None)
       else dpiStmt_fetch_take
     else dpiStmt_fetch_take) s1.
Proof.
  intros Hopen Hok Hf Hi. apply Z.eqb_neq in Hf, Hi.
  unfold dpiStmt_fetch. unfold bind at 1. rewrite Hopen.
  destruct (opened <? 0) eqn:Hlt; [apply Z.ltb_lt in Hlt; lia|].
  rewrite Hf, Hi. reflexivity.
Qed.

Lemma fetchRows_after_guard oracle maxRows idx n more s opened s1 :
  dpiStmt__checkOpen oracle "dpiStmt_fetchRows" s = (opened, s1) ->
  0 <= opened -> idx <> 0 -> n <> 0 -> more <> 0 ->
  dpiStmt_fetchRows oracle maxRows idx n more s
  = (if bufferRowIndex (st_stmt s1) >=? bufferRowCount (st_stmt s1) then
       fetched <- (if negb (hasRowsToFetch (st_stmt s1) =? 0)
                   then dpiStmt__fetch oracle
                   else ret DPI_SUCCESS) ;;
       if fetched <? 0 then ret (DPI_FAILURE, None) else
       stmt <- get_stmt ;;
       if bufferRowIndex stmt >=? bufferRowCount stmt then
         ret (DPI_SUCCESS, Some (mkFetchedRows 0 0 0))
       else dpiStmt_fetchRows_take maxRows
     else dpiStmt_fetchRows_take maxRows) s1.
Proof.
  intros Hopen Hok Hi Hn Hm. apply Z.eqb_neq in Hi, Hn, Hm.
  unfold dpiStmt_fetchRows. unfold bind at 1. rewrite Hopen.
  destruct (opened <? 0) eqn:Hlt; [apply Z.ltb_lt in Hlt; lia|].
  rewrite Hi, Hn, Hm. reflexivity.
Qed.

(** The condition under which a fetch call reaches the protocol layer: the
    guard lets the call through, the out-parameters are there, the window
    is exhausted, more rows are expected and the pre-fetch step succeeds. *)
Lemma fetch_protocol_fetches oracle found idx s :
  let opened := fst (dpiStmt__checkOpen oracle "dpiStmt_fetch" s) in
  let s1 := snd (dpiStmt__checkOpen oracle "dpiStmt_fetch" s) in
  filter is_fetch_call
    (st_trace (snd (dpiStmt_fetch oracle found idx s)))
  = if (0 <=? opened) && negb (found =? 0) && negb (idx =? 0)
       && (bufferRowIndex (st_stmt s1) >=? bufferRowCount (st_stmt s1))
       && negb (hasRowsToFetch (st_stmt s1) =? 0)
       && (0 <=? fst (dpiStmt__preFetch oracle s1))
    then E_stmtFetch2 (handle (st_stmt s1)) (fetchArraySize (st_stmt s1))
           DPI_MODE_FETCH_NEXT 0
         :: filter is_fetch_call (st_trace s)
    else filter is_fetch_call (st_trace s).
Proof.
  pose proof (checkOpen_no_fetch oracle "dpiStmt_fetch" s) as Hq.
  unfold same_calls in Hq.
  destruct (dpiStmt__checkOpen oracle "dpiStmt_fetch" s) as [opened s1] eqn:Ho.
  simpl in *.
  destruct (Z.leb_spec 0 opened) as [Hok|Hlt]; simpl.
  2:{ unfold dpiStmt_fetch. unfold bind at 1. rewrite Ho.
      apply Z.ltb_lt in Hlt. rewrite Hlt. exact Hq. }
  destruct (Z.eqb_spec found 0) as [->|Hf]; simpl.
  { unfold dpiStmt_fetch. unfold bind at 1. rewrite Ho.
    destruct (opened <? 0); [exact Hq|]. simpl. exact Hq. }
  destruct (Z.eqb_spec idx 0) as [->|Hi]; simpl.
  { unfold dpiStmt_fetch. unfold bind at 1. rewrite Ho.
    destruct (opened <? 0); [exact Hq|].
    destruct (found =? 0); simpl; exact Hq. }
  rewrite (fetch_after_guard oracle found idx s opened s1 Ho Hok Hf Hi).
  destruct (bufferRowIndex (st_stmt s1) >=? bufferRowCount (st_stmt s1));
    simpl; [|exact Hq].
  destruct (hasRowsToFetch (st_stmt s1) =? 0); simpl.
  { run. simpl. destruct (_ >=? _); exact Hq. }
  unfold bind at 1.
  pose proof (fetch_calls oracle s1) as Hc.
  destruct (dpiStmt__fetch oracle s1) as [fetched s2]. simpl in Hc.
  rewrite quiet_snd by quiet. rewrite Hc, Hq.
  destruct (fst (dpiStmt__preFetch oracle s1)) eqn:Hp; reflexivity.
Qed.

Lemma fetchRows_protocol_fetches oracle maxRows idx n more s :
  let opened := fst (dpiStmt__checkOpen oracle "dpiStmt_fetchRows" s) in
  let s1 := snd (dpiStmt__checkOpen oracle "dpiStmt_fetchRows" s) in
  filter is_fetch_call
    (st_trace (snd (dpiStmt_fetchRows oracle maxRows idx n more s)))
  = if (0 <=? opened) && negb (idx =? 0) && negb (n =? 0)
       && negb (more =? 0)
       && (bufferRowIndex (st_stmt s1) >=? bufferRowCount (st_stmt s1))
       && negb (hasRowsToFetch (st_stmt s1) =? 0)
       && (0 <=? fst (dpiStmt__preFetch oracle s1))
    then E_stmtFetch2 (handle (st_stmt s1)) (fetchArraySize (st_stmt s1))
           DPI_MODE_FETCH_NEXT 0
         :: filter is_fetch_call (st_trace s)
    else filter is_fetch_call (st_trace s).
Proof.
  pose proof (checkOpen_no_fetch oracle "dpiStmt_fetchRows" s) as Hq.
  unfold same_calls in Hq.
  destruct (dpiStmt__checkOpen oracle "dpiStmt_fetchRows" s)
    as [opened s1] eqn:Ho.
  simpl in *.
  destruct (Z.leb_spec 0 opened) as [Hok|Hlt]; simpl.
  2:{ unfold dpiStmt_fetchRows. unfold bind at 1. rewrite Ho.
      apply Z.ltb_lt in Hlt. rewrite Hlt. exact Hq. }
  destruct (Z.eqb_spec idx 0) as [->|Hi]; simpl.
  { unfold dpiStmt_fetchRows. unfold bind at 1. rewrite Ho.
    destruct (opened <? 0); [exact Hq|]. simpl. exact Hq. }
  destruct (Z.eqb_spec n 0) as [->|Hn]; simpl.
  { unfold dpiStmt_fetchRows. unfold bind at 1. rewrite Ho.
    destruct (opened <? 0); [exact Hq|].
    destruct (idx =? 0); simpl; exact Hq. }
  destruct (Z.eqb_spec more 0) as [->|Hm]; simpl.
  { unfold dpiStmt_fetchRows. unfold bind at 1. rewrite Ho.
    destruct (opened <? 0); [exact Hq|].
    destruct (idx =? 0); simpl; [exact Hq|].
    destruct (n =? 0); simpl; exact Hq. }
  rewrite (fetchRows_after_guard oracle maxRows idx n more s opened s1
             Ho Hok Hi Hn Hm).
  destruct (bufferRowIndex (st_stmt s1) >=? bufferRowCount (st_stmt s1));
    simpl; [|exact Hq].
  destruct (hasRowsToFetch (st_stmt s1) =? 0); simpl.
  { run. simpl. destruct (_ >=? _); exact Hq. }
  unfold bind at 1.
  pose proof (fetch_calls oracle s1) as Hc.
  destruct (dpiStmt__fetch oracle s1) as [fetched s2]. simpl in Hc.
  rewrite quiet_snd by quiet. rewrite Hc, Hq.
  destruct (fst (dpiStmt__preFetch oracle s1)) eqn:Hp; reflexivity.
Qed.

Lemma fetch_buffered oracle found idx s :
  valid_handle oracle -> open_stmt s -> found <> 0 -> idx <> 0 ->
  bufferRowIndex (st_stmt s) < bufferRowCount (st_stmt s) ->
  dpiStmt_fetch oracle found idx s
  = ((DPI_SUCCESS, Some 1, Some (bufferRowIndex (st_stmt s))),
     row_taken oracle s).
Proof.
  intros Hv Ho Hf Hi Hwin.
  rewrite (fetch_after_guard oracle found idx s DPI_SUCCESS
             (guarded oracle "dpiStmt_fetch" s));
    [ | apply checkOpen_open; assumption | discriminate | assumption
      | assumption ].
  destruct s as [stmt t rc vs cs e]. unfold guarded, row_taken. run.
  simpl in Hwin.
  assert (Hge : (bufferRowIndex stmt >=? bufferRowCount stmt) = false).
  { destruct (Z.geb_spec (bufferRowIndex stmt) (bufferRowCount stmt)); lia. }
  rewrite Hge. reflexivity.
Qed.

Lemma row_taken_open oracle s : open_stmt s -> open_stmt (row_taken oracle s).
Proof. destruct s as [stmt t rc vs cs e]. exact (fun H => H). Qed.

Lemma row_taken_calls oracle s :
  filter is_fetch_call (st_trace (row_taken oracle s))
  = filter is_fetch_call (st_trace s).
Proof. reflexivity. Qed.

(** C3 (as amended).  [dpiStmt_fetch] and [dpiStmt_fetchRows] reach the
    protocol layer with a fetch exactly when the open guard lets the call
    through, the out-parameters are there, the buffered window is
    exhausted ([bufferRowIndex >= bufferRowCount]), more rows are known to
    exist and the pre-fetch step succeeds; it is then the one fetch of
    [fetchArraySize] rows.  So a window that holds at least the requested
    number of rows, for a request of at least one row, is served without a
    protocol fetch.  With a fetch array size of 3 and a full batch
    buffered, three single-row fetches hand out the rows 0, 1 and 2
    without a protocol fetch, and the fourth one issues the next fetch of
    3 rows. *)
Theorem fetch_only_when_window_exhausted :
  forall oracle s,
    (forall found idx,
        let opened := fst (dpiStmt__checkOpen oracle "dpiStmt_fetch" s) in
        let s1 := snd (dpiStmt__checkOpen oracle "dpiStmt_fetch" s) in
        filter is_fetch_call
          (st_trace (snd (dpiStmt_fetch oracle found idx s)))
        = if (0 <=? opened) && negb (found =? 0) && negb (idx =? 0)
             && (bufferRowIndex (st_stmt s1) >=? bufferRowCount (st_stmt s1))
             && negb (hasRowsToFetch (st_stmt s1) =? 0)
             && (0 <=? fst (dpiStmt__preFetch oracle s1))
          then E_stmtFetch2 (handle (st_stmt s1))
                 (fetchArraySize (st_stmt s1)) DPI_MODE_FETCH_NEXT 0
               :: filter is_fetch_call (st_trace s)
          else filter is_fetch_call (st_trace s))
    /\ (forall maxRows idx n more,
        let opened := fst (dpiStmt__checkOpen oracle "dpiStmt_fetchRows" s) in
        let s1 := snd (dpiStmt__checkOpen oracle "dpiStmt_fetchRows" s) in
        filter is_fetch_call
          (st_trace (snd (dpiStmt_fetchRows oracle maxRows idx n more s)))
        = if (0 <=? opened) && negb (idx =? 0) && negb (n =? 0)
             && negb (more =? 0)
             && (bufferRowIndex (st_stmt s1) >=? bufferRowCount (st_stmt s1))
             && negb (hasRowsToFetch (st_stmt s1) =? 0)
             && (0 <=? fst (dpiStmt__preFetch oracle s1))
          then E_stmtFetch2 (handle (st_stmt s1))
                 (fetchArraySize (st_stmt s1)) DPI_MODE_FETCH_NEXT 0
               :: filter is_fetch_call (st_trace s)
          else filter is_fetch_call (st_trace s))
    /\ (forall maxRows idx n more,
        let s1 := snd (dpiStmt__checkOpen oracle "dpiStmt_fetchRows" s) in
        0 < maxRows ->
        maxRows <= bufferRowCount (st_stmt s1) - bufferRowIndex (st_stmt s1) ->
        filter is_fetch_call
          (st_trace (snd (dpiStmt_fetchRows oracle maxRows idx n more s)))
        = filter is_fetch_call (st_trace s))
    /\ (forall found idx,
        valid_handle oracle -> open_stmt s -> found <> 0 -> idx <> 0 ->
        fetchArraySize (st_stmt s) = 3 ->
        bufferRowIndex (st_stmt s) = 0 -> bufferRowCount (st_stmt s) = 3 ->
        let r1 := dpiStmt_fetch oracle found idx s in
        let r2 := dpiStmt_fetch oracle found idx (snd r1) in
        let r3 := dpiStmt_fetch oracle found idx (snd r2) in
        let r4 := dpiStmt_fetch oracle found idx (snd r3) in
        fst r1 = (DPI_SUCCESS, Some 1, Some 0)
        /\ fst r2 = (DPI_SUCCESS, Some 1, Some 1)
        /\ fst r3 = (DPI_SUCCESS, Some 1, Some 2)
        /\ filter is_fetch_call (st_trace (snd r3))
           = filter is_fetch_call (st_trace s)
        /\ (hasRowsToFetch (st_stmt s) <> 0 ->
            0 <= fst (dpiStmt__preFetch oracle
                        (guarded oracle "dpiStmt_fetch" (snd r3))) ->
            filter is_fetch_call (st_trace (snd r4))
            = E_stmtFetch2 (handle (st_stmt s)) 3 DPI_MODE_FETCH_NEXT 0
              :: filter is_fetch_call (st_trace s))).
Proof.
  intros oracle s. split; [|split; [|split]].
  - intros found idx. apply fetch_protocol_fetches.
  - intros maxRows idx n more. apply fetchRows_protocol_fetches.
  - intros maxRows idx n more s1 Hpos Hheld.
    rewrite fetchRows_protocol_fetches. fold s1.
    assert (Hge : (bufferRowIndex (st_stmt s1) >=? bufferRowCount (st_stmt s1))
                  = false).
    { destruct (Z.geb_spec (bufferRowIndex (st_stmt s1))
                  (bufferRowCount (st_stmt s1))); lia. }
    rewrite Hge. rewrite !andb_false_r. reflexivity.
  - intros found idx Hv Ho Hf Hi Hsize Hidx Hcount r1 r2 r3 r4.
    assert (E1 : r1 = ((DPI_SUCCESS, Some 1, Some 0), row_taken oracle s)).
    { unfold r1. rewrite fetch_buffered by (try assumption; lia).
      rewrite Hidx. reflexivity. }
    set (s1 := row_taken oracle s) in *.
    assert (I1 : bufferRowIndex (st_stmt s1) = 1
                 /\ bufferRowCount (st_stmt s1) = 3).
    { unfold s1. destruct s as [stmt t rc vs cs e]. simpl in *.
      rewrite Hidx, Hcount. split; reflexivity. }
    assert (O1 : open_stmt s1) by (apply row_taken_open; exact Ho).
    assert (E2 : r2 = ((DPI_SUCCESS, Some 1, Some 1), row_taken oracle s1)).
    { unfold r2. rewrite E1. simpl snd.
      rewrite fetch_buffered by (try assumption; lia).
      destruct I1 as [-> _]. reflexivity. }
    set (s2 := row_taken oracle s1) in *.
    assert (I2 : bufferRowIndex (st_stmt s2) = 2
                 /\ bufferRowCount (st_stmt s2) = 3).
    { unfold s2. destruct s1 as [stmt t rc vs cs e]. simpl in *.
      destruct I1 as [-> ->]. split; reflexivity. }
    assert (O2 : open_stmt s2) by (apply row_taken_open; exact O1).
    assert (E3 : r3 = ((DPI_SUCCESS, Some 1, Some 2), row_taken oracle s2)).
    { unfold r3. rewrite E2. simpl snd.
      rewrite fetch_buffered by (try assumption; lia).
      destruct I2 as [-> _]. reflexivity. }
    set (s3 := row_taken oracle s2) in *.
    assert (I3 : bufferRowIndex (st_stmt s3) = 3
                 /\ bufferRowCount (st_stmt s3) = 3
                 /\ fetchArraySize (st_stmt s3) = 3
                 /\ handle (st_stmt s3) = handle (st_stmt s)
                 /\ hasRowsToFetch (st_stmt s3) = hasRowsToFetch (st_stmt s)).
    { unfold s3, s2, s1. destruct s as [stmt t rc vs cs e]. simpl in *.
      rewrite Hidx, Hcount, Hsize. repeat split; reflexivity. }
    assert (O3 : open_stmt s3) by (apply row_taken_open; exact O2).
    rewrite E1, E2, E3. simpl fst. simpl snd.
    split; [reflexivity|]. split; [reflexivity|]. split; [reflexivity|].
    split.
    + unfold s3, s2, s1. rewrite !row_taken_calls. reflexivity.
    + intros Hmore Hpre. unfold r4. rewrite E3. simpl snd.
      rewrite fetch_protocol_fetches.
      rewrite (checkOpen_open oracle "dpiStmt_fetch" s3 Hv O3). simpl fst.
      simpl snd.
      destruct I3 as (Ha & Hb & Hc & Hd & He).
      replace (st_stmt (guarded oracle "dpiStmt_fetch" s3)) with (st_stmt s3)
        by (destruct s3; reflexivity).
      rewrite Ha, Hb, Hc, Hd, He.
      apply Z.eqb_neq in Hf, Hi, Hmore. rewrite Hf, Hi, Hmore.
      apply Z.leb_le in Hpre. rewrite Hpre. reflexivity.
Qed.

Lemma fetch_only_when_window_exhausted_witness :
  fst (dpiStmt_fetch (oracle_rows 3) 1 1 (sample_state (query_stmt 0 3)))
  = (DPI_SUCCESS, Some 1, Some 0)
  /\ filter is_fetch_call
       (st_trace
          (snd (dpiStmt_fetch (oracle_rows 3) 1 1
             (snd (dpiStmt_fetch (oracle_rows 3) 1 1
                (snd (dpiStmt_fetch (oracle_rows 3) 1 1
                   (sample_state (query_stmt 0 3)))))))))
     = []
  /\ filter is_fetch_call
       (st_trace
          (snd (dpiStmt_fetch (oracle_rows 3) 1 1
             (snd (dpiStmt_fetch (oracle_rows 3) 1 1
                (snd (dpiStmt_fetch (oracle_rows 3) 1 1
                   (snd (dpiStmt_fetch (oracle_rows 3) 1 1
                      (sample_state (query_stmt 0 3)))))))))))
     = [E_stmtFetch2 3000 3 DPI_MODE_FETCH_NEXT 0].
Proof.
  destruct (fetch_only_when_window_exhausted (oracle_rows 3)
              (sample_state (query_stmt 0 3))) as (_ & _ & _ & H).
  assert (Hv : valid_handle (oracle_rows 3)).
  { intros fnName t. simpl. lia. }
  assert (Ho : open_stmt (sample_state (query_stmt 0 3))).
  { repeat split; simpl; discriminate. }
  destruct (H 1 1 Hv Ho) as (H1 & _ & _ & H3 & H4);
    try reflexivity; try discriminate.
  split; [exact H1|]. split; [exact H3|].
  apply H4; [discriminate|].
  vm_compute. discriminate.
Defined.

(** The claim that a window holding at least the requested number of rows
    is never refilled fails for a request of no rows: the exhausted window
    holds the 0 rows asked for, and the call still fetches. *)
Lemma fetchRows_of_no_rows_fetches :
  0 <= bufferRowCount (query_stmt 3 3) - bufferRowIndex (query_stmt 3 3)
  /\ filter is_fetch_call
       (st_trace (snd (dpiStmt_fetchRows (oracle_rows 3) 0 1 1 1
                         (sample_state (query_stmt 3 3)))))
     = [E_stmtFetch2 3000 3 DPI_MODE_FETCH_NEXT 0].
Proof. split; [vm_compute; discriminate | vm_compute; reflexivity]. Qed.

(** ** Scrolling *)

Lemma scroll_after_guard oracle mode offset rowCountOffset s opened s1 :
  dpiStmt__checkOpen oracle "dpiStmt_scroll" s = (opened, s1) ->
  0 <= opened ->
  dpiStmt_scroll oracle mode offset rowCountOffset s
  = match dpiStmt_scroll_target (st_stmt s1) mode offset rowCountOffset with
    | None => dpiError__set "scroll mode" DPI_ERR_NOT_SUPPORTED s1
    | Some (desiredRow, offset') =>
        if in_window (st_stmt s1) mode desiredRow
        then (DPI_SUCCESS, repositioned desiredRow s1)
        else
          (attempt dpiStmt__preFetch oracle ;;
           stmt <- get_stmt ;;
           attempt dpiOci__stmtFetch2 oracle (scroll_numRows stmt mode) mode
                     offset' error ;;
           r <- dpiOci__attrGet oracle (handle stmt)
                  DPI_OCI_ATTR_ROWS_FETCHED error ;;
           if r_status r <? 0 then ret DPI_FAILURE else
           modify_stmt (set_bufferRowCount (r_value r)) ;;
           if r_value r =? 0 then
             if negb (is_first mode) && negb (is_last mode) then
               dpiError__set "check result set bounds"
                 DPI_ERR_SCROLL_OUT_OF_RS
             else
               modify_stmt (set_hasRowsToFetch 0) ;;
               modify_stmt (set_rowCount 0) ;;
               modify_stmt (set_bufferRowIndex 0) ;;
               modify_stmt (set_bufferMinRow 0) ;;
               ret DPI_SUCCESS
           else
           c <- dpiOci__attrGet oracle (handle stmt)
                  DPI_OCI_ATTR_CURRENT_POSITION error ;;
           if r_status c <? 0 then ret DPI_FAILURE else
           modify_stmt (set_rowCount (u32 (r_value c - r_value r))) ;;
           modify_stmt (fun s => set_bufferMinRow (u64 (rowCount s + 1)) s) ;;
           modify_stmt (set_bufferRowIndex 0) ;;
           attempt dpiStmt__postFetch oracle ;;
           ret DPI_SUCCESS) s1
    end.
Proof.
  intros Hopen Hok.
  unfold dpiStmt_scroll. unfold bind at 1. rewrite Hopen.
  destruct (opened <? 0) eqn:Hlt; [apply Z.ltb_lt in Hlt; lia|].
  unfold bind at 1. unfold get_stmt at 1.
  destruct (dpiStmt_scroll_target (st_stmt s1) mode offset rowCountOffset)
    as [[desiredRow offset']|]; [|reflexivity].
  destruct (in_window (st_stmt s1) mode desiredRow); reflexivity.
Qed.

(** After the rows-fetched count has been read back. *)
Lemma scroll_after_rows oracle mode offset rowCountOffset s opened s1
      desiredRow offset' pre s2 fetched s3 r s4 :
  dpiStmt__checkOpen oracle "dpiStmt_scroll" s = (opened, s1) ->
  0 <= opened ->
  dpiStmt_scroll_target (st_stmt s1) mode offset rowCountOffset
  = Some (desiredRow, offset') ->
  in_window (st_stmt s1) mode desiredRow = false ->
  dpiStmt__preFetch oracle s1 = (pre, s2) -> 0 <= pre ->
  dpiOci__stmtFetch2 oracle (scroll_numRows (st_stmt s2) mode) mode offset'
    error s2 = (fetched, s3) -> 0 <= fetched ->
  dpiOci__attrGet oracle (handle (st_stmt s2)) DPI_OCI_ATTR_ROWS_FETCHED
    error s3 = (r, s4) -> 0 <= r_status r ->
  dpiStmt_scroll oracle mode offset rowCountOffset s
  = (if r_value r =? 0 then
       if negb (is_first mode) && negb (is_last mode) then
         dpiError__set "check result set bounds" DPI_ERR_SCROLL_OUT_OF_RS
       else
         modify_stmt (set_hasRowsToFetch 0) ;;
         modify_stmt (set_rowCount 0) ;;
         modify_stmt (set_bufferRowIndex 0) ;;
         modify_stmt (set_bufferMinRow 0) ;;
         ret DPI_SUCCESS
     else
       c <- dpiOci__attrGet oracle (handle (st_stmt s2))
              DPI_OCI_ATTR_CURRENT_POSITION error ;;
       if r_status c <? 0 then ret DPI_FAILURE else
       modify_stmt (set_rowCount (u32 (r_value c - r_value r))) ;;
       modify_stmt (fun s => set_bufferMinRow (u64 (rowCount s + 1)) s) ;;
       modify_stmt (set_bufferRowIndex 0) ;;
       attempt dpiStmt__postFetch oracle ;;
       ret DPI_SUCCESS)
      (with_st_stmt (set_bufferRowCount (r_value r) (st_stmt s4)) s4).
Proof.
  intros Hopen Hok Htarget Hout Hpre Hpok Hfetch Hfok Hrows Hrok.
  rewrite (scroll_after_guard _ _ _ _ _ _ _ Hopen Hok), Htarget, Hout.
  unfold bind at 1. rewrite Hpre.
  destruct (pre <? 0) eqn:E1; [apply Z.ltb_lt in E1; lia|].
  unfold bind at 1. unfold get_stmt at 1.
  unfold bind at 1. rewrite Hfetch.
  destruct (fetched <? 0) eqn:E2; [apply Z.ltb_lt in E2; lia|].
  unfold bind at 1. rewrite Hrows.
  destruct (r_status r <? 0) eqn:E3; [apply Z.ltb_lt in E3; lia|].
  reflexivity.
Qed.

(** C5.  When [dpiStmt_scroll] has performed its protocol fetch and reads
    back zero rows fetched, the modes "first" and "last" succeed on an
    empty result set (row count, window bounds and index are 0, no more
    rows are expected), and every other mode (next, prior, absolute,
    relative) fails with [DPI_ERR_SCROLL_OUT_OF_RS]
    ([ScrollOutOfResultSet]). *)
Theorem scroll_zero_rows :
  forall oracle mode offset rowCountOffset s opened s1 desiredRow offset'
         pre s2 fetched s3 r s4,
    dpiStmt__checkOpen oracle "dpiStmt_scroll" s = (opened, s1) ->
    0 <= opened ->
    dpiStmt_scroll_target (st_stmt s1) mode offset rowCountOffset
    = Some (desiredRow, offset') ->
    in_window (st_stmt s1) mode desiredRow = false ->
    dpiStmt__preFetch oracle s1 = (pre, s2) -> 0 <= pre ->
    dpiOci__stmtFetch2 oracle (scroll_numRows (st_stmt s2) mode) mode offset'
      error s2 = (fetched, s3) -> 0 <= fetched ->
    dpiOci__attrGet oracle (handle (st_stmt s2)) DPI_OCI_ATTR_ROWS_FETCHED
      error s3 = (r, s4) -> 0 <= r_status r ->
    r_value r = 0 ->
    dpiStmt_scroll oracle mode offset rowCountOffset s
    = (if is_first mode || is_last mode
       then (DPI_SUCCESS, emptied s4)
       else (DPI_FAILURE,
             with_st_error
               (mkErrorBuffer 0 0 DPI_ERR_SCROLL_OUT_OF_RS
                  (eb_fnName (st_error s4)) "check result set bounds")
               (with_st_stmt (set_bufferRowCount 0 (st_stmt s4)) s4)))
    /\ errorKind DPI_ERR_SCROLL_OUT_OF_RS = Some ScrollOutOfResultSet.
Proof.
  intros oracle mode offset rowCountOffset s opened s1 desiredRow offset'
    pre s2 fetched s3 r s4 Hopen Hok Htarget Hout Hpre Hpok Hfetch Hfok
    Hrows Hrok Hzero.
  split; [|reflexivity].
  rewrite (scroll_after_rows _ _ _ _ _ _ _ _ _ _ _ _ _ _ _ Hopen Hok Htarget
             Hout Hpre Hpok Hfetch Hfok Hrows Hrok).
  rewrite Hzero. simpl (0 =? 0).
  destruct s4 as [stmt t rc vs cs e].
  destruct mode; reflexivity.
Qed.

Lemma scroll_zero_rows_witness :
  in_window (query_stmt 0 0) DPI_MODE_FETCH_ABSOLUTE 1 = false
  /\ fst (dpiStmt_scroll (oracle_rows 0) DPI_MODE_FETCH_ABSOLUTE 1 0
            (sample_state (query_stmt 0 0))) = DPI_FAILURE
  /\ eb_errorNum
       (st_error
          (snd (dpiStmt_scroll (oracle_rows 0) DPI_MODE_FETCH_ABSOLUTE 1 0
                  (sample_state (query_stmt 0 0)))))
     = DPI_ERR_SCROLL_OUT_OF_RS.
Proof.
  split; [reflexivity|].
  pose (s := sample_state (query_stmt 0 0)).
  pose (c1 := dpiStmt__checkOpen (oracle_rows 0) "dpiStmt_scroll" s).
  pose (c2 := dpiStmt__preFetch (oracle_rows 0) (snd c1)).
  pose (c3 := dpiOci__stmtFetch2 (oracle_rows 0)
                (scroll_numRows (st_stmt (snd c2)) DPI_MODE_FETCH_ABSOLUTE)
                DPI_MODE_FETCH_ABSOLUTE 1 error (snd c2)).
  pose (c4 := dpiOci__attrGet (oracle_rows 0) (handle (st_stmt (snd c2)))
                DPI_OCI_ATTR_ROWS_FETCHED error (snd c3)).
  destruct (scroll_zero_rows (oracle_rows 0) DPI_MODE_FETCH_ABSOLUTE 1 0 s
              (fst c1) (snd c1) 1 1 (fst c2) (snd c2) (fst c3) (snd c3)
              (fst c4) (snd c4)) as [H _].
  - apply surjective_pairing.
  - vm_compute. discriminate.
  - vm_compute. reflexivity.
  - vm_compute. reflexivity.
  - apply surjective_pairing.
  - vm_compute. discriminate.
  - apply surjective_pairing.
  - vm_compute. discriminate.
  - apply surjective_pairing.
  - vm_compute. discriminate.
  - vm_compute. reflexivity.
  - fold s. rewrite H. split; reflexivity.
Defined.

(** The protocol fetches of a scroll that has to leave the window: none
    when the pre-fetch step fails, otherwise the one positioned fetch. *)
Lemma scroll_protocol_fetches oracle mode offset rowCountOffset s opened s1
      desiredRow offset' :
  dpiStmt__checkOpen oracle "dpiStmt_scroll" s = (opened, s1) ->
  0 <= opened ->
  dpiStmt_scroll_target (st_stmt s1) mode offset rowCountOffset
  = Some (desiredRow, offset') ->
  in_window (st_stmt s1) mode desiredRow = false ->
  filter is_fetch_call
    (st_trace (snd (dpiStmt_scroll oracle mode offset rowCountOffset s)))
  = if 0 <=? fst (dpiStmt__preFetch oracle s1)
    then E_stmtFetch2 (handle (st_stmt s1))
           (scroll_numRows (st_stmt s1) mode) mode offset'
         :: filter is_fetch_call (st_trace s)
    else filter is_fetch_call (st_trace s).
Proof.
  intros Hopen Hok Htarget Hout.
  pose proof (checkOpen_no_fetch oracle "dpiStmt_scroll" s) as Hq0.
  unfold same_calls in Hq0. rewrite Hopen in Hq0. simpl in Hq0.
  rewrite (scroll_after_guard _ _ _ _ _ _ _ Hopen Hok), Htarget, Hout.
  unfold bind at 1.
  pose proof (preFetch_no_fetch oracle s1) as Hq.
  pose proof (preFetch_keeps oracle s1) as Hk.
  destruct (dpiStmt__preFetch oracle s1) as [pre s2].
  unfold same_calls, same_on in Hq, Hk. simpl in Hq, Hk.
  injection Hk as Hh Hf. simpl fst.
  destruct (Z.ltb_spec pre 0) as [Hlt|Hge].
  { simpl. rewrite Hq, Hq0.
    destruct (Z.leb_spec 0 pre); [lia | reflexivity]. }
  unfold bind at 1. unfold get_stmt at 1.
  unfold bind at 1.
  pose proof (stmtFetch2_trace oracle (scroll_numRows (st_stmt s2) mode) mode
                offset' error s2) as Ht.
  destruct (dpiOci__stmtFetch2 _ _ _ _ _ _) as [r s3]. simpl in Ht.
  rewrite quiet_snd by quiet.
  rewrite Ht. unfold scroll_numRows. rewrite Hh, Hf. simpl.
  rewrite Hq, Hq0.
  destruct (Z.leb_spec 0 pre); [reflexivity | lia].
Qed.

(** C4 (as amended).  For a scroll on an open statement whose desired row
    lies within the buffered window (which excludes the mode "last"), the
    call repositions the in-window index and the row count, leaves the
    window bounds and everything else as they are, and makes no external
    call after the open guard.  When the desired row lies outside the
    window, the pre-fetch step runs first: if it fails, no protocol fetch
    is issued; if it succeeds, the one positioned fetch is issued.  When
    that fetch and the two read-backs succeed with at least one row, the
    window is rebased on the server's position: [rowCount] is
    [currentPosition - bufferRowCount], [bufferMinRow] is that plus 1 and
    [bufferRowIndex] is 0. *)
Theorem scroll_window :
  forall oracle mode offset rowCountOffset s opened s1 desiredRow offset',
    dpiStmt__checkOpen oracle "dpiStmt_scroll" s = (opened, s1) ->
    0 <= opened ->
    dpiStmt_scroll_target (st_stmt s1) mode offset rowCountOffset
    = Some (desiredRow, offset') ->
    (in_window (st_stmt s1) mode desiredRow = true ->
       dpiStmt_scroll oracle mode offset rowCountOffset s
       = (DPI_SUCCESS, repositioned desiredRow s1)
       /\ st_trace (repositioned desiredRow s1) = st_trace s1
       /\ bufferMinRow (st_stmt (repositioned desiredRow s1))
          = bufferMinRow (st_stmt s1)
       /\ bufferRowCount (st_stmt (repositioned desiredRow s1))
          = bufferRowCount (st_stmt s1)
       /\ bufferRowIndex (st_stmt (repositioned desiredRow s1))
          = u32 (desiredRow - bufferMinRow (st_stmt s1)))
    /\ (in_window (st_stmt s1) mode desiredRow = false ->
        filter is_fetch_call
          (st_trace (snd (dpiStmt_scroll oracle mode offset rowCountOffset s)))
        = if 0 <=? fst (dpiStmt__preFetch oracle s1)
          then E_stmtFetch2 (handle (st_stmt s1))
                 (scroll_numRows (st_stmt s1) mode) mode offset'
               :: filter is_fetch_call (st_trace s)
          else filter is_fetch_call (st_trace s))
    /\ (forall pre s2 fetched s3 r s4 c s5,
        in_window (st_stmt s1) mode desiredRow = false ->
        dpiStmt__preFetch oracle s1 = (pre, s2) -> 0 <= pre ->
        dpiOci__stmtFetch2 oracle (scroll_numRows (st_stmt s2) mode) mode
          offset' error s2 = (fetched, s3) -> 0 <= fetched ->
        dpiOci__attrGet oracle (handle (st_stmt s2))
          DPI_OCI_ATTR_ROWS_FETCHED error s3 = (r, s4) ->
        0 <= r_status r -> r_value r <> 0 ->
        dpiOci__attrGet oracle (handle (st_stmt s2))
          DPI_OCI_ATTR_CURRENT_POSITION error
          (with_st_stmt (set_bufferRowCount (r_value r) (st_stmt s4)) s4)
        = (c, s5) ->
        0 <= r_status c ->
        let stmt' :=
          st_stmt (snd (dpiStmt_scroll oracle mode offset rowCountOffset s)) in
        bufferRowCount stmt' = r_value r
        /\ rowCount stmt' = u32 (r_value c - r_value r)
        /\ bufferMinRow stmt' = u64 (u32 (r_value c - r_value r) + 1)
        /\ bufferRowIndex stmt' = 0
        /\ (0 <= r_value r <= r_value c -> r_value c < 2 ^ 32 ->
            bufferMinRow stmt' = r_value c - r_value r + 1)).
Proof.
  intros oracle mode offset rowCountOffset s opened s1 desiredRow offset'
    Hopen Hok Htarget.
  split; [|split].
  - intro Hin.
    rewrite (scroll_after_guard _ _ _ _ _ _ _ Hopen Hok), Htarget, Hin.
    destruct s1 as [stmt t rc vs cs e]. repeat split.
  - intro Hout.
    exact (scroll_protocol_fetches _ _ _ _ _ _ _ _ _ Hopen Hok Htarget Hout).
  - intros pre s2 fetched s3 r s4 c s5 Hout Hpre Hpok Hfetch Hfok Hrows Hrok
      Hnz Hpos Hcok stmt'.
    assert (Hstmt : stmt'
                    = set_bufferRowIndex 0
                        (set_bufferMinRow
                           (u64 (u32 (r_value c - r_value r) + 1))
                           (set_rowCount (u32 (r_value c - r_value r))
                              (st_stmt s5)))).
    { unfold stmt'.
      rewrite (scroll_after_rows _ _ _ _ _ _ _ _ _ _ _ _ _ _ _ Hopen Hok
                 Htarget Hout Hpre Hpok Hfetch Hfok Hrows Hrok).
      apply Z.eqb_neq in Hnz. rewrite Hnz.
      unfold bind at 1. rewrite Hpos.
      destruct (r_status c <? 0) eqn:E; [apply Z.ltb_lt in E; lia|].
      unfold bind at 1. unfold modify_stmt at 1.
      unfold bind at 1. unfold modify_stmt at 1.
      unfold bind at 1. unfold modify_stmt at 1.
      unfold bind at 1.
      match goal with
      | |- st_stmt (snd (let (_, _) := dpiStmt__postFetch oracle ?x in _)) = _ =>
          pose proof (postFetch_keeps_stmt oracle x) as Hk;
          destruct (dpiStmt__postFetch oracle x) as [post s6]
      end.
      unfold same_on in Hk. simpl in Hk.
      destruct (post <? 0); simpl; rewrite Hk;
        destruct s5 as [stmt5 t rc vs cs e]; reflexivity. }
    assert (Hs5 : bufferRowCount (st_stmt s5) = r_value r).
    { unfold dpiOci__attrGet, external_err in Hpos. revert Hpos. run.
      destruct (r_status _ <? 0); intro Hpos; injection Hpos as _ <-;
        destruct s4 as [stmt4 t rc vs cs e]; reflexivity. }
    rewrite Hstmt. simpl.
    repeat split; try assumption.
    intros Hrange Hlt. unfold u32, u64.
    rewrite (Z.mod_small (r_value c - r_value r)) by lia.
    apply Z.mod_small. lia.
Qed.

Lemma scroll_window_witness :
  in_window (query_stmt 0 3) DPI_MODE_FETCH_ABSOLUTE 2 = true
  /\ dpiStmt_scroll oracle_ok DPI_MODE_FETCH_ABSOLUTE 2 0
       (sample_state (query_stmt 0 3))
     = (DPI_SUCCESS,
        repositioned 2
          (guarded oracle_ok "dpiStmt_scroll"
             (sample_state (query_stmt 0 3)))).
Proof.
  split; [vm_compute; reflexivity|].
  destruct (scroll_window oracle_ok DPI_MODE_FETCH_ABSOLUTE 2 0
              (sample_state (query_stmt 0 3)) DPI_SUCCESS
              (guarded oracle_ok "dpiStmt_scroll"
                 (sample_state (query_stmt 0 3))) 2 2)
    as [H _];
    [vm_compute; reflexivity | discriminate | vm_compute; reflexivity |].
  assert (Hin : in_window
                  (st_stmt (guarded oracle_ok "dpiStmt_scroll"
                              (sample_state (query_stmt 0 3))))
                  DPI_MODE_FETCH_ABSOLUTE 2 = true)
    by (vm_compute; reflexivity).
  destruct (H Hin) as [H1 _]. exact H1.
Defined.

(** A scroll outside the window does not always reach the server: when a
    defined value resource is smaller than the fetch array size, the
    pre-fetch step rejects the call and no protocol call is made at all. *)
Lemma scroll_outside_window_without_fetch :
  in_window (query_stmt 0 3) DPI_MODE_FETCH_ABSOLUTE 10 = false
  /\ fst (dpiStmt_scroll oracle_ok DPI_MODE_FETCH_ABSOLUTE 10 0
            (small_var_state (query_stmt 0 3))) = DPI_FAILURE
  /\ eb_errorNum
       (st_error
          (snd (dpiStmt_scroll oracle_ok DPI_MODE_FETCH_ABSOLUTE 10 0
                  (small_var_state (query_stmt 0 3)))))
     = DPI_ERR_ARRAY_SIZE_TOO_SMALL
  /\ filter is_protocol_call
       (st_trace
          (snd (dpiStmt_scroll oracle_ok DPI_MODE_FETCH_ABSOLUTE 10 0
                  (small_var_state (query_stmt 0 3)))))
     = [].
Proof.
  split; [vm_compute; reflexivity|].
  split; [vm_compute; reflexivity|].
  split; vm_compute; reflexivity.
Qed.

(** ** Execution and the recovery path *)

Lemma bind_ext {A B : Type} (m : M A) (k1 k2 : A -> M B) s :
  (forall a s', k1 a s' = k2 a s') -> bind m k1 s = bind m k2 s.
Proof. intro H. unfold bind. destruct (m s) as [a s']. apply H. Qed.

Lemma for_ext {A : Type} (b1 b2 : Z -> M (option A)) :
  (forall j s, b1 j s = b2 j s) ->
  forall n i s, for_ n i b1 s = for_ n i b2 s.
Proof.
  intros H. induction n as [|n IH]; intros i s; simpl; [reflexivity|].
  unfold bind. rewrite H. destruct (b2 i s) as [[a|] s']; [reflexivity|].
  apply IH.
Qed.

Ltac ext_go H :=
  repeat first
    [ reflexivity
    | apply H
    | apply bind_ext; intros
    | match goal with
      | |- (match ?x with _ => _ end) _ = (match ?x with _ => _ end) _ =>
          destruct x
      end ].

(** The retry is the only use [dpiStmt__reExecute] makes of
    [dpiStmt__execute], and it is made with recovery disabled. *)
Lemma reExecute_ext oracle f g numIters mode s :
  (forall n m s', f n m 0 s' = g n m 0 s') ->
  dpiStmt__reExecute oracle f numIters mode s
  = dpiStmt__reExecute oracle g numIters mode s.
Proof. intro H. unfold dpiStmt__reExecute. ext_go H. Qed.

Lemma execute_failed_ext oracle f g numIters mode reExecute s :
  (forall n m s', f n m 0 s' = g n m 0 s') ->
  dpiStmt__execute_failed oracle f numIters mode reExecute s
  = dpiStmt__execute_failed oracle g numIters mode reExecute s.
Proof.
  intro H. unfold dpiStmt__execute_failed.
  apply bind_ext; intros. apply bind_ext; intros.
  destruct (negb (reExecute =? 0) && (eb_code a0 =? 1007));
    [apply reExecute_ext; exact H | reflexivity].
Qed.

Lemma execute_body_ext oracle f g numIters mode reExecute s :
  (forall n m s', f n m 0 s' = g n m 0 s') ->
  dpiStmt__execute_body oracle f numIters mode reExecute s
  = dpiStmt__execute_body oracle g numIters mode reExecute s.
Proof.
  intro H. unfold dpiStmt__execute_body.
  apply bind_ext; intros [status|] s1; [reflexivity|].
  apply bind_ext; intros. apply bind_ext; intros.
  destruct (a0 <? 0); [apply execute_failed_ext; exact H | reflexivity].
Qed.

(** With recovery disabled the failure branch ends the call. *)
Lemma execute_failed_disabled oracle f numIters mode s :
  dpiStmt__execute_failed oracle f numIters mode 0 s
  = (let sc := snd (dpiStmt__execute_parseOffset oracle s) in
     (DPI_FAILURE,
      if eb_code (st_error sc) =? 1 then sc
      else with_st_stmt (set_deleteFromCache 1 (st_stmt sc)) sc)).
Proof.
  unfold dpiStmt__execute_failed. unfold bind at 1.
  destruct (dpiStmt__execute_parseOffset oracle s) as [u sc]. simpl.
  destruct sc as [stmt t rc vs cs e]. run.
  destruct (eb_code e =? 1); reflexivity.
Qed.

Lemma execute_body_disabled oracle f g numIters mode s :
  dpiStmt__execute_body oracle f numIters mode 0 s
  = dpiStmt__execute_body oracle g numIters mode 0 s.
Proof.
  unfold dpiStmt__execute_body.
  apply bind_ext; intros [status|] s1; [reflexivity|].
  apply bind_ext; intros. apply bind_ext; intros.
  destruct (a0 <? 0); [|reflexivity].
  rewrite !execute_failed_disabled. reflexivity.
Qed.

(** Two levels of the recursion are all that is ever used. *)
Lemma dpiStmt__execute_fuel_enough oracle k numIters mode reExecute s :
  dpiStmt__execute_fuel oracle (2 + k) numIters mode reExecute s
  = dpiStmt__execute oracle numIters mode reExecute s.
Proof.
  unfold dpiStmt__execute. simpl.
  apply execute_body_ext. intros n m s'.
  destruct k; [reflexivity|]. simpl. apply execute_body_disabled.
Qed.

(** [dpiStmt__execute] satisfies the equation of the C function. *)
Lemma dpiStmt__execute_unfold oracle numIters mode reExecute s :
  dpiStmt__execute oracle numIters mode reExecute s
  = dpiStmt__execute_body oracle (dpiStmt__execute oracle) numIters mode
      reExecute s.
Proof.
  unfold dpiStmt__execute. simpl.
  apply execute_body_ext. intros n m s'. apply execute_body_disabled.
Qed.

Lemma attrGet_trace oracle h attr err s :
  st_trace (snd (dpiOci__attrGet oracle h attr err s))
  = E_attrGet h attr :: st_trace s.
Proof.
  unfold dpiOci__attrGet, external_err. run.
  destruct (r_status _ <? 0); destruct err; reflexivity.
Qed.

Lemma prepare_no_recovery oracle :
  frame (same_calls is_recovery_entry) (dpiStmt__execute_prepare oracle).
Proof. quiet. Qed.

Lemma succeeded_no_recovery oracle :
  frame (same_calls is_recovery_entry) (dpiStmt__execute_succeeded oracle).
Proof. quiet. Qed.

Lemma stmtExecute_no_recovery oracle numIters mode err :
  frame (same_calls is_recovery_entry)
    (dpiOci__stmtExecute oracle numIters mode err).
Proof. quiet. Qed.

Lemma parseOffset_no_recovery oracle :
  frame (same_calls is_recovery_entry) (dpiStmt__execute_parseOffset oracle).
Proof. quiet. Qed.

Lemma parseOffset_keeps_stmt oracle :
  frame (same_on (fun st => st)) (dpiStmt__execute_parseOffset oracle).
Proof. keep. Qed.

(** Recovery is entered through the read of the SQL text, once, whatever
    comes of it, as long as the retry itself does not enter it. *)
Lemma reExecute_entry oracle self numIters mode s :
  (forall n m, frame (same_calls is_recovery_entry) (self n m 0)) ->
  filter is_recovery_entry
    (st_trace (snd (dpiStmt__reExecute oracle self numIters mode s)))
  = E_attrGet (handle (st_stmt s)) DPI_OCI_ATTR_STATEMENT
    :: filter is_recovery_entry (st_trace s).
Proof.
  intro Hself. unfold dpiStmt__reExecute.
  unfold bind at 1. unfold get_stmt at 1. unfold bind at 1.
  pose proof (attrGet_trace oracle (handle (st_stmt s))
                DPI_OCI_ATTR_STATEMENT error s) as Ht.
  destruct (dpiOci__attrGet oracle (handle (st_stmt s))
              DPI_OCI_ATTR_STATEMENT error s) as [r s1].
  simpl in Ht.
  rewrite quiet_snd by quiet.
  rewrite Ht. reflexivity.
Qed.

Lemma execute_failed_entries oracle self numIters mode reExecute s :
  (forall n m, frame (same_calls is_recovery_entry) (self n m 0)) ->
  let sc := snd (dpiStmt__execute_parseOffset oracle s) in
  filter is_recovery_entry
    (st_trace
       (snd (dpiStmt__execute_failed oracle self numIters mode reExecute s)))
  = if negb (reExecute =? 0) && (eb_code (st_error sc) =? 1007)
    then E_attrGet (handle (st_stmt sc)) DPI_OCI_ATTR_STATEMENT
         :: filter is_recovery_entry (st_trace s)
    else filter is_recovery_entry (st_trace s).
Proof.
  intros Hself sc. unfold dpiStmt__execute_failed. unfold bind at 1.
  pose proof (parseOffset_no_recovery oracle s) as Hq. unfold same_calls in Hq.
  fold sc in Hq. subst sc.
  destruct (dpiStmt__execute_parseOffset oracle s) as [u sc]. simpl in *.
  unfold bind at 1. unfold get_error at 1.
  destruct (negb (reExecute =? 0) && (eb_code (st_error sc) =? 1007)).
  - rewrite reExecute_entry by exact Hself. rewrite Hq. reflexivity.
  - rewrite quiet_snd by quiet. exact Hq.
Qed.

Lemma execute_body_disabled_no_recovery oracle self numIters mode :
  frame (same_calls is_recovery_entry)
    (dpiStmt__execute_body oracle self numIters mode 0).
Proof.
  intro s. unfold same_calls, dpiStmt__execute_body.
  unfold bind at 1.
  pose proof (prepare_no_recovery oracle s) as Hq. unfold same_calls in Hq.
  destruct (dpiStmt__execute_prepare oracle s) as [[status|] sa];
    simpl in Hq; [exact Hq|].
  unfold bind at 1. unfold get_stmt at 1. unfold bind at 1.
  match goal with
  | |- context [dpiOci__stmtExecute oracle ?n ?m ?e sa] =>
      pose proof (stmtExecute_no_recovery oracle n m e sa) as Hx;
      destruct (dpiOci__stmtExecute oracle n m e sa) as [executed sb]
  end.
  unfold same_calls in Hx. simpl in Hx.
  destruct (executed <? 0).
  - rewrite execute_failed_disabled. simpl.
    pose proof (parseOffset_no_recovery oracle sb) as Hp.
    unfold same_calls in Hp.
    destruct (eb_code _ =? 1); [|destruct (snd _)]; simpl in *;
      congruence.
  - rewrite quiet_snd by apply succeeded_no_recovery. congruence.
Qed.

Lemma execute_disabled_no_recovery oracle numIters mode :
  frame (same_calls is_recovery_entry)
    (dpiStmt__execute_fuel oracle 1 numIters mode 0).
Proof. apply execute_body_disabled_no_recovery. Qed.

(** The entries into the recovery path during one execution. *)
Lemma execute_recovery_entries oracle numIters mode reExecute s :
  filter is_recovery_entry
    (st_trace (snd (dpiStmt__execute oracle numIters mode reExecute s)))
  = if recovery_taken oracle numIters mode reExecute s
    then E_attrGet (handle (st_stmt (execute_classified oracle numIters mode s)))
           DPI_OCI_ATTR_STATEMENT
         :: filter is_recovery_entry (st_trace s)
    else filter is_recovery_entry (st_trace s).
Proof.
  unfold recovery_taken, execute_error_code, execute_classified,
    execute_call_failed, execute_call, dpiStmt__execute.
  simpl dpiStmt__execute_fuel. unfold dpiStmt__execute_body at 1.
  unfold bind at 1.
  pose proof (prepare_no_recovery oracle s) as Hq. unfold same_calls in Hq.
  destruct (dpiStmt__execute_prepare oracle s) as [[status|] sa];
    simpl in Hq; simpl fst; simpl snd; [exact Hq|].
  unfold bind at 1. unfold get_stmt at 1. unfold bind at 1.
  pose proof (stmtExecute_no_recovery oracle numIters
                (execute_mode (st_stmt sa) mode) error sa) as Hx.
  destruct (dpiOci__stmtExecute oracle numIters
              (execute_mode (st_stmt sa) mode) error sa) as [executed sb].
  unfold same_calls in Hx. simpl in Hx. simpl fst. simpl snd.
  destruct (executed <? 0); simpl andb.
  - rewrite execute_failed_entries
      by (intros n m; apply execute_body_disabled_no_recovery).
    rewrite Hx, Hq. reflexivity.
  - rewrite quiet_snd by apply succeeded_no_recovery. congruence.
Qed.

Lemma prepare_keeps_eviction oracle :
  frame (same_on deleteFromCache) (dpiStmt__execute_prepare oracle).
Proof. keep. Qed.

Lemma stmtExecute_keeps_eviction oracle numIters mode :
  frame (same_on deleteFromCache)
    (dpiOci__stmtExecute oracle numIters mode error).
Proof. keep. Qed.

(** The result of an execution whose protocol call fails and which does
    not take the recovery path. *)
Lemma execute_failure oracle numIters mode reExecute s :
  execute_call_failed oracle numIters mode s = true ->
  recovery_taken oracle numIters mode reExecute s = false ->
  dpiStmt__execute oracle numIters mode reExecute s
  = (DPI_FAILURE,
     if execute_error_code oracle numIters mode s =? 1
     then execute_classified oracle numIters mode s
     else with_st_stmt
            (set_deleteFromCache 1
               (st_stmt (execute_classified oracle numIters mode s)))
            (execute_classified oracle numIters mode s)).
Proof.
  unfold recovery_taken, execute_error_code, execute_classified,
    execute_call_failed, execute_call, dpiStmt__execute.
  simpl dpiStmt__execute_fuel. unfold dpiStmt__execute_body at 1.
  unfold bind at 1.
  destruct (dpiStmt__execute_prepare oracle s) as [[status|] sa];
    simpl fst; simpl snd; [discriminate|].
  unfold bind at 1. unfold get_stmt at 1. unfold bind at 1.
  destruct (dpiOci__stmtExecute oracle numIters
              (execute_mode (st_stmt sa) mode) error sa) as [executed sb].
  simpl fst. simpl snd. intros -> Hno. simpl in Hno.
  unfold dpiStmt__execute_failed. unfold bind at 1.
  destruct (dpiStmt__execute_parseOffset oracle sb) as [u sc].
  simpl snd in *. unfold bind at 1. unfold get_error at 1.
  rewrite Hno. destruct sc as [stmt t rc vs cs e]. run.
  destruct (eb_code e =? 1); reflexivity.
Qed.

Lemma classified_keeps_eviction oracle numIters mode s :
  deleteFromCache (st_stmt (execute_classified oracle numIters mode s))
  = deleteFromCache (st_stmt s).
Proof.
  unfold execute_classified, execute_call.
  rewrite (keep_snd (fun st => st)) by apply parseOffset_keeps_stmt.
  rewrite (keep_snd deleteFromCache) by apply stmtExecute_keeps_eviction.
  apply (keep_snd deleteFromCache). apply prepare_keeps_eviction.
Qed.

(** C9.  When the protocol execute call fails and the recovery path is not
    taken, the execution returns [DPI_FAILURE]; the statement is marked for
    eviction from the statement cache ([deleteFromCache = 1]) unless the
    server error code is exactly 1 ("unique constraint violated"), in
    which case the flag is as it was before the call. *)
Theorem execute_failure_eviction :
  forall oracle numIters mode reExecute s,
    execute_call_failed oracle numIters mode s = true ->
    recovery_taken oracle numIters mode reExecute s = false ->
    let result := dpiStmt__execute oracle numIters mode reExecute s in
    fst result = DPI_FAILURE
    /\ deleteFromCache (st_stmt (snd result))
       = (if execute_error_code oracle numIters mode s =? 1
          then deleteFromCache (st_stmt s)
          else 1)
    /\ result
       = (DPI_FAILURE,
          if execute_error_code oracle numIters mode s =? 1
          then execute_classified oracle numIters mode s
          else with_st_stmt
                 (set_deleteFromCache 1
                    (st_stmt (execute_classified oracle numIters mode s)))
                 (execute_classified oracle numIters mode s)).
Proof.
  intros oracle numIters mode reExecute s Hfail Hno result.
  unfold result. rewrite (execute_failure _ _ _ _ _ Hfail Hno).
  split; [reflexivity|]. split; [|reflexivity].
  simpl snd. destruct (execute_error_code oracle numIters mode s =? 1).
  - apply classified_keeps_eviction.
  - reflexivity.
Qed.

Lemma execute_failure_eviction_witness :
  (fst (dpiStmt__execute (oracle_execute_fails 942) 0 0 1
          (sample_state sample_stmt)) = DPI_FAILURE
   /\ deleteFromCache
        (st_stmt (snd (dpiStmt__execute (oracle_execute_fails 942) 0 0 1
                         (sample_state sample_stmt)))) = 1)
  /\ (fst (dpiStmt__execute (oracle_execute_fails 1) 0 0 1
             (sample_state sample_stmt)) = DPI_FAILURE
      /\ deleteFromCache
           (st_stmt (snd (dpiStmt__execute (oracle_execute_fails 1) 0 0 1
                            (sample_state sample_stmt)))) = 0).
Proof.
  split.
  - destruct (execute_failure_eviction (oracle_execute_fails 942) 0 0 1
                (sample_state sample_stmt)) as (H1 & H2 & _);
      [vm_compute; reflexivity | vm_compute; reflexivity |].
    split; [exact H1|]. rewrite H2. vm_compute. reflexivity.
  - destruct (execute_failure_eviction (oracle_execute_fails 1) 0 0 1
                (sample_state sample_stmt)) as (H1 & H2 & _);
      [vm_compute; reflexivity | vm_compute; reflexivity |].
    split; [exact H1|]. rewrite H2. vm_compute. reflexivity.
Defined.

Lemma factor_bind {A : Type} (m : M A) (k1 k2 : A -> M Z)
      (F : St -> Z * St) s :
  (forall a s',
      k1 a s' = (if fst (k2 a s') =? retry_reached then F (snd (k2 a s'))
                 else (DPI_FAILURE, snd (k2 a s')))) ->
  bind m k1 s
  = (if fst (bind m k2 s) =? retry_reached then F (snd (bind m k2 s))
     else (DPI_FAILURE, snd (bind m k2 s))).
Proof. intro H. unfold bind. destruct (m s) as [a s']. apply H. Qed.

Lemma for_result {A : Type} (P : A -> Prop) (body : Z -> M (option A)) :
  (forall j s a, fst (body j s) = Some a -> P a) ->
  forall n i s a, fst (for_ n i body s) = Some a -> P a.
Proof.
  intro Hbody. induction n as [|n IH]; intros i s a; simpl.
  - discriminate.
  - unfold bind. specialize (Hbody i s).
    destruct (body i s) as [[b|] s1]; simpl in *.
    + intro H. injection H as <-. apply Hbody. reflexivity.
    + apply IH.
Qed.

(** The rebinding loop of [dpiStmt__reExecute] leaves the function with
    [DPI_FAILURE] only. *)
Lemma rebind_loop_result oracle n i s a :
  fst (for_ n i (fun i =>
         s <- get_stmt ;;
         let bindVar := at_ zeroBindVar (bindVars s) i in
         if bv_var bindVar =? 0 then ret None else
         let var := bv_var bindVar in
         modify_entry i (set_bv_var 0) ;;
         status <- dpiStmt__bind oracle var 0 (bv_pos bindVar)
                     (bv_name bindVar) (bv_nameLength bindVar) ;;
         if status <? 0 then
           dpiGen__setRefCount oracle var error (-1) ;;
           ret (Some DPI_FAILURE)
         else ret None) s) = Some a ->
  a = DPI_FAILURE.
Proof.
  refine (for_result (fun a => a = DPI_FAILURE) _ _ n i s a).
  clear. intros j s a.
  cbv zeta. unfold bind at 1. unfold get_stmt at 1. cbv beta iota.
  destruct (bv_var _ =? 0); [discriminate|].
  unfold bind at 1.
  destruct (modify_entry _ _ _) as [u s1].
  unfold bind at 1.
  destruct (dpiStmt__bind _ _ _ _ _ _ _) as [status s2].
  destruct (status <? 0); [|discriminate].
  unfold bind. destruct (dpiGen__setRefCount _ _ _ _ _) as [x s3].
  simpl. intro H. injection H as <-. reflexivity.
Qed.

(** [dpiStmt__reExecute] either fails before its retry, with
    [DPI_FAILURE], or ends with the retry, made with recovery disabled, and
    hands back what the retry hands back. *)
Lemma reExecute_factor oracle f numIters mode s :
  dpiStmt__reExecute oracle f numIters mode s
  = (if fst (recovery_until_retry oracle numIters mode s) =? retry_reached
     then f numIters mode 0 (snd (recovery_until_retry oracle numIters mode s))
     else (DPI_FAILURE, snd (recovery_until_retry oracle numIters mode s))).
Proof.
  unfold recovery_until_retry, dpiStmt__reExecute. cbv zeta.
  apply factor_bind; intros stmt s0.
  apply factor_bind; intros r s1.
  destruct (r_status r <? 0); [reflexivity|].
  apply factor_bind; intros status s2.
  apply factor_bind; intros stmt2 s3.
  apply factor_bind; intros u4 s4.
  apply factor_bind; intros u5 s5.
  apply factor_bind; intros released s6.
  destruct ((released <? 0) || (status <? 0)); [reflexivity|].
  apply factor_bind; intros u7 s7.
  apply factor_bind; intros u8 s8.
  apply factor_bind; intros u9 s9.
  apply factor_bind; intros stmt3 s10.
  unfold bind.
  match goal with
  | |- context [for_ ?n ?i ?b s10] =>
      assert (Hloop : forall a, fst (for_ n i b s10) = Some a ->
                                a = DPI_FAILURE)
        by (intro a; apply rebind_loop_result);
      destruct (for_ n i b s10) as [[a|] s11]
  end; simpl in *.
  - rewrite (Hloop a eq_refl). reflexivity.
  - reflexivity.
Qed.

(** When the recovery path is taken, [dpiStmt__execute] hands back what
    [dpiStmt__reExecute] hands back. *)
Lemma execute_recovery oracle numIters mode reExecute s :
  recovery_taken oracle numIters mode reExecute s = true ->
  dpiStmt__execute oracle numIters mode reExecute s
  = dpiStmt__reExecute oracle (dpiStmt__execute oracle) numIters
      (recovery_mode oracle mode s)
      (execute_classified oracle numIters mode s).
Proof.
  rewrite dpiStmt__execute_unfold.
  unfold recovery_taken, execute_error_code, execute_classified,
    execute_call_failed, execute_call, recovery_mode.
  unfold dpiStmt__execute_body at 1.
  unfold bind at 1.
  destruct (dpiStmt__execute_prepare oracle s) as [[status|] sa];
    simpl fst; simpl snd; [discriminate|].
  unfold bind at 1. unfold get_stmt at 1. unfold bind at 1.
  destruct (dpiOci__stmtExecute oracle numIters
              (execute_mode (st_stmt sa) mode) error sa) as [executed sb].
  simpl fst. simpl snd. intro Htaken.
  apply andb_true_iff in Htaken. destruct Htaken as [Htaken Hcode].
  apply andb_true_iff in Htaken. destruct Htaken as [Hfail Hre].
  rewrite Hfail.
  unfold dpiStmt__execute_failed. unfold bind at 1.
  destruct (dpiStmt__execute_parseOffset oracle sb) as [u sc].
  simpl snd in *. unfold bind at 1. unfold get_error at 1.
  rewrite Hre, Hcode. reflexivity.
Qed.

(** C1.  During one call of [dpiStmt__execute] the recovery path is
    entered at most once, and exactly when the protocol execute call
    fails, recovery is permitted for the call ([reExecute] is not 0) and
    the error code is 1007.  The recovery uses [dpiStmt__execute] with
    recovery disabled only; an execution with recovery disabled never
    enters the path, and when its protocol call fails, with whatever code,
    1007 included, it returns [DPI_FAILURE].  The recursion never goes
    deeper than these two levels.  When the recovery path is taken, the
    call either fails before the retry, with [DPI_FAILURE], or hands back
    exactly what the retry hands back: so when the protocol call of the
    retry fails, with whatever code, 1007 included, the whole call returns
    [DPI_FAILURE], the path having been entered once. *)
Theorem recovery_at_most_once :
  forall oracle numIters mode reExecute s,
    let s' := snd (dpiStmt__execute oracle numIters mode reExecute s) in
    filter is_recovery_entry (st_trace s')
    = (if recovery_taken oracle numIters mode reExecute s
       then E_attrGet
              (handle (st_stmt (execute_classified oracle numIters mode s)))
              DPI_OCI_ATTR_STATEMENT
            :: filter is_recovery_entry (st_trace s)
       else filter is_recovery_entry (st_trace s))
    /\ (count is_recovery_entry (st_trace s')
        <= count is_recovery_entry (st_trace s) + 1)%nat
    /\ (reExecute = 0 ->
        count is_recovery_entry (st_trace s')
        = count is_recovery_entry (st_trace s))
    /\ (forall f g n m s0,
           (forall n' m' s1, f n' m' 0 s1 = g n' m' 0 s1) ->
           dpiStmt__reExecute oracle f n m s0
           = dpiStmt__reExecute oracle g n m s0)
    /\ (execute_call_failed oracle numIters mode s = true ->
        fst (dpiStmt__execute oracle numIters mode 0 s) = DPI_FAILURE
        /\ filter is_recovery_entry
             (st_trace (snd (dpiStmt__execute oracle numIters mode 0 s)))
           = filter is_recovery_entry (st_trace s))
    /\ (forall k,
           dpiStmt__execute_fuel oracle (2 + k) numIters mode reExecute s
           = dpiStmt__execute oracle numIters mode reExecute s)
    /\ (recovery_taken oracle numIters mode reExecute s = true ->
        let mode' := recovery_mode oracle mode s in
        let tried :=
          recovery_until_retry oracle numIters mode'
            (execute_classified oracle numIters mode s) in
        dpiStmt__execute oracle numIters mode reExecute s
        = (if fst tried =? retry_reached
           then dpiStmt__execute oracle numIters mode' 0 (snd tried)
           else (DPI_FAILURE, snd tried))
        /\ (fst tried = retry_reached ->
            execute_call_failed oracle numIters mode' (snd tried) = true ->
            fst (dpiStmt__execute oracle numIters mode reExecute s)
            = DPI_FAILURE
            /\ count is_recovery_entry (st_trace s')
               = (count is_recovery_entry (st_trace s) + 1)%nat)).
Proof.
  intros oracle numIters mode reExecute s s'.
  pose proof (execute_recovery_entries oracle numIters mode reExecute s)
    as Hentries. fold s' in Hentries.
  split; [exact Hentries|].
  split.
  { unfold count. rewrite Hentries.
    destruct (recovery_taken oracle numIters mode reExecute s); simpl; lia. }
  split.
  { intros ->. unfold count. rewrite Hentries.
    unfold recovery_taken. simpl. rewrite andb_false_r. reflexivity. }
  split.
  { intros f g n m s0 H. apply reExecute_ext. exact H. }
  split.
  { intro Hfail.
    assert (Hno : recovery_taken oracle numIters mode 0 s = false).
    { unfold recovery_taken. simpl. rewrite andb_false_r. reflexivity. }
    split.
    - rewrite (execute_failure _ _ _ _ _ Hfail Hno). reflexivity.
    - rewrite execute_recovery_entries, Hno. reflexivity. }
  split; [intro k; apply dpiStmt__execute_fuel_enough|].
  intros Htaken mode' tried.
  assert (Hrun : dpiStmt__execute oracle numIters mode reExecute s
                 = (if fst tried =? retry_reached
                    then dpiStmt__execute oracle numIters mode' 0 (snd tried)
                    else (DPI_FAILURE, snd tried))).
  { rewrite (execute_recovery _ _ _ _ _ Htaken).
    apply reExecute_factor. }
  split; [exact Hrun|].
  intros Hreached Hfail.
  split.
  - rewrite Hrun, Hreached, Z.eqb_refl.
    assert (Hno : recovery_taken oracle numIters mode' 0 (snd tried) = false).
    { unfold recovery_taken. simpl. rewrite andb_false_r. reflexivity. }
    rewrite (execute_failure _ _ _ _ _ Hfail Hno). reflexivity.
  - unfold count. rewrite Hentries, Htaken. simpl. lia.
Qed.

Lemma recovery_at_most_once_witness :
  execute_call_failed (oracle_execute_fails 1007) 0 0
    (sample_state sample_stmt) = true
  /\ fst (dpiStmt__execute (oracle_execute_fails 1007) 0 0 1
            (sample_state sample_stmt)) = DPI_FAILURE
  /\ count is_execute_call
       (st_trace (snd (dpiStmt__execute (oracle_execute_fails 1007) 0 0 1
                         (sample_state sample_stmt)))) = 2%nat
  /\ filter is_recovery_entry
       (st_trace (snd (dpiStmt__execute (oracle_execute_fails 1007) 0 0 1
                         (sample_state sample_stmt))))
     = [E_attrGet 3000 DPI_OCI_ATTR_STATEMENT].
Proof.
  destruct (recovery_at_most_once (oracle_execute_fails 1007) 0 0 1
              (sample_state sample_stmt))
    as (H & _ & _ & _ & _ & _ & Hrec).
  assert (Htaken : recovery_taken (oracle_execute_fails 1007) 0 0 1
                     (sample_state sample_stmt) = true)
    by (vm_compute; reflexivity).
  destruct (Hrec Htaken) as [_ Hretry].
  split; [vm_compute; reflexivity|].
  split; [apply Hretry; vm_compute; reflexivity|].
  split; [vm_compute; reflexivity|].
  rewrite H. vm_compute. reflexivity.
Defined.

(** ** The bind registry *)









Lemma upd_nth_twice {A : Type} n (x y : A) l :
  upd_nth n x (upd_nth n y l) = upd_nth n x l.
Proof.
  revert n. induction l as [|a l IH]; intros [|n]; simpl; try reflexivity.
  rewrite IH. reflexivity.
Qed.

Lemma upd_nth_length {A : Type} n (x : A) l :
  List.length (upd_nth n x l) = List.length l.
Proof.
  revert n. induction l as [|a l IH]; intros [|n]; simpl; try reflexivity.
  rewrite IH. reflexivity.
Qed.

Lemma upd_nth_beyond {A : Type} n (x : A) l :
  (List.length l <= n)%nat -> upd_nth n x l = l.
Proof.
  revert n. induction l as [|a l IH]; intros [|n] H; simpl in *;
    try reflexivity; [lia|].
  rewrite IH by lia. reflexivity.
Qed.

Lemma nth_upd_nth {A : Type} n (x d : A) l :
  (n < List.length l)%nat -> nth n (upd_nth n x l) d = x.
Proof.
  revert n. induction l as [|a l IH]; intros [|n] H; simpl in *;
    try lia; [reflexivity|].
  apply IH. lia.
Qed.

Lemma store_store {A : Type} (d : A) (f : A -> A) a i y :
  store (store a i y) i (f (at_ d (store a i y) i)) = store a i (f y).
Proof.
  destruct a as [l|]; [|reflexivity]. unfold store, at_. simpl.
  destruct (Nat.lt_ge_cases (Z.to_nat i) (List.length l)) as [Hlt|Hge].
  - rewrite nth_upd_nth by exact Hlt. rewrite upd_nth_twice. reflexivity.
  - rewrite !(upd_nth_beyond (Z.to_nat i)) by
      (try rewrite upd_nth_length; exact Hge).
    reflexivity.
Qed.

Lemma same_refCount_refl p s : same_refCount p s s.
Proof. reflexivity. Qed.

Lemma same_refCount_trans p a b c :
  same_refCount p a b -> same_refCount p b c -> same_refCount p a c.
Proof. unfold same_refCount. congruence. Qed.

Ltac count_prim :=
  unfold frame, same_refCount; intros ?; run; unfold upd;
  repeat match goal with
         | H : (_ =? _) = false |- _ => rewrite H
         end;
  reflexivity.

Ltac counted :=
  lazymatch goal with
  | |- frame (same_refCount ?p) _ =>
      frame_go (same_refCount_refl p) (same_refCount_trans p) count_prim
  end.

Lemma bind_perform_no_release oracle A entry var addReference pos name
      nameLength :
  frame (same_calls (is_release_of A))
    (dpiStmt__bind_perform oracle entry var addReference pos name nameLength).
Proof. quiet. Qed.

Lemma bind_perform_keeps_refCount oracle A entry var addReference pos name
      nameLength :
  (A =? var) = false ->
  frame (same_refCount A)
    (dpiStmt__bind_perform oracle entry var addReference pos name nameLength).
Proof. intro Hne. counted. Qed.

Lemma bind_perform_keeps_size oracle entry var addReference pos name
      nameLength :
  frame (same_on (fun st => (numBindVars st, allocatedBindVars st)))
    (dpiStmt__bind_perform oracle entry var addReference pos name nameLength).
Proof. keep. Qed.

(** The one change [dpiStmt__bind_perform] makes to the statement: the
    slot is bound, unless the conversion to a LOB fails before. *)
Lemma bind_perform_stmt oracle entry var addReference pos name nameLength s
      status s' :
  dpiStmt__bind_perform oracle entry var addReference pos name nameLength s
  = (status, s') ->
  (st_stmt s' = st_stmt s
   \/ st_stmt s' = set_bindVars (rebound (st_stmt s) entry var) (st_stmt s))
  /\ (0 <= status ->
      st_stmt s' = set_bindVars (rebound (st_stmt s) entry var) (st_stmt s)).
Proof.
  unfold dpiStmt__bind_perform.
  unfold bind at 1. unfold get_stmt at 1.
  unfold bind at 1. unfold get_var at 1.
  unfold bind at 1.
  match goal with
  | |- context [let (_, _) := ?m s in _] =>
      assert (Hk : frame (same_on (fun st => st)) m) by keep;
      specialize (Hk s); destruct (m s) as [lob s1]
  end.
  unfold same_on in Hk. simpl in Hk.
  destruct (Z.ltb_spec lob 0) as [Hlt|Hge].
  { intro H. injection H as <- <-.
    split; [left; exact Hk | intro H; unfold DPI_FAILURE in H; lia]. }
  unfold bind at 1.
  match goal with
  | |- context [let (_, _) := ?m s1 in _] =>
      assert (Hk1 : frame (same_on (fun st => st)) m) by keep;
      specialize (Hk1 s1); destruct (m s1) as [u s2]
  end.
  unfold same_on in Hk1. simpl in Hk1.
  unfold bind at 1. unfold modify_entry at 1. unfold modify_stmt at 1.
  match goal with
  | |- ?k ?x = _ -> _ =>
      assert (Hk2 : frame (same_on (fun st => st)) k) by keep;
      specialize (Hk2 x)
  end.
  unfold same_on in Hk2.
  intro H. rewrite H in Hk2. simpl in Hk2.
  assert (E : st_stmt s'
              = set_bindVars (rebound (st_stmt s) entry var) (st_stmt s)).
  { rewrite Hk2. destruct s2 as [stmt2 t rc vs cs e]. simpl in *.
    rewrite Hk1, Hk. reflexivity. }
  split; [right; exact E | intros _; exact E].
Qed.

(** C2 (as amended).  When the locator of a bind (a non-zero position, or
    a name of non-zero length) is found in the registry bound to a value
    resource [A], binding it to a different resource [B] releases the
    reference to [A] exactly once (one call of [dpiGen__setRefCount] on
    [A] with -1, the count of [A] one less) and adds no slot: the number
    of slots in use and the allocation are as before, and when the bind
    succeeds the registry differs from the old one only in that the slot
    found now holds [B]. *)
Theorem rebind_replaces_in_place :
  forall oracle s A B addReference pos name nameLength i status s',
    pos <> 0 \/ nameLength <> 0 ->
    dpiStmt__bind_find (Z.to_nat (numBindVars (st_stmt s))) 0
      (bindVars (st_stmt s)) pos name nameLength = Some i ->
    bv_var (at_ zeroBindVar (bindVars (st_stmt s)) i) = A ->
    A <> 0 -> B <> A ->
    dpiStmt__bind oracle B addReference pos name nameLength s = (status, s') ->
    numBindVars (st_stmt s') = numBindVars (st_stmt s)
    /\ allocatedBindVars (st_stmt s') = allocatedBindVars (st_stmt s)
    /\ List.length (elems (bindVars (st_stmt s')))
       = List.length (elems (bindVars (st_stmt s)))
    /\ count (is_release_of A) (st_trace s')
       = S (count (is_release_of A) (st_trace s))
    /\ st_refCount s' A = st_refCount s A - 1
    /\ (0 <= status ->
        bindVars (st_stmt s') = rebound (st_stmt s) i B).
Proof.
  intros oracle s A B addReference pos name nameLength i status s'
    Hloc Hfind HA HA0 HBA.
  unfold dpiStmt__bind.
  assert (Hzero : (pos =? 0) && (nameLength =? 0) = false).
  { destruct Hloc as [H|H]; apply Z.eqb_neq in H; rewrite H;
      [reflexivity | apply andb_false_r]. }
  rewrite Hzero. unfold bind at 1. unfold get_stmt at 1.
  rewrite Hfind. cbv zeta. rewrite HA.
  assert (HAB : (A =? B) = false) by (apply Z.eqb_neq; congruence).
  assert (HA0' : (A =? 0) = false) by (apply Z.eqb_neq; exact HA0).
  rewrite HAB, HA0'. simpl negb. cbv iota.
  unfold bind at 1. unfold bind at 1.
  set (s1 := snd (dpiGen__setRefCount oracle A error (-1) s)).
  assert (Hs1 : st_stmt s1 = st_stmt s
                /\ st_trace s1 = E_setRefCount A (-1) :: st_trace s
                /\ st_refCount s1 A = st_refCount s A - 1).
  { unfold s1, dpiGen__setRefCount, external_err, add_refCount. run.
    destruct (r_status _ <? 0); run; unfold upd; rewrite Z.eqb_refl;
      repeat split; destruct s; reflexivity. }
  destruct (dpiGen__setRefCount oracle A error (-1) s) as [u s1'].
  simpl in s1. subst s1. destruct Hs1 as (Hst1 & Htr1 & Hrc1).
  unfold modify_entry at 1. unfold modify_stmt at 1.
  set (s2 := with_st_stmt _ s1').
  assert (Hs2 : st_stmt s2
                = set_bindVars
                    (store (bindVars (st_stmt s)) i
                       (set_bv_var 0
                          (at_ zeroBindVar (bindVars (st_stmt s)) i)))
                    (st_stmt s)
                /\ st_trace s2 = E_setRefCount A (-1) :: st_trace s
                /\ st_refCount s2 A = st_refCount s A - 1).
  { unfold s2. destruct s1' as [stmt1 t1 rc1 vs1 cs1 e1]. simpl in *.
    rewrite Hst1. repeat split; assumption. }
  clearbody s2. destruct Hs2 as (Hst2 & Htr2 & Hrc2).
  intro Hperform.
  pose proof (bind_perform_stmt _ _ _ _ _ _ _ _ _ _ Hperform) as [Hcases Hok].
  pose proof (bind_perform_no_release oracle A i B addReference pos name
                nameLength s2) as Hq.
  pose proof (bind_perform_keeps_refCount oracle A i B addReference pos name
                nameLength HAB s2) as Hrc.
  pose proof (bind_perform_keeps_size oracle i B addReference pos name
                nameLength s2) as Hsize.
  unfold same_calls, same_refCount, same_on in Hq, Hrc, Hsize.
  rewrite Hperform in Hq, Hrc, Hsize. simpl in Hq, Hrc, Hsize.
  injection Hsize as Hn Ha.
  assert (Hrebound : rebound (st_stmt s2) i B = rebound (st_stmt s) i B).
  { unfold rebound. rewrite Hst2. simpl bindVars.
    rewrite (store_store zeroBindVar (set_bv_var B)). reflexivity. }
  split; [rewrite Hn, Hst2; reflexivity|].
  split; [rewrite Ha, Hst2; reflexivity|].
  split.
  { destruct Hcases as [E|E]; rewrite E; [|rewrite Hrebound];
      try rewrite Hst2; unfold rebound; simpl;
      destruct (bindVars (st_stmt s)) as [l|]; simpl;
      rewrite ?upd_nth_length; reflexivity. }
  split.
  { unfold count. rewrite Hq, Htr2. simpl.
    rewrite Z.eqb_refl. reflexivity. }
  split; [rewrite Hrc; exact Hrc2|].
  intro Hstatus. rewrite (Hok Hstatus). simpl. exact Hrebound.
Qed.

Lemma rebind_replaces_in_place_witness :
  numBindVars (st_stmt (bound_state oracle_ok)) = 1
  /\ numBindVars
       (st_stmt (snd (dpiStmt__bind oracle_ok 6000 1 1 None 0
                        (bound_state oracle_ok)))) = 1
  /\ st_refCount
       (snd (dpiStmt__bind oracle_ok 6000 1 1 None 0 (bound_state oracle_ok)))
       5000
     = st_refCount (bound_state oracle_ok) 5000 - 1
  /\ bindVars
       (st_stmt (snd (dpiStmt__bind oracle_ok 6000 1 1 None 0
                        (bound_state oracle_ok))))
     = rebound (st_stmt (bound_state oracle_ok)) 0 6000.
Proof.
  split; [vm_compute; reflexivity|].
  destruct (rebind_replaces_in_place oracle_ok (bound_state oracle_ok)
              5000 6000 1 1 None 0 0
              (fst (dpiStmt__bind oracle_ok 6000 1 1 None 0
                      (bound_state oracle_ok)))
              (snd (dpiStmt__bind oracle_ok 6000 1 1 None 0
                      (bound_state oracle_ok))))
    as (H1 & _ & _ & _ & H5 & H6);
    [ left; discriminate | vm_compute; reflexivity | vm_compute; reflexivity
    | discriminate | discriminate | apply surjective_pairing | ].
  split; [rewrite H1; vm_compute; reflexivity|].
  split; [exact H5|].
  apply H6. vm_compute. discriminate.
Defined.

(** [dpiStmt_getBindCount] does not look at the registry: it hands back
    what the protocol layer reports for the SQL text.  For a statement
    with two bind variables it reports 2 after position 1 has been bound
    twice, while the registry holds one slot. *)
Lemma bind_count_is_not_registry_size :
  fst (dpiStmt_bindByPos (oracle_bind_count 2) 1 5000
         (sample_state dml_stmt)) = DPI_SUCCESS
  /\ fst (dpiStmt_bindByPos (oracle_bind_count 2) 1 6000
            (bound_state (oracle_bind_count 2))) = DPI_SUCCESS
  /\ numBindVars (st_stmt (rebound_state (oracle_bind_count 2))) = 1
  /\ fst (dpiStmt_getBindCount (oracle_bind_count 2) 1
            (rebound_state (oracle_bind_count 2)))
     = (DPI_SUCCESS, Some 2).
Proof.
  split; [vm_compute; reflexivity|].
  split; [vm_compute; reflexivity|].
  split; vm_compute; reflexivity.
Qed.

(** ** Batch errors *)

(** Whatever step of [dpiStmt__getBatchErrors] fails, no batch error is
    accessible afterwards. *)
Lemma getBatchErrors_failure oracle s status s' :
  batch_errors_cleared (st_stmt s) ->
  dpiStmt__getBatchErrors oracle s = (status, s') ->
  status < 0 ->
  batch_errors_cleared (st_stmt s').
Proof.
  intros Hc.
  unfold dpiStmt__getBatchErrors, dpiStmt__getBatchErrors_cleanup,
    dpiOci__attrGet, dpiOci__handleAlloc, dpiOci__handleFree,
    dpiStmt__clearBatchErrors, dpiError__set, external_err.
  destruct s as [stmt t rc vs cs e]. simpl in Hc.
  repeat (run;
          match goal with
          | |- context [if ?c <? 0 then _ else _] => destruct (c <? 0) eqn:?
          end).
  all: run.
  all: try match goal with
           | |- context [dpiStmt__getBatchErrors_loop ?a ?b ?c ?d ?e ?f ?g] =>
               destruct (dpiStmt__getBatchErrors_loop a b c d e f g)
                 as [[st h] sl]
           end.
  all: run.
  all: try match goal with
           | |- context [if ?c <? 0 then _ else _] => destruct (c <? 0) eqn:?
           end.
  all: run.
  all: intros H Hneg; injection H as <- <-.
  all: first [ exact Hc
             | split; reflexivity
             | match goal with
               | H : (_ <? 0) = false |- _ => apply Z.ltb_ge in H; lia
               end ].
Qed.

Lemma keeps_cleared_refl s : keeps_cleared s s.
Proof. intro H. exact H. Qed.

Lemma keeps_cleared_trans a b c :
  keeps_cleared a b -> keeps_cleared b c -> keeps_cleared a c.
Proof. unfold keeps_cleared. auto. Qed.

Ltac cleared_prim :=
  unfold frame, keeps_cleared, batch_errors_cleared;
  let H1 := fresh in let H2 := fresh in
  intros ? [H1 H2]; split; first [exact H1 | exact H2 | reflexivity].

Ltac cleared :=
  lazymatch goal with
  | |- frame keeps_cleared _ =>
      frame_go keeps_cleared_refl keeps_cleared_trans cleared_prim
  end.

Lemma execute_body_keeps_cleared oracle self numIters mode reExecute :
  (forall n m r, frame keeps_cleared (self n m r)) ->
  frame keeps_cleared
    (dpiStmt__execute_body oracle self numIters mode reExecute).
Proof. intro Hself. cleared. Qed.

Lemma execute_keeps_cleared oracle numIters mode reExecute :
  frame keeps_cleared (dpiStmt__execute oracle numIters mode reExecute).
Proof.
  unfold dpiStmt__execute.
  generalize 2%nat numIters mode reExecute.
  induction n as [|n IH]; intros; simpl.
  - apply frame_ret. apply keeps_cleared_refl.
  - apply execute_body_keeps_cleared. exact IH.
Qed.

Lemma execute_body_no_collection oracle self numIters mode reExecute :
  (forall n m r, frame (same_calls is_collection_start) (self n m r)) ->
  frame (same_calls is_collection_start)
    (dpiStmt__execute_body oracle self numIters mode reExecute).
Proof. intro Hself. quiet. Qed.

Lemma execute_no_collection oracle numIters mode reExecute :
  frame (same_calls is_collection_start)
    (dpiStmt__execute oracle numIters mode reExecute).
Proof.
  unfold dpiStmt__execute.
  generalize 2%nat numIters mode reExecute.
  induction n as [|n IH]; intros; simpl.
  - apply frame_ret. apply same_calls_refl.
  - apply execute_body_no_collection. exact IH.
Qed.

Lemma checkOpen_no_collection oracle fnName :
  frame (same_calls is_collection_start) (dpiStmt__checkOpen oracle fnName).
Proof. quiet. Qed.

(** An [dpiStmt_executeMany] that has started to collect the batch errors
    and fails leaves no batch error accessible. *)
Lemma executeMany_collection_failure oracle mode numIters s status s' :
  dpiStmt_executeMany oracle mode numIters s = (status, s') ->
  filter is_collection_start (st_trace s')
  <> filter is_collection_start (st_trace s) ->
  status < 0 ->
  status = DPI_FAILURE /\ batch_errors_cleared (st_stmt s').
Proof.
  unfold dpiStmt_executeMany. unfold bind at 1.
  pose proof (checkOpen_no_collection oracle "dpiStmt_executeMany" s) as Hq0.
  destruct (dpiStmt__checkOpen oracle "dpiStmt_executeMany" s) as [opened s1].
  unfold same_calls in Hq0. simpl in Hq0.
  destruct (opened <? 0).
  { intro H. injection H as <- <-. congruence. }
  unfold bind at 1. unfold get_stmt at 1.
  destruct (statementType (st_stmt s1) =? DPI_STMT_TYPE_SELECT).
  { intro H.
    assert (Ht : st_trace s' = st_trace s1)
      by (destruct s1; injection H as _ <-; reflexivity).
    rewrite Ht. congruence. }
  unfold bind at 1.
  match goal with
  | |- (let (_, _) := ?m s1 in _) = _ -> _ =>
      assert (Hq1 : frame (same_calls is_collection_start) m) by quiet;
      specialize (Hq1 s1); destruct (m s1) as [[early|] s2]
  end; unfold same_calls in Hq1; simpl in Hq1.
  { intro H. injection H as <- <-. congruence. }
  unfold bind at 1. unfold dpiStmt__clearBatchErrors at 1.
  unfold bind at 1. unfold modify_stmt at 1. unfold modify_stmt at 1.
  unfold bind at 1.
  match goal with
  | |- (let (_, _) := dpiStmt__execute oracle ?n ?m ?r ?x in _) = _ -> _ =>
      pose proof (execute_no_collection oracle n m r x) as Hq2;
      pose proof (execute_keeps_cleared oracle n m r x) as Hc2;
      assert (Hx : batch_errors_cleared (st_stmt x))
        by (destruct s2; split; reflexivity);
      assert (Hxt : st_trace x = st_trace s2) by (destruct s2; reflexivity);
      unfold frame, same_calls in Hq2; rewrite Hxt in Hq2;
      destruct (dpiStmt__execute oracle n m r x) as [executed s4]
  end.
  simpl in Hq2, Hc2. specialize (Hc2 Hx).
  destruct (executed <? 0).
  { intro H. injection H as <- <-. congruence. }
  destruct (negb (Z.land mode DPI_MODE_EXEC_BATCH_ERRORS =? 0)).
  2:{ intro H. injection H as <- <-. congruence. }
  unfold bind at 1.
  destruct (dpiStmt__getBatchErrors oracle s4) as [collected s5] eqn:Hg.
  destruct (Z.ltb_spec collected 0) as [Hlt|Hge].
  - intro H. injection H as <- <-. intros _ _.
    split; [reflexivity|].
    exact (getBatchErrors_failure _ _ _ _ Hc2 Hg Hlt).
  - intro H. injection H as <- <-. intros _ H. unfold DPI_SUCCESS in H. lia.
Qed.

(** With no batch error accessible, the count handed out is 0. *)
Lemma getBatchErrorCount_cleared oracle count_ s status n s' :
  batch_errors_cleared (st_stmt s) ->
  dpiStmt_getBatchErrorCount oracle count_ s = ((status, Some n), s') ->
  n = 0.
Proof.
  intros Hc. unfold dpiStmt_getBatchErrorCount. unfold bind at 1.
  assert (Hk : frame keeps_cleared
                 (dpiStmt__checkOpen oracle "dpiStmt_getBatchErrorCount"))
    by cleared.
  specialize (Hk s Hc).
  destruct (dpiStmt__checkOpen oracle "dpiStmt_getBatchErrorCount" s)
    as [opened s1].
  simpl in Hk. destruct (opened <? 0); [discriminate|].
  destruct (count_ =? 0); [discriminate|].
  intro H. injection H as _ <- _. apply Hk.
Qed.

(** The ways an iteration of the collecting loop fails. *)
Lemma getBatchErrors_loop_paramGet oracle n i localError h lh s r s1 :
  dpiOci__paramGet oracle error_handle i error s = (r, s1) ->
  r_status r < 0 ->
  dpiStmt__getBatchErrors_loop oracle (S n) i localError h lh s
  = ((DPI_FAILURE, h),
     with_st_error
       (mkErrorBuffer 0 0 DPI_ERR_INVALID_INDEX (eb_fnName (st_error s1))
          "get batch error") s1).
Proof.
  intros Hp Hneg. simpl. unfold bind at 1. rewrite Hp.
  apply Z.ltb_lt in Hneg. rewrite Hneg. destruct s1. reflexivity.
Qed.

Lemma getBatchErrors_loop_rowOffset oracle n i localError h lh s r s1 o s2 :
  dpiOci__paramGet oracle error_handle i error s = (r, s1) ->
  0 <= r_status r ->
  dpiOci__attrGet oracle (r_value r) DPI_OCI_ATTR_DML_ROW_OFFSET localError s1
  = (o, s2) ->
  r_status o < 0 ->
  dpiStmt__getBatchErrors_loop oracle (S n) i localError h lh s
  = ((DPI_FAILURE, r_value r),
     with_st_error
       (mkErrorBuffer 0 0 DPI_ERR_CANNOT_GET_ROW_OFFSET
          (eb_fnName (st_error s2)) "get row offset") s2).
Proof.
  intros Hp Hok Ho Hneg. simpl. unfold bind at 1. rewrite Hp.
  destruct (r_status r <? 0) eqn:E; [apply Z.ltb_lt in E; lia|].
  unfold bind at 1. rewrite Ho.
  apply Z.ltb_lt in Hneg. rewrite Hneg. destruct s2. reflexivity.
Qed.

Lemma getBatchErrors_loop_render oracle n i localError h lh s r s1 o s2 c s3 :
  dpiOci__paramGet oracle error_handle i error s = (r, s1) ->
  0 <= r_status r ->
  dpiOci__attrGet oracle (r_value r) DPI_OCI_ATTR_DML_ROW_OFFSET localError s1
  = (o, s2) ->
  0 <= r_status o ->
  dpiError__check oracle (localError_batch i) (r_value r) s2 = (c, s3) ->
  eb_errorNum (st_error s3) <> DPI_ERR_NO_ERR ->
  dpiStmt__getBatchErrors_loop oracle (S n) i localError h lh s
  = ((DPI_FAILURE, r_value r), s3).
Proof.
  intros Hp Hok Ho Hook Hc Herr. simpl. unfold bind at 1. rewrite Hp.
  destruct (r_status r <? 0) eqn:E; [apply Z.ltb_lt in E; lia|].
  unfold bind at 1. rewrite Ho.
  destruct (r_status o <? 0) eqn:E'; [apply Z.ltb_lt in E'; lia|].
  unfold bind at 1. rewrite Hc. unfold bind at 1. unfold get_error at 1.
  destruct (eb_errorNum (st_error s3)); try reflexivity. congruence.
Qed.

(** The cleanup passes a failure on and discards what was collected. *)
Lemma getBatchErrors_cleanup_failure oracle overallStatus lh h s :
  overallStatus < 0 ->
  fst (dpiStmt__getBatchErrors_cleanup oracle overallStatus lh h s)
  = overallStatus
  /\ batch_errors_cleared
       (st_stmt (snd (dpiStmt__getBatchErrors_cleanup oracle overallStatus
                        lh h s))).
Proof.
  intro Hneg. apply Z.ltb_lt in Hneg.
  unfold dpiStmt__getBatchErrors_cleanup, dpiOci__handleFree,
    dpiStmt__clearBatchErrors.
  run. rewrite Hneg. destruct s. split; [reflexivity | split; reflexivity].
Qed.

Lemma getBatchErrors_loop_step_fails oracle n i localError h lh s :
  collection_step_fails oracle i localError s = true ->
  fst (fst (dpiStmt__getBatchErrors_loop oracle (S n) i localError h lh s))
  = DPI_FAILURE
  /\ eb_errorNum
       (st_error
          (snd (dpiStmt__getBatchErrors_loop oracle (S n) i localError h lh
                  s)))
     <> DPI_ERR_NO_ERR.
Proof.
  remember (dpiStmt__getBatchErrors_loop oracle (S n) i localError h lh s)
    as out eqn:Hout.
  unfold collection_step_fails, offset_step, handle_step.
  destruct (dpiOci__paramGet oracle error_handle i error s) as [r s1] eqn:Hp.
  cbv zeta. cbn [fst snd].
  destruct (Z.ltb_spec (r_status r) 0) as [Hr|Hr].
  { intros _.
    rewrite (getBatchErrors_loop_paramGet oracle n i localError h lh s r s1
               Hp Hr) in Hout.
    subst out. destruct s1. split; [reflexivity | discriminate]. }
  destruct (dpiOci__attrGet oracle (r_value r) DPI_OCI_ATTR_DML_ROW_OFFSET
              localError s1) as [o s2] eqn:Ho.
  cbn [fst snd].
  destruct (Z.ltb_spec (r_status o) 0) as [Hq|Hq].
  { intros _.
    rewrite (getBatchErrors_loop_rowOffset oracle n i localError h lh s r s1
               o s2 Hp Hr Ho Hq) in Hout.
    subst out. destruct s2. split; [reflexivity | discriminate]. }
  cbn [orb]. discriminate.
Qed.

Lemma getBatchErrors_cleanup_keeps_error oracle overallStatus lh h s :
  st_error (snd (dpiStmt__getBatchErrors_cleanup oracle overallStatus lh h s))
  = st_error s.
Proof.
  unfold dpiStmt__getBatchErrors_cleanup, dpiOci__handleFree,
    dpiStmt__clearBatchErrors.
  run. destruct (overallStatus <? 0); destruct s; reflexivity.
Qed.

(** X29.  What holds of the all-or-nothing collection of the batch
    errors.  Whenever acquiring the error handle of an iteration or reading
    its row offset fails, the collecting loop stops with a failure and an
    error in the buffer of the call; the cleanup passes a failure on,
    leaves that error in place and discards what was collected.  So a
    [dpiStmt_executeMany] that has started to collect the batch errors and
    fails yields [DPI_FAILURE] with no batch error record left, and each
    later [dpiStmt_getBatchErrorCount] that reports a count reports 0. *)
Theorem batch_error_collection_all_or_nothing :
  forall oracle mode numIters s status s',
    dpiStmt_executeMany oracle mode numIters s = (status, s') ->
    collection_started s s' ->
    status < 0 ->
    status = DPI_FAILURE
    /\ batch_errors_cleared (st_stmt s')
    /\ (forall count_ reported n s'',
          dpiStmt_getBatchErrorCount oracle count_ s'
          = ((reported, Some n), s'') ->
          n = 0)
    /\ (forall n i localError h lh s0,
          collection_step_fails oracle i localError s0 = true ->
          let out :=
            dpiStmt__getBatchErrors_loop oracle (S n) i localError h lh s0 in
          fst (fst out) = DPI_FAILURE
          /\ eb_errorNum (st_error (snd out)) <> DPI_ERR_NO_ERR)
    /\ (forall overallStatus lh h s0,
          overallStatus < 0 ->
          let out :=
            dpiStmt__getBatchErrors_cleanup oracle overallStatus lh h s0 in
          fst out = overallStatus
          /\ batch_errors_cleared (st_stmt (snd out))
          /\ st_error (snd out) = st_error s0).
Proof.
  intros oracle mode numIters s status s' Hrun Hstarted Hneg.
  destruct (executeMany_collection_failure oracle mode numIters s status s'
              Hrun Hstarted Hneg) as [Hstatus Hcleared].
  split; [exact Hstatus|]. split; [exact Hcleared|].
  split.
  { intros count_ reported n s'' Hcount.
    exact (getBatchErrorCount_cleared oracle count_ s' reported n s''
             Hcleared Hcount). }
  split.
  { intros n i localError h lh s0 Hfails. cbv zeta.
    exact (getBatchErrors_loop_step_fails oracle n i localError h lh s0
             Hfails). }
  intros overallStatus lh h s0 Hlt. cbv zeta.
  destruct (getBatchErrors_cleanup_failure oracle overallStatus lh h s0 Hlt)
    as [H1 H2].
  split; [exact H1|]. split; [exact H2|].
  apply getBatchErrors_cleanup_keeps_error.
Qed.

(** A batch of two iterations in batch-error mode: the server reports two
    failed iterations and reading the row offset of the second one fails. *)
Lemma batch_error_collection_all_or_nothing_witness :
  let s := sample_state dml_stmt in
  let c := dpiStmt_executeMany oracle_batch_offset_fails 128 2 s in
  fst c = DPI_FAILURE
  /\ batch_errors_cleared (st_stmt (snd c))
  /\ fst (dpiStmt_getBatchErrorCount oracle_batch_offset_fails 1 (snd c))
     = (DPI_SUCCESS, Some 0).
Proof.
  cbv zeta.
  assert (Hrun : dpiStmt_executeMany oracle_batch_offset_fails 128 2
                   (sample_state dml_stmt)
                 = (fst (dpiStmt_executeMany oracle_batch_offset_fails 128 2
                           (sample_state dml_stmt)),
                    snd (dpiStmt_executeMany oracle_batch_offset_fails 128 2
                           (sample_state dml_stmt))))
    by apply surjective_pairing.
  assert (Hstarted : collection_started (sample_state dml_stmt)
                       (snd (dpiStmt_executeMany oracle_batch_offset_fails
                               128 2 (sample_state dml_stmt))))
    by (unfold collection_started; vm_compute; discriminate).
  assert (Hneg : fst (dpiStmt_executeMany oracle_batch_offset_fails 128 2
                        (sample_state dml_stmt)) < 0)
    by (vm_compute; reflexivity).
  destruct (batch_error_collection_all_or_nothing oracle_batch_offset_fails
              128 2 (sample_state dml_stmt) _ _ Hrun Hstarted Hneg)
    as [H1 [H2 _]].
  split; [exact H1|]. split; [exact H2|].
  vm_compute; reflexivity.
Defined.

Lemma render_step_run oracle i localError s :
  let rendered := render_step oracle i localError s in
  let after_offset := snd (offset_step oracle i localError s) in
  st_error (snd rendered) = st_error after_offset
  /\ st_trace (snd rendered)
     = E_errorCheck (r_value (fst (handle_step oracle i s)))
       :: st_trace after_offset.
Proof.
  cbv zeta. unfold render_step, dpiError__check. cbv zeta.
  destruct (snd (offset_step oracle i localError s)). split; reflexivity.
Qed.

(** C6.  The rendering step of the collection of the batch errors cannot
    make the collection fail.  In an iteration of the loop of
    [dpiStmt__getBatchErrors] whose error handle was acquired and whose row
    offset was read, [dpiError__check] renders into the record of the
    iteration and leaves the buffer of the call as it is, while the test
    that follows looks at the buffer of the call: whatever the rendering
    hands back, a failure included, the loop goes on with the next
    iteration and keeps the record when the buffer of the call held no
    error before, and stops when it held one.  So a rendering that fails
    is not surfaced and discards nothing. *)
Theorem rendering_failure_goes_unnoticed :
  forall oracle n i localError h lh s,
    0 <= r_status (fst (handle_step oracle i s)) ->
    0 <= r_status (fst (offset_step oracle i localError s)) ->
    let acquired := r_value (fst (handle_step oracle i s)) in
    let rowOffset := r_value (fst (offset_step oracle i localError s)) in
    let after_offset := snd (offset_step oracle i localError s) in
    let rendered := render_step oracle i localError s in
    st_error (snd rendered) = st_error after_offset
    /\ st_trace (snd rendered) = E_errorCheck acquired :: st_trace after_offset
    /\ (eb_errorNum (st_error after_offset) = DPI_ERR_NO_ERR ->
        dpiStmt__getBatchErrors_loop oracle (S n) i localError h lh s
        = dpiStmt__getBatchErrors_loop oracle n (i + 1) (localError_batch i)
            acquired lh (record_kept i rowOffset (snd rendered)))
    /\ (eb_errorNum (st_error after_offset) <> DPI_ERR_NO_ERR ->
        dpiStmt__getBatchErrors_loop oracle (S n) i localError h lh s
        = ((DPI_FAILURE, acquired), snd rendered)).
Proof.
  intros oracle n i localError h lh s Hhandle Hoffset.
  cbv zeta.
  destruct (render_step_run oracle i localError s) as [Herr Htrace].
  split; [exact Herr|]. split; [exact Htrace|].
  revert Herr Hhandle Hoffset. clear Htrace.
  unfold render_step, offset_step, handle_step. cbv zeta.
  destruct (dpiOci__paramGet oracle error_handle i error s) as [r s1] eqn:Hp.
  cbn [fst snd].
  destruct (dpiOci__attrGet oracle (r_value r) DPI_OCI_ATTR_DML_ROW_OFFSET
              localError s1) as [o s2] eqn:Ho.
  cbn [fst snd].
  destruct (dpiError__check oracle (localError_batch i) (r_value r) s2)
    as [c s3] eqn:Hc.
  cbn [fst snd]. intros Herr Hhandle Hoffset.
  split.
  - intro Hclean. rewrite <- Herr in Hclean.
    cbn [dpiStmt__getBatchErrors_loop]. unfold bind at 1. rewrite Hp.
    destruct (r_status r <? 0) eqn:E; [apply Z.ltb_lt in E; lia|].
    unfold bind at 1. rewrite Ho.
    destruct (r_status o <? 0) eqn:E'; [apply Z.ltb_lt in E'; lia|].
    unfold bind at 1. rewrite Hc. unfold bind at 1. unfold get_error at 1.
    rewrite Hclean. unfold record_kept. destruct s3. reflexivity.
  - intro Hdirty. rewrite <- Herr in Hdirty.
    exact (getBatchErrors_loop_render oracle n i localError h lh s r s1 o s2
             c s3 Hp Hhandle Ho Hoffset Hc Hdirty).
Qed.

(** One failed iteration whose message cannot be rendered: the loop ends
    with success, and so does the batch, with the record kept. *)
Lemma rendering_failure_goes_unnoticed_witness :
  let s := sample_state collecting_stmt in
  fst (render_step oracle_render_fails 0 error s) < 0
  /\ fst (fst (dpiStmt__getBatchErrors_loop oracle_render_fails 1 0 error
                 7000 8000 s)) = DPI_SUCCESS
  /\ (let c := dpiStmt_executeMany oracle_render_fails 128 1
                 (sample_state dml_stmt) in
      fst c = DPI_SUCCESS
      /\ fst (dpiStmt_getBatchErrorCount oracle_render_fails 1 (snd c))
         = (DPI_SUCCESS, Some 1)
      /\ eb_errorNum (at_ noError (batchErrors (st_stmt (snd c))) 0)
         <> DPI_ERR_NO_ERR).
Proof.
  cbv zeta.
  split; [vm_compute; reflexivity|].
  split.
  - destruct (rendering_failure_goes_unnoticed oracle_render_fails 0 0 error
                7000 8000 (sample_state collecting_stmt))
      as (_ & _ & Hgo & _);
      [vm_compute; discriminate | vm_compute; discriminate |].
    rewrite Hgo by (vm_compute; reflexivity). reflexivity.
  - split; [vm_compute; reflexivity|].
    split; [vm_compute; reflexivity|].
    vm_compute. discriminate.
Defined.

(** * Further properties of the statement functions *)

(** ** The open guard and the public functions *)

Ltac run_in H :=
  cbv beta iota zeta delta
    [bind ret get_stmt get_var get_conn get_error modify_stmt modify_var
     add_refCount write_buffer external external_err
     with_st_stmt with_st_trace with_st_refCount with_st_vars with_st_conns
     with_st_error st_stmt st_trace st_refCount st_vars st_conns st_error
     fst snd] in H.

Lemma checkOpen_unusable oracle fnName s :
  unusable s ->
  fst (dpiStmt__checkOpen oracle fnName s) = DPI_FAILURE
  /\ untouched fnName s (snd (dpiStmt__checkOpen oracle fnName s))
  /\ (0 <= r_status (oracle (E_startPublicFn fnName :: st_trace s)) ->
      eb_errorNum (st_error (snd (dpiStmt__checkOpen oracle fnName s)))
      = if handle (st_stmt s) =? 0 then DPI_ERR_STMT_CLOSED
        else DPI_ERR_NOT_CONNECTED).
Proof.
  intro Hu. destruct s as [stmt t rc vars conns err].
  unfold dpiStmt__checkOpen, dpiGen__startPublicFn, dpiError__set, untouched.
  run.
  destruct (r_status (oracle (E_startPublicFn fnName :: t)) <? 0) eqn:Hst.
  { cbn. repeat split. intro H. apply Z.ltb_lt in Hst. lia. }
  destruct (handle stmt =? 0) eqn:Hh.
  { cbn. repeat split. }
  assert (Hd : (conn_handle (conns (conn stmt)) =? 0)
               || negb (conn_closing (conns (conn stmt)) =? 0) = true).
  { destruct Hu as [H|[H|H]]; cbn in H.
    - apply Z.eqb_neq in Hh. contradiction.
    - rewrite H. reflexivity.
    - apply Z.eqb_neq in H. rewrite H. apply orb_true_r. }
  rewrite Hd. cbn. repeat split.
Qed.

Lemma guard_fails {A : Type} oracle fnName (a : A) (k : Z -> M A) s :
  fst (dpiStmt__checkOpen oracle fnName s) = DPI_FAILURE ->
  bind (dpiStmt__checkOpen oracle fnName)
    (fun r => if r <? 0 then ret a else k r) s
  = (a, snd (dpiStmt__checkOpen oracle fnName s)).
Proof.
  unfold bind. destruct (dpiStmt__checkOpen oracle fnName s) as [r s1].
  simpl. intros ->. reflexivity.
Qed.

(** X1.  The open guard refuses a statement that is closed, or whose
    connection is closed or closing: it fails without initialising or
    changing the statement, the reference counts or the value resources,
    its entry is the only call made, and when the handle scaffold lets the
    call in, the error left is StatementClosed for a closed statement and
    NotConnected otherwise. *)
Theorem guard_refuses_unusable_statement :
  forall oracle fnName s,
    unusable s ->
    fst (dpiStmt__checkOpen oracle fnName s) = DPI_FAILURE
    /\ untouched fnName s (snd (dpiStmt__checkOpen oracle fnName s))
    /\ (0 <= r_status (oracle (E_startPublicFn fnName :: st_trace s)) ->
        errorKind
          (eb_errorNum (st_error (snd (dpiStmt__checkOpen oracle fnName s))))
        = Some (if handle (st_stmt s) =? 0 then StatementClosed
                else NotConnected)).
Proof.
  intros oracle fnName s Hu.
  destruct (checkOpen_unusable oracle fnName s Hu) as [H1 [H2 H3]].
  split; [exact H1|]. split; [exact H2|].
  intro Hok. rewrite (H3 Hok).
  destruct (handle (st_stmt s) =? 0); reflexivity.
Qed.

Lemma guard_refuses_unusable_statement_witness :
  fst (dpiStmt__checkOpen oracle_ok "dpiStmt_fetch"
         (dead_conn_state sample_stmt)) = DPI_FAILURE
  /\ errorKind
       (eb_errorNum
          (st_error (snd (dpiStmt__checkOpen oracle_ok "dpiStmt_fetch"
                            (dead_conn_state sample_stmt)))))
     = Some NotConnected.
Proof.
  assert (Hu : unusable (dead_conn_state sample_stmt))
    by (right; left; reflexivity).
  destruct (guard_refuses_unusable_statement oracle_ok "dpiStmt_fetch"
              (dead_conn_state sample_stmt) Hu) as [H1 [_ H3]].
  split; [exact H1|].
  apply H3. vm_compute. discriminate.
Defined.

Ltac refused Hu :=
  lazymatch goal with
  | |- fst (?f _) = _ /\ untouched ?fn ?s _ =>
      let h := head_of f in
      unfold h;
      lazymatch goal with
      | |- context [dpiStmt__checkOpen ?o fn] =>
          destruct (checkOpen_unusable o fn s Hu) as [? [? _]];
          rewrite guard_fails by assumption;
          split; [reflexivity | assumption]
      end
  end.

(** X2.  The public functions that pass through the open guard do not
    work on a statement that is closed, or whose connection is closed or
    closing.  Each of the seventeen of them that are modelled here
    ([dpiStmt_bindByName], [dpiStmt_bindByPos], [dpiStmt_define],
    [dpiStmt_defineValue], [dpiStmt_execute], [dpiStmt_executeMany],
    [dpiStmt_fetch], [dpiStmt_fetchRows], [dpiStmt_getBatchErrorCount],
    [dpiStmt_getBatchErrors], [dpiStmt_getBindCount],
    [dpiStmt_getFetchArraySize], [dpiStmt_getNumQueryColumns],
    [dpiStmt_getQueryInfo], [dpiStmt_getQueryValue], [dpiStmt_scroll] and
    [dpiStmt_setFetchArraySize]) fails, hands nothing back, and leaves the
    statement, the reference counts and the value resources as they are,
    its entry being the only call made. *)
Theorem public_functions_refuse_unusable_statement :
  forall oracle s,
    unusable s ->
    (forall name nameLength var,
        fst (dpiStmt_bindByName oracle name nameLength var s) = DPI_FAILURE
        /\ untouched "dpiStmt_bindByName" s
             (snd (dpiStmt_bindByName oracle name nameLength var s)))
    /\ (forall pos var,
        fst (dpiStmt_bindByPos oracle pos var s) = DPI_FAILURE
        /\ untouched "dpiStmt_bindByPos" s
             (snd (dpiStmt_bindByPos oracle pos var s)))
    /\ (forall pos var,
        fst (dpiStmt_define oracle pos var s) = DPI_FAILURE
        /\ untouched "dpiStmt_define" s
             (snd (dpiStmt_define oracle pos var s)))
    /\ (forall pos o n size b t,
        fst (dpiStmt_defineValue oracle pos o n size b t s) = DPI_FAILURE
        /\ untouched "dpiStmt_defineValue" s
             (snd (dpiStmt_defineValue oracle pos o n size b t s)))
    /\ (forall mode numQueryColumns,
        fst (dpiStmt_execute oracle mode numQueryColumns s)
        = (DPI_FAILURE, None)
        /\ untouched "dpiStmt_execute" s
             (snd (dpiStmt_execute oracle mode numQueryColumns s)))
    /\ (forall mode numIters,
        fst (dpiStmt_executeMany oracle mode numIters s) = DPI_FAILURE
        /\ untouched "dpiStmt_executeMany" s
             (snd (dpiStmt_executeMany oracle mode numIters s)))
    /\ (forall found idx,
        fst (dpiStmt_fetch oracle found idx s) = (DPI_FAILURE, None, None)
        /\ untouched "dpiStmt_fetch" s
             (snd (dpiStmt_fetch oracle found idx s)))
    /\ (forall maxRows idx n more,
        fst (dpiStmt_fetchRows oracle maxRows idx n more s)
        = (DPI_FAILURE, None)
        /\ untouched "dpiStmt_fetchRows" s
             (snd (dpiStmt_fetchRows oracle maxRows idx n more s)))
    /\ (forall count_,
        fst (dpiStmt_getBatchErrorCount oracle count_ s)
        = (DPI_FAILURE, None)
        /\ untouched "dpiStmt_getBatchErrorCount" s
             (snd (dpiStmt_getBatchErrorCount oracle count_ s)))
    /\ (forall numErrors errors,
        fst (dpiStmt_getBatchErrors oracle numErrors errors s)
        = (DPI_FAILURE, None)
        /\ untouched "dpiStmt_getBatchErrors" s
             (snd (dpiStmt_getBatchErrors oracle numErrors errors s)))
    /\ (forall count_,
        fst (dpiStmt_getBindCount oracle count_ s) = (DPI_FAILURE, None)
        /\ untouched "dpiStmt_getBindCount" s
             (snd (dpiStmt_getBindCount oracle count_ s)))
    /\ (forall arraySize,
        fst (dpiStmt_getFetchArraySize oracle arraySize s)
        = (DPI_FAILURE, None)
        /\ untouched "dpiStmt_getFetchArraySize" s
             (snd (dpiStmt_getFetchArraySize oracle arraySize s)))
    /\ (forall numQueryColumns,
        fst (dpiStmt_getNumQueryColumns oracle numQueryColumns s)
        = (DPI_FAILURE, None)
        /\ untouched "dpiStmt_getNumQueryColumns" s
             (snd (dpiStmt_getNumQueryColumns oracle numQueryColumns s)))
    /\ (forall pos info,
        fst (dpiStmt_getQueryInfo oracle pos info s) = (DPI_FAILURE, None)
        /\ untouched "dpiStmt_getQueryInfo" s
             (snd (dpiStmt_getQueryInfo oracle pos info s)))
    /\ (forall pos nativeTypeNum data,
        fst (dpiStmt_getQueryValue oracle pos nativeTypeNum data s)
        = (DPI_FAILURE, None)
        /\ untouched "dpiStmt_getQueryValue" s
             (snd (dpiStmt_getQueryValue oracle pos nativeTypeNum data s)))
    /\ (forall mode offset rowCountOffset,
        fst (dpiStmt_scroll oracle mode offset rowCountOffset s)
        = DPI_FAILURE
        /\ untouched "dpiStmt_scroll" s
             (snd (dpiStmt_scroll oracle mode offset rowCountOffset s)))
    /\ (forall arraySize,
        fst (dpiStmt_setFetchArraySize oracle arraySize s) = DPI_FAILURE
        /\ untouched "dpiStmt_setFetchArraySize" s
             (snd (dpiStmt_setFetchArraySize oracle arraySize s))).
Proof.
  intros oracle s Hu.
  repeat first [ refused Hu | intro | split ].
Qed.

Lemma public_functions_refuse_unusable_statement_witness :
  fst (dpiStmt_scroll oracle_ok DPI_MODE_FETCH_FIRST 0 0
         (dead_conn_state sample_stmt)) = DPI_FAILURE
  /\ fst (dpiStmt_getQueryValue oracle_ok 1 1 1
            (sample_state (set_handle 0 sample_stmt)))
     = (DPI_FAILURE, None).
Proof.
  assert (Hd : unusable (dead_conn_state sample_stmt))
    by (right; left; reflexivity).
  assert (Hc : unusable (sample_state (set_handle 0 sample_stmt)))
    by (left; reflexivity).
  split.
  - apply (public_functions_refuse_unusable_statement oracle_ok _ Hd).
  - apply (public_functions_refuse_unusable_statement oracle_ok _ Hc).
Defined.

(** X3.  The open guard reads the statement type lazily.  On a live
    statement whose type is not known yet, a guard that succeeds has stored
    the type the server reports; for a query it has marked that rows are
    to be fetched, otherwise it has stored whether the statement returns
    values.  Handle, connection and everything the fetch window consists
    of are as before, and once the type is known the guard lets a call
    through without a single protocol call. *)
Theorem guard_initialises_statement :
  forall oracle fnName s status s',
    live_stmt s ->
    statementType (st_stmt s) = 0 ->
    dpiStmt__checkOpen oracle fnName s = (status, s') ->
    0 <= status ->
    let t := E_startPublicFn fnName :: st_trace s in
    let type_ := oracle (E_attrGet (handle (st_stmt s))
                           DPI_OCI_ATTR_STMT_TYPE :: t) in
    let returning :=
      oracle (E_attrGet (handle (st_stmt s)) DPI_OCI_ATTR_STMT_IS_RETURNING
              :: E_attrGet (handle (st_stmt s)) DPI_OCI_ATTR_STMT_TYPE
              :: t) in
    st_stmt s'
    = (if r_value type_ =? DPI_STMT_TYPE_SELECT
       then set_hasRowsToFetch 1
              (set_statementType (r_value type_) (st_stmt s))
       else set_isReturning (r_value returning)
              (set_statementType (r_value type_) (st_stmt s)))
    /\ (r_value type_ <> 0 ->
        open_stmt s'
        /\ forall fnName',
            0 <= r_status (oracle (E_startPublicFn fnName' :: st_trace s')) ->
            dpiStmt__checkOpen oracle fnName' s'
            = (DPI_SUCCESS, guarded oracle fnName' s')).
Proof.
  intros oracle fnName s status s' [Hh [Hc Hcl]] Hty Hrun Hok.
  destruct s as [stmt t rc vars conns err]. cbn in Hh, Hc, Hcl, Hty.
  cbn [st_stmt st_trace].
  assert (Hguard : forall st tr e,
             handle st = handle stmt -> conn st = conn stmt ->
             statementType st <> 0 ->
             open_stmt (mkSt st tr rc vars conns e)
             /\ forall fnName',
                 0 <= r_status (oracle (E_startPublicFn fnName' :: tr)) ->
                 dpiStmt__checkOpen oracle fnName'
                   (mkSt st tr rc vars conns e)
                 = (DPI_SUCCESS,
                    guarded oracle fnName' (mkSt st tr rc vars conns e))).
  { intros st tr e Hh' Hc' Hty'. split.
    - unfold open_stmt. cbn. rewrite Hh', Hc'.
      repeat split; assumption.
    - intros fnName' Hok'.
      unfold dpiStmt__checkOpen, dpiGen__startPublicFn, guarded. run.
      destruct (Z.ltb_spec
                  (r_status (oracle (E_startPublicFn fnName' :: tr))) 0);
        [lia|].
      rewrite Hh', Hc'.
      apply Z.eqb_neq in Hh. apply Z.eqb_neq in Hc. apply Z.eqb_eq in Hcl.
      rewrite Hh, Hc, Hcl. cbn [orb negb].
      apply Z.eqb_neq in Hty'. rewrite Hty'. reflexivity. }
  unfold dpiStmt__checkOpen, dpiGen__startPublicFn, dpiError__set,
    dpiStmt__init, dpiOci__attrGet in Hrun.
  run_in Hrun.
  destruct (r_status (oracle (E_startPublicFn fnName :: t)) <? 0) eqn:Hst;
    try rewrite Hst in Hrun; run_in Hrun.
  { injection Hrun as <- _. unfold DPI_FAILURE in Hok. lia. }
  apply Z.eqb_neq in Hh. rewrite Hh in Hrun.
  apply Z.eqb_neq in Hc. apply Z.eqb_eq in Hcl. rewrite Hc, Hcl in Hrun.
  cbn [orb negb] in Hrun. rewrite Hty in Hrun. cbn [Z.eqb] in Hrun.
  cbv zeta.
  set (type_ := oracle (E_attrGet (handle stmt) DPI_OCI_ATTR_STMT_TYPE
                        :: E_startPublicFn fnName :: t)) in *.
  destruct (r_status type_ <? 0) eqn:Hr1; try rewrite Hr1 in Hrun; run_in Hrun.
  { injection Hrun as <- _. unfold DPI_FAILURE in Hok. lia. }
  try rewrite Hr1 in Hrun.
  destruct (r_value type_ =? DPI_STMT_TYPE_SELECT) eqn:Hsel;
    try rewrite Hsel in Hrun; run_in Hrun.
  - injection Hrun as _ <-. split; [reflexivity|].
    intro Hnz. apply Hguard; [reflexivity | reflexivity | exact Hnz].
  - set (returning :=
           oracle (E_attrGet (handle stmt) DPI_OCI_ATTR_STMT_IS_RETURNING
                   :: E_attrGet (handle stmt) DPI_OCI_ATTR_STMT_TYPE
                   :: E_startPublicFn fnName :: t)) in *.
    destruct (r_status returning <? 0) eqn:Hr2; try rewrite Hr2 in Hrun;
      run_in Hrun.
    { injection Hrun as <- _. unfold DPI_FAILURE in Hok. lia. }
    try rewrite Hr2 in Hrun.
    injection Hrun as _ <-. split; [reflexivity|].
    intro Hnz. apply Hguard; [reflexivity | reflexivity | exact Hnz].
Qed.

Lemma guard_initialises_statement_witness :
  let s := sample_state (set_statementType 0 sample_stmt) in
  let c := dpiStmt__checkOpen (oracle_stmt_type 4) "dpiStmt_execute" s in
  st_stmt (snd c) = set_isReturning 0 (set_statementType 4 (st_stmt s))
  /\ open_stmt (snd c).
Proof.
  cbv zeta.
  assert (Hlive : live_stmt (sample_state (set_statementType 0 sample_stmt)))
    by (repeat split; vm_compute; discriminate).
  assert (Hrun : dpiStmt__checkOpen (oracle_stmt_type 4) "dpiStmt_execute"
                   (sample_state (set_statementType 0 sample_stmt))
                 = (fst (dpiStmt__checkOpen (oracle_stmt_type 4)
                           "dpiStmt_execute"
                           (sample_state (set_statementType 0 sample_stmt))),
                    snd (dpiStmt__checkOpen (oracle_stmt_type 4)
                           "dpiStmt_execute"
                           (sample_state (set_statementType 0 sample_stmt)))))
    by apply surjective_pairing.
  assert (Hok : 0 <= fst (dpiStmt__checkOpen (oracle_stmt_type 4)
                            "dpiStmt_execute"
                            (sample_state (set_statementType 0 sample_stmt))))
    by (vm_compute; discriminate).
  destruct (guard_initialises_statement (oracle_stmt_type 4)
              "dpiStmt_execute" _ _ _ Hlive eq_refl Hrun Hok) as [H1 H2].
  split; [exact H1|].
  apply H2. vm_compute. discriminate.
Defined.

(** ** Closing *)

Lemma clearBatchErrors_stmt s :
  st_stmt (snd (dpiStmt__clearBatchErrors s))
  = set_numBatchErrors 0 (set_batchErrors None (st_stmt s)).
Proof. destruct s. reflexivity. Qed.

Lemma clearBindVars_stmt oracle s :
  st_stmt (snd (dpiStmt__clearBindVars oracle s))
  = set_allocatedBindVars 0
      (set_numBindVars 0 (set_bindVars None (st_stmt s))).
Proof.
  unfold dpiStmt__clearBindVars. unfold bind at 1. unfold get_stmt at 1.
  destruct (bindVars (st_stmt s)) eqn:Hb.
  - unfold bind at 1. unfold bind at 1.
    match goal with
    | |- context [for_ ?n ?i ?body s] =>
        assert (Hk : frame (same_on (fun st => st)) (for_ n i body))
          by keep;
        specialize (Hk s); destruct (for_ n i body s) as [r s1]
    end.
    unfold same_on in Hk. simpl in Hk.
    destruct s1 as [stmt1 ? ? ? ? ?]. simpl in Hk. subst stmt1.
    reflexivity.
  - destruct s as [stmt ? ? ? ? ?]. simpl in Hb.
    destruct stmt. simpl in Hb. subst. reflexivity.
Qed.

Lemma clearQueryVars_stmt oracle s :
  st_stmt (snd (dpiStmt__clearQueryVars oracle s))
  = set_numQueryVars 0
      (set_queryInfo None (set_queryVars None (st_stmt s))).
Proof.
  unfold dpiStmt__clearQueryVars. unfold bind at 1. unfold get_stmt at 1.
  destruct (queryVars (st_stmt s)) eqn:Hq.
  - unfold bind at 1. unfold bind at 1.
    match goal with
    | |- context [for_ ?n ?i ?body s] =>
        assert (Hk : frame
                       (same_on (fun st =>
                          set_queryInfo None (set_queryVars None st)))
                       (for_ n i body))
          by keep;
        specialize (Hk s); destruct (for_ n i body s) as [r s1]
    end.
    unfold same_on in Hk. simpl in Hk.
    destruct s1 as [stmt1 ? ? ? ? ?]. simpl in Hk.
    cbn. rewrite <- Hk. destruct stmt1. reflexivity.
  - destruct s as [stmt ? ? ? ? ?]. simpl in Hq.
    destruct stmt. simpl in Hq. subst. reflexivity.
Qed.

(** [dpiStmt__close], from the release of the handle on. *)
Lemma close_tail oracle propagateErrors s status s' :
  (stmt <- get_stmt ;;
   attempt
     (if negb (handle stmt =? 0) then
        attempt
          (if negb (isOwned stmt =? 0) then
             dpiOci__handleFree oracle (handle stmt) ;; ret DPI_SUCCESS
           else dpiOci__stmtRelease oracle propagateErrors error) ;;
        modify_stmt (set_handle 0) ;;
        dpiConn__decrementOpenChildCount oracle (conn stmt) ;;
        ret DPI_SUCCESS
      else ret DPI_SUCCESS) ;;
   (if negb (conn stmt =? 0) then
      dpiGen__setRefCount oracle (conn stmt) error (-1) ;;
      modify_stmt (set_conn 0)
    else ret tt) ;;
   ret DPI_SUCCESS) s = (status, s') ->
  (status = DPI_FAILURE
   /\ st_stmt s' = st_stmt s
   /\ handle (st_stmt s) <> 0 /\ isOwned (st_stmt s) = 0)
  \/ (status = DPI_SUCCESS
      /\ st_stmt s' = set_conn 0 (set_handle 0 (st_stmt s))).
Proof.
  destruct s as [stmt t rc vars conns err].
  unfold dpiOci__handleFree, dpiOci__stmtRelease,
    dpiConn__decrementOpenChildCount, dpiGen__setRefCount.
  run.
  assert (Hc0 : conn stmt = 0 -> set_conn 0 stmt = stmt)
    by (destruct stmt; cbn; intros ->; reflexivity).
  assert (Hh0 : handle stmt = 0 -> set_handle 0 stmt = stmt)
    by (destruct stmt; cbn; intros ->; reflexivity).
  assert (Hc1 : forall st, conn st = 0 -> set_conn 0 st = st)
    by (intros st; destruct st; cbn; intros ->; reflexivity).
  destruct (Z.eqb_spec (handle stmt) 0) as [Eh|Eh]; cbn [negb]; try change (DPI_SUCCESS <? 0) with false; run.
  - destruct (Z.eqb_spec (conn stmt) 0) as [Ec|Ec]; cbn [negb]; try change (DPI_SUCCESS <? 0) with false; run.
    + intro H. injection H as <- <-. right.
      split; [reflexivity|]. cbn. rewrite (Hh0 Eh), (Hc0 Ec). reflexivity.
    + match goal with
      | |- context [r_status ?r <? 0] => destruct (r_status r <? 0)
      end; run; intro H; injection H as <- <-; right; (split; [reflexivity|]);
        cbn; rewrite (Hh0 Eh); reflexivity.
  - destruct (Z.eqb_spec (isOwned stmt) 0) as [Eo|Eo]; cbn [negb]; try change (DPI_SUCCESS <? 0) with false; run.
    + match goal with
      | |- context [r_status ?r <? 0] => destruct (r_status r <? 0) eqn:Er
      end.
      * rewrite ?Er; run. intro H. injection H as <- <-. left.
        split; [reflexivity|]. split; [reflexivity|].
        split; [exact Eh | exact Eo].
      * rewrite ?Er; run; try change (DPI_SUCCESS <? 0) with false; run.
        destruct (Z.eqb_spec (conn stmt) 0) as [Ec|Ec]; cbn [negb]; try change (DPI_SUCCESS <? 0) with false; run.
        -- intro H. injection H as <- <-. right. split; [reflexivity|].
           cbn. rewrite Hc1; [reflexivity|].
           destruct stmt; exact Ec.
        -- match goal with
           | |- context [r_status ?r <? 0] => destruct (r_status r <? 0)
           end; run; intro H; injection H as <- <-; right;
             (split; [reflexivity|]); reflexivity.
    + destruct (Z.eqb_spec (conn stmt) 0) as [Ec|Ec]; cbn [negb]; try change (DPI_SUCCESS <? 0) with false; run.
      * intro H. injection H as <- <-. right. split; [reflexivity|].
        cbn. rewrite Hc1; [reflexivity|].
        destruct stmt; exact Ec.
      * match goal with
        | |- context [r_status ?r <? 0] => destruct (r_status r <? 0)
        end; run; intro H; injection H as <- <-; right;
          (split; [reflexivity|]); reflexivity.
Qed.

Lemma close_stmt oracle tag tagLength propagateErrors s status s' :
  dpiStmt__close oracle tag tagLength propagateErrors s = (status, s') ->
  (status = DPI_FAILURE
   /\ st_stmt s' = given_up (st_stmt s)
   /\ handle (st_stmt s) <> 0 /\ isOwned (st_stmt s) = 0)
  \/ (status = DPI_SUCCESS
      /\ st_stmt s' = set_conn 0 (set_handle 0 (given_up (st_stmt s)))).
Proof.
  unfold dpiStmt__close. unfold bind at 1.
  pose proof (clearBatchErrors_stmt s) as H1.
  destruct (dpiStmt__clearBatchErrors s) as [[] s1]. simpl in H1.
  unfold bind at 1.
  pose proof (clearBindVars_stmt oracle s1) as H2.
  destruct (dpiStmt__clearBindVars oracle s1) as [[] s2]. simpl in H2.
  unfold bind at 1.
  pose proof (clearQueryVars_stmt oracle s2) as H3.
  destruct (dpiStmt__clearQueryVars oracle s2) as [[] s3]. simpl in H3.
  rewrite H2, H1 in H3. fold (given_up (st_stmt s)) in H3.
  intro Hrun. apply close_tail in Hrun.
  rewrite H3 in Hrun.
  destruct Hrun as [[Hs [Hst [Hh Ho]]]|[Hs Hst]].
  - left. split; [exact Hs|]. split; [exact Hst|].
    destruct (st_stmt s); split; assumption.
  - right. split; assumption.
Qed.

(** X4.  [dpiStmt__close] gives up the three registries of the statement
    whatever happens: the batch errors, the bound and the defined value
    resources are gone when it returns.  It fails only when the release of
    a handle that the statement does not own fails, and then handle and
    connection stay, so that the close can be tried again.  When it
    succeeds the statement is closed: handle and connection are cleared
    too, the open guard [dpiStmt__checkOpen] turns down every call made
    for it, whatever the function, and closing it again changes nothing. *)
Theorem close_gives_up_everything :
  forall oracle tag tagLength propagateErrors s status s',
    dpiStmt__close oracle tag tagLength propagateErrors s = (status, s') ->
    st_stmt s'
    = (if status <? 0 then given_up (st_stmt s)
       else set_conn 0 (set_handle 0 (given_up (st_stmt s))))
    /\ (status < 0 ->
        handle (st_stmt s') = handle (st_stmt s)
        /\ conn (st_stmt s') = conn (st_stmt s)
        /\ handle (st_stmt s) <> 0 /\ isOwned (st_stmt s) = 0)
    /\ (0 <= status ->
        closed (st_stmt s')
        /\ unusable s'
        /\ (forall fnName,
              fst (dpiStmt__checkOpen oracle fnName s') = DPI_FAILURE
              /\ untouched fnName s'
                   (snd (dpiStmt__checkOpen oracle fnName s')))
        /\ forall tag' tagLength' propagateErrors',
            dpiStmt__close oracle tag' tagLength' propagateErrors' s'
            = (DPI_SUCCESS, s')).
Proof.
  intros oracle tag tagLength propagateErrors s status s' Hrun.
  destruct (close_stmt _ _ _ _ _ _ _ Hrun)
    as [[Hs [Hst [Hh Ho]]]|[Hs Hst]]; subst status.
  - split; [exact Hst|]. split.
    + intros _. rewrite Hst.
      destruct (st_stmt s); repeat split; assumption.
    + intro H. unfold DPI_FAILURE in H. lia.
  - split; [exact Hst|]. split.
    + intro H. unfold DPI_SUCCESS in H. lia.
    + intros _.
      assert (Hc : closed (st_stmt s'))
        by (rewrite Hst; destruct (st_stmt s); repeat split).
      assert (Hu : unusable s') by (left; apply Hc).
      split; [exact Hc|]. split; [exact Hu|]. split.
      * intro fnName.
        destruct (checkOpen_unusable oracle fnName s' Hu) as (H1 & H2 & _).
        split; assumption.
      * intros tag' tagLength' propagateErrors'.
        apply close_sequence_on_closed. exact Hc.
Qed.

Lemma close_gives_up_everything_witness :
  let c := dpiStmt__close oracle_ok 0 0 1 (bound_state oracle_ok) in
  let d := dpiStmt__close oracle_release_fails 0 0 1
             (bound_state oracle_ok) in
  closed (st_stmt (snd c))
  /\ numBindVars (st_stmt (bound_state oracle_ok)) = 1
  /\ fst d = DPI_FAILURE
  /\ numBindVars (st_stmt (snd d)) = 0
  /\ handle (st_stmt (snd d)) = 3000.
Proof.
  cbv zeta.
  assert (Hc : dpiStmt__close oracle_ok 0 0 1 (bound_state oracle_ok)
               = (fst (dpiStmt__close oracle_ok 0 0 1
                         (bound_state oracle_ok)),
                  snd (dpiStmt__close oracle_ok 0 0 1
                         (bound_state oracle_ok))))
    by apply surjective_pairing.
  assert (Hd : dpiStmt__close oracle_release_fails 0 0 1
                 (bound_state oracle_ok)
               = (fst (dpiStmt__close oracle_release_fails 0 0 1
                         (bound_state oracle_ok)),
                  snd (dpiStmt__close oracle_release_fails 0 0 1
                         (bound_state oracle_ok))))
    by apply surjective_pairing.
  destruct (close_gives_up_everything _ _ _ _ _ _ _ Hc) as [_ [_ H3]].
  destruct (close_gives_up_everything _ _ _ _ _ _ _ Hd) as [_ [H2 _]].
  split; [apply H3; vm_compute; discriminate|].
  split; [vm_compute; reflexivity|].
  split; [vm_compute; reflexivity|].
  split; vm_compute; reflexivity.
Defined.

Lemma bind_run {A B : Type} (m : M A) (k : A -> M B) s :
  bind m k s = k (fst (m s)) (snd (m s)).
Proof. unfold bind. destruct (m s). reflexivity. Qed.

Lemma bind_get_stmt {A : Type} (k : dpiStmt -> M A) s :
  bind get_stmt k s = k (st_stmt s) s.
Proof. reflexivity. Qed.

Lemma bind_get_var {A : Type} p (k : dpiVar -> M A) s :
  bind (get_var p) k s = k (st_vars s p) s.
Proof. reflexivity. Qed.

Lemma bind_modify_stmt {A : Type} f (k : unit -> M A) s :
  bind (modify_stmt f) k s = k tt (with_st_stmt (f (st_stmt s)) s).
Proof. reflexivity. Qed.

Lemma bind_external {A : Type} oracle e (k : Reply -> M A) s :
  bind (external oracle e) k s
  = k (oracle (e :: st_trace s)) (with_st_trace (e :: st_trace s) s).
Proof. reflexivity. Qed.

Lemma release_loop oracle (g : Z -> Z) n i s :
  let s' := snd (for_ n i (fun j =>
                   dpiGen__setRefCount oracle (g j) error (-1) ;;
                   ret (@None unit)) s) in
  let l := map (fun k => g (i + Z.of_nat k)) (seq 0 n) in
  st_trace s' = releases l ++ st_trace s
  /\ (forall p, st_refCount s' p = st_refCount s p - occurrences p l)
  /\ st_stmt s' = st_stmt s
  /\ st_vars s' = st_vars s.
Proof.
  cbv zeta. revert i s. induction n as [|n IH]; intros i s.
  - cbn. repeat split. intro p. unfold occurrences. cbn. lia.
  - assert (Hstep :
      for_ (S n) i (fun j =>
        dpiGen__setRefCount oracle (g j) error (-1) ;; ret (@None unit)) s
      = for_ n (i + 1) (fun j =>
          dpiGen__setRefCount oracle (g j) error (-1) ;; ret (@None unit))
          (snd (dpiGen__setRefCount oracle (g i) error (-1) s))).
    { cbn [for_]. unfold bind at 1. unfold bind at 1.
      destruct (dpiGen__setRefCount oracle (g i) error (-1) s).
      reflexivity. }
    rewrite Hstep. clear Hstep.
    destruct (dpiGen__setRefCount oracle (g i) error (-1) s) as [r s1] eqn:E.
    cbn [snd].
    assert (H1 : st_trace s1 = E_setRefCount (g i) (-1) :: st_trace s
                 /\ (forall p, st_refCount s1 p
                               = st_refCount s p
                                 - (if Z.eq_dec (g i) p then 1 else 0))
                 /\ st_stmt s1 = st_stmt s /\ st_vars s1 = st_vars s).
    { revert E. unfold dpiGen__setRefCount. destruct s. run.
      match goal with
      | |- context [r_status ?x <? 0] => destruct (r_status x <? 0)
      end; run; intro H; injection H as _ <-; cbn;
        (split; [reflexivity|]); (split; [|split; reflexivity]);
        intro p; unfold upd; rewrite Z.eqb_sym;
        destruct (Z.eq_dec (g i) p) as [->|Hne];
        [rewrite Z.eqb_refl; lia
        |apply Z.eqb_neq in Hne; rewrite Hne; lia
        |rewrite Z.eqb_refl; lia
        |apply Z.eqb_neq in Hne; rewrite Hne; lia]. }
    destruct H1 as [Ht [Hr [Hs Hv]]].
    specialize (IH (i + 1) s1). destruct IH as [It [Ir [Is Iv]]].
    assert (Hl : map (fun k => g (i + Z.of_nat k)) (seq 0 (S n))
                 = g i :: map (fun k => g (i + 1 + Z.of_nat k)) (seq 0 n)).
    { cbn [seq map]. rewrite Z.add_0_r. f_equal.
      rewrite <- seq_shift, map_map. apply map_ext. intro k.
      f_equal. lia. }
    rewrite Hl. split; [|split; [|split]].
    + rewrite It, Ht. unfold releases. cbn [map rev].
      rewrite <- app_assoc. reflexivity.
    + intro p. rewrite Ir, Hr. unfold occurrences. cbn [count_occ].
      destruct (Z.eq_dec (g i) p); lia.
    + rewrite Is. exact Hs.
    + rewrite Iv. exact Hv.
Qed.

(** X5.  [dpiStmt__clearBindVars] releases the value resource of each slot
    in use of the registry, once per slot and in the order of the slots:
    these releases are the only calls it makes, the reference count of a
    resource drops by the number of slots that hold it, and no value
    resource is changed.  With no registry allocated it makes no call. *)
Theorem clearBindVars_releases_each_slot :
  forall oracle s,
    let s' := snd (dpiStmt__clearBindVars oracle s) in
    let l := match bindVars (st_stmt s) with
             | Some _ => bound_vars (st_stmt s)
             | None => []
             end in
    st_trace s' = releases l ++ st_trace s
    /\ (forall p, st_refCount s' p = st_refCount s p - occurrences p l)
    /\ st_vars s' = st_vars s.
Proof.
  intros oracle s. cbv zeta.
  unfold dpiStmt__clearBindVars. rewrite !bind_run.
  unfold get_stmt. cbn [fst snd].
  destruct (bindVars (st_stmt s)) as [bv|] eqn:Hb.
  - pose proof (release_loop oracle
                  (fun j => bv_var (at_ zeroBindVar (Some bv) j))
                  (Z.to_nat (numBindVars (st_stmt s))) 0 s) as H.
    cbv zeta in H. destruct H as [Ht [Hr [Hs Hv]]].
    assert (Hl : map (fun k => bv_var (at_ zeroBindVar (Some bv)
                                          (0 + Z.of_nat k)))
                   (seq 0 (Z.to_nat (numBindVars (st_stmt s))))
                 = bound_vars (st_stmt s)).
    { unfold bound_vars. rewrite Hb. apply map_ext. intro k.
      rewrite Z.add_0_l. reflexivity. }
    rewrite Hl in Ht, Hr. clear Hl.
    rewrite !bind_run. unfold modify_stmt.
    cbn [snd fst st_trace st_refCount st_vars with_st_stmt].
    split; [exact Ht|]. split; [exact Hr | exact Hv].
  - destruct s. cbn. split; [reflexivity|]. split; [|reflexivity].
    intro p. unfold occurrences. cbn. lia.
Qed.

(** ** The bind registry *)

Lemma bind_find_step n i bv pos name nameLength :
  dpiStmt__bind_find (S n) i bv pos name nameLength
  = if locator_matches (at_ zeroBindVar bv i) pos name nameLength
    then Some i
    else dpiStmt__bind_find n (i + 1) bv pos name nameLength.
Proof.
  cbn [dpiStmt__bind_find]. unfold locator_matches. cbv zeta.
  destruct (bv_pos (at_ zeroBindVar bv i) =? pos);
    destruct (bv_nameLength (at_ zeroBindVar bv i) =? nameLength);
    cbn [andb]; try reflexivity.
  destruct ((nameLength >? 0)
            && negb (strncmp (chars (bv_name (at_ zeroBindVar bv i)))
                       (chars name) (Z.to_nat nameLength) =? 0));
    reflexivity.
Qed.

(** X6.  The search loop of [dpiStmt__bind] finds the first slot whose
    locator matches: the slot it yields lies among those searched and
    matches, no slot before it does, and when it yields none, no slot
    searched matches. *)
Theorem bind_find_first_match :
  forall n i bv pos name nameLength,
    match dpiStmt__bind_find n i bv pos name nameLength with
    | Some j =>
        i <= j < i + Z.of_nat n
        /\ locator_matches (at_ zeroBindVar bv j) pos name nameLength = true
        /\ forall k, i <= k < j ->
             locator_matches (at_ zeroBindVar bv k) pos name nameLength
             = false
    | None =>
        forall k, i <= k < i + Z.of_nat n ->
          locator_matches (at_ zeroBindVar bv k) pos name nameLength = false
    end.
Proof.
  induction n as [|n IH]; intros i bv pos name nameLength.
  - cbn. intros k Hk. lia.
  - rewrite bind_find_step.
    destruct (locator_matches (at_ zeroBindVar bv i) pos name nameLength)
      eqn:Hm.
    + split; [lia|]. split; [exact Hm|]. intros k Hk. lia.
    + specialize (IH (i + 1) bv pos name nameLength).
      destruct (dpiStmt__bind_find n (i + 1) bv pos name nameLength)
        as [j|].
      * destruct IH as [Hj [Hmj Hbefore]].
        split; [lia|]. split; [exact Hmj|].
        intros k Hk. destruct (Z.eq_dec k i) as [->|Hne];
          [exact Hm | apply Hbefore; lia].
      * intros k Hk. destruct (Z.eq_dec k i) as [->|Hne];
          [exact Hm | apply IH; lia].
Qed.

Lemma strncmp_refl a n : strncmp a a n = 0.
Proof.
  revert a. induction n as [|n IH]; intro a; cbn [strncmp]; [reflexivity|].
  cbv zeta. rewrite Ascii.eqb_refl. cbn [negb].
  destruct (Ascii.eqb (byte_at a) zero); [reflexivity | apply IH].
Qed.

Lemma own_locator_matches e :
  locator_matches e (bv_pos e) (bv_name e) (bv_nameLength e) = true.
Proof.
  unfold locator_matches. rewrite !Z.eqb_refl, strncmp_refl.
  cbn. rewrite andb_false_r. reflexivity.
Qed.

(** X7.  The locator of a slot in use is always found, at that slot or
    before it: binding with the position, name and name length recorded in
    a slot takes the replacing branch of [dpiStmt__bind] and never appends
    a slot.  This is what the rebinding loop of [dpiStmt__reExecute]
    relies on when it reads [stmt->numBindVars] as its bound. *)
Theorem slot_locator_is_found :
  forall n bv k,
    0 <= k < Z.of_nat n ->
    let e := at_ zeroBindVar bv k in
    exists j,
      dpiStmt__bind_find n 0 bv (bv_pos e) (bv_name e) (bv_nameLength e)
      = Some j
      /\ 0 <= j <= k.
Proof.
  intros n bv k Hk e.
  pose proof (bind_find_first_match n 0 bv (bv_pos e) (bv_name e)
                (bv_nameLength e)) as H.
  destruct (dpiStmt__bind_find n 0 bv (bv_pos e) (bv_name e)
              (bv_nameLength e)) as [j|].
  - destruct H as [Hj [_ Hbefore]]. exists j. split; [reflexivity|].
    split; [lia|].
    destruct (Z_le_gt_dec j k) as [Hle|Hgt]; [exact Hle|].
    specialize (Hbefore k ltac:(lia)).
    unfold e in Hbefore. rewrite own_locator_matches in Hbefore.
    discriminate.
  - specialize (H k ltac:(lia)).
    unfold e in H. rewrite own_locator_matches in H. discriminate.
Qed.

Lemma slot_locator_is_found_witness :
  exists j,
    dpiStmt__bind_find 3 0 three_slots 0 (Some "id"%string) 2 = Some j
    /\ 0 <= j <= 1.
Proof.
  apply (slot_locator_is_found 3 three_slots 1). cbn. lia.
Defined.

(** ** Execution of a batch *)

Lemma error_set action errorNum s :
  dpiError__set action errorNum s = (DPI_FAILURE, rejected action errorNum s).
Proof. destruct s. reflexivity. Qed.

Lemma seq_shift_map {A : Type} (g : Z -> A) i n :
  map (fun k => g (i + Z.of_nat k)) (seq 0 (S n))
  = g i :: map (fun k => g (i + 1 + Z.of_nat k)) (seq 0 n).
Proof.
  cbn [seq map]. rewrite Z.add_0_r. f_equal.
  rewrite <- seq_shift, map_map. apply map_ext. intro k. f_equal. lia.
Qed.

(** The loop of [dpiStmt_executeMany] over the bound value resources. *)
Lemma executeMany_check (g : Z -> Z) numIters n i s :
  for_ n i (fun j =>
    v <- get_var (g j) ;;
    if v_maxArraySize v <? numIters then
      status <- dpiError__set "check array size"
                  DPI_ERR_ARRAY_SIZE_TOO_SMALL ;;
      ret (Some status)
    else ret None) s
  = if forallb (fun p => negb (v_maxArraySize (st_vars s p) <? numIters))
         (map (fun k => g (i + Z.of_nat k)) (seq 0 n))
    then (None, s)
    else (Some DPI_FAILURE,
          rejected "check array size" DPI_ERR_ARRAY_SIZE_TOO_SMALL s).
Proof.
  revert i. induction n as [|n IH]; intro i.
  - reflexivity.
  - rewrite seq_shift_map. cbn [forallb for_].
    unfold bind at 1. unfold bind at 1. unfold get_var at 1.
    cbv beta iota.
    destruct (v_maxArraySize (st_vars s (g i)) <? numIters).
    + cbn [negb andb]. unfold bind at 1. rewrite error_set.
      reflexivity.
    + cbn [negb andb]. unfold ret at 1. cbv beta iota. apply IH.
Qed.

(** X8.  [dpiStmt_executeMany] turns a batch down before anything is
    executed: on an open statement it fails with NotSupported for a query,
    and, when every slot in use of the bind registry holds a value
    resource, with ArraySizeTooSmall when one of them holds fewer elements
    than there are iterations.  In both cases the statement is left as it
    is and, past the entry of the function, no call is made. *)
Theorem executeMany_turns_batch_down :
  forall oracle mode numIters s,
    valid_handle oracle -> open_stmt s ->
    (statementType (st_stmt s) = DPI_STMT_TYPE_SELECT ->
     dpiStmt_executeMany oracle mode numIters s
     = (DPI_FAILURE,
        rejected "check statement type" DPI_ERR_NOT_SUPPORTED
          (guarded oracle "dpiStmt_executeMany" s)))
    /\ (statementType (st_stmt s) <> DPI_STMT_TYPE_SELECT ->
        arrays_hold s numIters = Some false ->
        dpiStmt_executeMany oracle mode numIters s
        = (DPI_FAILURE,
           rejected "check array size" DPI_ERR_ARRAY_SIZE_TOO_SMALL
             (guarded oracle "dpiStmt_executeMany" s))).
Proof.
  intros oracle mode numIters s Hvalid Hopen.
  unfold dpiStmt_executeMany. rewrite bind_run.
  rewrite (checkOpen_open oracle _ s Hvalid Hopen). cbn [fst snd].
  change (DPI_SUCCESS <? 0) with false. cbv iota.
  rewrite bind_run. unfold get_stmt. cbn [fst snd].
  assert (Hg : st_stmt (guarded oracle "dpiStmt_executeMany" s) = st_stmt s)
    by (destruct s; reflexivity).
  assert (Hv : st_vars (guarded oracle "dpiStmt_executeMany" s) = st_vars s)
    by (destruct s; reflexivity).
  rewrite Hg. split.
  - intro Hsel. rewrite Hsel. cbn [Z.eqb Pos.eqb DPI_STMT_TYPE_SELECT].
    apply error_set.
  - intros Hsel Hsmall. apply Z.eqb_neq in Hsel. rewrite Hsel.
    rewrite bind_run.
    rewrite (executeMany_check
               (fun j => bv_var (at_ zeroBindVar (bindVars (st_stmt s)) j))).
    rewrite Hv.
    assert (Hl : map (fun k => bv_var (at_ zeroBindVar (bindVars (st_stmt s))
                                          (0 + Z.of_nat k)))
                   (seq 0 (Z.to_nat (numBindVars (st_stmt s))))
                 = bound_vars (st_stmt s))
      by (apply map_ext; intro k; rewrite Z.add_0_l; reflexivity).
    rewrite Hl. unfold arrays_hold in Hsmall.
    destruct (existsb (fun p => p =? 0) (bound_vars (st_stmt s)));
      [discriminate|].
    injection Hsmall as Hsmall. rewrite Hsmall.
    reflexivity.
Qed.

Lemma executeMany_turns_batch_down_witness :
  fst (dpiStmt_executeMany oracle_ok 0 2 (sample_state sample_stmt))
  = DPI_FAILURE
  /\ dpiStmt_executeMany oracle_ok 0 200 (bound_state oracle_ok)
     = (DPI_FAILURE,
        rejected "check array size" DPI_ERR_ARRAY_SIZE_TOO_SMALL
          (guarded oracle_ok "dpiStmt_executeMany" (bound_state oracle_ok))).
Proof.
  assert (Hvalid : valid_handle oracle_ok)
    by (intros fnName t; vm_compute; discriminate).
  assert (Ho1 : open_stmt (sample_state sample_stmt))
    by (repeat split; vm_compute; discriminate).
  assert (Ho2 : open_stmt (bound_state oracle_ok))
    by (repeat split; vm_compute; discriminate).
  split.
  - destruct (executeMany_turns_batch_down oracle_ok 0 2 _ Hvalid Ho1)
      as [H _].
    rewrite (H eq_refl). reflexivity.
  - destruct (executeMany_turns_batch_down oracle_ok 0 200 _ Hvalid Ho2)
      as [_ H].
    apply H; [vm_compute; discriminate | vm_compute; reflexivity].
Defined.

(** ** The fetch window *)

Lemma u32_small x : 0 <= x < 2 ^ 32 -> u32 x = x.
Proof. intro H. unfold u32. apply Z.mod_small. exact H. Qed.

Lemma u64_small x : 0 <= x < 2 ^ 64 -> u64 x = x.
Proof. intro H. unfold u64. apply Z.mod_small. exact H. Qed.

Lemma guarded_stmt oracle fnName s :
  st_stmt (guarded oracle fnName s) = st_stmt s.
Proof. destruct s. reflexivity. Qed.

Lemma guarded_vars oracle fnName s :
  st_vars (guarded oracle fnName s) = st_vars s.
Proof. destruct s. reflexivity. Qed.

(** X9.  [dpiStmt_getQueryValue] reads the row that the last
    [dpiStmt_fetch] handed out.  When a row is buffered, the fetch yields
    its index in the window, and a following read of a defined column
    points at the element of that index in the value resource of the
    column, with the native type of the resource. *)
Theorem getQueryValue_reads_fetched_row :
  forall oracle s found idx pos nativeTypeNum data vars,
    valid_handle oracle -> open_stmt s ->
    found <> 0 -> idx <> 0 -> nativeTypeNum <> 0 -> data <> 0 ->
    0 <= bufferRowIndex (st_stmt s) < bufferRowCount (st_stmt s) ->
    bufferRowCount (st_stmt s) < 2 ^ 32 ->
    queryVars (st_stmt s) = Some vars ->
    1 <= pos <= numQueryVars (st_stmt s) ->
    at_ 0 (queryVars (st_stmt s)) (pos - 1) <> 0 ->
    let fetched := dpiStmt_fetch oracle found idx s in
    let var := at_ 0 (queryVars (st_stmt s)) (pos - 1) in
    fst fetched = (DPI_SUCCESS, Some 1, Some (bufferRowIndex (st_stmt s)))
    /\ fst (dpiStmt_getQueryValue oracle pos nativeTypeNum data
              (snd fetched))
       = (DPI_SUCCESS,
          Some (mkQueryValue (v_nativeTypeNum (st_vars s var)) var
                  (bufferRowIndex (st_stmt s)))).
Proof.
  intros oracle s found idx pos nativeTypeNum data vars
    Hvalid Hopen Hf Hi Hn Hd Hwin Hcount Hq Hpos Hvar.
  cbv zeta.
  rewrite (fetch_buffered oracle found idx s Hvalid Hopen Hf Hi
             ltac:(lia)).
  cbn [fst snd]. split; [reflexivity|].
  unfold dpiStmt_getQueryValue. rewrite bind_run.
  rewrite (checkOpen_open oracle _ _ Hvalid (row_taken_open oracle s Hopen)).
  cbn [fst snd]. change (DPI_SUCCESS <? 0) with false. cbv iota.
  apply Z.eqb_neq in Hn. apply Z.eqb_neq in Hd. rewrite Hn, Hd.
  rewrite bind_run. unfold get_stmt. cbn [fst snd].
  rewrite guarded_stmt.
  assert (Hrow : st_stmt (row_taken oracle s)
                 = set_rowCount (u64 (rowCount (st_stmt s) + 1))
                     (set_bufferRowIndex
                        (u32 (bufferRowIndex (st_stmt s) + 1)) (st_stmt s)))
    by (destruct s; reflexivity).
  assert (Hrv : st_vars (row_taken oracle s) = st_vars s)
    by (destruct s; reflexivity).
  rewrite Hrow.
  rewrite (u32_small (bufferRowIndex (st_stmt s) + 1)) by lia.
  unfold bad_position.
  cbn [queryVars numQueryVars bufferRowIndex bufferRowCount set_rowCount
       set_bufferRowIndex].
  rewrite Hq. rewrite Hq in Hvar.
  assert (H1 : (pos =? 0) = false) by (apply Z.eqb_neq; lia).
  assert (H2 : (pos >? numQueryVars (st_stmt s)) = false)
    by (destruct (Z.gtb_spec pos (numQueryVars (st_stmt s)));
        [lia | reflexivity]).
  rewrite H1, H2. cbn [orb].
  apply Z.eqb_neq in Hvar. rewrite Hvar.
  assert (H3 : (bufferRowIndex (st_stmt s) + 1 =? 0) = false)
    by (apply Z.eqb_neq; lia).
  assert (H4 : (bufferRowIndex (st_stmt s) + 1
                >? bufferRowCount (st_stmt s)) = false)
    by (destruct (Z.gtb_spec (bufferRowIndex (st_stmt s) + 1)
                    (bufferRowCount (st_stmt s))); [lia | reflexivity]).
  rewrite H3, H4. cbn [orb].
  unfold bind, get_var, ret. cbn [fst]. rewrite guarded_vars, Hrv.
  do 3 f_equal. lia.
Qed.

Lemma getQueryValue_reads_fetched_row_witness :
  let s := sample_state (query_stmt 1 3) in
  fst (dpiStmt_fetch oracle_ok 1 1 s) = (DPI_SUCCESS, Some 1, Some 1)
  /\ fst (dpiStmt_getQueryValue oracle_ok 1 1 1
            (snd (dpiStmt_fetch oracle_ok 1 1 s)))
     = (DPI_SUCCESS, Some (mkQueryValue DPI_NATIVE_TYPE_INT64 5000 1)).
Proof.
  cbv zeta.
  assert (Hvalid : valid_handle oracle_ok)
    by (intros fnName t; vm_compute; discriminate).
  assert (Hopen : open_stmt (sample_state (query_stmt 1 3)))
    by (repeat split; vm_compute; discriminate).
  apply (getQueryValue_reads_fetched_row oracle_ok
           (sample_state (query_stmt 1 3)) 1 1 1 1 1 [5000] Hvalid Hopen);
    try discriminate; try reflexivity; cbn; lia.
Defined.

(** X10.  With rows buffered, [dpiStmt_fetchRows] hands out the smaller of
    the number of rows asked for and the number of rows left in the
    window, starting at the current index; it reports more rows when some
    are left in the window and otherwise what the last fetch said.  The
    index moves by the rows handed out and stays inside the window, the
    row count moves by as much, and no call is made past the entry of the
    function. *)
Theorem fetchRows_hands_out_buffered_rows :
  forall oracle s maxRows idx n more,
    valid_handle oracle -> open_stmt s ->
    idx <> 0 -> n <> 0 -> more <> 0 ->
    0 <= bufferRowIndex (st_stmt s) < bufferRowCount (st_stmt s) ->
    bufferRowCount (st_stmt s) < 2 ^ 32 ->
    0 <= maxRows ->
    let stmt := st_stmt s in
    let available := bufferRowCount stmt - bufferRowIndex stmt in
    let taken := Z.min maxRows available in
    dpiStmt_fetchRows oracle maxRows idx n more s
    = ((DPI_SUCCESS,
        Some (mkFetchedRows (bufferRowIndex stmt) taken
                (if available >? maxRows then 1 else hasRowsToFetch stmt))),
       with_st_stmt
         (set_rowCount (u64 (rowCount stmt + taken))
            (set_bufferRowIndex (bufferRowIndex stmt + taken) stmt))
         (guarded oracle "dpiStmt_fetchRows" s))
    /\ bufferRowIndex stmt + taken <= bufferRowCount stmt.
Proof.
  intros oracle s maxRows idx n more Hvalid Hopen Hi Hn Hm Hwin Hcount Hmax.
  cbv zeta. split; [|lia].
  rewrite (fetchRows_after_guard oracle maxRows idx n more s DPI_SUCCESS
             (guarded oracle "dpiStmt_fetchRows" s));
    [ | apply checkOpen_open; assumption | discriminate | assumption
      | assumption | assumption ].
  rewrite guarded_stmt.
  assert (Hge : (bufferRowIndex (st_stmt s) >=? bufferRowCount (st_stmt s))
                = false)
    by (destruct (Z.geb_spec (bufferRowIndex (st_stmt s))
                    (bufferRowCount (st_stmt s))); lia).
  rewrite Hge. unfold dpiStmt_fetchRows_take.
  rewrite bind_run. unfold get_stmt. cbn [fst snd]. rewrite guarded_stmt.
  cbv zeta.
  rewrite (u32_small (bufferRowCount (st_stmt s) - bufferRowIndex (st_stmt s)))
    by lia.
  destruct (Z.gtb_spec
              (bufferRowCount (st_stmt s) - bufferRowIndex (st_stmt s))
              maxRows) as [Hgt|Hle].
  - rewrite Z.min_l by lia. rewrite u32_small by lia.
    unfold bind, modify_stmt, ret. destruct s. reflexivity.
  - rewrite Z.min_r by lia. rewrite u32_small by lia.
    unfold bind, modify_stmt, ret. destruct s. reflexivity.
Qed.

Lemma fetchRows_hands_out_buffered_rows_witness :
  fst (dpiStmt_fetchRows oracle_ok 2 1 1 1 (sample_state (query_stmt 0 3)))
  = (DPI_SUCCESS, Some (mkFetchedRows 0 2 1))
  /\ fst (dpiStmt_fetchRows oracle_ok 5 1 1 1
            (sample_state (query_stmt 1 3)))
     = (DPI_SUCCESS, Some (mkFetchedRows 1 2 1)).
Proof.
  assert (Hvalid : valid_handle oracle_ok)
    by (intros fnName t; vm_compute; discriminate).
  assert (H0 : open_stmt (sample_state (query_stmt 0 3)))
    by (repeat split; vm_compute; discriminate).
  assert (H1 : open_stmt (sample_state (query_stmt 1 3)))
    by (repeat split; vm_compute; discriminate).
  split.
  - destruct (fetchRows_hands_out_buffered_rows oracle_ok
                (sample_state (query_stmt 0 3)) 2 1 1 1 Hvalid H0)
      as [H _]; try discriminate; try (cbn; lia).
    rewrite H. reflexivity.
  - destruct (fetchRows_hands_out_buffered_rows oracle_ok
                (sample_state (query_stmt 1 3)) 5 1 1 1 Hvalid H1)
      as [H _]; try discriminate; try (cbn; lia).
    rewrite H. reflexivity.
Defined.

(** X11.  A scroll inside the buffered window positions the statement so
    that the next [dpiStmt_fetch] hands out the desired row: the scroll
    makes no protocol call, the fetch that follows yields the index of the
    desired row in the window without a protocol call either, and the row
    count then equals the desired row. *)
Theorem scroll_in_window_then_fetch :
  forall oracle s mode offset rowCountOffset desiredRow offset' found idx,
    valid_handle oracle -> open_stmt s ->
    found <> 0 -> idx <> 0 ->
    dpiStmt_scroll_target (st_stmt s) mode offset rowCountOffset
    = Some (desiredRow, offset') ->
    in_window (st_stmt s) mode desiredRow = true ->
    0 <= bufferMinRow (st_stmt s) ->
    0 <= bufferRowCount (st_stmt s) < 2 ^ 32 ->
    bufferMinRow (st_stmt s) + bufferRowCount (st_stmt s) < 2 ^ 64 ->
    let scrolled := dpiStmt_scroll oracle mode offset rowCountOffset s in
    let fetched := dpiStmt_fetch oracle found idx (snd scrolled) in
    fst scrolled = DPI_SUCCESS
    /\ fst fetched
       = (DPI_SUCCESS, Some 1,
          Some (desiredRow - bufferMinRow (st_stmt s)))
    /\ rowCount (st_stmt (snd fetched)) = desiredRow
    /\ filter is_protocol_call (st_trace (snd fetched))
       = filter is_protocol_call (st_trace s).
Proof.
  intros oracle s mode offset rowCountOffset desiredRow offset' found idx
    Hvalid Hopen Hf Hi Htarget Hin Hmin Hcount Hsum.
  cbv zeta.
  rewrite (scroll_after_guard oracle mode offset rowCountOffset s DPI_SUCCESS
             (guarded oracle "dpiStmt_scroll" s));
    [ | apply checkOpen_open; assumption | discriminate ].
  rewrite guarded_stmt, Htarget, Hin. cbn [fst snd].
  split; [reflexivity|].
  unfold in_window in Hin.
  apply andb_prop in Hin. destruct Hin as [Hin Hlt].
  apply andb_prop in Hin. destruct Hin as [_ Hge].
  rewrite u64_small in Hlt by lia.
  apply Z.ltb_lt in Hlt.
  assert (Hge' : bufferMinRow (st_stmt s) <= desiredRow)
    by (destruct (Z.geb_spec desiredRow (bufferMinRow (st_stmt s)));
        [lia | discriminate]).
  set (s1 := repositioned desiredRow (guarded oracle "dpiStmt_scroll" s)).
  assert (Hstmt1 : st_stmt s1
                   = set_rowCount (u64 (desiredRow - 1))
                       (set_bufferRowIndex
                          (u32 (desiredRow - bufferMinRow (st_stmt s)))
                          (st_stmt s)))
    by (destruct s; reflexivity).
  assert (Hopen1 : open_stmt s1) by (destruct s; exact Hopen).
  assert (Htrace1 : st_trace s1 = E_startPublicFn "dpiStmt_scroll"
                                  :: st_trace s)
    by (destruct s; reflexivity).
  assert (Hidx1 : bufferRowIndex (st_stmt s1)
                  = desiredRow - bufferMinRow (st_stmt s)).
  { rewrite Hstmt1. cbn [bufferRowIndex set_rowCount set_bufferRowIndex].
    apply u32_small. lia. }
  assert (Hcount1 : bufferRowCount (st_stmt s1) = bufferRowCount (st_stmt s))
    by (rewrite Hstmt1; reflexivity).
  rewrite (fetch_buffered oracle found idx s1 Hvalid Hopen1 Hf Hi)
    by (rewrite Hidx1, Hcount1; lia).
  cbn [fst snd]. rewrite Hidx1. split; [reflexivity|].
  assert (Hrow : st_stmt (row_taken oracle s1)
                 = set_rowCount (u64 (rowCount (st_stmt s1) + 1))
                     (set_bufferRowIndex
                        (u32 (bufferRowIndex (st_stmt s1) + 1))
                        (st_stmt s1)))
    by (destruct s1; reflexivity).
  assert (Htrace2 : st_trace (row_taken oracle s1)
                    = E_startPublicFn "dpiStmt_fetch" :: st_trace s1)
    by (destruct s1; reflexivity).
  split.
  - rewrite Hrow. cbn [rowCount set_rowCount set_bufferRowIndex].
    rewrite Hstmt1. cbn [rowCount set_rowCount set_bufferRowIndex].
    unfold u64. rewrite Zplus_mod_idemp_l.
    replace (desiredRow - 1 + 1) with desiredRow by lia.
    apply Z.mod_small. lia.
  - rewrite Htrace2, Htrace1. reflexivity.
Qed.

Lemma scroll_in_window_then_fetch_witness :
  let s := sample_state (query_stmt 0 3) in
  let scrolled := dpiStmt_scroll oracle_ok DPI_MODE_FETCH_ABSOLUTE 3 0 s in
  fst (dpiStmt_fetch oracle_ok 1 1 (snd scrolled))
  = (DPI_SUCCESS, Some 1, Some 2)
  /\ rowCount (st_stmt (snd (dpiStmt_fetch oracle_ok 1 1 (snd scrolled))))
     = 3.
Proof.
  cbv zeta.
  assert (Hvalid : valid_handle oracle_ok)
    by (intros fnName t; vm_compute; discriminate).
  assert (Hopen : open_stmt (sample_state (query_stmt 0 3)))
    by (repeat split; vm_compute; discriminate).
  destruct (scroll_in_window_then_fetch oracle_ok
              (sample_state (query_stmt 0 3)) DPI_MODE_FETCH_ABSOLUTE 3 0
              3 3 1 1 Hvalid Hopen)
    as [_ [H2 [H3 _]]];
    try discriminate; try reflexivity; try (cbn; lia).
  split; [exact H2 | exact H3].
Defined.

(** The loop of [dpiStmt_setFetchArraySize] over the defined value
    resources. *)
Lemma setFetchArraySize_check (g : Z -> Z) arraySize n i s :
  for_ n i (fun j =>
    let var := g j in
    v <- get_var var ;;
    if negb (var =? 0) && (v_maxArraySize v <? arraySize) then
      status <- dpiError__set "check array size"
                  DPI_ERR_ARRAY_SIZE_TOO_BIG ;;
      ret (Some status)
    else ret None) s
  = if forallb
         (fun p => negb (negb (p =? 0)
                         && (v_maxArraySize (st_vars s p) <? arraySize)))
         (map (fun k => g (i + Z.of_nat k)) (seq 0 n))
    then (None, s)
    else (Some DPI_FAILURE,
          rejected "check array size" DPI_ERR_ARRAY_SIZE_TOO_BIG s).
Proof.
  revert i. induction n as [|n IH]; intro i.
  - reflexivity.
  - rewrite seq_shift_map. cbn [forallb for_]. cbv zeta.
    unfold bind at 1. unfold bind at 1. unfold get_var at 1.
    cbv beta iota.
    destruct (negb (g i =? 0)
              && (v_maxArraySize (st_vars s (g i)) <? arraySize)).
    + cbn [negb andb]. unfold bind at 1. rewrite error_set.
      reflexivity.
    + cbn [negb andb]. unfold ret at 1. cbv beta iota. apply IH.
Qed.

(** X12.  [dpiStmt_setFetchArraySize] accepts a size exactly when every
    defined value resource holds that many elements, a size of 0 standing
    for the default of 100.  An accepted size is stored and is what
    [dpiStmt_getFetchArraySize] reports next; a size turned down fails
    with ArraySizeTooBig and the size reported next is the one in force
    before.  Neither function makes a call past its entry. *)
Theorem setFetchArraySize_then_get :
  forall oracle s arraySize out,
    valid_handle oracle -> open_stmt s -> out <> 0 ->
    let size := effective_array_size arraySize in
    let set := dpiStmt_setFetchArraySize oracle arraySize s in
    set
    = (if arrays_fit s size
       then (DPI_SUCCESS,
             with_st_stmt (set_fetchArraySize size (st_stmt s))
               (guarded oracle "dpiStmt_setFetchArraySize" s))
       else (DPI_FAILURE,
             rejected "check array size" DPI_ERR_ARRAY_SIZE_TOO_BIG
               (guarded oracle "dpiStmt_setFetchArraySize" s)))
    /\ fst (dpiStmt_getFetchArraySize oracle out (snd set))
       = (DPI_SUCCESS,
          Some (if arrays_fit s size then size
                else fetchArraySize (st_stmt s))).
Proof.
  intros oracle s arraySize out Hvalid Hopen Hout. cbv zeta.
  assert (Hset :
    dpiStmt_setFetchArraySize oracle arraySize s
    = (if arrays_fit s (effective_array_size arraySize)
       then (DPI_SUCCESS,
             with_st_stmt
               (set_fetchArraySize (effective_array_size arraySize)
                  (st_stmt s))
               (guarded oracle "dpiStmt_setFetchArraySize" s))
       else (DPI_FAILURE,
             rejected "check array size" DPI_ERR_ARRAY_SIZE_TOO_BIG
               (guarded oracle "dpiStmt_setFetchArraySize" s)))).
  { unfold dpiStmt_setFetchArraySize. rewrite bind_run.
    rewrite (checkOpen_open oracle _ s Hvalid Hopen). cbn [fst snd].
    change (DPI_SUCCESS <? 0) with false. cbv iota zeta.
    rewrite bind_run. unfold get_stmt. cbn [fst snd].
    rewrite guarded_stmt. rewrite bind_run.
    fold (effective_array_size arraySize).
    rewrite (setFetchArraySize_check
               (fun j => at_ 0 (queryVars (st_stmt s)) j)).
    rewrite guarded_vars.
    assert (Hl : map (fun k => at_ 0 (queryVars (st_stmt s))
                                 (0 + Z.of_nat k))
                   (seq 0 (Z.to_nat (numQueryVars (st_stmt s))))
                 = defined_vars (st_stmt s))
      by (apply map_ext; intro k; rewrite Z.add_0_l; reflexivity).
    rewrite Hl. fold (arrays_fit s (effective_array_size arraySize)).
    destruct (arrays_fit s (effective_array_size arraySize)).
    - cbn [fst snd]. unfold bind, modify_stmt, ret.
      rewrite guarded_stmt. reflexivity.
    - reflexivity. }
  split; [exact Hset|].
  rewrite Hset.
  assert (Hget : forall s1,
             open_stmt s1 ->
             fst (dpiStmt_getFetchArraySize oracle out s1)
             = (DPI_SUCCESS, Some (fetchArraySize (st_stmt s1)))).
  { intros s1 Hopen1. unfold dpiStmt_getFetchArraySize. rewrite bind_run.
    rewrite (checkOpen_open oracle _ s1 Hvalid Hopen1). cbn [fst snd].
    change (DPI_SUCCESS <? 0) with false. cbv iota.
    apply Z.eqb_neq in Hout. rewrite Hout.
    unfold bind, get_stmt, ret. cbn [fst]. rewrite guarded_stmt.
    reflexivity. }
  destruct (arrays_fit s (effective_array_size arraySize)); cbn [snd];
    rewrite Hget; try (destruct s; exact Hopen);
    destruct s; reflexivity.
Qed.

Lemma setFetchArraySize_then_get_witness :
  fst (dpiStmt_getFetchArraySize oracle_ok 1
         (snd (dpiStmt_setFetchArraySize oracle_ok 0
                 (sample_state (query_stmt 0 3)))))
  = (DPI_SUCCESS, Some 100)
  /\ fst (dpiStmt_getFetchArraySize oracle_ok 1
            (snd (dpiStmt_setFetchArraySize oracle_ok 101
                    (sample_state (query_stmt 0 3)))))
     = (DPI_SUCCESS, Some 3).
Proof.
  assert (Hvalid : valid_handle oracle_ok)
    by (intros fnName t; vm_compute; discriminate).
  assert (Hopen : open_stmt (sample_state (query_stmt 0 3)))
    by (repeat split; vm_compute; discriminate).
  split.
  - destruct (setFetchArraySize_then_get oracle_ok
                (sample_state (query_stmt 0 3)) 0 1 Hvalid Hopen)
      as [_ H]; [discriminate|].
    rewrite H. reflexivity.
  - destruct (setFetchArraySize_then_get oracle_ok
                (sample_state (query_stmt 0 3)) 101 1 Hvalid Hopen)
      as [_ H]; [discriminate|].
    rewrite H. reflexivity.
Defined.

(** ** Query positions *)

Lemma describe_on_demand_described oracle s infos :
  queryInfo (st_stmt s) = Some infos ->
  describe_on_demand oracle s = (DPI_SUCCESS, s).
Proof.
  intro H. unfold describe_on_demand, bind, get_stmt. rewrite H.
  reflexivity.
Qed.

(** X13.  On a statement whose columns have been described, the functions
    that take a query position check it against the number of columns
    before anything else is done: position 0 and positions past the last
    column are turned down with QueryPositionInvalid by [dpiStmt_define],
    [dpiStmt_defineValue], [dpiStmt_getQueryInfo] and
    [dpiStmt_getQueryValue] alike, with the statement unchanged and no
    call made past the entry of the function; and for a position in range
    [dpiStmt_getQueryInfo] hands back the cached description of the column
    without a call to the server. *)
Theorem query_position_is_checked :
  forall oracle s pos infos,
    valid_handle oracle -> open_stmt s ->
    queryInfo (st_stmt s) = Some infos ->
    (bad_position (st_stmt s) pos = true ->
     (forall var,
         dpiStmt_define oracle pos var s
         = (DPI_FAILURE,
            rejected "check query position" DPI_ERR_QUERY_POSITION_INVALID
              (guarded oracle "dpiStmt_define" s)))
     /\ (forall o n size b t,
         dpiStmt_defineValue oracle pos o n size b t s
         = (DPI_FAILURE,
            rejected "check query position" DPI_ERR_QUERY_POSITION_INVALID
              (guarded oracle "dpiStmt_defineValue" s)))
     /\ (forall info, info <> 0 ->
         dpiStmt_getQueryInfo oracle pos info s
         = ((DPI_FAILURE, None),
            rejected "check query position" DPI_ERR_QUERY_POSITION_INVALID
              (guarded oracle "dpiStmt_getQueryInfo" s)))
     /\ (forall nativeTypeNum data vars,
         nativeTypeNum <> 0 -> data <> 0 ->
         queryVars (st_stmt s) = Some vars ->
         dpiStmt_getQueryValue oracle pos nativeTypeNum data s
         = ((DPI_FAILURE, None),
            rejected "check query position" DPI_ERR_QUERY_POSITION_INVALID
              (guarded oracle "dpiStmt_getQueryValue" s))))
    /\ (bad_position (st_stmt s) pos = false ->
        forall info, info <> 0 ->
          dpiStmt_getQueryInfo oracle pos info s
          = ((DPI_SUCCESS,
              Some (at_ zeroQueryInfo (queryInfo (st_stmt s)) (pos - 1))),
             guarded oracle "dpiStmt_getQueryInfo" s)).
Proof.
  intros oracle s pos infos Hvalid Hopen Hinfo.
  assert (Hd : forall fnName,
             describe_on_demand oracle (guarded oracle fnName s)
             = (DPI_SUCCESS, guarded oracle fnName s)).
  { intro fnName. apply (describe_on_demand_described _ _ infos).
    rewrite guarded_stmt. exact Hinfo. }
  split.
  - intro Hbad. split; [|split; [|split]].
    + intro var. unfold dpiStmt_define. rewrite bind_run.
      rewrite (checkOpen_open oracle _ s Hvalid Hopen). cbn [fst snd].
      change (DPI_SUCCESS <? 0) with false. cbv iota.
      rewrite bind_run, Hd. cbn [fst snd].
      change (DPI_SUCCESS <? 0) with false. cbv iota.
      rewrite bind_run. unfold get_stmt. cbn [fst snd].
      rewrite guarded_stmt, Hbad. apply error_set.
    + intros o n size b t. unfold dpiStmt_defineValue. rewrite bind_run.
      rewrite (checkOpen_open oracle _ s Hvalid Hopen). cbn [fst snd].
      change (DPI_SUCCESS <? 0) with false. cbv iota.
      rewrite bind_run, Hd. cbn [fst snd].
      change (DPI_SUCCESS <? 0) with false. cbv iota.
      rewrite bind_run. unfold get_stmt. cbn [fst snd].
      rewrite guarded_stmt, Hbad. apply error_set.
    + intros info Hi. unfold dpiStmt_getQueryInfo. rewrite bind_run.
      rewrite (checkOpen_open oracle _ s Hvalid Hopen). cbn [fst snd].
      change (DPI_SUCCESS <? 0) with false. cbv iota.
      apply Z.eqb_neq in Hi. rewrite Hi.
      rewrite bind_run, Hd. cbn [fst snd].
      change (DPI_SUCCESS <? 0) with false. cbv iota.
      rewrite bind_run. unfold get_stmt. cbn [fst snd].
      rewrite guarded_stmt, Hbad. rewrite bind_run, error_set.
      reflexivity.
    + intros nativeTypeNum data vars Hn Hdata Hvars.
      unfold dpiStmt_getQueryValue. rewrite bind_run.
      rewrite (checkOpen_open oracle _ s Hvalid Hopen). cbn [fst snd].
      change (DPI_SUCCESS <? 0) with false. cbv iota.
      apply Z.eqb_neq in Hn. apply Z.eqb_neq in Hdata. rewrite Hn, Hdata.
      rewrite bind_run. unfold get_stmt. cbn [fst snd].
      rewrite guarded_stmt, Hvars, Hbad. rewrite bind_run, error_set.
      reflexivity.
  - intros Hgood info Hi. unfold dpiStmt_getQueryInfo. rewrite bind_run.
    rewrite (checkOpen_open oracle _ s Hvalid Hopen). cbn [fst snd].
    change (DPI_SUCCESS <? 0) with false. cbv iota.
    apply Z.eqb_neq in Hi. rewrite Hi.
    rewrite bind_run, Hd. cbn [fst snd].
    change (DPI_SUCCESS <? 0) with false. cbv iota.
    rewrite bind_run. unfold get_stmt. cbn [fst snd].
    rewrite guarded_stmt, Hgood. reflexivity.
Qed.

Lemma query_position_is_checked_witness :
  fst (dpiStmt_define oracle_ok 2 5000 (sample_state (query_stmt 0 3)))
  = DPI_FAILURE
  /\ fst (dpiStmt_getQueryInfo oracle_ok 1 1
            (sample_state (query_stmt 0 3)))
     = (DPI_SUCCESS, Some zeroQueryInfo).
Proof.
  assert (Hvalid : valid_handle oracle_ok)
    by (intros fnName t; vm_compute; discriminate).
  assert (Hopen : open_stmt (sample_state (query_stmt 0 3)))
    by (repeat split; vm_compute; discriminate).
  split.
  - destruct (query_position_is_checked oracle_ok
                (sample_state (query_stmt 0 3)) 2 [zeroQueryInfo]
                Hvalid Hopen eq_refl) as [H _].
    destruct (H eq_refl) as [Hdefine _]. rewrite Hdefine. reflexivity.
  - destruct (query_position_is_checked oracle_ok
                (sample_state (query_stmt 0 3)) 1 [zeroQueryInfo]
                Hvalid Hopen eq_refl) as [_ H].
    rewrite (H eq_refl 1); [reflexivity | discriminate].
Defined.

(** ** Describing a query *)

(** A loop that runs to its end relates the states as its body does when
    it goes on. *)
Lemma for_none {A : Type} (R : St -> St -> Prop)
      (body : Z -> M (option A)) :
  (forall s, R s s) ->
  (forall a b c, R a b -> R b c -> R a c) ->
  (forall j s, fst (body j s) = None -> R s (snd (body j s))) ->
  forall n i s, fst (for_ n i body s) = None -> R s (snd (for_ n i body s)).
Proof.
  intros Hrefl Htrans Hbody. induction n as [|n IH]; intros i s.
  - intros _. apply Hrefl.
  - cbn [for_]. rewrite bind_run.
    specialize (Hbody i s).
    destruct (body i s) as [[a|] s1]; cbn [fst snd] in *.
    + discriminate.
    + intro H. apply Htrans with s1; [apply Hbody; reflexivity|].
      apply IH. exact H.
Qed.

Lemma attrGet_run oracle h attr s :
  dpiOci__attrGet oracle h attr error s
  = (oracle (E_attrGet h attr :: st_trace s),
     snd (dpiOci__attrGet oracle h attr error s))
  /\ st_stmt (snd (dpiOci__attrGet oracle h attr error s)) = st_stmt s.
Proof.
  unfold dpiOci__attrGet, external_err. destruct s. run.
  destruct (r_status _ <? 0); split; reflexivity.
Qed.

Lemma getQueryInfo_keeps_count oracle pos info :
  frame (same_on numQueryVars) (dpiStmt__getQueryInfo oracle pos info).
Proof. keep. Qed.

(** The allocation step of [dpiStmt__createQueryVars]. *)
Lemma createQueryVars_allocate oracle described s a s' :
  (if negb (described =? numQueryVars (st_stmt s)) then
     r <- external oracle (E_calloc described) ;;
     modify_stmt (set_queryVars
       (if r_status r <? 0 then None
        else Some (repeat 0 (Z.to_nat described)))) ;;
     if r_status r <? 0 then
       dpiError__set "allocate query vars" DPI_ERR_NO_MEMORY
     else
     r <- external oracle (E_calloc described) ;;
     modify_stmt (set_queryInfo
       (if r_status r <? 0 then None
        else Some (repeat zeroQueryInfo (Z.to_nat described)))) ;;
     if r_status r <? 0 then
       dpiStmt__clearQueryVars oracle ;;
       dpiError__set "allocate query info" DPI_ERR_NO_MEMORY
     else
     modify_stmt (set_numQueryVars described) ;;
     r <- for_ (Z.to_nat described) 0 (fun i =>
            status <- dpiStmt__getQueryInfo oracle (i + 1) i ;;
            if status <? 0 then
              dpiStmt__clearQueryVars oracle ;;
              ret (Some DPI_FAILURE)
            else ret None) ;;
     leave r
   else ret DPI_SUCCESS) s = (a, s') ->
  0 <= a ->
  numQueryVars (st_stmt s') = described
  /\ (described = numQueryVars (st_stmt s) -> s' = s).
Proof.
  destruct (Z.eqb_spec described (numQueryVars (st_stmt s))) as [He|Hne];
    cbn [negb].
  - intros H _. injection H as _ <-. split; [symmetry; exact He|].
    reflexivity.
  - intros Hrun Ha. split; [|intro; contradiction].
    revert Hrun. rewrite bind_run. rewrite bind_run.
    set (r1 := fst (external oracle (E_calloc described) s)).
    set (s1 := snd (external oracle (E_calloc described) s)).
    destruct (r_status r1 <? 0).
    { rewrite error_set. intro H. injection H as <- _.
      unfold DPI_FAILURE in Ha. lia. }
    set (s2 := snd (modify_stmt _ s1)). cbn [fst].
    rewrite bind_run. rewrite bind_run.
    set (r2 := fst (external oracle (E_calloc described) s2)).
    set (s3 := snd (external oracle (E_calloc described) s2)).
    destruct (r_status r2 <? 0).
    { rewrite bind_run, error_set. intro H. injection H as <- _.
      unfold DPI_FAILURE in Ha. lia. }
    set (s4 := snd (modify_stmt _ s3)). cbn [fst].
    rewrite bind_run.
    set (s5 := snd (modify_stmt (set_numQueryVars described) s4)).
    assert (H5 : numQueryVars (st_stmt s5) = described)
      by (unfold s5; destruct s4; reflexivity).
    clearbody s5. rewrite bind_run.
    match goal with
    | |- context [for_ ?n ?i ?body s5] =>
        pose proof (for_none (same_on numQueryVars) body
                      (same_on_refl numQueryVars)
                      (same_on_trans numQueryVars)) as Hloop;
        specialize (fun Hb => Hloop Hb n i s5);
        destruct (for_ n i body s5) as [[st|] s6] eqn:Efor
    end.
    + cbn [fst snd leave]. unfold ret. intro H. injection H as <- <-.
      exfalso. revert Efor Ha. clear.
      (* a loop that stops has stopped with [DPI_FAILURE] *)
      generalize 0 at 1. generalize (Z.to_nat described).
      intros n. revert s5. induction n as [|n IH]; intros s5 i.
      * discriminate.
      * cbn [for_]. rewrite bind_run. rewrite bind_run.
        destruct (fst (dpiStmt__getQueryInfo oracle (i + 1) i s5) <? 0).
        -- rewrite bind_run. unfold ret. cbn [fst snd].
           intro H. injection H as <- _. unfold DPI_FAILURE. lia.
        -- unfold ret at 1. cbn [fst snd]. apply IH.
    + cbn [fst snd leave]. unfold ret. intro H. injection H as _ <-.
      cbn [fst snd] in Hloop. unfold same_on in Hloop.
      rewrite Hloop; [exact H5| |reflexivity].
      intros j s0. rewrite bind_run.
      pose proof (getQueryInfo_keeps_count oracle (j + 1) j s0) as Hk.
      destruct (fst (dpiStmt__getQueryInfo oracle (j + 1) j s0) <? 0).
      * rewrite bind_run. unfold ret. cbn [fst]. discriminate.
      * unfold ret. cbn [fst snd]. intros _. exact Hk.
Qed.

Lemma createQueryVars_keeps oracle :
  frame (same_on outside_description) (dpiStmt__createQueryVars oracle).
Proof. keep. Qed.

(** What a [dpiStmt__createQueryVars] that succeeds leaves behind. *)
Lemma createQueryVars_success :
  forall oracle s status s',
    dpiStmt__createQueryVars oracle s = (status, s') ->
    0 <= status ->
    let described :=
      r_value (oracle (E_attrGet (handle (st_stmt s))
                         DPI_OCI_ATTR_PARAM_COUNT :: st_trace s)) in
    numQueryVars (st_stmt s') = described
    /\ bufferRowIndex (st_stmt s') = fetchArraySize (st_stmt s)
    /\ hasRowsToFetch (st_stmt s') = 1
    /\ (numQueryVars (st_stmt s) = described ->
        st_stmt s'
        = set_hasRowsToFetch 1
            (set_bufferRowIndex (fetchArraySize (st_stmt s)) (st_stmt s))
        /\ st_trace s'
           = E_attrGet (handle (st_stmt s)) DPI_OCI_ATTR_PARAM_COUNT
             :: st_trace s).
Proof.
  intros oracle s status s' Hrun Hok. cbv zeta.
  pose proof (createQueryVars_keeps oracle s) as Hkeep.
  rewrite Hrun in Hkeep. unfold same_on in Hkeep. cbn [snd] in Hkeep.
  revert Hrun. unfold dpiStmt__createQueryVars.
  rewrite bind_get_stmt. rewrite bind_run.
  destruct (attrGet_run oracle (handle (st_stmt s)) DPI_OCI_ATTR_PARAM_COUNT
              s) as [Hr Hs1].
  pose proof (attrGet_trace oracle (handle (st_stmt s))
                DPI_OCI_ATTR_PARAM_COUNT error s) as Ht1.
  rewrite Hr. cbn [fst snd].
  set (s1 := snd (dpiOci__attrGet oracle (handle (st_stmt s))
                    DPI_OCI_ATTR_PARAM_COUNT error s)) in *.
  set (r := oracle (E_attrGet (handle (st_stmt s)) DPI_OCI_ATTR_PARAM_COUNT
                    :: st_trace s)) in *.
  clearbody s1. clear Hr.
  destruct (r_status r <? 0).
  { intro H. injection H as <- _. unfold DPI_FAILURE in Hok. lia. }
  cbv zeta. rewrite bind_run.
  set (s2 := snd ((if (numQueryVars (st_stmt s) >? 0)
                      && negb (numQueryVars (st_stmt s) =? r_value r)
                   then dpiStmt__clearQueryVars oracle else ret tt) s1)).
  assert (Hsame : numQueryVars (st_stmt s) = r_value r -> s2 = s1).
  { intro He. unfold s2. rewrite He, Z.eqb_refl.
    cbn [negb]. rewrite andb_false_r. reflexivity. }
  clearbody s2.
  rewrite bind_get_stmt. rewrite bind_run.
  match goal with
  | |- context [fst (?m s2) <? 0] =>
      destruct (m s2) as [a s3] eqn:Ealloc
  end.
  cbn [fst snd].
  destruct (Z.ltb_spec a 0) as [Hlt|Hge].
  { intro H. injection H as <- _. unfold DPI_FAILURE in Hok. lia. }
  destruct (createQueryVars_allocate oracle (r_value r) s2 a s3 Ealloc Hge)
    as [Hcount Hequal].
  rewrite bind_get_stmt.
  intro H.
  assert (Hs' : st_stmt s'
                = set_hasRowsToFetch 1
                    (set_bufferRowIndex (fetchArraySize (st_stmt s3))
                       (st_stmt s3))
                /\ st_trace s' = st_trace s3)
    by (destruct s3; injection H as _ <-; split; reflexivity).
  destruct Hs' as [Hs' Ht'].
  assert (Hfas : fetchArraySize (st_stmt s3) = fetchArraySize (st_stmt s)).
  { assert (Hv : fetchArraySize (st_stmt s')
                 = fetchArraySize (st_stmt s))
      by (unfold outside_description in Hkeep; congruence).
    rewrite <- Hv, Hs'. reflexivity. }
  split; [rewrite Hs'; exact Hcount|].
  split; [rewrite Hs', Hfas; reflexivity|].
  split; [rewrite Hs'; reflexivity|].
  intro He.
  assert (E2 : s2 = s1) by (apply Hsame; exact He).
  assert (E3 : s3 = s2).
  { apply Hequal. rewrite E2, Hs1. symmetry. exact He. }
  rewrite Hs', Ht', E3, E2, Hs1, Ht1. split; reflexivity.
Qed.

(** X14.  A [dpiStmt__createQueryVars] that succeeds leaves as many
    columns as the server reports, marks the start of the fetch (the index
    stands at the fetch array size, rows are to be fetched) and touches
    neither the bounds of the window (the buffered row count, the first
    buffered row), nor the row count, the fetch array size, the handles or
    the bind registry.  When the number of columns is the one already
    described, the value resources defined so far and the cached
    descriptions are kept, and reading the number of columns is the only
    call made. *)
Theorem createQueryVars_starts_fetch :
  forall oracle s status s',
    dpiStmt__createQueryVars oracle s = (status, s') ->
    0 <= status ->
    let described :=
      r_value (oracle (E_attrGet (handle (st_stmt s))
                         DPI_OCI_ATTR_PARAM_COUNT :: st_trace s)) in
    numQueryVars (st_stmt s') = described
    /\ bufferRowIndex (st_stmt s') = fetchArraySize (st_stmt s)
    /\ hasRowsToFetch (st_stmt s') = 1
    /\ outside_description (st_stmt s') = outside_description (st_stmt s)
    /\ (numQueryVars (st_stmt s) = described ->
        st_stmt s'
        = set_hasRowsToFetch 1
            (set_bufferRowIndex (fetchArraySize (st_stmt s)) (st_stmt s))
        /\ st_trace s'
           = E_attrGet (handle (st_stmt s)) DPI_OCI_ATTR_PARAM_COUNT
             :: st_trace s).
Proof.
  intros oracle s status s' Hrun Hok. cbv zeta.
  destruct (createQueryVars_success oracle s status s' Hrun Hok)
    as (Hcount & Hindex & Hrows & Hsame).
  pose proof (createQueryVars_keeps oracle s) as Hkeep.
  rewrite Hrun in Hkeep. unfold same_on in Hkeep. cbn [snd] in Hkeep.
  repeat split; try assumption; apply Hsame; assumption.
Qed.

Lemma createQueryVars_starts_fetch_witness :
  let s := sample_state (query_stmt 3 3) in
  let c := dpiStmt__createQueryVars (oracle_columns 1) s in
  bufferRowIndex (st_stmt (snd c)) = 3
  /\ queryVars (st_stmt (snd c)) = Some [5000]
  /\ bufferRowCount (st_stmt (snd c)) = 3.
Proof.
  cbv zeta.
  assert (Hrun : dpiStmt__createQueryVars (oracle_columns 1)
                   (sample_state (query_stmt 3 3))
                 = (fst (dpiStmt__createQueryVars (oracle_columns 1)
                           (sample_state (query_stmt 3 3))),
                    snd (dpiStmt__createQueryVars (oracle_columns 1)
                           (sample_state (query_stmt 3 3)))))
    by apply surjective_pairing.
  assert (Hok : 0 <= fst (dpiStmt__createQueryVars (oracle_columns 1)
                            (sample_state (query_stmt 3 3))))
    by (vm_compute; discriminate).
  destruct (createQueryVars_starts_fetch _ _ _ _ Hrun Hok)
    as [_ [H2 [_ [_ H5]]]].
  split; [exact H2|].
  destruct (H5 eq_refl) as [H6 _].
  split; rewrite H6; reflexivity.
Defined.

(** ** Execution *)

Lemma execute_body_keeps_window oracle self numIters mode reExecute :
  (forall n m r, frame (same_on window_bounds) (self n m r)) ->
  frame (same_on window_bounds)
    (dpiStmt__execute_body oracle self numIters mode reExecute).
Proof. intro Hself. keep. Qed.

Lemma execute_keeps_window oracle numIters mode reExecute :
  frame (same_on window_bounds)
    (dpiStmt__execute oracle numIters mode reExecute).
Proof.
  unfold dpiStmt__execute.
  generalize 2%nat numIters mode reExecute.
  induction n as [|n IH]; intros; simpl.
  - apply frame_ret. apply same_on_refl.
  - apply execute_body_keeps_window. exact IH.
Qed.

(** X15.  Executing a statement never resets the fetch window: whatever
    [dpiStmt_execute] does, recovery path included, the buffered row
    count, the first buffered row and the row count are afterwards what
    they were before.  For a query that is executed again,
    [dpiStmt_scroll] therefore makes the same decision as before the
    execution on whether a row lies inside the window. *)
Theorem execute_keeps_window_bounds :
  forall oracle mode numQueryColumns s,
    let s' := snd (dpiStmt_execute oracle mode numQueryColumns s) in
    window_bounds (st_stmt s') = window_bounds (st_stmt s)
    /\ forall fetchMode desiredRow,
         in_window (st_stmt s') fetchMode desiredRow
         = in_window (st_stmt s) fetchMode desiredRow.
Proof.
  intros oracle mode numQueryColumns s. cbv zeta.
  assert (Hk : frame (same_on window_bounds)
                 (dpiStmt_execute oracle mode numQueryColumns)).
  { pose proof (execute_keeps_window oracle) as He.
    unfold dpiStmt_execute. keep. }
  specialize (Hk s). unfold same_on in Hk.
  split; [exact Hk|].
  intros fetchMode desiredRow. unfold in_window.
  unfold window_bounds in Hk. injection Hk as Hcount Hmin _.
  rewrite Hcount, Hmin. reflexivity.
Qed.

Lemma calls_made_refl P s : calls_made P s s.
Proof. exists []. split; [reflexivity | constructor]. Qed.

Lemma calls_made_trans P a b c :
  calls_made P a b -> calls_made P b c -> calls_made P a c.
Proof.
  intros [n1 [H1 F1]] [n2 [H2 F2]]. exists (n2 ++ n1). split.
  - rewrite H2, H1. apply app_assoc.
  - apply Forall_app. split; assumption.
Qed.

Lemma execute_mode_family stmt mode m :
  m = mode \/ m = Z.lor mode DPI_OCI_STMT_SCROLLABLE_READONLY ->
  execute_mode stmt m = mode
  \/ execute_mode stmt m = Z.lor mode DPI_OCI_STMT_SCROLLABLE_READONLY.
Proof.
  intros [->| ->]; unfold execute_mode;
    destruct (negb (scrollable stmt =? 0)); auto.
  right. rewrite <- Z.lor_assoc, Z.lor_diag. reflexivity.
Qed.

Ltac made_prim Hfamily :=
  unfold frame, calls_made; intros ?;
  try match goal with |- context [write_buffer ?e _] => destruct e end;
  first
    [ exists []; split; [reflexivity | constructor]
    | eexists [_]; split;
      [ reflexivity
      | constructor;
        [ first [ exact I
                | split; [reflexivity | apply execute_mode_family; Hfamily] ]
        | constructor ] ] ].

Lemma execute_body_calls oracle self numIters mode m reExecute :
  m = mode \/ m = Z.lor mode DPI_OCI_STMT_SCROLLABLE_READONLY ->
  (forall m' r,
      m' = mode \/ m' = Z.lor mode DPI_OCI_STMT_SCROLLABLE_READONLY ->
      frame (calls_made (execute_call_as numIters mode))
        (self numIters m' r)) ->
  frame (calls_made (execute_call_as numIters mode))
    (dpiStmt__execute_body oracle self numIters m reExecute).
Proof.
  intros Hm Hself.
  pose proof (fun stmt => execute_mode_family stmt mode m Hm) as Hfam.
  frame_go (calls_made_refl (execute_call_as numIters mode))
           (calls_made_trans (execute_call_as numIters mode))
           ltac:(made_prim ltac:(exact Hm)).
Qed.

Lemma execute_calls oracle numIters mode m reExecute :
  m = mode \/ m = Z.lor mode DPI_OCI_STMT_SCROLLABLE_READONLY ->
  frame (calls_made (execute_call_as numIters mode))
    (dpiStmt__execute oracle numIters m reExecute).
Proof.
  unfold dpiStmt__execute.
  generalize 2%nat m reExecute.
  induction n as [|n IH]; intros m' r Hm; simpl.
  - apply frame_ret. apply calls_made_refl.
  - apply execute_body_calls; [exact Hm|].
    intros m'' r' Hm''. apply IH. exact Hm''.
Qed.

Lemma getBatchErrors_loop_calls oracle numIters mode n :
  forall i localError h lh,
    frame (calls_made (execute_call_as numIters mode))
      (dpiStmt__getBatchErrors_loop oracle n i localError h lh).
Proof.
  induction n as [|n IH]; intros i localError h lh; cbn [dpiStmt__getBatchErrors_loop].
  - apply frame_ret. apply calls_made_refl.
  - frame_go (calls_made_refl (execute_call_as numIters mode))
             (calls_made_trans (execute_call_as numIters mode))
             ltac:(made_prim ltac:(left; reflexivity)).
Qed.

(** X16.  Every protocol execute call made during one [dpiStmt__execute],
    the retry of the recovery path included, is made for the number of
    iterations of the caller and in the mode of the caller, to which at
    most the scrollable flag has been added: the retry drops none of the
    mode flags.  The same holds for the calls a whole
    [dpiStmt_executeMany] makes. *)
Theorem execute_calls_carry_arguments :
  forall oracle numIters mode reExecute s,
    calls_made (execute_call_as numIters mode) s
      (snd (dpiStmt__execute oracle numIters mode reExecute s))
    /\ calls_made (execute_call_as numIters mode) s
         (snd (dpiStmt_executeMany oracle mode numIters s)).
Proof.
  intros oracle numIters mode reExecute s. split.
  - apply execute_calls. left. reflexivity.
  - assert (He : forall r,
               frame (calls_made (execute_call_as numIters mode))
                 (dpiStmt__execute oracle numIters mode r))
      by (intro r; apply execute_calls; left; reflexivity).
    pose proof (getBatchErrors_loop_calls oracle numIters mode) as Hl.
    assert (Hk : frame (calls_made (execute_call_as numIters mode))
                   (dpiStmt_executeMany oracle mode numIters)).
    { unfold dpiStmt_executeMany.
      frame_go (calls_made_refl (execute_call_as numIters mode))
               (calls_made_trans (execute_call_as numIters mode))
               ltac:(made_prim ltac:(left; reflexivity)). }
    apply Hk.
Qed.

(** ** Defining the value resource of a column *)

Lemma same_store_refl s : same_store s s.
Proof. repeat split. Qed.

Lemma same_store_trans a b c :
  same_store a b -> same_store b c -> same_store a c.
Proof.
  intros [H1 [H2 H3]] [H4 [H5 H6]]. repeat split; congruence.
Qed.

Ltac still_prim :=
  unfold frame, same_store; intros ?; repeat split; reflexivity.

Ltac still :=
  lazymatch goal with
  | |- frame same_store _ =>
      frame_go same_store_refl same_store_trans still_prim
  end.

Lemma external_err_still oracle e :
  frame same_store (external_err oracle e error).
Proof. still. Qed.

Lemma attrSet_still oracle h attr value :
  frame same_store (dpiOci__attrSet oracle h attr value error).
Proof. still. Qed.

Lemma setRefCount_run oracle p d s :
  let s' := snd (dpiGen__setRefCount oracle p error d s) in
  st_stmt s' = st_stmt s
  /\ st_vars s' = st_vars s
  /\ st_refCount s' = upd (st_refCount s) p (st_refCount s p + d)
  /\ st_trace s' = E_setRefCount p d :: st_trace s.
Proof.
  cbv zeta. unfold dpiGen__setRefCount. destruct s. run.
  destruct (r_status _ <? 0); repeat split; reflexivity.
Qed.

Lemma store_twice {A : Type} (a : option (list A)) i (x y : A) :
  store (store a i y) i x = store a i x.
Proof.
  destruct a as [l|]; [|reflexivity]. cbn. f_equal. apply upd_nth_twice.
Qed.

Lemma define_run :
  forall oracle pos var s,
    let old := at_ 0 (queryVars (st_stmt s)) (pos - 1) in
    old <> var ->
    forall status s',
      dpiStmt__define oracle pos var s = (status, s') ->
      0 <= status ->
      st_stmt s'
      = set_queryVars (store (queryVars (st_stmt s)) (pos - 1) var)
          (st_stmt s)
      /\ st_vars s' = st_vars s
      /\ forall p,
           st_refCount s' p
           = redefined_refCount (st_refCount s) old var p.
Proof.
  intros oracle pos var s old.
  - intros Hne status s' Hrun Hok. revert Hrun.
    unfold dpiStmt__define. rewrite bind_get_stmt. fold old.
    apply Z.eqb_neq in Hne. rewrite Hne.
    rewrite bind_run.
    set (m1 := if versionNum (env (st_stmt s)) <? 12
               then external_err oracle
                      (E_defineByPos (handle (st_stmt s)) pos var) error
               else external_err oracle
                      (E_defineByPos2 (handle (st_stmt s)) pos var) error).
    assert (H1 : same_store s (snd (m1 s)))
      by (unfold m1; destruct (versionNum (env (st_stmt s)) <? 12);
          apply external_err_still).
    destruct (m1 s) as [r1 s1]. cbn [fst snd] in *.
    destruct (r_status r1 <? 0).
    { intro H. injection H as <- _. unfold DPI_FAILURE in Hok. lia. }
    cbv zeta. rewrite bind_get_var. rewrite bind_run.
    match goal with
    | |- context [fst (?m s1) <? 0] =>
        assert (H2 : same_store s1 (snd (m s1)))
          by (destruct (negb _);
              [apply attrSet_still | apply same_store_refl]);
        destruct (m s1) as [a2 s2]
    end.
    cbn [fst snd] in *. destruct (a2 <? 0).
    { intro H. injection H as <- _. unfold DPI_FAILURE in Hok. lia. }
    rewrite bind_run.
    match goal with
    | |- context [fst (?m s2) <? 0] =>
        assert (H3 : frame same_store m) by still;
        specialize (H3 s2); destruct (m s2) as [a3 s3]
    end.
    cbn [fst snd] in *. destruct (a3 <? 0).
    { intro H. injection H as <- _. unfold DPI_FAILURE in Hok. lia. }
    rewrite bind_run.
    match goal with
    | |- context [fst (?m s3) <? 0] =>
        assert (H4 : frame same_store m) by still;
        specialize (H4 s3); destruct (m s3) as [a4 s4]
    end.
    cbn [fst snd] in *. destruct (a4 <? 0).
    { intro H. injection H as <- _. unfold DPI_FAILURE in Hok. lia. }
    assert (Hs4 : same_store s s4)
      by (eapply same_store_trans; [exact H1|];
          eapply same_store_trans; [exact H2|];
          eapply same_store_trans; [exact H3 | exact H4]).
    clear H1 H2 H3 H4. destruct Hs4 as [Hst4 [Hrc4 Hv4]].
    rewrite bind_run.
    (* the release of the resource in place *)
    set (m5 := if negb (old =? 0) then
                 attempt dpiGen__setRefCount oracle old error (-1) ;;
                 modify_stmt (fun s0 =>
                   set_queryVars (store (queryVars s0) (pos - 1) 0) s0) ;;
                 ret DPI_SUCCESS
               else ret DPI_SUCCESS).
    assert (H5 : 0 <= fst (m5 s4) ->
                 st_stmt (snd (m5 s4))
                 = (if negb (old =? 0)
                    then set_queryVars
                           (store (queryVars (st_stmt s)) (pos - 1) 0)
                           (st_stmt s)
                    else st_stmt s)
                 /\ st_vars (snd (m5 s4)) = st_vars s
                 /\ st_refCount (snd (m5 s4))
                    = (if negb (old =? 0)
                       then upd (st_refCount s) old (st_refCount s old - 1)
                       else st_refCount s)).
    { unfold m5. destruct (negb (old =? 0)).
      - rewrite bind_run.
        destruct (setRefCount_run oracle old (-1) s4)
          as [Ha [Hb [Hc _]]].
        destruct (fst (dpiGen__setRefCount oracle old error (-1) s4) <? 0).
        + cbn. unfold DPI_FAILURE. lia.
        + intros _. unfold bind, modify_stmt, ret. cbn [fst snd].
          destruct (snd (dpiGen__setRefCount oracle old error (-1) s4)).
          cbn in *. subst. rewrite Hst4, Hv4, Hrc4.
          repeat split; reflexivity.
      - intros _. cbn. repeat split; assumption. }
    destruct (m5 s4) as [a5 s5]. cbn [fst snd] in *.
    destruct (Z.ltb_spec a5 0) as [Hlt|Hge].
    { intro H. injection H as <- _. unfold DPI_FAILURE in Hok. lia. }
    specialize (H5 Hge). destruct H5 as [Hst5 [Hv5 Hrc5]].
    rewrite bind_run.
    destruct (setRefCount_run oracle var 1 s5) as [Ha [Hb [Hc _]]].
    destruct (fst (dpiGen__setRefCount oracle var error 1 s5) <? 0).
    { intro H. injection H as <- _. unfold DPI_FAILURE in Hok. lia. }
    unfold bind, modify_stmt, ret. cbn [fst snd].
    destruct (snd (dpiGen__setRefCount oracle var error 1 s5))
      as [stmt6 t6 rc6 vars6 conns6 err6].
    cbn in Ha, Hb, Hc. intro H. injection H as _ <-. cbn.
    subst stmt6 vars6 rc6. rewrite Hst5, Hv5, Hrc5.
    split; [|split; [reflexivity|]].
    + destruct (negb (old =? 0)); [|reflexivity].
      cbn. rewrite store_twice. destruct (st_stmt s); reflexivity.
    + intro p. unfold redefined_refCount, upd.
      apply Z.eqb_neq in Hne.
      destruct (Z.eqb_spec old 0) as [H0|H0]; cbn [negb andb];
        destruct (Z.eqb_spec p var) as [Hpv|Hpv];
        destruct (Z.eqb_spec p old) as [Hpo|Hpo];
        try (exfalso; congruence); try lia;
        subst;
        repeat match goal with
               | |- context [?a =? ?b] =>
                   destruct (Z.eqb_spec a b); try (exfalso; congruence)
               end; lia.
Qed.

(** X17.  [dpiStmt__define] swaps the value resource of a column.
    Defining the resource that is already in place does nothing at all.
    Otherwise a define that succeeds has put the new resource in the slot
    of the column and has left every other slot and every value resource
    as it was; the new resource has gained one reference and the resource
    that was in place, if any, has lost one, no other reference count
    having moved. *)
Theorem define_swaps_value_resource :
  forall oracle pos var s,
    let old := at_ 0 (queryVars (st_stmt s)) (pos - 1) in
    (old = var -> dpiStmt__define oracle pos var s = (DPI_SUCCESS, s))
    /\ (old <> var ->
        forall status s',
          dpiStmt__define oracle pos var s = (status, s') ->
          0 <= status ->
          st_stmt s'
          = set_queryVars (store (queryVars (st_stmt s)) (pos - 1) var)
              (st_stmt s)
          /\ st_vars s' = st_vars s
          /\ forall p,
               st_refCount s' p
               = redefined_refCount (st_refCount s) old var p).
Proof.
  intros oracle pos var s old. split.
  - intro He. unfold dpiStmt__define. rewrite bind_get_stmt.
    fold old. rewrite He, Z.eqb_refl. reflexivity.
  - intros Hne status s' Hrun Hok.
    exact (define_run oracle pos var s Hne status s' Hrun Hok).
Qed.

Lemma define_swaps_value_resource_witness :
  let s := sample_state (query_stmt 0 3) in
  let c := dpiStmt__define oracle_ok 1 6000 s in
  queryVars (st_stmt (snd c)) = Some [6000]
  /\ st_refCount (snd c) 6000 = 2
  /\ st_refCount (snd c) 5000 = 0
  /\ dpiStmt__define oracle_ok 1 5000 s = (DPI_SUCCESS, s).
Proof.
  cbv zeta.
  destruct (define_swaps_value_resource oracle_ok 1 6000
              (sample_state (query_stmt 0 3))) as [_ H].
  destruct (define_swaps_value_resource oracle_ok 1 5000
              (sample_state (query_stmt 0 3))) as [H' _].
  assert (Hne : at_ 0 (queryVars (st_stmt (sample_state (query_stmt 0 3))))
                  (1 - 1) <> 6000) by (vm_compute; discriminate).
  destruct (H Hne _ _
              (surjective_pairing
                 (dpiStmt__define oracle_ok 1 6000
                    (sample_state (query_stmt 0 3)))))
    as [H1 [_ H3]]; [vm_compute; discriminate|].
  split; [rewrite H1; reflexivity|].
  split; [rewrite H3; reflexivity|].
  split; [rewrite H3; reflexivity|].
  apply H'. reflexivity.
Defined.

Lemma varAllocate_run oracle o n m size b t s :
  let c := dpiVar__allocate oracle o n m size b t error s in
  fst c = oracle (E_varAllocate o n m size b t :: st_trace s)
  /\ st_stmt (snd c) = st_stmt s
  /\ st_refCount (snd c) = st_refCount s.
Proof.
  cbv zeta. unfold dpiVar__allocate. destruct s. run.
  destruct (r_status _ <? 0); destruct (r_var _); repeat split.
Qed.

(** X18.  A [dpiStmt_defineValue] that succeeds leaves the statement as
    the only new holder of the value resource it has created: the resource
    stands in the slot of the column and its reference count is what the
    allocation gave it, the reference taken by the define being given
    back; the resource that was in place, if any, has lost one reference
    and no other count has moved. *)
Theorem defineValue_keeps_one_reference :
  forall oracle s pos o n size b t infos status s',
    valid_handle oracle -> open_stmt s ->
    queryInfo (st_stmt s) = Some infos ->
    bad_position (st_stmt s) pos = false ->
    dpiStmt_defineValue oracle pos o n size b t s = (status, s') ->
    0 <= status ->
    let var :=
      r_value
        (oracle (E_varAllocate o n (fetchArraySize (st_stmt s)) size b t
                 :: E_startPublicFn "dpiStmt_defineValue" :: st_trace s)) in
    let old := at_ 0 (queryVars (st_stmt s)) (pos - 1) in
    old <> var ->
    st_stmt s'
    = set_queryVars (store (queryVars (st_stmt s)) (pos - 1) var) (st_stmt s)
    /\ forall p,
         st_refCount s' p
         = st_refCount s p
           - (if negb (old =? 0) && (p =? old) then 1 else 0).
Proof.
  intros oracle s pos o n size b t infos status s' Hvalid Hopen Hinfo Hpos
    Hrun Hok var old Hne.
  revert Hrun. unfold dpiStmt_defineValue. rewrite bind_run.
  rewrite (checkOpen_open oracle _ s Hvalid Hopen). cbn [fst snd].
  change (DPI_SUCCESS <? 0) with false. cbv iota.
  rewrite bind_run.
  rewrite (describe_on_demand_described oracle _ infos)
    by (rewrite guarded_stmt; exact Hinfo).
  cbn [fst snd]. change (DPI_SUCCESS <? 0) with false. cbv iota.
  rewrite bind_get_stmt, guarded_stmt, Hpos. rewrite bind_run.
  destruct (varAllocate_run oracle o n (fetchArraySize (st_stmt s)) size b t
              (guarded oracle "dpiStmt_defineValue" s))
    as [Hr [Hst1 Hrc1]].
  assert (Htr : st_trace (guarded oracle "dpiStmt_defineValue" s)
                = E_startPublicFn "dpiStmt_defineValue" :: st_trace s)
    by (destruct s; reflexivity).
  rewrite Htr in Hr. rewrite guarded_stmt in Hst1.
  assert (Hrc0 : st_refCount (guarded oracle "dpiStmt_defineValue" s)
                 = st_refCount s) by (destruct s; reflexivity).
  rewrite Hrc0 in Hrc1. clear Hrc0 Htr.
  destruct (dpiVar__allocate oracle o n (fetchArraySize (st_stmt s)) size b t
              error (guarded oracle "dpiStmt_defineValue" s)) as [r s1].
  cbn [fst snd] in *. subst r. fold var.
  destruct (r_status _ <? 0).
  { intro H. injection H as <- _. unfold DPI_FAILURE in Hok. lia. }
  cbv zeta. fold var. rewrite bind_run.
  pose proof (define_run oracle pos var s1) as Hdef.
  rewrite Hst1 in Hdef. fold old in Hdef.
  specialize (Hdef Hne _ _
                (surjective_pairing (dpiStmt__define oracle pos var s1))).
  destruct (dpiStmt__define oracle pos var s1) as [a2 s2].
  cbn [fst snd] in *.
  destruct (Z.ltb_spec a2 0) as [Hlt|Hge].
  { intro H. injection H as <- _. unfold DPI_FAILURE in Hok. lia. }
  destruct (Hdef Hge) as [Hst2 [_ Hrc2]].
  rewrite bind_run. unfold ret.
  destruct (setRefCount_run oracle var (-1) s2) as [Ha [_ [Hc _]]].
  intro H. injection H as _ <-.
  split; [rewrite Ha; exact Hst2|].
  intro p. rewrite Hc. unfold upd. rewrite !Hrc2, Hrc1.
  unfold redefined_refCount. rewrite Z.eqb_refl.
  assert (Hvo : (var =? old) = false) by (apply Z.eqb_neq; congruence).
  rewrite Hvo, andb_false_r.
  destruct (Z.eqb_spec p var) as [->|Hpv].
  - rewrite Hvo, andb_false_r. lia.
  - lia.
Qed.

Lemma defineValue_keeps_one_reference_witness :
  let s := sample_state (query_stmt 0 3) in
  let c := dpiStmt_defineValue (oracle_allocates 7000) 1 2010 3000 0 1 0 s in
  queryVars (st_stmt (snd c)) = Some [7000]
  /\ st_refCount (snd c) 7000 = 1
  /\ st_refCount (snd c) 5000 = 0.
Proof.
  cbv zeta.
  assert (Hvalid : valid_handle (oracle_allocates 7000))
    by (intros fnName t; vm_compute; discriminate).
  assert (Hopen : open_stmt (sample_state (query_stmt 0 3)))
    by (repeat split; vm_compute; discriminate).
  destruct (defineValue_keeps_one_reference (oracle_allocates 7000)
              (sample_state (query_stmt 0 3)) 1 2010 3000 0 1 0
              [zeroQueryInfo] _ _ Hvalid Hopen eq_refl eq_refl
              (surjective_pairing _)) as [H1 H2];
    [vm_compute; discriminate | vm_compute; discriminate |].
  split; [rewrite H1; reflexivity|].
  split; rewrite H2; reflexivity.
Defined.

(** ** Refilling the window *)

Lemma preFetch_keeps_rowCount oracle :
  frame (same_on rowCount) (dpiStmt__preFetch oracle).
Proof. keep. Qed.

Lemma stmtFetch2_keeps_rowCount oracle n mode off :
  frame (same_on rowCount) (dpiOci__stmtFetch2 oracle n mode off error).
Proof. keep. Qed.

Lemma fetch_run oracle s status s' :
  dpiStmt__fetch oracle s = (status, s') ->
  0 <= status ->
  bufferRowIndex (st_stmt s') = 0
  /\ bufferMinRow (st_stmt s') = u64 (rowCount (st_stmt s) + 1)
  /\ rowCount (st_stmt s') = rowCount (st_stmt s).
Proof.
  intros Hrun Hok. revert Hrun. unfold dpiStmt__fetch.
  rewrite bind_run.
  pose proof (preFetch_keeps_rowCount oracle s) as H1.
  destruct (dpiStmt__preFetch oracle s) as [a1 s1]. cbn [fst snd] in *.
  destruct (a1 <? 0).
  { intro H. injection H as <- _. unfold DPI_FAILURE in Hok. lia. }
  rewrite bind_get_stmt. rewrite bind_run.
  pose proof (stmtFetch2_keeps_rowCount oracle (fetchArraySize (st_stmt s1))
                DPI_MODE_FETCH_NEXT 0 s1) as H2.
  destruct (dpiOci__stmtFetch2 oracle (fetchArraySize (st_stmt s1))
              DPI_MODE_FETCH_NEXT 0 error s1) as [a2 s2].
  cbn [fst snd] in *.
  destruct (a2 <? 0).
  { intro H. injection H as <- _. unfold DPI_FAILURE in Hok. lia. }
  rewrite bind_run.
  destruct (attrGet_run oracle (handle (st_stmt s1))
              DPI_OCI_ATTR_ROWS_FETCHED s2) as [_ H3].
  destruct (dpiOci__attrGet oracle (handle (st_stmt s1))
              DPI_OCI_ATTR_ROWS_FETCHED error s2) as [r s3].
  cbn [fst snd] in *.
  destruct (r_status r <? 0).
  { intro H. injection H as <- _. unfold DPI_FAILURE in Hok. lia. }
  rewrite bind_run. rewrite bind_run. rewrite bind_run.
  unfold modify_stmt. cbn [fst snd].
  rewrite bind_run.
  match goal with
  | |- context [dpiStmt__postFetch oracle ?x] =>
      pose proof (postFetch_keeps_stmt oracle x) as H4;
      assert (Hx : bufferRowIndex (st_stmt x) = 0
                   /\ bufferMinRow (st_stmt x)
                      = u64 (rowCount (st_stmt s) + 1)
                   /\ rowCount (st_stmt x) = rowCount (st_stmt s));
      [ | destruct (dpiStmt__postFetch oracle x) as [a4 s4] ]
  end.
  { unfold same_on in H1, H2. destruct s3 as [stmt3 ? ? ? ? ?].
    cbn in H3 |- *. rewrite H3, H2, H1. repeat split. }
  unfold same_on in H4. cbn [fst snd] in H4 |- *.
  destruct (a4 <? 0).
  { intro H. injection H as <- _. unfold DPI_FAILURE in Hok. lia. }
  unfold ret. intro H. injection H as _ <-. rewrite H4. exact Hx.
Qed.

(** X19.  When the window is exhausted and rows are left on the server, a
    [dpiStmt_fetch] that succeeds has refilled the window: its first
    buffered row is the one after the rows counted so far.  If the server
    has sent rows, the row handed out is the one of index 0, the row count
    has moved by one and equals the number of the first buffered row; if
    it has sent none, no row is found and the row count stays. *)
Theorem fetch_refills_window :
  forall oracle s found idx status f i s',
    valid_handle oracle -> open_stmt s -> found <> 0 -> idx <> 0 ->
    bufferRowCount (st_stmt s) <= bufferRowIndex (st_stmt s) ->
    hasRowsToFetch (st_stmt s) <> 0 ->
    dpiStmt_fetch oracle found idx s = ((status, f, i), s') ->
    0 <= status ->
    bufferMinRow (st_stmt s') = u64 (rowCount (st_stmt s) + 1)
    /\ ((f = Some 1 /\ i = Some 0
         /\ 0 < bufferRowCount (st_stmt s')
         /\ bufferRowIndex (st_stmt s') = 1
         /\ rowCount (st_stmt s') = bufferMinRow (st_stmt s'))
        \/ (f = Some 0 /\ i = None
            /\ bufferRowCount (st_stmt s') <= 0
            /\ bufferRowIndex (st_stmt s') = 0
            /\ rowCount (st_stmt s') = rowCount (st_stmt s))).
Proof.
  intros oracle s found idx status f i s' Hvalid Hopen Hf Hi Hex Hrows
    Hrun Hok.
  revert Hrun.
  rewrite (fetch_after_guard oracle found idx s DPI_SUCCESS
             (guarded oracle "dpiStmt_fetch" s));
    [ | apply checkOpen_open; assumption | discriminate | assumption
      | assumption ].
  rewrite guarded_stmt.
  assert (Hge : (bufferRowIndex (st_stmt s) >=? bufferRowCount (st_stmt s))
                = true)
    by (destruct (Z.geb_spec (bufferRowIndex (st_stmt s))
                    (bufferRowCount (st_stmt s))); [reflexivity | lia]).
  rewrite Hge. apply Z.eqb_neq in Hrows. rewrite Hrows. cbn [negb].
  rewrite bind_run.
  pose proof (fetch_run oracle (guarded oracle "dpiStmt_fetch" s)) as Hfetch.
  rewrite guarded_stmt in Hfetch.
  destruct (dpiStmt__fetch oracle (guarded oracle "dpiStmt_fetch" s))
    as [a1 s1].
  cbn [fst snd].
  destruct (Z.ltb_spec a1 0) as [Hlt|Hge1].
  { intro H. injection H as <- _ _ _. unfold DPI_FAILURE in Hok. lia. }
  destruct (Hfetch a1 s1 eq_refl Hge1) as [Hidx [Hmin Hrc]].
  rewrite bind_get_stmt. rewrite Hidx.
  destruct (Z.geb_spec 0 (bufferRowCount (st_stmt s1))) as [Hempty|Hsome].
  - unfold ret. intro H. injection H as _ <- <- <-.
    split; [exact Hmin|]. right. repeat split; assumption || lia.
  - unfold dpiStmt_fetch_take. rewrite bind_get_stmt.
    unfold bind, modify_stmt, ret. cbn [fst snd].
    intro H. injection H as _ <- <- <-.
    destruct s1 as [stmt1 ? ? ? ? ?]. cbn in Hidx, Hmin, Hrc, Hsome |- *.
    split; [exact Hmin|]. left.
    split; [reflexivity|]. split; [rewrite Hidx; reflexivity|].
    split; [exact Hsome|]. split; [rewrite Hidx; reflexivity|].
    rewrite Hmin, Hrc. reflexivity.
Qed.

Lemma fetch_refills_window_witness :
  let c := dpiStmt_fetch (oracle_rows 3) 1 1
             (sample_state (query_stmt 3 3)) in
  fst c = (DPI_SUCCESS, Some 1, Some 0)
  /\ bufferMinRow (st_stmt (snd c)) = 1
  /\ rowCount (st_stmt (snd c)) = 1.
Proof.
  cbv zeta.
  assert (Hvalid : valid_handle (oracle_rows 3))
    by (intros fnName t; vm_compute; discriminate).
  assert (Hopen : open_stmt (sample_state (query_stmt 3 3)))
    by (repeat split; vm_compute; discriminate).
  assert (Hrun : dpiStmt_fetch (oracle_rows 3) 1 1
                   (sample_state (query_stmt 3 3))
                 = ((DPI_SUCCESS, Some 1, Some 0),
                    snd (dpiStmt_fetch (oracle_rows 3) 1 1
                           (sample_state (query_stmt 3 3)))))
    by (vm_compute; reflexivity).
  assert (Hf : (1 : Z) <> 0) by discriminate.
  assert (Hex : bufferRowCount (st_stmt (sample_state (query_stmt 3 3)))
                <= bufferRowIndex (st_stmt (sample_state (query_stmt 3 3))))
    by (cbn; lia).
  assert (Hrows : hasRowsToFetch (st_stmt (sample_state (query_stmt 3 3)))
                  <> 0) by (cbn; discriminate).
  assert (Hok : 0 <= DPI_SUCCESS) by (unfold DPI_SUCCESS; lia).
  destruct (fetch_refills_window (oracle_rows 3)
              (sample_state (query_stmt 3 3)) 1 1 _ _ _ _ Hvalid Hopen
              Hf Hf Hex Hrows Hrun Hok) as [H1 H2].
  split; [rewrite Hrun; reflexivity|].
  split; [rewrite H1; reflexivity|].
  destruct H2 as [[_ [_ [_ [_ H]]]]|[H _]]; [|discriminate].
  rewrite H, H1. reflexivity.
Defined.

(** X20.  [dpiStmt_execute] executes a query for 0 iterations and any
    other statement for exactly 1: on an open statement, each protocol
    execute call it makes, the retry of the recovery path included, is for
    that number of iterations, in the mode of the caller with at most the
    scrollable flag added.  When it succeeds and is asked for it, it
    hands back the number of columns the statement has when it returns. *)
Theorem execute_iterations :
  forall oracle mode numQueryColumns s,
    valid_handle oracle -> open_stmt s ->
    let numIters :=
      if statementType (st_stmt s) =? DPI_STMT_TYPE_SELECT then 0 else 1 in
    let c := dpiStmt_execute oracle mode numQueryColumns s in
    calls_made (execute_call_as numIters mode) s (snd c)
    /\ (0 <= fst (fst c) ->
        snd (fst c)
        = if negb (numQueryColumns =? 0)
          then Some (numQueryVars (st_stmt (snd c)))
          else None).
Proof.
  intros oracle mode numQueryColumns s Hvalid Hopen. cbv zeta.
  unfold dpiStmt_execute. rewrite bind_run.
  rewrite (checkOpen_open oracle _ s Hvalid Hopen). cbn [fst snd].
  change (DPI_SUCCESS <? 0) with false. cbv iota.
  rewrite bind_get_stmt, guarded_stmt. cbv zeta.
  set (numIters := if statementType (st_stmt s) =? DPI_STMT_TYPE_SELECT
                   then 0 else 1).
  rewrite bind_run.
  pose proof (execute_calls oracle numIters mode mode 1
                (or_introl eq_refl) (guarded oracle "dpiStmt_execute" s))
    as He.
  assert (Hg : calls_made (execute_call_as numIters mode) s
                 (guarded oracle "dpiStmt_execute" s)).
  { exists [E_startPublicFn "dpiStmt_execute"]. split.
    - destruct s; reflexivity.
    - constructor; [exact I | constructor]. }
  pose proof (calls_made_trans _ _ _ _ Hg He) as Hc.
  destruct (dpiStmt__execute oracle numIters mode 1
              (guarded oracle "dpiStmt_execute" s)) as [a1 s1].
  cbn [fst snd] in *.
  destruct (Z.ltb_spec a1 0) as [Hlt|Hge].
  - cbn. split; [exact Hc|]. unfold DPI_FAILURE. lia.
  - rewrite bind_get_stmt. cbn. split; [exact Hc|]. reflexivity.
Qed.

Lemma execute_iterations_witness :
  calls_made (execute_call_as 1 32) (sample_state dml_stmt)
    (snd (dpiStmt_execute oracle_stale_then_ok 32 0 (sample_state dml_stmt)))
  /\ count is_execute_call
       (st_trace (snd (dpiStmt_execute oracle_stale_then_ok 32 0
                         (sample_state dml_stmt)))) = 2%nat.
Proof.
  assert (Hvalid : valid_handle oracle_stale_then_ok)
    by (intros fnName t; vm_compute; discriminate).
  assert (Hopen : open_stmt (sample_state dml_stmt))
    by (repeat split; vm_compute; discriminate).
  split.
  - apply (execute_iterations oracle_stale_then_ok 32 0 _ Hvalid Hopen).
  - vm_compute. reflexivity.
Defined.

(** X21.  A statement cannot be bound to itself: when the first element of
    the first bound value resource is a statement variable holding the
    statement that is executed, [dpiStmt__execute] fails with NotSupported
    before any value is transferred and without a single call, whatever
    the iterations, the mode and the recovery flag. *)
Theorem execute_rejects_bind_to_self :
  forall oracle numIters mode reExecute s,
    let stmt := st_stmt s in
    let v := st_vars s (bv_var (at_ zeroBindVar (bindVars stmt) 0)) in
    0 < numBindVars stmt ->
    0 < v_maxArraySize v ->
    t_oracleTypeNum (v_type v) = DPI_ORACLE_TYPE_STMT ->
    nth 0 (v_externalData v) 0 = addr stmt ->
    dpiStmt__execute oracle numIters mode reExecute s
    = (DPI_FAILURE, rejected "bind to self" DPI_ERR_NOT_SUPPORTED s).
Proof.
  intros oracle numIters mode reExecute s stmt v Hn Hm Hty Hself.
  unfold dpiStmt__execute. cbn [dpiStmt__execute_fuel].
  unfold dpiStmt__execute_body. rewrite bind_run.
  assert (Hp : dpiStmt__execute_prepare oracle s
               = (Some DPI_FAILURE,
                  rejected "bind to self" DPI_ERR_NOT_SUPPORTED s)).
  { unfold dpiStmt__execute_prepare. rewrite bind_get_stmt. fold stmt.
    destruct (Z.to_nat (numBindVars stmt)) as [|n] eqn:En; [lia|].
    cbn [for_]. cbv zeta. rewrite !bind_run. unfold get_var.
    cbn [fst snd]. fold stmt. fold v.
    destruct (Z.to_nat (v_maxArraySize v)) as [|m] eqn:Em; [lia|].
    cbn [for_]. rewrite !bind_run. unfold get_var. cbn [fst snd].
    fold stmt. fold v.
    change (Z.to_nat 0) with 0%nat.
    rewrite Hty, Hself, !Z.eqb_refl. cbn [andb].
    rewrite !bind_run, !error_set. unfold ret. cbn [fst snd].
    reflexivity. }
  rewrite Hp. reflexivity.
Qed.

Lemma execute_rejects_bind_to_self_witness :
  dpiStmt__execute oracle_ok 1 0 1 self_bound_state
  = (DPI_FAILURE,
     rejected "bind to self" DPI_ERR_NOT_SUPPORTED self_bound_state).
Proof.
  apply execute_rejects_bind_to_self;
    first [reflexivity | cbn; lia].
Defined.

(** ** Appending a slot to the bind registry *)

Lemma bind_append_run oracle var addReference pos name nameLength s
      status s' :
  pos <> 0 \/ nameLength <> 0 ->
  dpiStmt__bind_find (Z.to_nat (numBindVars (st_stmt s))) 0
    (bindVars (st_stmt s)) pos name nameLength = None ->
  dpiStmt__bind oracle var addReference pos name nameLength s = (status, s') ->
  0 <= status ->
  exists s2,
    st_stmt s2 = appended (st_stmt s) pos name nameLength
    /\ dpiStmt__bind_perform oracle (numBindVars (st_stmt s)) var
         addReference pos name nameLength s2 = (status, s').
Proof.
  intros Hloc Hfind Hrun Hok. revert Hrun.
  unfold dpiStmt__bind.
  assert (Hzero : (pos =? 0) && (nameLength =? 0) = false).
  { destruct Hloc as [H|H]; apply Z.eqb_neq in H; rewrite H;
      [reflexivity | apply andb_false_r]. }
  rewrite Hzero. rewrite bind_get_stmt. rewrite Hfind.
  rewrite bind_run.
  (* the growth of the array *)
  match goal with
  | |- context [fst (?m s) <? 0] =>
      assert (Hgrow : 0 <= fst (m s) ->
                      st_stmt (snd (m s)) = grown (st_stmt s));
      [ | destruct (m s) as [a1 s1] ]
  end.
  { unfold grown.
    destruct (numBindVars (st_stmt s) =? allocatedBindVars (st_stmt s)).
    - rewrite bind_run. unfold external at 1 2 3. cbn [fst snd].
      destruct (r_status _ <? 0).
      + rewrite error_set. cbn. unfold DPI_FAILURE. lia.
      + intros _. unfold bind, modify_stmt, ret. destruct s. reflexivity.
    - intros _. reflexivity. }
  cbn [fst snd] in *.
  destruct (Z.ltb_spec a1 0) as [Hlt|Hge].
  { intro H. injection H as <- _. unfold DPI_FAILURE in Hok. lia. }
  specialize (Hgrow Hge). cbv zeta.
  rewrite bind_run. rewrite bind_run. unfold modify_entry at 1 2 3 4.
  unfold modify_stmt at 1 2 3 4. cbn [fst snd].
  rewrite bind_run.
  match goal with
  | |- context [fst (?m ?x) <? 0] =>
      lazymatch m with
      | match name with _ => _ end =>
          assert (Hname :
            0 <= fst (m x) ->
            st_stmt (snd (m x))
            = match name with
              | Some a =>
                  with_entry (numBindVars (st_stmt s))
                    (set_bv_nameLength nameLength)
                    (with_entry (numBindVars (st_stmt s))
                       (set_bv_name
                          (Some (substring 0 (Z.to_nat nameLength) a)))
                       (st_stmt x))
              | None => st_stmt x
              end);
          [ | assert (Hx : st_stmt x
                           = with_entry (numBindVars (st_stmt s))
                               (set_bv_pos pos)
                               (with_entry (numBindVars (st_stmt s))
                                  (set_bv_var 0) (grown (st_stmt s))));
              [ | destruct (m x) as [a2 s2] ] ]
      end
  end.
  { destruct name as [a|].
    - rewrite bind_run. unfold external at 1 2 3. cbn [fst snd].
      destruct (r_status _ <? 0).
      + rewrite bind_run, error_set. cbn. unfold DPI_FAILURE. lia.
      + intros _. unfold bind, modify_entry, modify_stmt, ret.
        cbn [fst snd]. reflexivity.
    - intros _. reflexivity. }
  { destruct s1. cbn in Hgrow |- *. rewrite Hgrow. reflexivity. }
  cbn [fst snd] in *.
  destruct (Z.ltb_spec a2 0) as [Hlt2|Hge2].
  { intro H. injection H as <- _. unfold DPI_FAILURE in Hok. lia. }
  specialize (Hname Hge2). rewrite Hx in Hname. clear Hx.
  rewrite bind_run. unfold modify_stmt. cbn [fst snd].
  intro Hperform.
  eexists. split; [|exact Hperform].
  destruct s2 as [stmt2 t2 rc2 vars2 conns2 err2].
  cbn [st_stmt with_st_stmt] in Hname |- *. rewrite Hname.
  unfold appended. destruct name; reflexivity.
Qed.

Lemma nth_upd_nth_other {A : Type} n m (x d : A) l :
  n <> m -> nth m (upd_nth n x l) d = nth m l d.
Proof.
  revert n m. induction l as [|a l IH]; intros [|n] [|m] H; cbn;
    try reflexivity; try congruence.
  apply IH. congruence.
Qed.

Lemma copy_entries_length n i src dst :
  List.length (copy_entries n i src dst) = List.length dst.
Proof.
  revert i dst. induction n as [|n IH]; intros i dst; cbn [copy_entries].
  - reflexivity.
  - rewrite IH. apply upd_nth_length.
Qed.

Lemma copy_entries_nth n src : forall i dst k,
  0 <= i ->
  (Z.to_nat i + n <= List.length dst)%nat ->
  nth k (copy_entries n i src dst) zeroBindVar
  = if (Z.to_nat i <=? k)%nat && (k <? Z.to_nat i + n)%nat
    then nth k (elems src) zeroBindVar
    else nth k dst zeroBindVar.
Proof.
  induction n as [|n IH]; intros i dst k Hi Hlen; cbn [copy_entries].
  - replace (k <? Z.to_nat i + 0)%nat with (k <? Z.to_nat i)%nat
      by (f_equal; lia).
    destruct (Nat.leb_spec (Z.to_nat i) k);
      destruct (Nat.ltb_spec k (Z.to_nat i)); try reflexivity; lia.
  - rewrite IH; [ | lia | rewrite upd_nth_length; lia ].
    replace (Z.to_nat (i + 1)) with (S (Z.to_nat i)) by lia.
    destruct (Nat.eq_dec k (Z.to_nat i)) as [->|Hne].
    + destruct (Nat.leb_spec (S (Z.to_nat i)) (Z.to_nat i)); [lia|].
      cbn [andb]. rewrite Nat.leb_refl.
      destruct (Nat.ltb_spec (Z.to_nat i) (Z.to_nat i + S n)); [|lia].
      cbn [andb]. rewrite nth_upd_nth by lia. reflexivity.
    + rewrite nth_upd_nth_other by congruence.
      destruct (Nat.leb_spec (S (Z.to_nat i)) k);
        destruct (Nat.leb_spec (Z.to_nat i) k);
        destruct (Nat.ltb_spec k (S (Z.to_nat i) + n));
        destruct (Nat.ltb_spec k (Z.to_nat i + S n));
        cbn [andb]; try reflexivity; lia.
Qed.

Lemma with_entry_length i f stmt :
  List.length (elems (bindVars (with_entry i f stmt)))
  = List.length (elems (bindVars stmt)).
Proof.
  unfold with_entry. cbn [bindVars set_bindVars].
  destruct (bindVars stmt); cbn; [apply upd_nth_length | reflexivity].
Qed.

Lemma with_entry_at_same i f stmt :
  0 <= i < Z.of_nat (List.length (elems (bindVars stmt))) ->
  at_ zeroBindVar (bindVars (with_entry i f stmt)) i
  = f (at_ zeroBindVar (bindVars stmt) i).
Proof.
  intro H. unfold with_entry, at_. cbn [bindVars set_bindVars].
  destruct (bindVars stmt) as [l|]; cbn in *; [|lia].
  apply nth_upd_nth. lia.
Qed.

Lemma with_entry_at_other i f stmt k :
  0 <= i -> 0 <= k -> k <> i ->
  at_ zeroBindVar (bindVars (with_entry i f stmt)) k
  = at_ zeroBindVar (bindVars stmt) k.
Proof.
  intros Hi Hk Hne. unfold with_entry, at_. cbn [bindVars set_bindVars].
  destruct (bindVars stmt) as [l|]; cbn; [|reflexivity].
  apply nth_upd_nth_other. lia.
Qed.

Lemma grown_registry stmt :
  registry_wf stmt ->
  allocatedBindVars stmt + 8 < 2 ^ 32 ->
  numBindVars (grown stmt) = numBindVars stmt
  /\ allocatedBindVars (grown stmt)
     = (if numBindVars stmt =? allocatedBindVars stmt
        then allocatedBindVars stmt + 8 else allocatedBindVars stmt)
  /\ allocatedBindVars (grown stmt)
     = Z.of_nat (List.length (elems (bindVars (grown stmt))))
  /\ numBindVars stmt < allocatedBindVars (grown stmt)
  /\ forall k, 0 <= k < numBindVars stmt ->
       at_ zeroBindVar (bindVars (grown stmt)) k
       = at_ zeroBindVar (bindVars stmt) k.
Proof.
  intros [[Hn0 Hna] Hlen] Hbound. unfold grown.
  destruct (Z.eqb_spec (numBindVars stmt) (allocatedBindVars stmt))
    as [He|Hne].
  - rewrite u32_small by lia.
    cbn [numBindVars allocatedBindVars bindVars set_allocatedBindVars
         set_bindVars elems].
    split; [reflexivity|]. split; [reflexivity|].
    split.
    { destruct (bindVars stmt); rewrite ?copy_entries_length, repeat_length;
        lia. }
    split; [lia|].
    intros k Hk. unfold at_.
    destruct (bindVars stmt) as [l|] eqn:Hb; cbn [elems] in *.
    + rewrite copy_entries_nth; [ | lia | rewrite repeat_length; lia ].
      change (Z.to_nat 0) with 0%nat. cbn [Nat.leb andb Nat.add].
      destruct (Nat.ltb_spec (Z.to_nat k) (Z.to_nat (numBindVars stmt)));
        [reflexivity | lia].
    + cbn in Hlen. lia.
  - split; [reflexivity|]. split; [reflexivity|].
    split; [exact Hlen|]. split; [lia|]. reflexivity.
Qed.

(** X22.  Binding a new locator appends exactly one slot.  On a consistent
    registry, a [dpiStmt__bind] that succeeds for a locator found in no
    slot in use has taken the first free slot: the number of slots in use
    has grown by one, the new slot holds the value resource, the position
    and, for a bind by name, the name and its length, and every slot
    that was in use is as it was.  The array has been extended by 8 slots
    exactly when it was full, and the registry is consistent again. *)
Theorem bind_new_locator_appends :
  forall oracle s var addReference pos name nameLength status s',
    registry_wf (st_stmt s) ->
    allocatedBindVars (st_stmt s) + 8 < 2 ^ 32 ->
    pos <> 0 \/ nameLength <> 0 ->
    dpiStmt__bind_find (Z.to_nat (numBindVars (st_stmt s))) 0
      (bindVars (st_stmt s)) pos name nameLength = None ->
    dpiStmt__bind oracle var addReference pos name nameLength s
    = (status, s') ->
    0 <= status ->
    let n := numBindVars (st_stmt s) in
    let slot := at_ zeroBindVar (bindVars (st_stmt s')) n in
    numBindVars (st_stmt s') = n + 1
    /\ allocatedBindVars (st_stmt s')
       = (if n =? allocatedBindVars (st_stmt s)
          then allocatedBindVars (st_stmt s) + 8
          else allocatedBindVars (st_stmt s))
    /\ registry_wf (st_stmt s')
    /\ bv_var slot = var
    /\ bv_pos slot = pos
    /\ (forall a, name = Some a ->
          bv_name slot = Some (substring 0 (Z.to_nat nameLength) a)
          /\ bv_nameLength slot = nameLength)
    /\ (forall k, 0 <= k < n ->
          at_ zeroBindVar (bindVars (st_stmt s')) k
          = at_ zeroBindVar (bindVars (st_stmt s)) k).
Proof.
  intros oracle s var addReference pos name nameLength status s'
    Hwf Hbound Hloc Hfind Hrun Hok n slot.
  destruct (bind_append_run _ _ _ _ _ _ _ _ _ Hloc Hfind Hrun Hok)
    as [s2 [Hs2 Hperform]].
  destruct (bind_perform_stmt _ _ _ _ _ _ _ _ _ _ Hperform) as [_ Hstmt].
  specialize (Hstmt Hok). rewrite Hs2 in Hstmt.
  change (set_bindVars
            (rebound (appended (st_stmt s) pos name nameLength)
               (numBindVars (st_stmt s)) var)
            (appended (st_stmt s) pos name nameLength))
    with (with_entry n (set_bv_var var)
            (appended (st_stmt s) pos name nameLength)) in Hstmt.
  destruct (grown_registry (st_stmt s) Hwf Hbound)
    as [Gn [Ga [Gl [Glt Gk]]]].
  destruct Hwf as [[Hn0 Hna] Hlen]. fold n in Hn0, Hna, Glt, Gk, Ga, Gn.
  set (g := grown (st_stmt s)) in *.
  set (l1 := with_entry n (set_bv_var 0) g).
  set (l2 := with_entry n (set_bv_pos pos) l1).
  set (l3 := match name with
             | Some a =>
                 with_entry n (set_bv_nameLength nameLength)
                   (with_entry n
                      (set_bv_name
                         (Some (substring 0 (Z.to_nat nameLength) a))) l2)
             | None => l2
             end).
  assert (Happ : appended (st_stmt s) pos name nameLength
                 = set_numBindVars (u32 (n + 1)) l3)
    by (unfold appended, l3, l2, l1, g, n; destruct name; reflexivity).
  rewrite Happ in Hstmt. clear Happ.
  assert (Hlen1 : List.length (elems (bindVars l1))
                  = List.length (elems (bindVars g)))
    by apply with_entry_length.
  assert (Hlen2 : List.length (elems (bindVars l2))
                  = List.length (elems (bindVars g)))
    by (unfold l2; rewrite with_entry_length; exact Hlen1).
  assert (Hlen3 : List.length (elems (bindVars l3))
                  = List.length (elems (bindVars g)))
    by (unfold l3; destruct name; rewrite ?with_entry_length; exact Hlen2).
  assert (Hin : 0 <= n < Z.of_nat (List.length (elems (bindVars g))))
    by lia.
  assert (Hslot2 : bv_pos (at_ zeroBindVar (bindVars l2) n) = pos).
  { unfold l2. rewrite with_entry_at_same by (rewrite Hlen1; exact Hin).
    reflexivity. }
  assert (Hslot3 : bv_pos (at_ zeroBindVar (bindVars l3) n) = pos
                   /\ forall a, name = Some a ->
                        bv_name (at_ zeroBindVar (bindVars l3) n)
                        = Some (substring 0 (Z.to_nat nameLength) a)
                        /\ bv_nameLength (at_ zeroBindVar (bindVars l3) n)
                           = nameLength).
  { unfold l3. destruct name as [a|].
    - rewrite with_entry_at_same
        by (rewrite ?with_entry_length, ?Hlen2; exact Hin).
      rewrite with_entry_at_same
        by (rewrite ?with_entry_length, ?Hlen2; exact Hin).
      cbn. split; [exact Hslot2|].
      intros a' Ha. injection Ha as <-. split; reflexivity.
    - split; [exact Hslot2|]. intros a Ha. discriminate. }
  assert (Hold : forall k, 0 <= k < n ->
                   at_ zeroBindVar (bindVars l3) k
                   = at_ zeroBindVar (bindVars (st_stmt s)) k).
  { intros k Hk. unfold l3, l2, l1.
    destruct name; rewrite ?with_entry_at_other by lia; apply Gk; exact Hk. }
  assert (Hfinal : bindVars (st_stmt s')
                   = bindVars (with_entry n (set_bv_var var) l3)
                   /\ numBindVars (st_stmt s') = u32 (n + 1)
                   /\ allocatedBindVars (st_stmt s') = allocatedBindVars g).
  { rewrite Hstmt. unfold with_entry.
    cbn [bindVars numBindVars allocatedBindVars set_bindVars
         set_numBindVars].
    split; [reflexivity|]. split; [reflexivity|].
    unfold l3, l2, l1, with_entry. destruct name; reflexivity. }
  destruct Hfinal as [Hbv [Hnum Halloc]].
  rewrite u32_small in Hnum by lia.
  unfold slot, registry_wf. rewrite Hbv, Hnum, Halloc.
  split; [reflexivity|]. split; [exact Ga|].
  split.
  { split; [lia|]. rewrite with_entry_length, Hlen3. exact Gl. }
  rewrite with_entry_at_same by (rewrite Hlen3; exact Hin).
  cbn [bv_var bv_pos bv_name bv_nameLength set_bv_var].
  split; [reflexivity|]. split; [apply Hslot3|].
  split; [apply Hslot3|].
  intros k Hk. rewrite with_entry_at_other by lia. apply Hold. exact Hk.
Qed.

Lemma bind_new_locator_appends_witness :
  let c := dpiStmt__bind oracle_ok 5000 1 0 (Some "id"%string) 2
             (sample_state dml_stmt) in
  numBindVars (st_stmt (snd c)) = 1
  /\ allocatedBindVars (st_stmt (snd c)) = 8
  /\ at_ zeroBindVar (bindVars (st_stmt (snd c))) 0
     = mkBindVar 5000 0 (Some "id"%string) 2.
Proof.
  cbv zeta.
  assert (Hwf : registry_wf (st_stmt (sample_state dml_stmt)))
    by (repeat split; cbn; lia).
  assert (Hb : allocatedBindVars (st_stmt (sample_state dml_stmt)) + 8
               < 2 ^ 32) by (cbn; lia).
  assert (Hloc : (0 : Z) <> 0 \/ (2 : Z) <> 0) by (right; discriminate).
  assert (Hok : 0 <= fst (dpiStmt__bind oracle_ok 5000 1 0
                            (Some "id"%string) 2 (sample_state dml_stmt)))
    by (vm_compute; discriminate).
  destruct (bind_new_locator_appends oracle_ok (sample_state dml_stmt)
              5000 1 0 (Some "id"%string) 2 _ _ Hwf Hb Hloc eq_refl
              (surjective_pairing _) Hok)
    as [H1 [H2 _]].
  split; [exact H1|]. split; [exact H2|].
  vm_compute. reflexivity.
Defined.

(** ** Collecting the batch errors *)

Lemma store_shape {A : Type} (a : option (list A)) i x :
  match store a i x with Some _ => true | None => false end
  = match a with Some _ => true | None => false end
  /\ List.length (elems (store a i x)) = List.length (elems a).
Proof.
  destruct a as [l|]; cbn; split; try reflexivity. apply upd_nth_length.
Qed.

Ltac shape_prim :=
  unfold frame, same_on, batch_shape; intros ?;
  try match goal with
      | |- context [write_buffer ?e _] => is_var e; destruct e
      end;
  unfold write_buffer, modify_stmt, external, add_refCount, modify_var;
  cbn [snd fst st_stmt with_st_stmt with_st_error with_st_trace
       with_st_vars with_st_refCount numBatchErrors batchErrors
       set_batchErrors];
  repeat match goal with
         | |- context [store ?a ?i ?x] =>
             let H := fresh in
             destruct (store_shape a i x) as [H ?]; rewrite H; clear H
         end;
  try congruence; reflexivity.

Ltac shaped :=
  lazymatch goal with
  | |- frame (same_on batch_shape) _ =>
      frame_go (same_on_refl batch_shape) (same_on_trans batch_shape)
               shape_prim
  end.

Lemma getBatchErrors_loop_shape oracle n :
  forall i localError h lh,
    frame (same_on batch_shape)
      (dpiStmt__getBatchErrors_loop oracle n i localError h lh).
Proof.
  induction n as [|n IH]; intros i localError h lh;
    cbn [dpiStmt__getBatchErrors_loop].
  - apply frame_ret. apply same_on_refl.
  - shaped.
Qed.

Lemma handleAlloc_keeps_shape oracle action :
  frame (same_on batch_shape) (dpiOci__handleAlloc oracle action error).
Proof. shaped. Qed.

Lemma handleFree_keeps_shape oracle h :
  frame (same_on batch_shape) (dpiOci__handleFree oracle h).
Proof. shaped. Qed.

Lemma getBatchErrors_success oracle s status s' :
  dpiStmt__getBatchErrors oracle s = (status, s') ->
  0 <= status ->
  batch_shape (st_stmt s')
  = (r_value (oracle (E_attrGet (handle (st_stmt s))
                        DPI_OCI_ATTR_NUM_DML_ERRORS :: st_trace s)),
     true,
     Z.to_nat (r_value (oracle (E_attrGet (handle (st_stmt s))
                                  DPI_OCI_ATTR_NUM_DML_ERRORS
                                :: st_trace s)))).
Proof.
  intros Hrun Hok. revert Hrun. unfold dpiStmt__getBatchErrors.
  rewrite bind_get_stmt. rewrite bind_run.
  destruct (attrGet_run oracle (handle (st_stmt s))
              DPI_OCI_ATTR_NUM_DML_ERRORS s) as [Hr _].
  rewrite Hr. cbn [fst snd].
  set (N := r_value (oracle (E_attrGet (handle (st_stmt s))
                                DPI_OCI_ATTR_NUM_DML_ERRORS :: st_trace s))).
  set (s1 := snd (dpiOci__attrGet oracle (handle (st_stmt s))
                    DPI_OCI_ATTR_NUM_DML_ERRORS error s)).
  clearbody s1. clear Hr.
  destruct (r_status _ <? 0).
  { intro H. injection H as <- _. unfold DPI_FAILURE in Hok. lia. }
  rewrite bind_modify_stmt, bind_external, bind_modify_stmt.
  match goal with
  | |- context [r_status ?a <? 0] => destruct (r_status a <? 0)
  end.
  { rewrite bind_run, error_set. cbn.
    intro H. injection H as <- _. unfold DPI_FAILURE in Hok. lia. }
  match goal with
  | |- bind _ _ ?x = _ -> _ =>
      assert (Hx : batch_shape (st_stmt x) = (N, true, Z.to_nat N));
      [ destruct s1; unfold batch_shape; cbn; rewrite repeat_length;
        reflexivity
      | generalize dependent x; intros s3 Hs3 ]
  end.
  rewrite bind_run.
  pose proof (handleAlloc_keeps_shape oracle
                "allocate parameter error handle" s3) as H4.
  destruct (dpiOci__handleAlloc oracle "allocate parameter error handle"
              error s3) as [l s4].
  cbn [fst snd] in *.
  destruct (r_status l <? 0).
  { rewrite bind_run. unfold ret. cbn.
    intro H. injection H as <- _. unfold DPI_FAILURE in Hok. lia. }
  cbv zeta. rewrite bind_run.
  pose proof (handleAlloc_keeps_shape oracle "allocate batch error handle"
                s4) as H5.
  destruct (dpiOci__handleAlloc oracle "allocate batch error handle" error
              s4) as [b s5].
  cbn [fst snd] in *.
  destruct (r_status b <? 0).
  { rewrite !bind_run. unfold ret. cbn.
    intro H. injection H as <- _. unfold DPI_FAILURE in Hok. lia. }
  rewrite bind_run.
  pose proof (getBatchErrors_loop_shape oracle (Z.to_nat N) 0 error
                (r_value b) (r_value l) s5) as H6.
  destruct (dpiStmt__getBatchErrors_loop oracle (Z.to_nat N) 0 error
              (r_value b) (r_value l) s5) as [[overall h] s6].
  cbn [fst snd] in *.
  unfold dpiStmt__getBatchErrors_cleanup.
  rewrite bind_run.
  pose proof (handleFree_keeps_shape oracle (r_value l) s6) as H7.
  destruct (dpiOci__handleFree oracle (r_value l) s6) as [u7 s7].
  cbn [fst snd] in *. rewrite bind_run.
  pose proof (handleFree_keeps_shape oracle h s7) as H8.
  destruct (dpiOci__handleFree oracle h s7) as [u8 s8].
  cbn [fst snd] in *. rewrite bind_run.
  destruct (Z.ltb_spec overall 0) as [Hlt|Hge].
  { unfold ret. intro H. injection H as <- _. lia. }
  unfold ret. cbn [fst snd]. intro H. injection H as _ <-.
  unfold same_on in *. congruence.
Qed.

(** X23.  A collection of the batch errors that succeeds is complete:
    [dpiStmt__getBatchErrors] leaves exactly as many error records as the
    server reports failed iterations, and the count of the statement is
    that number.  On the open statement [dpiStmt_getBatchErrors] then
    hands out that many records to a caller whose array holds them all,
    and turns down a smaller array with ArraySizeTooSmall. *)
Theorem batch_errors_collected :
  forall oracle s status s',
    dpiStmt__getBatchErrors oracle s = (status, s') ->
    0 <= status ->
    let reported :=
      r_value (oracle (E_attrGet (handle (st_stmt s))
                         DPI_OCI_ATTR_NUM_DML_ERRORS :: st_trace s)) in
    numBatchErrors (st_stmt s') = reported
    /\ (exists l,
          batchErrors (st_stmt s') = Some l
          /\ List.length l = Z.to_nat reported)
    /\ forall numErrors errors,
         valid_handle oracle -> open_stmt s' -> errors <> 0 ->
         (numErrors < reported ->
          dpiStmt_getBatchErrors oracle numErrors errors s'
          = ((DPI_FAILURE, None),
             rejected "check num errors" DPI_ERR_ARRAY_SIZE_TOO_SMALL
               (guarded oracle "dpiStmt_getBatchErrors" s')))
         /\ (reported <= numErrors ->
             exists infos,
               fst (dpiStmt_getBatchErrors oracle numErrors errors s')
               = (DPI_SUCCESS, Some infos)
               /\ List.length infos = Z.to_nat reported).
Proof.
  intros oracle s status s' Hrun Hok reported.
  pose proof (getBatchErrors_success oracle s status s' Hrun Hok) as Hshape.
  fold reported in Hshape. unfold batch_shape in Hshape.
  injection Hshape as Hnum Hsome Hlen.
  split; [exact Hnum|]. split.
  { destruct (batchErrors (st_stmt s')) as [l|]; [|discriminate].
    exists l. split; [reflexivity | exact Hlen]. }
  intros numErrors errors Hvalid Hopen Herrors.
  unfold dpiStmt_getBatchErrors. rewrite bind_run.
  rewrite (checkOpen_open oracle _ s' Hvalid Hopen). cbn [fst snd].
  change (DPI_SUCCESS <? 0) with false. cbv iota.
  apply Z.eqb_neq in Herrors. rewrite Herrors.
  rewrite bind_get_stmt, guarded_stmt, Hnum.
  split.
  - intro Hlt. apply Z.ltb_lt in Hlt. rewrite Hlt.
    rewrite bind_run, error_set. reflexivity.
  - intro Hge.
    destruct (Z.ltb_spec numErrors reported) as [Hlt|_]; [lia|].
    eexists. split; [reflexivity|].
    rewrite length_map, length_seq. reflexivity.
Qed.

Lemma batch_errors_collected_witness :
  let s := sample_state dml_stmt in
  let c := dpiStmt__getBatchErrors (oracle_batch_errors 2) s in
  numBatchErrors (st_stmt (snd c)) = 2
  /\ exists l, batchErrors (st_stmt (snd c)) = Some l
               /\ List.length l = 2%nat.
Proof.
  cbv zeta.
  assert (Hok : 0 <= fst (dpiStmt__getBatchErrors (oracle_batch_errors 2)
                            (sample_state dml_stmt)))
    by (vm_compute; discriminate).
  destruct (batch_errors_collected (oracle_batch_errors 2)
              (sample_state dml_stmt) _ _ (surjective_pairing _) Hok)
    as [H1 [H2 _]].
  split; [exact H1 | exact H2].
Defined.

(** ** Pointer parameters *)

Ltac null_pointer Hvalid Hopen :=
  cbv delta [dpiStmt_fetch dpiStmt_fetchRows dpiStmt_getBatchErrorCount
             dpiStmt_getBatchErrors dpiStmt_getBindCount
             dpiStmt_getFetchArraySize dpiStmt_getNumQueryColumns
             dpiStmt_getQueryInfo dpiStmt_getQueryValue dpiStmt_bindByName
             turned_down];
  cbv beta zeta;
  rewrite bind_run;
  rewrite (checkOpen_open _ _ _ Hvalid Hopen);
  cbn [fst snd]; change (DPI_SUCCESS <? 0) with false; cbv iota;
  repeat match goal with
         | H : ?p <> 0 |- context [?p =? 0] =>
             let E := fresh in
             assert (E : (p =? 0) = false) by (apply Z.eqb_neq; exact H);
             rewrite E; clear E
         end;
  cbn [Z.eqb];
  rewrite ?bind_run, ?error_set; reflexivity.

(** X24.  A NULL pointer where a result is to be stored is turned down
    before anything else is looked at: on an open statement each of the
    functions that hand a result back fails with the null-pointer error,
    an invalid argument, for each of its pointer parameters, stores
    nothing, leaves the statement as it is and makes no call past its
    entry.  The same holds for a bind by name without a name. *)
Theorem null_pointers_are_turned_down :
  forall oracle s,
    valid_handle oracle -> open_stmt s ->
    (forall idx,
        dpiStmt_fetch oracle 0 idx s
        = ((DPI_FAILURE, None, None), turned_down oracle "dpiStmt_fetch" s))
    /\ (forall found, found <> 0 ->
        dpiStmt_fetch oracle found 0 s
        = ((DPI_FAILURE, None, None), turned_down oracle "dpiStmt_fetch" s))
    /\ (forall maxRows n more,
        dpiStmt_fetchRows oracle maxRows 0 n more s
        = ((DPI_FAILURE, None), turned_down oracle "dpiStmt_fetchRows" s))
    /\ (forall maxRows idx more, idx <> 0 ->
        dpiStmt_fetchRows oracle maxRows idx 0 more s
        = ((DPI_FAILURE, None), turned_down oracle "dpiStmt_fetchRows" s))
    /\ (forall maxRows idx n, idx <> 0 -> n <> 0 ->
        dpiStmt_fetchRows oracle maxRows idx n 0 s
        = ((DPI_FAILURE, None), turned_down oracle "dpiStmt_fetchRows" s))
    /\ dpiStmt_getBatchErrorCount oracle 0 s
       = ((DPI_FAILURE, None),
          turned_down oracle "dpiStmt_getBatchErrorCount" s)
    /\ (forall numErrors,
        dpiStmt_getBatchErrors oracle numErrors 0 s
        = ((DPI_FAILURE, None),
           turned_down oracle "dpiStmt_getBatchErrors" s))
    /\ dpiStmt_getBindCount oracle 0 s
       = ((DPI_FAILURE, None), turned_down oracle "dpiStmt_getBindCount" s)
    /\ dpiStmt_getFetchArraySize oracle 0 s
       = ((DPI_FAILURE, None),
          turned_down oracle "dpiStmt_getFetchArraySize" s)
    /\ dpiStmt_getNumQueryColumns oracle 0 s
       = ((DPI_FAILURE, None),
          turned_down oracle "dpiStmt_getNumQueryColumns" s)
    /\ (forall pos,
        dpiStmt_getQueryInfo oracle pos 0 s
        = ((DPI_FAILURE, None), turned_down oracle "dpiStmt_getQueryInfo" s))
    /\ (forall pos data,
        dpiStmt_getQueryValue oracle pos 0 data s
        = ((DPI_FAILURE, None),
           turned_down oracle "dpiStmt_getQueryValue" s))
    /\ (forall pos nativeTypeNum, nativeTypeNum <> 0 ->
        dpiStmt_getQueryValue oracle pos nativeTypeNum 0 s
        = ((DPI_FAILURE, None),
           turned_down oracle "dpiStmt_getQueryValue" s))
    /\ (forall nameLength var,
        dpiStmt_bindByName oracle None nameLength var s
        = (DPI_FAILURE, turned_down oracle "dpiStmt_bindByName" s))
    /\ errorKind DPI_ERR_NULL_POINTER_PARAMETER = Some InvalidArgument.
Proof.
  intros oracle s Hvalid Hopen.
  repeat first
    [ reflexivity
    | null_pointer Hvalid Hopen
    | intro
    | split ].
Qed.

Lemma null_pointers_are_turned_down_witness :
  fst (dpiStmt_fetch oracle_ok 0 1 (sample_state (query_stmt 0 3)))
  = (DPI_FAILURE, None, None)
  /\ bufferRowIndex
       (st_stmt (snd (dpiStmt_fetch oracle_ok 0 1
                        (sample_state (query_stmt 0 3))))) = 0.
Proof.
  assert (Hvalid : valid_handle oracle_ok)
    by (intros fnName t; vm_compute; discriminate).
  assert (Hopen : open_stmt (sample_state (query_stmt 0 3)))
    by (repeat split; vm_compute; discriminate).
  destruct (null_pointers_are_turned_down oracle_ok _ Hvalid Hopen)
    as [H _].
  rewrite (H 1). split; reflexivity.
Defined.

(** ** The number of columns *)

(** X25.  [dpiStmt_getNumQueryColumns] answers from the statement where it
    can: for a statement that is not a query, and for a query with columns
    described, the count kept in the statement is handed back with no call
    made past the entry of the function.  For a query with no column
    described the columns are described first: the function fails exactly
    when the description fails, and otherwise hands back the number of
    columns the server reports, the statement being left at the start of a
    fetch (the index at the fetch array size, rows to be fetched). *)
Theorem getNumQueryColumns_describes_on_demand :
  forall oracle s numQueryColumns,
    valid_handle oracle -> open_stmt s -> numQueryColumns <> 0 ->
    let entered := guarded oracle "dpiStmt_getNumQueryColumns" s in
    (statementType (st_stmt s) <> DPI_STMT_TYPE_SELECT
     \/ numQueryVars (st_stmt s) <> 0 ->
     dpiStmt_getNumQueryColumns oracle numQueryColumns s
     = ((DPI_SUCCESS, Some (numQueryVars (st_stmt s))), entered))
    /\ (statementType (st_stmt s) = DPI_STMT_TYPE_SELECT ->
        numQueryVars (st_stmt s) = 0 ->
        let described := dpiStmt__createQueryVars oracle entered in
        (fst described < 0 ->
         dpiStmt_getNumQueryColumns oracle numQueryColumns s
         = ((DPI_FAILURE, None), snd described))
        /\ (0 <= fst described ->
            dpiStmt_getNumQueryColumns oracle numQueryColumns s
            = ((DPI_SUCCESS,
                Some (r_value
                        (oracle (E_attrGet (handle (st_stmt s))
                                   DPI_OCI_ATTR_PARAM_COUNT
                                 :: st_trace entered)))),
               snd described)
            /\ bufferRowIndex (st_stmt (snd described))
               = fetchArraySize (st_stmt s)
            /\ hasRowsToFetch (st_stmt (snd described)) = 1)).
Proof.
  intros oracle s ptr Hvalid Hopen Hptr. cbv zeta.
  assert (Hnull : (ptr =? 0) = false) by (apply Z.eqb_neq; exact Hptr).
  assert (Hentry : forall k : Z -> M (Z * option Z),
             (opened <- dpiStmt__checkOpen oracle "dpiStmt_getNumQueryColumns" ;;
              k opened) s
             = k DPI_SUCCESS (guarded oracle "dpiStmt_getNumQueryColumns" s)).
  { intro k. rewrite bind_run.
    rewrite (checkOpen_open _ _ _ Hvalid Hopen). reflexivity. }
  pose proof (guarded_stmt oracle "dpiStmt_getNumQueryColumns" s) as Hg.
  split.
  - intro Hknown.
    unfold dpiStmt_getNumQueryColumns. rewrite Hentry.
    change (DPI_SUCCESS <? 0) with false. cbv iota. rewrite Hnull.
    rewrite bind_get_stmt, Hg.
    assert (Hno : (statementType (st_stmt s) =? DPI_STMT_TYPE_SELECT)
                  && (numQueryVars (st_stmt s) =? 0) = false).
    { apply andb_false_iff.
      destruct Hknown as [H|H]; [left|right]; apply Z.eqb_neq; exact H. }
    rewrite Hno. rewrite bind_run. cbn [ret fst snd].
    change (DPI_SUCCESS <? 0) with false. cbv iota.
    rewrite bind_get_stmt, Hg. reflexivity.
  - intros Hquery Hnone.
    assert (Hyes : (statementType (st_stmt s) =? DPI_STMT_TYPE_SELECT)
                   && (numQueryVars (st_stmt s) =? 0) = true).
    { apply andb_true_iff. split; apply Z.eqb_eq; assumption. }
    assert (Hrun : dpiStmt_getNumQueryColumns oracle ptr s
                   = let described :=
                       dpiStmt__createQueryVars oracle
                         (guarded oracle "dpiStmt_getNumQueryColumns" s) in
                     if fst described <? 0
                     then ((DPI_FAILURE, None), snd described)
                     else ((DPI_SUCCESS,
                            Some (numQueryVars (st_stmt (snd described)))),
                           snd described)).
    { unfold dpiStmt_getNumQueryColumns. rewrite Hentry.
      change (DPI_SUCCESS <? 0) with false. cbv iota. rewrite Hnull.
      rewrite bind_get_stmt, Hg. rewrite Hyes. rewrite bind_run.
      cbv zeta.
      destruct (fst (dpiStmt__createQueryVars oracle
                       (guarded oracle "dpiStmt_getNumQueryColumns" s))
                <? 0); [reflexivity|].
      rewrite bind_get_stmt. reflexivity. }
    cbv zeta in Hrun.
    split.
    + intro Hfail. rewrite Hrun.
      apply Z.ltb_lt in Hfail. rewrite Hfail. reflexivity.
    + intro Hok.
      destruct (createQueryVars_success oracle
                  (guarded oracle "dpiStmt_getNumQueryColumns" s) _ _
                  (surjective_pairing _) Hok)
        as (Hcount & Hindex & Hrows & _).
      rewrite Hg in Hcount, Hindex.
      rewrite Hrun.
      assert (Hge : (fst (dpiStmt__createQueryVars oracle
                            (guarded oracle "dpiStmt_getNumQueryColumns" s))
                     <? 0) = false) by (apply Z.ltb_ge; exact Hok).
      rewrite Hge, Hcount.
      split; [reflexivity|]. split; assumption.
Qed.

Lemma getNumQueryColumns_describes_on_demand_witness :
  fst (dpiStmt_getNumQueryColumns (oracle_number_columns 2 10 0) 1
         (sample_state sample_stmt)) = (DPI_SUCCESS, Some 2)
  /\ fst (dpiStmt_getNumQueryColumns (oracle_number_columns 2 10 0) 1
            (sample_state (query_stmt 0 0))) = (DPI_SUCCESS, Some 1).
Proof.
  assert (Hvalid : valid_handle (oracle_number_columns 2 10 0))
    by (intros fnName t; vm_compute; discriminate).
  assert (Hptr : 1 <> 0) by discriminate.
  split.
  - assert (Hopen : open_stmt (sample_state sample_stmt))
      by (repeat split; vm_compute; discriminate).
    destruct (getNumQueryColumns_describes_on_demand (oracle_number_columns 2 10 0) _ 1
                Hvalid Hopen Hptr) as [_ H].
    destruct (H eq_refl eq_refl) as [_ H2].
    assert (Hok : 0 <= fst (dpiStmt__createQueryVars (oracle_number_columns 2 10 0)
                              (guarded (oracle_number_columns 2 10 0)
                                 "dpiStmt_getNumQueryColumns"
                                 (sample_state sample_stmt))))
      by (vm_compute; discriminate).
    destruct (H2 Hok) as [H3 _]. rewrite H3. reflexivity.
  - assert (Hopen : open_stmt (sample_state (query_stmt 0 0)))
      by (repeat split; vm_compute; discriminate).
    destruct (getNumQueryColumns_describes_on_demand (oracle_number_columns 2 10 0) _ 1
                Hvalid Hopen Hptr) as [H _].
    rewrite H; [reflexivity|].
    right. vm_compute. discriminate.
Defined.

(** ** The description of a column *)

Lemma external_err_step oracle e info s :
  exists s1,
    external_err oracle e error s = (oracle (e :: st_trace s), s1)
    /\ st_trace s1 = e :: st_trace s
    /\ (has_slot info s -> has_slot info s1)
    /\ info_at info s1 = info_at info s.
Proof.
  exists (snd (external_err oracle e error s)).
  unfold external_err, has_slot, info_at. destruct s. run.
  destruct (r_status _ <? 0); repeat split; auto.
Qed.

Lemma nth_upd_nth_same {A : Type} n (x d : A) l :
  (n < List.length l)%nat -> nth n (upd_nth n x l) d = x.
Proof.
  revert n. induction l as [|a l IH]; intros [|n] H; cbn in *;
    try lia; try reflexivity.
  apply IH. lia.
Qed.

Lemma modify_info_step info f s :
  has_slot info s ->
  exists s1,
    modify_info info f s = (tt, s1)
    /\ st_trace s1 = st_trace s
    /\ has_slot info s1
    /\ info_at info s1 = f (info_at info s).
Proof.
  intro Hslot. exists (snd (modify_info info f s)).
  unfold modify_info, modify_stmt, has_slot, info_at, at_ in *.
  destruct s as [stmt t rc vars conns err].
  cbn [fst snd st_stmt st_trace with_st_stmt] in *.
  cbn [queryInfo set_queryInfo] in *.
  match goal with
  | H : context [elems ?q] |- _ => destruct q as [l|]
  end; cbn [store option_map elems List.length] in *; [|lia].
  repeat split.
  - rewrite upd_nth_length. exact Hslot.
  - apply nth_upd_nth_same. exact Hslot.
Qed.

Lemma bind_get_info {A : Type} info (k : dpiQueryInfo -> M A) s :
  (i <- get_info info ;; k i) s = k (info_at info s) s.
Proof. reflexivity. Qed.

Lemma at_store_column_type a i f :
  (forall y, column_type (f y) = column_type y) ->
  column_type (at_ zeroQueryInfo (store a i (f (at_ zeroQueryInfo a i))) i)
  = column_type (at_ zeroQueryInfo a i).
Proof.
  intro Hf. unfold at_. destruct a as [l|]; cbn [store option_map elems].
  - destruct (Nat.lt_ge_cases (Z.to_nat i) (List.length l)) as [Hin|Hout].
    + rewrite nth_upd_nth_same by exact Hin. apply Hf.
    + rewrite !nth_overflow; [reflexivity|exact Hout|].
      rewrite upd_nth_length. exact Hout.
  - destruct (Z.to_nat i); reflexivity.
Qed.

Ltac column_prim info :=
  first
    [ keep_prim
    | unfold frame, same_on, column_type_at, modify_stmt; intros ?;
      cbn [snd st_stmt with_st_stmt];
      cbn [queryInfo set_queryInfo];
      apply at_store_column_type; intros []; reflexivity ].

Ltac columned :=
  lazymatch goal with
  | |- frame (same_on (column_type_at ?info)) _ =>
      frame_go (same_on_refl (column_type_at info))
               (same_on_trans (column_type_at info))
               ltac:(column_prim info)
  end.

Ltac describe_step info Htr Hsl Hat :=
  rewrite bind_run;
  lazymatch goal with
  | |- context [external_err ?o ?e error ?s] =>
      let s1 := fresh "s" in
      let E := fresh "E" in
      let T := fresh "T" in
      let S := fresh "S" in
      let A := fresh "A" in
      destruct (external_err_step o e info s) as (s1 & E & T & S & A);
      rewrite E; cbn [fst snd]; clear E;
      try rewrite Htr; try rewrite Htr in T; try rewrite Hat in A;
      specialize (S Hsl);
      clear Htr Hsl Hat; rename T into Htr; rename S into Hsl;
      rename A into Hat
  | |- context [modify_info info ?f ?s] =>
      let s1 := fresh "s" in
      let E := fresh "E" in
      let T := fresh "T" in
      let S := fresh "S" in
      let A := fresh "A" in
      destruct (modify_info_step info f s Hsl) as (s1 & E & T & S & A);
      rewrite E; cbn [fst snd]; clear E;
      try rewrite Htr in T; try rewrite Hat in A;
      clear Htr Hsl Hat; rename T into Htr; rename S into Hsl;
      rename A into Hat
  end.

Ltac describe_failed Hok :=
  let H := fresh in
  intro H; injection H as <- _; unfold DPI_FAILURE in Hok; lia.

(** X26.  What [dpiStmt__getQueryInfoFromParam] leaves as the type of a
    column it described with success: the scale and the precision are the
    ones the server reports, the Oracle type is the one looked up for the
    data type and the character set form that the server reports, and the
    default native type is INT64 for a NUMBER of scale 0 and a precision
    from 1 to 18, whatever the default of the type, and the default of the
    type in every other case. *)
Theorem described_integer_defaults_to_int64 :
  forall oracle param info s status s',
    dpiStmt__getQueryInfoFromParam oracle param info s = (status, s') ->
    0 <= status ->
    has_slot info s ->
    let t1 := E_attrGet param DPI_OCI_ATTR_DATA_TYPE :: st_trace s in
    let t2 := E_attrGet param DPI_OCI_ATTR_CHARSET_FORM :: t1 in
    let t3 := E_attrGet param DPI_OCI_ATTR_SCALE :: t2 in
    let t4 := E_attrGet param DPI_OCI_ATTR_PRECISION :: t3 in
    let scale := r_value (oracle t3) in
    let precision := r_value (oracle t4) in
    let looked_up :=
      oracle (E_getFromQueryInfo (r_value (oracle t1)) (r_value (oracle t2))
              :: t4) in
    exists oracleType,
      r_type looked_up = Some oracleType
      /\ qi_oracleTypeNum (info_at info s') = t_oracleTypeNum oracleType
      /\ qi_scale (info_at info s') = scale
      /\ qi_precision (info_at info s') = precision
      /\ (t_oracleTypeNum oracleType = DPI_ORACLE_TYPE_NUMBER ->
          scale = 0 -> 0 < precision <= DPI_MAX_INT64_PRECISION ->
          qi_defaultNativeTypeNum (info_at info s') = DPI_NATIVE_TYPE_INT64)
      /\ (~ (t_oracleTypeNum oracleType = DPI_ORACLE_TYPE_NUMBER
             /\ scale = 0 /\ 0 < precision <= DPI_MAX_INT64_PRECISION) ->
          qi_defaultNativeTypeNum (info_at info s')
          = t_defaultNativeTypeNum oracleType).
Proof.
  intros oracle param info s status s' Hrun Hok Hsl. cbv zeta.
  revert Hrun. unfold dpiStmt__getQueryInfoFromParam, dpiOci__attrGet.
  rewrite bind_get_stmt.
  assert (Htr : st_trace s = st_trace s) by reflexivity.
  assert (Hat : info_at info s = info_at info s) by reflexivity.
  describe_step info Htr Hsl Hat.
  destruct (r_status _ <? 0); [describe_failed Hok|].
  describe_step info Htr Hsl Hat.
  destruct (r_status _ <? 0); [describe_failed Hok|].
  describe_step info Htr Hsl Hat.
  destruct (r_status _ <? 0); [describe_failed Hok|].
  describe_step info Htr Hsl Hat.
  describe_step info Htr Hsl Hat.
  destruct (r_status _ <? 0); [describe_failed Hok|].
  describe_step info Htr Hsl Hat.
  describe_step info Htr Hsl Hat.
  destruct (r_type _) as [oracleType|] eqn:Hty; [|describe_failed Hok].
  describe_step info Htr Hsl Hat.
  describe_step info Htr Hsl Hat.
  rewrite bind_get_info. rewrite Hat.
  cbn [qi_oracleTypeNum qi_scale qi_precision set_qi_scale set_qi_precision
       set_qi_oracleTypeNum set_qi_defaultNativeTypeNum].
  rewrite bind_run.
  set (scale := r_value (oracle (E_attrGet param DPI_OCI_ATTR_SCALE :: _)))
    in *.
  set (precision :=
         r_value (oracle (E_attrGet param DPI_OCI_ATTR_PRECISION :: _))) in *.
  match goal with
  | |- context [(if _ then _ else ret tt) ?c] => rename c into cur
  end.
  assert (Hrule :
    exists nxt,
      (if (t_oracleTypeNum oracleType =? DPI_ORACLE_TYPE_NUMBER)
          && (scale =? 0) && (precision >? 0)
          && (precision <=? DPI_MAX_INT64_PRECISION)
       then modify_info info
              (set_qi_defaultNativeTypeNum DPI_NATIVE_TYPE_INT64)
       else ret tt) cur = (tt, nxt)
      /\ qi_oracleTypeNum (info_at info nxt) = t_oracleTypeNum oracleType
      /\ qi_scale (info_at info nxt) = scale
      /\ qi_precision (info_at info nxt) = precision
      /\ (t_oracleTypeNum oracleType = DPI_ORACLE_TYPE_NUMBER ->
          scale = 0 -> 0 < precision <= DPI_MAX_INT64_PRECISION ->
          qi_defaultNativeTypeNum (info_at info nxt) = DPI_NATIVE_TYPE_INT64)
      /\ (~ (t_oracleTypeNum oracleType = DPI_ORACLE_TYPE_NUMBER
             /\ scale = 0 /\ 0 < precision <= DPI_MAX_INT64_PRECISION) ->
          qi_defaultNativeTypeNum (info_at info nxt)
          = t_defaultNativeTypeNum oracleType)).
  { destruct ((t_oracleTypeNum oracleType =? DPI_ORACLE_TYPE_NUMBER)
              && (scale =? 0) && (precision >? 0)
              && (precision <=? DPI_MAX_INT64_PRECISION)) eqn:Hc.
    - destruct (modify_info_step info
                  (set_qi_defaultNativeTypeNum DPI_NATIVE_TYPE_INT64) cur Hsl)
        as (nxt & E & _ & _ & A).
      exists nxt. rewrite A, Hat. split; [exact E|].
      repeat split; try reflexivity.
      intro Hnot. exfalso. apply Hnot.
      apply andb_true_iff in Hc. destruct Hc as [Hc H4].
      apply andb_true_iff in Hc. destruct Hc as [Hc H3].
      apply andb_true_iff in Hc. destruct Hc as [H1 H2].
      apply Z.eqb_eq in H1, H2. apply Z.leb_le in H4.
      rewrite Z.gtb_ltb in H3. apply Z.ltb_lt in H3.
      repeat split; assumption.
    - exists cur. rewrite Hat. split; [reflexivity|].
      repeat split; try reflexivity.
      intros H1 H2 [H3 H4]. exfalso.
      apply Z.eqb_eq in H1, H2. apply Z.leb_le in H4.
      apply Z.ltb_lt in H3. rewrite <- Z.gtb_ltb in H3.
      rewrite H1, H2, H3, H4 in Hc. discriminate. }
  destruct Hrule as (nxt & E5 & R1 & R2 & R3 & R4 & R5).
  rewrite E5. cbn [fst snd]. clear E5.
  intro Hrun.
  match type of Hrun with
  | ?m nxt = _ =>
      assert (Hkeep : frame (same_on (column_type_at info)) m) by columned
  end.
  specialize (Hkeep nxt). rewrite Hrun in Hkeep.
  unfold same_on, column_type_at, column_type in Hkeep. cbn [snd] in Hkeep.
  fold (info_at info s') in Hkeep. fold (info_at info nxt) in Hkeep.
  injection Hkeep as K1 K2 K3 K4.
  exists oracleType. rewrite K1, K2, K3, K4.
  repeat split; assumption.
Qed.

Lemma described_integer_defaults_to_int64_witness :
  let s := sample_state (query_stmt 0 0) in
  let described :=
    dpiStmt__getQueryInfoFromParam (oracle_number_columns 1 10 0) 7000 0 s in
  qi_defaultNativeTypeNum (info_at 0 (snd described)) = DPI_NATIVE_TYPE_INT64
  /\ qi_precision (info_at 0 (snd described)) = 10.
Proof.
  cbv zeta.
  assert (Hok : 0 <= fst (dpiStmt__getQueryInfoFromParam
                            (oracle_number_columns 1 10 0) 7000 0
                            (sample_state (query_stmt 0 0))))
    by (vm_compute; discriminate).
  assert (Hsl : has_slot 0 (sample_state (query_stmt 0 0)))
    by (vm_compute; lia).
  destruct (described_integer_defaults_to_int64
              (oracle_number_columns 1 10 0) 7000 0 _ _ _
              (surjective_pairing _) Hok Hsl)
    as (ty & Hty & _ & _ & Hp & Hint & _).
  split; [|exact Hp].
  injection Hty as <-.
  apply Hint;
    [reflexivity | reflexivity
    | vm_compute; split; [reflexivity | discriminate]].
Defined.

Ltac read_prim :=
  unfold frame, calls_made; intros ?;
  try match goal with
      | |- context [write_buffer ?e _] => is_var e; destruct e
      end;
  first
    [ exists []; split; [reflexivity | constructor]
    | eexists [_]; split;
      [ reflexivity
      | constructor; [ first [ exact I | reflexivity ] | constructor ] ] ].

Lemma getQueryInfoFromParam_reads oracle param info :
  frame (calls_made (reads_column param))
    (dpiStmt__getQueryInfoFromParam oracle param info).
Proof.
  frame_go (calls_made_refl (reads_column param))
           (calls_made_trans (reads_column param))
           read_prim.
Qed.

Lemma descriptorFree_trace {A : Type} oracle param (a : A) s :
  st_trace (snd ((dpiOci__descriptorFree oracle param ;; ret a) s))
  = E_descriptorFree param :: st_trace s.
Proof. reflexivity. Qed.

(** X27.  [dpiStmt__getQueryInfo] frees the parameter descriptor it was
    given whether the description of the column could be read or not:
    when the server hands a descriptor out, the calls made are the reads
    of the description through that descriptor and then, last, the one
    call that frees it; when the server hands none out, the function
    fails and neither reads nor frees anything. *)
Theorem getQueryInfo_frees_descriptor :
  forall oracle pos info s,
    let asked := E_paramGet (handle (st_stmt s)) pos :: st_trace s in
    let param := r_value (oracle asked) in
    let run := dpiStmt__getQueryInfo oracle pos info s in
    (r_status (oracle asked) < 0 ->
     fst run = DPI_FAILURE /\ st_trace (snd run) = asked)
    /\ (0 <= r_status (oracle asked) ->
        exists reads,
          st_trace (snd run) = E_descriptorFree param :: reads ++ asked
          /\ Forall (reads_column param) reads).
Proof.
  intros oracle pos info s. cbv zeta.
  unfold dpiStmt__getQueryInfo, dpiOci__paramGet.
  rewrite bind_get_stmt. rewrite bind_run.
  destruct (external_err_step oracle (E_paramGet (handle (st_stmt s)) pos)
              info s) as (s1 & E & T & _ & _).
  rewrite E. cbn [fst snd]. clear E.
  split.
  - intro Hfail. apply Z.ltb_lt in Hfail. rewrite Hfail.
    split; [reflexivity | exact T].
  - intro Hok. apply Z.ltb_ge in Hok. rewrite Hok.
    pose proof (getQueryInfoFromParam_reads oracle
                  (r_value (oracle (E_paramGet (handle (st_stmt s)) pos
                                    :: st_trace s))) info s1) as Hread.
    rewrite bind_run.
    destruct (dpiStmt__getQueryInfoFromParam oracle
                (r_value (oracle (E_paramGet (handle (st_stmt s)) pos
                                  :: st_trace s))) info s1) as [status s2].
    cbn [fst snd] in *.
    destruct Hread as (reads & Hreads & Hall).
    exists reads. split; [|exact Hall].
    rewrite descriptorFree_trace, Hreads, T. reflexivity.
Qed.

(** ** Handles of the batch error collection *)

Lemma getBatchErrors_loop_handles oracle n :
  forall i localError h lh,
    frame (same_calls is_handle_call)
      (dpiStmt__getBatchErrors_loop oracle n i localError h lh).
Proof.
  induction n as [|n IH]; intros i localError h lh;
    cbn [dpiStmt__getBatchErrors_loop].
  - apply frame_ret. apply same_calls_refl.
  - quiet.
Qed.

Lemma external_err_trace oracle e s :
  exists s1,
    external_err oracle e error s = (oracle (e :: st_trace s), s1)
    /\ st_trace s1 = e :: st_trace s.
Proof.
  destruct (external_err_step oracle e 0 s) as (s1 & E & T & _).
  exists s1. split; assumption.
Qed.

Lemma clearBatchErrors_trace s :
  st_trace (snd (dpiStmt__clearBatchErrors s)) = st_trace s.
Proof. reflexivity. Qed.

Lemma handleFree_trace oracle h s :
  st_trace (snd (dpiOci__handleFree oracle h s)) = E_handleFree h :: st_trace s.
Proof. reflexivity. Qed.

Lemma bind_get_error {A : Type} (k : dpiErrorBuffer -> M A) s :
  bind get_error k s = k (st_error s) s.
Proof. reflexivity. Qed.

(** The handle that the loop of [dpiStmt__getBatchErrors] leaves in
    [batchErrorHandle]: the one it was given, or one that a [paramGet] of
    the loop has handed back. *)
Lemma getBatchErrors_loop_handle oracle n :
  forall i localError h lh s,
    let left_ :=
      snd (fst (dpiStmt__getBatchErrors_loop oracle n i localError h lh s)) in
    left_ = h
    \/ exists t pos,
         left_ = r_value (oracle (E_paramGet error_handle pos :: t)).
Proof.
  induction n as [|n IH]; intros i localError h lh s; cbv zeta;
    cbn [dpiStmt__getBatchErrors_loop].
  - left. reflexivity.
  - unfold dpiOci__paramGet. rewrite bind_run.
    destruct (external_err_trace oracle (E_paramGet error_handle i) s)
      as (s1 & E & _).
    rewrite E. cbn [fst snd]. clear E.
    destruct (r_status _ <? 0).
    { left. rewrite bind_run. reflexivity. }
    cbv zeta. rewrite bind_run.
    destruct (dpiOci__attrGet oracle _ DPI_OCI_ATTR_DML_ROW_OFFSET
                localError s1) as [o s2].
    cbn [fst snd].
    destruct (r_status o <? 0).
    { right. exists (st_trace s), i. rewrite bind_run. reflexivity. }
    cbv zeta. rewrite bind_run.
    destruct (dpiError__check oracle (localError_batch i) _ s2) as [c s3].
    cbn [fst snd]. rewrite bind_get_error.
    destruct (eb_errorNum (st_error s3));
      try (right; exists (st_trace s), i; reflexivity).
    rewrite bind_modify_stmt.
    match goal with
    | |- context [dpiStmt__getBatchErrors_loop oracle n ?i' ?le ?h' lh ?x] =>
        destruct (IH i' le h' lh x) as [H|H]
    end.
    + right. exists (st_trace s), i. exact H.
    + right. exact H.
Qed.

(** X28.  [dpiStmt__getBatchErrors] ends every path with as many calls
    that free a handle as it has allocated handles.  Of the calls that
    allocate or free a handle it makes none when the number of errors
    cannot be read or the array cannot be allocated; the one failed
    allocation when the first handle cannot be allocated; when the second
    cannot, the two allocations and then the call that frees the first
    handle; and otherwise the two allocations and then, whether the loop
    fails or not, two calls that free a handle.  The first of these frees
    the first handle allocated.  The second frees what [batchErrorHandle]
    then holds: the second handle allocated, or a handle that a [paramGet]
    of the loop has handed back in its place; it is the second handle
    allocated when no error is reported and whenever every [paramGet]
    leaves that handle in place. *)
Theorem getBatchErrors_frees_its_handles :
  forall oracle s,
    let s' := snd (dpiStmt__getBatchErrors oracle s) in
    let t1 := E_attrGet (handle (st_stmt s)) DPI_OCI_ATTR_NUM_DML_ERRORS
              :: st_trace s in
    let t2 := E_calloc (r_value (oracle t1)) :: t1 in
    let first := E_handleAlloc "allocate parameter error handle" in
    let second := E_handleAlloc "allocate batch error handle" in
    let l := oracle (first :: t2) in
    let b := oracle (second :: first :: t2) in
    let before := filter is_handle_call (st_trace s) in
    let after := filter is_handle_call (st_trace s') in
    (r_status (oracle t1) < 0 \/ r_status (oracle t2) < 0 -> after = before)
    /\ (0 <= r_status (oracle t1) -> 0 <= r_status (oracle t2) ->
        (r_status l < 0 -> after = first :: before)
        /\ (0 <= r_status l -> r_status b < 0 ->
            after = E_handleFree (r_value l) :: second :: first :: before)
        /\ (0 <= r_status l -> 0 <= r_status b ->
            exists h,
              after = E_handleFree h :: E_handleFree (r_value l)
                      :: second :: first :: before
              /\ (h = r_value b
                  \/ exists t pos,
                       h = r_value
                             (oracle (E_paramGet error_handle pos :: t)))
              /\ (r_value (oracle t1) <= 0 -> h = r_value b)
              /\ ((forall t pos,
                      r_value (oracle (E_paramGet error_handle pos :: t))
                      = r_value b) ->
                  h = r_value b))).
Proof.
  intros oracle s. cbv zeta.
  unfold dpiStmt__getBatchErrors, dpiOci__attrGet, dpiOci__handleAlloc.
  rewrite bind_get_stmt. rewrite bind_run.
  destruct (external_err_trace oracle
              (E_attrGet (handle (st_stmt s)) DPI_OCI_ATTR_NUM_DML_ERRORS) s)
    as (s1 & E1 & T1).
  rewrite E1. cbn [fst snd]. clear E1.
  set (r1 := oracle (E_attrGet (handle (st_stmt s))
                       DPI_OCI_ATTR_NUM_DML_ERRORS :: st_trace s)) in *.
  destruct (Z.ltb_spec (r_status r1) 0) as [F1|O1].
  { cbn [ret snd]. rewrite T1. cbn [filter is_handle_call].
    split; [reflexivity | intros; lia]. }
  rewrite bind_modify_stmt, bind_external, bind_modify_stmt.
  cbn [st_trace with_st_stmt]. rewrite T1.
  set (r2 := oracle (E_calloc (r_value r1) :: E_attrGet (handle (st_stmt s))
                       DPI_OCI_ATTR_NUM_DML_ERRORS :: st_trace s)) in *.
  destruct (Z.ltb_spec (r_status r2) 0) as [F2|O2].
  { rewrite bind_modify_stmt, error_set. cbn.
    split; [reflexivity | intros; lia]. }
  split; [intros [H|H]; lia | intros _ _].
  match goal with
  | |- context [bind _ _ ?x] =>
      assert (Hx : st_trace x
                   = E_calloc (r_value r1)
                     :: E_attrGet (handle (st_stmt s))
                          DPI_OCI_ATTR_NUM_DML_ERRORS :: st_trace s)
        by reflexivity;
      generalize dependent x; intros s3 T3
  end.
  rewrite bind_run.
  destruct (external_err_trace oracle
              (E_handleAlloc "allocate parameter error handle") s3)
    as (s4 & E4 & T4).
  rewrite E4. cbn [fst snd]. clear E4. rewrite T3 in *.
  set (l := oracle (E_handleAlloc "allocate parameter error handle" :: _))
    in *.
  destruct (Z.ltb_spec (r_status l) 0) as [Fl|Ol].
  { rewrite bind_run. cbn [ret snd]. rewrite clearBatchErrors_trace, T4.
    cbn [filter is_handle_call].
    split; [reflexivity | split; intros; lia]. }
  split; [intros; lia|].
  cbv zeta. rewrite bind_run.
  destruct (external_err_trace oracle
              (E_handleAlloc "allocate batch error handle") s4)
    as (s5 & E5 & T5).
  rewrite E5. cbn [fst snd]. clear E5. rewrite T4 in *.
  set (b := oracle (E_handleAlloc "allocate batch error handle" :: _)) in *.
  destruct (Z.ltb_spec (r_status b) 0) as [Fb|Ob].
  { rewrite !bind_run. cbn [ret snd].
    rewrite handleFree_trace, clearBatchErrors_trace, T5.
    cbn [filter is_handle_call].
    split; [reflexivity | intros; lia]. }
  split; [intros; lia | intros _ _].
  rewrite bind_run.
  pose proof (getBatchErrors_loop_handles oracle
                (Z.to_nat (r_value r1)) 0 error (r_value b) (r_value l) s5)
    as H6.
  pose proof (getBatchErrors_loop_handle oracle
                (Z.to_nat (r_value r1)) 0 error (r_value b) (r_value l) s5)
    as H7.
  assert (H8 : r_value r1 <= 0 ->
               snd (fst (dpiStmt__getBatchErrors_loop oracle
                           (Z.to_nat (r_value r1)) 0 error (r_value b)
                           (r_value l) s5)) = r_value b).
  { intro Hnone.
    assert (Hz : Z.to_nat (r_value r1) = 0%nat) by lia.
    rewrite Hz. reflexivity. }
  cbv zeta in H7.
  destruct (dpiStmt__getBatchErrors_loop oracle (Z.to_nat (r_value r1)) 0
              error (r_value b) (r_value l) s5) as [[overall h] s6].
  unfold same_calls in H6. cbn [fst snd] in *.
  exists h.
  split; [|split; [exact H7 | split; [exact H8|];
                   intro Hplace; destruct H7 as [H7|(t & pos & H7)];
                   [exact H7 | rewrite H7; apply Hplace]]].
  unfold dpiStmt__getBatchErrors_cleanup.
  rewrite !bind_run.
  assert (Hend : forall m : M unit,
             (m = dpiStmt__clearBatchErrors \/ m = ret tt) ->
             forall x, st_trace (snd (m x)) = st_trace x).
  { intros m [-> | ->] x; reflexivity. }
  cbn [ret snd].
  rewrite Hend by (destruct (overall <? 0); auto).
  rewrite !handleFree_trace.
  cbn [filter is_handle_call]. rewrite H6, T5.
  reflexivity.
Qed.
